(** * The chart engine of the ES options monitor

    A shallow embedding of the chart classes of [src/gui]
    ([UnifiedChart], [PriceChart] on top of [BaseChart], [OptionsChart] and
    [ChartManager]) and the properties of their coordinate transform,
    exposure computation, gesture handling and drawing.

    Conventions of the embedding.
    - A Python [float] (and an [int] that is mixed into float arithmetic) is
      a real number: rounding, [inf] and [nan] are outside the model, so
      every equation below is an equation of exact arithmetic.
    - A Python exception is a value: a method that can fail returns a
      [result]; true division by zero raises [ZeroDivisionError].
    - A method that mutates [self] or draws is a computation of the monad
      [M self]: it maps the object before the call to the outcome and the
      object after it.  The object is kept when an exception is raised, as
      assignments that came before a Python exception are.
    - The Tk canvas a chart inherits from is the trace of the calls made
      on it ([create_*] with the id it returned, [delete]), and the size Tk
      reports through [winfo_width] and [winfo_height]. *)

From Stdlib Require Import Reals Lra Lia ZArith String Ascii Bool List.
Import ListNotations.
Open Scope R_scope.

(** ** Python values and control *)

Inductive exn : Type :=
| ZeroDivisionError
| AttributeError
| IndexError
| ValueError
| TypeError.

Inductive result (A : Type) : Type :=
| Ok (a : A)
| Raise (e : exn).
Arguments Ok {A} a.
Arguments Raise {A} e.

Definition rbind {A B : Type} (r : result A) (k : A -> result B) : result B :=
  match r with
  | Ok a => k a
  | Raise e => Raise e
  end.

Notation "'let*' x ':=' r 'in' k" := (rbind r (fun x => k))
  (at level 10, x name, r at level 100, k at level 200).

(** [bool(x)] of a float, and of an attribute that may also hold [None]. *)
Definition truthy (x : R) : bool := if Req_dec_T x 0 then false else true.

Definition truthy_opt (o : option R) : bool :=
  match o with
  | Some x => truthy x
  | None => false
  end.

(** [a / b] on floats. *)
Definition py_div (a b : R) : result R :=
  if Req_dec_T b 0 then Raise ZeroDivisionError else Ok (a / b).

(** [int(x)]: truncation towards zero. *)
Definition py_int (x : R) : Z :=
  if Rle_dec 0 x then Int_part x else (- Int_part (- x))%Z.

(** The comparisons [a <= b] and [a < b] as tests. *)
Definition Rleb (a b : R) : bool := if Rle_dec a b then true else false.
Definition Rltb (a b : R) : bool := if Rlt_dec a b then true else false.

(** [o if o is present else d], for an attribute read behind [hasattr]. *)
Definition attr_or (d : R) (o : option R) : R :=
  match o with
  | Some v => v
  | None => d
  end.

(** [min(l)] and [max(l)] of a list; both raise [ValueError] on [[]]. *)
Definition py_min (l : list R) : result R :=
  match l with
  | [] => Raise ValueError
  | x :: xs => Ok (fold_left Rmin xs x)
  end.

Definition py_max (l : list R) : result R :=
  match l with
  | [] => Raise ValueError
  | x :: xs => Ok (fold_left Rmax xs x)
  end.

(** [range(start, stop, step)] for a positive [step]; [fuel] bounds the
    number of elements, and [stop] of them are always enough. *)
Fixpoint range_from (fuel start stop step : nat) : list nat :=
  match fuel with
  | O => []
  | S fuel' =>
    if (start <? stop)%nat
    then start :: range_from fuel' (start + step) stop step
    else []
  end.

Definition range_step (start stop step : nat) : list nat :=
  range_from stop start stop step.

(** [enumerate(l)]. *)
Definition enumerate {A : Type} (l : list A) : list (nat * A) :=
  combine (seq 0 (length l)) l.

(** ** The monad of methods *)

Definition M (Self A : Type) : Type := Self -> result A * Self.

Definition ret {Self A : Type} (a : A) : M Self A := fun s => (Ok a, s).

Definition bind {Self A B : Type} (m : M Self A) (k : A -> M Self B) : M Self B :=
  fun s =>
    match m s with
    | (Ok a, s') => k a s'
    | (Raise e, s') => (Raise e, s')
    end.

Definition gets {Self A : Type} (f : Self -> A) : M Self A := fun s => (Ok (f s), s).

Definition modify {Self : Type} (f : Self -> Self) : M Self unit := fun s => (Ok tt, f s).

Definition get {Self : Type} : M Self Self := gets (fun s => s).

(** A method that only reads [self], and a computation without [self]. *)
Definition read {Self A : Type} (f : Self -> result A) : M Self A := fun s => (f s, s).
Definition lift {Self A : Type} (r : result A) : M Self A := read (fun _ => r).
Definition raise {Self A : Type} (e : exn) : M Self A := lift (Raise e).

(** [try: m except Exception: <log>]. *)
Definition try_except {Self : Type} (m : M Self unit) : M Self unit :=
  fun s =>
    match m s with
    | (Ok u, s') => (Ok u, s')
    | (Raise _, s') => (Ok tt, s')
    end.

Declare Scope method_scope.
Delimit Scope method_scope with method.
Notation "x <- m ;; k" := (bind m (fun x => k))
  (at level 100, m at next level, right associativity) : method_scope.
Notation "m ;; k" := (bind m (fun _ => k))
  (at level 100, right associativity) : method_scope.
Open Scope method_scope.

(** [for x in l: body]. *)
Fixpoint for_each {Self A : Type} (l : list A) (body : A -> M Self unit) : M Self unit :=
  match l with
  | [] => ret tt
  | x :: xs => body x ;; for_each xs body
  end.

(** A [for] loop that updates local variables [acc]. *)
Fixpoint for_fold {Self A B : Type} (l : list A) (acc : B) (body : B -> A -> M Self B)
  : M Self B :=
  match l with
  | [] => ret acc
  | x :: xs => acc' <- body acc x ;; for_fold xs acc' body
  end.

(** [if c: body]. *)
Definition when {Self : Type} (c : bool) (body : M Self unit) : M Self unit :=
  if c then body else ret tt.

(** ** The Tk canvas *)

(** The text of a label.  A float formatted by an f-string is kept as the
    number with its format: [Fixed p v d g] is [p] followed by [v] with [d]
    decimals, with thousands separators when [g] (so [f"${v:,.2f}"] is
    [Fixed "$" v 2 true]); [Str v] is [str(v)]. *)
Inductive label : Type :=
| Literal (s : string)
| Fixed (prefix : string) (value : R) (decimals : nat) (grouping : bool)
| Str (value : R).

(** Canvas items with the options the charts set ([font] and the line
    [width], always 1, are left out). *)
Inductive item : Type :=
| line (coords : list R) (fill : string) (dash : option (Z * Z)) (smooth : bool)
| rectangle (x0 y0 x1 y1 : R) (fill : string)
| text (x y : R) (content : label) (anchor : string) (fill : string).

(** The canvas is the trace of the calls a chart made on it, in order:
    what was created, under which id, and what was deleted.  The display
    list Tk shows is the function [items] of that trace. *)
Inductive command : Type :=
| Create (id : nat) (it : item)
| Delete (id : nat)
| DeleteAll.

Module Canvas.

Record t : Type := mk {
  log : list command;
  next_id : nat;
  width : Z;     (* [winfo_width()] *)
  height : Z     (* [winfo_height()] *)
}.

Definition create (it : item) (c : t) : nat * t :=
  (next_id c,
   mk (log c ++ [Create (next_id c) it]) (S (next_id c)) (width c) (height c)).

Definition delete (id : nat) (c : t) : t :=
  mk (log c ++ [Delete id]) (next_id c) (width c) (height c).

Definition delete_all (c : t) : t :=
  mk (log c ++ [DeleteAll]) (next_id c) (width c) (height c).

(** The items on display after a trace. *)
Definition display (shown : list (nat * item)) (c : command)
  : list (nat * item) :=
  match c with
  | Create id it => shown ++ [(id, it)]
  | Delete id => filter (fun p => negb (fst p =? id)%nat) shown
  | DeleteAll => []
  end.

Definition items (c : t) : list (nat * item) := fold_left display (log c) [].

(** A widget of the given size on which nothing was drawn yet; Tk
    numbers the items of a canvas from 1. *)
Definition empty (width height : Z) : t := mk [] 1 width height.

End Canvas.

(** Every chart class derives from [tk.Canvas]. *)
Class TkCanvas (Self : Type) : Type := {
  canvas : Self -> Canvas.t;
  set_canvas : Canvas.t -> Self -> Self;
  canvas_set_canvas : forall c s, canvas (set_canvas c s) = c
}.

Section CanvasMethods.
Context {Self : Type} `{TkCanvas Self}.

Definition winfo_width : M Self R := gets (fun s => IZR (Canvas.width (canvas s))).
Definition winfo_height : M Self R := gets (fun s => IZR (Canvas.height (canvas s))).

Definition create (it : item) : M Self nat :=
  fun s => (Ok (fst (Canvas.create it (canvas s))),
            set_canvas (snd (Canvas.create it (canvas s))) s).

Definition create_line (coords : list R) (fill : string)
           (dash : option (Z * Z)) (smooth : bool) : M Self nat :=
  create (line coords fill dash smooth).

Definition create_rectangle (x0 y0 x1 y1 : R) (fill : string) : M Self nat :=
  create (rectangle x0 y0 x1 y1 fill).

Definition create_text (x y : R) (content : label) (anchor fill : string)
  : M Self nat :=
  create (text x y content anchor fill).

Definition delete (id : nat) : M Self unit :=
  modify (fun s => set_canvas (Canvas.delete id (canvas s)) s).

Definition delete_all : M Self unit :=
  modify (fun s => set_canvas (Canvas.delete_all (canvas s)) s).
End CanvasMethods.

(** ** Market data *)

(** [datetime]: the fields [strftime("%H:%M:%S")] prints. *)
Record datetime : Type := {
  hour : nat;
  minute : nat;
  second : nat
}.

Definition digit (n : nat) : ascii := ascii_of_nat (48 + n mod 10).

Definition two_digits (n : nat) : string :=
  String (digit (n / 10)) (String (digit n) EmptyString).

(** [d.strftime("%H:%M:%S")]. *)
Definition strftime_HMS (d : datetime) : string :=
  (two_digits (hour d) ++ ":" ++ two_digits (minute d) ++ ":"
   ++ two_digits (second d))%string.

(** A price bar.  [bid], [ask] and [close] are attributes a bar may or may
    not have ([hasattr]); [None] is an absent attribute. *)
Record Bar : Type := {
  date : datetime;
  bid : option R;
  ask : option R;
  close : option R
}.

(** [bar.close], an [AttributeError] when the bar has none. *)
Definition getattr_close (bar : Bar) : result R :=
  match close bar with
  | Some c => Ok c
  | None => Raise AttributeError
  end.

(** The prices a bar contributes to the scale: the loop body shared by
    every [update_history],
    [if hasattr(bar, "bid") and hasattr(bar, "ask"):
       prices.extend([bar.bid, bar.ask])
     else: prices.append(bar.close)]. *)
Definition bar_prices (bar : Bar) : result (list R) :=
  match bid bar, ask bar with
  | Some b, Some a => Ok [b; a]
  | _, _ => let* c := getattr_close bar in Ok [c]
  end.

Fixpoint collect_prices (bars : list Bar) : result (list R) :=
  match bars with
  | [] => Ok []
  | bar :: rest =>
    let* ps := bar_prices bar in
    let* qs := collect_prices rest in
    Ok (ps ++ qs)
  end.

(** An option ticker: the attributes [_calculate_exposure] reads.  An
    absent attribute, and one that holds [None], is [None]. *)
Record Ticker : Type := {
  modelGreeks : option (option R);  (* [modelGreeks.delta] when greeks exist *)
  volume : option R;
  openInterest : option R;
  callOpenInterest : option R;
  putOpenInterest : option R;
  right : string                    (* [contract.right] *)
}.

(** One row of options data: [(strike, call_ticker, put_ticker)]. *)
Definition OptionRow : Type := R * option Ticker * option Ticker.

(** ** [UnifiedChart] (src/gui/unified_chart.py) *)

Module UnifiedChart.

(** The attributes of a chart.  [options_data] is [[]] for [None] too: the
    class only ever tests it for truth before it iterates.  The margins
    are constants of [__init__]; the lists of ids other than [grid_lines]
    are never touched by this class. *)
Record t : Type := mk {
  tk : Canvas.t;
  price_history : list Bar;
  current_bid : option R;
  current_ask : option R;
  options_data : list OptionRow;
  max_exposure : option R;
  exposure_type : string;
  price_scale : option (R * R);
  vertical_zoom : R;
  horizontal_zoom : R;
  price_offset : R;
  zoom_start : option (Z * Z * string);
  drag_start : option (Z * Z * string);
  grid_lines : list nat
}.

Definition set_tk (v : Canvas.t) (s : t) : t :=
  mk v (price_history s) (current_bid s) (current_ask s) (options_data s) (max_exposure s) (exposure_type s) (price_scale s) (vertical_zoom s) (horizontal_zoom s) (price_offset s) (zoom_start s) (drag_start s) (grid_lines s).
Definition set_price_history (v : list Bar) (s : t) : t :=
  mk (tk s) v (current_bid s) (current_ask s) (options_data s) (max_exposure s) (exposure_type s) (price_scale s) (vertical_zoom s) (horizontal_zoom s) (price_offset s) (zoom_start s) (drag_start s) (grid_lines s).
Definition set_current_bid (v : option R) (s : t) : t :=
  mk (tk s) (price_history s) v (current_ask s) (options_data s) (max_exposure s) (exposure_type s) (price_scale s) (vertical_zoom s) (horizontal_zoom s) (price_offset s) (zoom_start s) (drag_start s) (grid_lines s).
Definition set_current_ask (v : option R) (s : t) : t :=
  mk (tk s) (price_history s) (current_bid s) v (options_data s) (max_exposure s) (exposure_type s) (price_scale s) (vertical_zoom s) (horizontal_zoom s) (price_offset s) (zoom_start s) (drag_start s) (grid_lines s).
Definition set_options_data (v : list OptionRow) (s : t) : t :=
  mk (tk s) (price_history s) (current_bid s) (current_ask s) v (max_exposure s) (exposure_type s) (price_scale s) (vertical_zoom s) (horizontal_zoom s) (price_offset s) (zoom_start s) (drag_start s) (grid_lines s).
Definition set_max_exposure (v : option R) (s : t) : t :=
  mk (tk s) (price_history s) (current_bid s) (current_ask s) (options_data s) v (exposure_type s) (price_scale s) (vertical_zoom s) (horizontal_zoom s) (price_offset s) (zoom_start s) (drag_start s) (grid_lines s).
Definition set_exposure_type (v : string) (s : t) : t :=
  mk (tk s) (price_history s) (current_bid s) (current_ask s) (options_data s) (max_exposure s) v (price_scale s) (vertical_zoom s) (horizontal_zoom s) (price_offset s) (zoom_start s) (drag_start s) (grid_lines s).
Definition set_price_scale (v : option (R * R)) (s : t) : t :=
  mk (tk s) (price_history s) (current_bid s) (current_ask s) (options_data s) (max_exposure s) (exposure_type s) v (vertical_zoom s) (horizontal_zoom s) (price_offset s) (zoom_start s) (drag_start s) (grid_lines s).
Definition set_vertical_zoom (v : R) (s : t) : t :=
  mk (tk s) (price_history s) (current_bid s) (current_ask s) (options_data s) (max_exposure s) (exposure_type s) (price_scale s) v (horizontal_zoom s) (price_offset s) (zoom_start s) (drag_start s) (grid_lines s).
Definition set_horizontal_zoom (v : R) (s : t) : t :=
  mk (tk s) (price_history s) (current_bid s) (current_ask s) (options_data s) (max_exposure s) (exposure_type s) (price_scale s) (vertical_zoom s) v (price_offset s) (zoom_start s) (drag_start s) (grid_lines s).
Definition set_price_offset (v : R) (s : t) : t :=
  mk (tk s) (price_history s) (current_bid s) (current_ask s) (options_data s) (max_exposure s) (exposure_type s) (price_scale s) (vertical_zoom s) (horizontal_zoom s) v (zoom_start s) (drag_start s) (grid_lines s).
Definition set_zoom_start (v : option (Z * Z * string)) (s : t) : t :=
  mk (tk s) (price_history s) (current_bid s) (current_ask s) (options_data s) (max_exposure s) (exposure_type s) (price_scale s) (vertical_zoom s) (horizontal_zoom s) (price_offset s) v (drag_start s) (grid_lines s).
Definition set_drag_start (v : option (Z * Z * string)) (s : t) : t :=
  mk (tk s) (price_history s) (current_bid s) (current_ask s) (options_data s) (max_exposure s) (exposure_type s) (price_scale s) (vertical_zoom s) (horizontal_zoom s) (price_offset s) (zoom_start s) v (grid_lines s).
Definition set_grid_lines (v : list nat) (s : t) : t :=
  mk (tk s) (price_history s) (current_bid s) (current_ask s) (options_data s) (max_exposure s) (exposure_type s) (price_scale s) (vertical_zoom s) (horizontal_zoom s) (price_offset s) (zoom_start s) (drag_start s) v.

#[global] Instance tk_canvas : TkCanvas t :=
  {| canvas := tk; set_canvas := set_tk;
     canvas_set_canvas := fun _ _ => eq_refl |}.

Definition margin_left : R := 50.
Definition margin_right : R := 100.
Definition strike_margin : R := 60.
Definition margin_bottom : R := 40.
Definition margin_top : R := 20.

(** The chart [__init__] builds on a widget of the given size. *)
Definition __init__ (width height : Z) : t :=
  mk (Canvas.empty width height) [] None None [] None "GFL" None
     1 1 0 None None [].

(** A mouse event. *)
Record event : Type := {
  event_x : Z;
  event_y : Z
}.

Definition _draw_empty_grid : M t unit :=
  width <- winfo_width ;;
  height <- winfo_height ;;
  old <- gets grid_lines ;;
  for_each old (fun l => delete l) ;;
  modify (set_grid_lines []) ;;
  let usable_width := width - margin_left - margin_right - strike_margin in
  for_each (seq 0 5) (fun i =>
    let y := margin_top + (INR i * (height - margin_top - margin_bottom) / 4) in
    l <- create_line [margin_left; y; margin_left + usable_width; y]
                     "lightgray" (Some (2, 2)%Z) false ;;
    modify (fun s => set_grid_lines (grid_lines s ++ [l]) s)) ;;
  l <- create_line [margin_left; height - margin_bottom;
                    margin_left + usable_width; height - margin_bottom]
                   "black" None false ;;
  modify (fun s => set_grid_lines (grid_lines s ++ [l]) s) ;;
  l <- create_line [margin_left + usable_width; margin_top;
                    margin_left + usable_width; height - margin_bottom]
                   "black" None false ;;
  modify (fun s => set_grid_lines (grid_lines s ++ [l]) s).

Definition _calculate_exposure (self : t) (ticker : option Ticker)
           (exposure_type : string) : R :=
  match ticker with
  | None => 0
  | Some ticker =>
    match modelGreeks ticker with
    | None => 0
    | Some greeks_delta =>
      let delta :=
        match greeks_delta with
        | Some d => if truthy d then Rabs d else 0
        | None => 0
        end in
      let volume :=
        match volume ticker with
        | Some v => if truthy v then v else 0
        | None => 0
        end in
      let oi :=
        if (right ticker =? "C")%string
        then attr_or 0 (callOpenInterest ticker)
        else attr_or 0 (putOpenInterest ticker) in
      if (exposure_type =? "DEX")%string then delta * oi * 50
      else if (exposure_type =? "VOI")%string then volume * oi
      else
        match current_bid self with
        | Some spot =>
          if (exposure_type =? "GFL")%string && truthy spot
          then delta * oi * spot
          else oi
        | None => oi
        end
    end
  end.

Definition _price_to_y (self : t) (price : R) : result R :=
  match price_scale self with
  | None => Ok 0
  | Some (min_price, max_price) =>
    let height := IZR (Canvas.height (tk self)) in
    let usable_height := height - margin_top - margin_bottom in
    let price_range := max_price - min_price in
    let center_price := (max_price + min_price) / 2 in
    let zoomed_range := price_range * vertical_zoom self in
    let min_price := center_price - (zoomed_range / 2) + price_offset self in
    let max_price := center_price + (zoomed_range / 2) + price_offset self in
    let* q := py_div ((max_price - price) * usable_height)
                     (max_price - min_price) in
    Ok (margin_top + q)
  end.

Definition _get_visible_bars (self : t) : result (list Bar) :=
  match price_history self with
  | [] => Ok []
  | _ =>
    let total_bars := length (price_history self) in
    let* q := py_div (INR total_bars) (horizontal_zoom self) in
    let visible_bars := py_int q in
    let start_idx := Z.max 0 (Z.of_nat total_bars - visible_bars) in
    Ok (skipn (Z.to_nat start_idx) (price_history self))
  end.

Definition _draw_time_axis (bars : list Bar) : M t unit :=
  match bars with
  | [] => ret tt
  | _ =>
    width <- winfo_width ;;
    height <- winfo_height ;;
    let usable_width := width - margin_left - margin_right - strike_margin in
    let num_labels := 5%nat in
    let step := Nat.max 1 (length bars / (num_labels - 1)) in
    for_each (range_step 0 (length bars) step) (fun i =>
      (* [if i >= len(bars): break]: once true it stays true, so leaving
         the loop and skipping what is left of it are the same *)
      if (length bars <=? i)%nat then ret tt
      else
        match nth_error bars i with
        | None => raise IndexError
        | Some bar =>
          q <- lift (py_div (usable_width * INR i) (INR (length bars))) ;;
          let x := margin_left + q in
          create_text x (height - margin_bottom + 20)
                      (Literal (strftime_HMS (date bar))) "n" "black" ;;
          ret tt
        end)
  end.

Definition _draw_price_scale : M t unit :=
  scale <- gets price_scale ;;
  match scale with
  | None => ret tt
  | Some (min_price, max_price) =>
    width <- winfo_width ;;
    height <- winfo_height ;;
    vertical_zoom <- gets vertical_zoom ;;
    price_offset <- gets price_offset ;;
    let price_range := max_price - min_price in
    let center_price := (max_price + min_price) / 2 in
    let zoomed_range := price_range * vertical_zoom in
    let min_price := center_price - (zoomed_range / 2) + price_offset in
    let max_price := center_price + (zoomed_range / 2) + price_offset in
    for_each (seq 0 5) (fun i =>
      let price := max_price - (INR i * (max_price - min_price) / 4) in
      y <- read (fun self => _price_to_y self price) ;;
      create_line [margin_left; y; width - margin_right - strike_margin; y]
                  "lightgray" (Some (2, 2)%Z) false ;;
      create_text (width - margin_right - strike_margin + 25) y
                  (Fixed "$" price 2 true) "w" "black" ;;
      ret tt)
  end.

Definition _draw_price_history : M t unit :=
  width <- winfo_width ;;
  height <- winfo_height ;;
  let usable_width := width - margin_left - margin_right - strike_margin in
  _draw_price_scale ;;
  visible_bars <- read _get_visible_bars ;;
  points <- for_fold (enumerate visible_bars) ([], [])
    (fun '(bid_points, ask_points) '(i, bar) =>
      q <- lift (py_div (usable_width * INR i) (INR (length visible_bars))) ;;
      let x := margin_left + q in
      match bid bar, ask bar with
      | Some b, Some a =>
        y_bid <- read (fun self => _price_to_y self b) ;;
        y_ask <- read (fun self => _price_to_y self a) ;;
        ret (bid_points ++ [x; y_bid], ask_points ++ [x; y_ask])
      | _, _ =>
        c <- lift (getattr_close bar) ;;
        y <- read (fun self => _price_to_y self c) ;;
        ret (bid_points ++ [x; y], ask_points ++ [x; y])
      end) ;;
  let '(bid_points, ask_points) := points in
  when (4 <=? length bid_points)%nat
       (create_line bid_points "red" None true ;; ret tt) ;;
  when (4 <=? length ask_points)%nat
       (create_line ask_points "green" None true ;; ret tt) ;;
  current_bid <- gets current_bid ;;
  current_ask <- gets current_ask ;;
  match current_bid, current_ask with
  | Some b, Some a =>
    when (truthy b && truthy a)
      (y <- read (fun self => _price_to_y self b) ;;
       create_text (width - margin_right - strike_margin + 5) y
                   (Fixed "Bid: $" b 2 false) "w" "red" ;;
       y <- read (fun self => _price_to_y self a) ;;
       create_text (width - margin_right - strike_margin + 5) y
                   (Fixed "Ask: $" a 2 false) "w" "green" ;;
       ret tt)
  | _, _ => ret tt
  end ;;
  _draw_time_axis visible_bars.

(** The first loop of [_draw_options_data]: the exposures of every row and
    their running maximum, from [max_exp = 0]. *)
Definition row_exposures (self : t) (row : OptionRow) : R * R * R :=
  let '(strike, call_ticker, put_ticker) := row in
  (strike,
   _calculate_exposure self call_ticker (exposure_type self),
   _calculate_exposure self put_ticker (exposure_type self)).

Definition observed_max (exposures : list (R * R * R)) : R :=
  fold_left (fun max_exp '(_, call_exp, put_exp) =>
               Rmax (Rmax max_exp call_exp) put_exp)
            exposures 0.

Definition _draw_options_data : M t unit :=
  self <- get ;;
  match options_data self, max_exposure self with
  | [], _ | _, None => ret tt
  | _ :: _, Some m =>
    if negb (truthy m) then ret tt
    else
      width <- winfo_width ;;
      height <- winfo_height ;;
      let usable_height := height - margin_top - margin_bottom in
      bar_height <- lift (py_div usable_height
                                 (INR (length (options_data self) + 1))) ;;
      let bar_thickness := bar_height * 0.25 in
      let exposures := map (row_exposures self) (options_data self) in
      let max_exp := observed_max exposures in
      for_each (enumerate exposures) (fun '(i, (strike, call_exp, put_exp)) =>
        y <- read (fun self => _price_to_y self strike) ;;
        call_frac <- lift (py_div call_exp max_exp) ;;
        let call_width :=
          call_frac * (width - margin_left - margin_right - strike_margin) in
        put_frac <- lift (py_div put_exp max_exp) ;;
        let put_width :=
          put_frac * (width - margin_left - margin_right - strike_margin) in
        when (Rltb 0 call_exp)
          (create_rectangle (width - margin_right - strike_margin)
                            (y - bar_thickness)
                            (width - margin_right - strike_margin - call_width)
                            y "#90EE90" ;; ret tt) ;;
        when (Rltb 0 put_exp)
          (create_rectangle (width - margin_right - strike_margin)
                            y
                            (width - margin_right - strike_margin - put_width)
                            (y + bar_thickness) "#FFB6C6" ;; ret tt) ;;
        create_text (width - margin_right + 10) y (Str strike) "w" "black" ;;
        ret tt)
  end.

Definition _draw_current_price : M t unit :=
  width <- winfo_width ;;
  self <- get ;;
  match current_bid self, current_ask self with
  | Some b, Some a =>
    let mid_price := (b + a) / 2 in
    y <- read (fun self => _price_to_y self mid_price) ;;
    create_line [margin_left; y; width - margin_right - strike_margin; y]
                "blue" (Some (4, 4)%Z) false ;;
    ret tt
  | _, _ => raise TypeError
  end.

Definition redraw : M t unit :=
  delete_all ;;
  _draw_empty_grid ;;
  self <- get ;;
  match price_history self, options_data self with
  | [], [] => ret tt
  | _, _ =>
    when (match price_history self, price_scale self with
          | _ :: _, Some _ => true
          | _, _ => false
          end)
         _draw_price_history ;;
    when (match options_data self with _ :: _ => true | [] => false end)
         _draw_options_data ;;
    when (truthy_opt (current_bid self) && truthy_opt (current_ask self))
         _draw_current_price
  end.

Definition update_prices (bid ask : R) : M t unit :=
  modify (set_current_bid (Some bid)) ;;
  modify (set_current_ask (Some ask)) ;;
  redraw.

Definition update_history (bars : list Bar) : M t unit :=
  modify (set_price_history bars) ;;
  match bars with
  | [] => ret tt
  | _ =>
    prices <- lift (collect_prices bars) ;;
    match prices with
    | [] => ret tt
    | _ =>
      min_price <- lift (py_min prices) ;;
      max_price <- lift (py_max prices) ;;
      let price_range := max_price - min_price in
      modify (set_price_scale (Some (min_price - price_range * 0.1,
                                     max_price + price_range * 0.1)))
    end
  end ;;
  redraw.

Definition update_options (data : list OptionRow) (max_exposure : option R)
           (spot_price : option R) (exposure_type : option string) : M t unit :=
  modify (set_options_data data) ;;
  modify (set_max_exposure max_exposure) ;;
  match spot_price with
  | Some spot =>
    when (truthy spot)
         (modify (set_current_bid (Some spot)) ;;
          modify (set_current_ask (Some spot)))
  | None => ret tt
  end ;;
  match exposure_type with
  | Some e =>
    when (negb (e =? EmptyString)%string) (modify (set_exposure_type e))
  | None => ret tt
  end ;;
  redraw.

Definition start_drag (event : event) : M t unit :=
  width <- winfo_width ;;
  height <- winfo_height ;;
  if Rleb (width - IZR (event_x event)) (margin_right + strike_margin)
  then modify (set_drag_start (Some (event_x event, event_y event, "price"%string)))
  else if Rltb (height - margin_bottom) (IZR (event_y event))
  then modify (set_drag_start (Some (event_x event, event_y event, "time"%string)))
  else ret tt.

Definition handle_drag (event : event) : M t unit :=
  start <- gets drag_start ;;
  match start with
  | None => ret tt
  | Some (x, y, drag_type) =>
    (if (drag_type =? "price")%string then
       let dy := IZR (event_y event - y) * 0.05 in
       modify (fun s => set_price_offset (price_offset s + dy * vertical_zoom s) s) ;;
       modify (set_drag_start (Some (x, event_y event, drag_type)))
     else if (drag_type =? "time")%string then
       let dx := IZR (event_x event - x) in
       modify (fun s => set_horizontal_zoom
                          (Rmax 1.0 (horizontal_zoom s + dx * 0.01)) s) ;;
       modify (set_drag_start (Some (event_x event, y, drag_type)))
     else ret tt) ;;
    redraw
  end.

Definition end_drag (event : event) : M t unit :=
  modify (set_drag_start None).

Definition start_zoom (event : event) : M t unit :=
  width <- winfo_width ;;
  height <- winfo_height ;;
  if Rleb (width - IZR (event_x event)) (margin_right + strike_margin)
  then modify (set_zoom_start (Some (event_x event, event_y event, "price"%string)))
  else if Rltb (height - margin_bottom) (IZR (event_y event))
  then modify (set_zoom_start (Some (event_x event, event_y event, "time"%string)))
  else ret tt.

Definition handle_zoom (event : event) : M t unit :=
  start <- gets zoom_start ;;
  match start with
  | None => ret tt
  | Some (x, y, zoom_type) =>
    (if (zoom_type =? "price")%string then
       let dy := IZR (event_y event - y) in
       let zoom_factor := exp (- dy / 200) in
       modify (fun s => set_vertical_zoom (vertical_zoom s * zoom_factor) s) ;;
       modify (fun s => set_vertical_zoom
                          (Rmax 0.1 (Rmin 10.0 (vertical_zoom s))) s)
     else if (zoom_type =? "time")%string then
       let dx := IZR (event_x event - x) in
       let zoom_factor := exp (dx / 200) in
       modify (fun s => set_horizontal_zoom (horizontal_zoom s * zoom_factor) s) ;;
       modify (fun s => set_horizontal_zoom
                          (Rmax 0.1 (Rmin 10.0 (horizontal_zoom s))) s)
     else ret tt) ;;
    modify (set_zoom_start (Some (event_x event, event_y event, zoom_type))) ;;
    redraw
  end.

Definition end_zoom (event : event) : M t unit :=
  modify (set_zoom_start None).

End UnifiedChart.

(** ** [PriceChart] on top of [BaseChart]
       (src/gui/price_chart.py, src/gui/base_chart.py) *)

Module PriceChart.

(** The attributes [BaseChart.__init__] and [PriceChart.__init__] set; a
    mouse event is its [event.y], the only coordinate the handlers keep
    ([event.x] is compared once, in [start_drag] and [start_zoom]). *)
Record t : Type := mk {
  tk : Canvas.t;
  price_scale : option (R * R);
  vertical_zoom : R;
  price_offset : R;
  zoom_start : option Z;
  drag_start : option Z;
  grid_lines : list nat;
  price_labels : list nat;
  time_labels : list nat;
  price_history : list Bar;
  current_bid : option R;
  current_ask : option R;
  price_lines : list nat;
  current_price_line : option nat
}.

Definition set_tk (v : Canvas.t) (s : t) : t :=
  mk v (price_scale s) (vertical_zoom s) (price_offset s) (zoom_start s) (drag_start s) (grid_lines s) (price_labels s) (time_labels s) (price_history s) (current_bid s) (current_ask s) (price_lines s) (current_price_line s).
Definition set_price_scale (v : option (R * R)) (s : t) : t :=
  mk (tk s) v (vertical_zoom s) (price_offset s) (zoom_start s) (drag_start s) (grid_lines s) (price_labels s) (time_labels s) (price_history s) (current_bid s) (current_ask s) (price_lines s) (current_price_line s).
Definition set_vertical_zoom (v : R) (s : t) : t :=
  mk (tk s) (price_scale s) v (price_offset s) (zoom_start s) (drag_start s) (grid_lines s) (price_labels s) (time_labels s) (price_history s) (current_bid s) (current_ask s) (price_lines s) (current_price_line s).
Definition set_price_offset (v : R) (s : t) : t :=
  mk (tk s) (price_scale s) (vertical_zoom s) v (zoom_start s) (drag_start s) (grid_lines s) (price_labels s) (time_labels s) (price_history s) (current_bid s) (current_ask s) (price_lines s) (current_price_line s).
Definition set_zoom_start (v : option Z) (s : t) : t :=
  mk (tk s) (price_scale s) (vertical_zoom s) (price_offset s) v (drag_start s) (grid_lines s) (price_labels s) (time_labels s) (price_history s) (current_bid s) (current_ask s) (price_lines s) (current_price_line s).
Definition set_drag_start (v : option Z) (s : t) : t :=
  mk (tk s) (price_scale s) (vertical_zoom s) (price_offset s) (zoom_start s) v (grid_lines s) (price_labels s) (time_labels s) (price_history s) (current_bid s) (current_ask s) (price_lines s) (current_price_line s).
Definition set_grid_lines (v : list nat) (s : t) : t :=
  mk (tk s) (price_scale s) (vertical_zoom s) (price_offset s) (zoom_start s) (drag_start s) v (price_labels s) (time_labels s) (price_history s) (current_bid s) (current_ask s) (price_lines s) (current_price_line s).
Definition set_price_labels (v : list nat) (s : t) : t :=
  mk (tk s) (price_scale s) (vertical_zoom s) (price_offset s) (zoom_start s) (drag_start s) (grid_lines s) v (time_labels s) (price_history s) (current_bid s) (current_ask s) (price_lines s) (current_price_line s).
Definition set_time_labels (v : list nat) (s : t) : t :=
  mk (tk s) (price_scale s) (vertical_zoom s) (price_offset s) (zoom_start s) (drag_start s) (grid_lines s) (price_labels s) v (price_history s) (current_bid s) (current_ask s) (price_lines s) (current_price_line s).
Definition set_price_history (v : list Bar) (s : t) : t :=
  mk (tk s) (price_scale s) (vertical_zoom s) (price_offset s) (zoom_start s) (drag_start s) (grid_lines s) (price_labels s) (time_labels s) v (current_bid s) (current_ask s) (price_lines s) (current_price_line s).
Definition set_current_bid (v : option R) (s : t) : t :=
  mk (tk s) (price_scale s) (vertical_zoom s) (price_offset s) (zoom_start s) (drag_start s) (grid_lines s) (price_labels s) (time_labels s) (price_history s) v (current_ask s) (price_lines s) (current_price_line s).
Definition set_current_ask (v : option R) (s : t) : t :=
  mk (tk s) (price_scale s) (vertical_zoom s) (price_offset s) (zoom_start s) (drag_start s) (grid_lines s) (price_labels s) (time_labels s) (price_history s) (current_bid s) v (price_lines s) (current_price_line s).
Definition set_price_lines (v : list nat) (s : t) : t :=
  mk (tk s) (price_scale s) (vertical_zoom s) (price_offset s) (zoom_start s) (drag_start s) (grid_lines s) (price_labels s) (time_labels s) (price_history s) (current_bid s) (current_ask s) v (current_price_line s).
Definition set_current_price_line (v : option nat) (s : t) : t :=
  mk (tk s) (price_scale s) (vertical_zoom s) (price_offset s) (zoom_start s) (drag_start s) (grid_lines s) (price_labels s) (time_labels s) (price_history s) (current_bid s) (current_ask s) (price_lines s) v.

#[global] Instance tk_canvas : TkCanvas t :=
  {| canvas := tk; set_canvas := set_tk;
     canvas_set_canvas := fun _ _ => eq_refl |}.

Definition margin_left : R := 50.
Definition margin_right : R := 100.
Definition margin_bottom : R := 40.
Definition margin_top : R := 20.

Definition __init__ (width height : Z) : t :=
  mk (Canvas.empty width height) None 1 0 None None [] [] []
     [] None None [] None.

(** [BaseChart._draw_price_scale]. *)
Definition _draw_price_scale (min_price max_price : R) : M t unit :=
  width <- winfo_width ;;
  height <- winfo_height ;;
  old <- gets price_labels ;;
  for_each old (fun l => delete l) ;;
  modify (set_price_labels []) ;;
  vertical_zoom <- gets vertical_zoom ;;
  price_offset <- gets price_offset ;;
  let price_range := max_price - min_price in
  let center_price := (max_price + min_price) / 2 in
  let zoomed_range := price_range * vertical_zoom in
  let min_price := center_price - (zoomed_range / 2) + price_offset in
  let max_price := center_price + (zoomed_range / 2) + price_offset in
  for_each (seq 0 5) (fun i =>
    let y := margin_top + (INR i * (height - margin_top - margin_bottom) / 4) in
    let price := max_price - (INR i * (max_price - min_price) / 4) in
    create_line [margin_left; y; width - margin_right; y]
                "lightgray" (Some (2, 2)%Z) false ;;
    l <- create_text (width - margin_right + 50) y
                     (Fixed "$" price 2 true) "w" "black" ;;
    modify (fun s => set_price_labels (price_labels s ++ [l]) s)).

Definition _price_to_y (self : t) (price : R) : result R :=
  match price_scale self with
  | None => Ok 0
  | Some (min_price, max_price) =>
    let height := IZR (Canvas.height (tk self)) in
    let usable_height := height - margin_top - margin_bottom in
    let price_range := max_price - min_price in
    let* scaled_price := py_div (price - min_price) price_range in
    Ok (margin_top + (1 - scaled_price) * usable_height)
  end.

Definition _draw_time_axis : M t unit :=
  bars <- gets price_history ;;
  match bars with
  | [] => ret tt
  | _ =>
    old <- gets time_labels ;;
    for_each old (fun l => delete l) ;;
    modify (set_time_labels []) ;;
    width <- winfo_width ;;
    height <- winfo_height ;;
    let usable_width := width - margin_left - margin_right in
    let num_labels := 5%nat in
    let step := Nat.max 1 (length bars / (num_labels - 1)) in
    for_each (range_step 0 (length bars) step) (fun i =>
      (* [if i >= len(self.price_history): break], as in [UnifiedChart] *)
      if (length bars <=? i)%nat then ret tt
      else
        match nth_error bars i with
        | None => raise IndexError
        | Some bar =>
          q <- lift (py_div (usable_width * INR i) (INR (length bars))) ;;
          let x := margin_left + q in
          l <- create_text x (height - margin_bottom + 20)
                           (Literal (strftime_HMS (date bar))) "n" "black" ;;
          modify (fun s => set_time_labels (time_labels s ++ [l]) s)
        end)
  end.

Definition redraw : M t unit :=
  bars <- gets price_history ;;
  match bars with
  | [] => ret tt
  | _ =>
    old <- gets price_lines ;;
    for_each old (fun l => delete l) ;;
    modify (set_price_lines []) ;;
    current <- gets current_price_line ;;
    match current with
    | Some l => when (negb (l =? 0)%nat) (delete l)
    | None => ret tt
    end ;;
    width <- winfo_width ;;
    height <- winfo_height ;;
    let usable_width := width - margin_left - margin_right in
    scale <- gets price_scale ;;
    match scale with
    | Some (min_price, max_price) => _draw_price_scale min_price max_price
    | None => ret tt
    end ;;
    points <- for_fold (enumerate bars) ([], [])
      (fun '(bid_points, ask_points) '(i, bar) =>
        q <- lift (py_div (usable_width * INR i) (INR (length bars))) ;;
        let x := margin_left + q in
        match bid bar, ask bar with
        | Some b, Some a =>
          y_bid <- read (fun self => _price_to_y self b) ;;
          y_ask <- read (fun self => _price_to_y self a) ;;
          ret (bid_points ++ [x; y_bid], ask_points ++ [x; y_ask])
        | _, _ =>
          c <- lift (getattr_close bar) ;;
          y <- read (fun self => _price_to_y self c) ;;
          ret (bid_points ++ [x; y], ask_points ++ [x; y])
        end) ;;
    let '(bid_points, ask_points) := points in
    when (4 <=? length bid_points)%nat
         (l <- create_line bid_points "green" None true ;;
          modify (fun s => set_price_lines (price_lines s ++ [l]) s)) ;;
    when (4 <=? length ask_points)%nat
         (l <- create_line ask_points "red" None true ;;
          modify (fun s => set_price_lines (price_lines s ++ [l]) s)) ;;
    current_bid <- gets current_bid ;;
    current_ask <- gets current_ask ;;
    match current_bid, current_ask with
    | Some b, Some a =>
      when (truthy b && truthy a)
        (let mid_price := (b + a) / 2 in
         y <- read (fun self => _price_to_y self mid_price) ;;
         l <- create_line [margin_left; y; width - margin_right; y]
                          "blue" (Some (4, 4)%Z) false ;;
         modify (set_current_price_line (Some l)))
    | _, _ => ret tt
    end ;;
    _draw_time_axis
  end.

Definition update_prices (bid ask : R) : M t unit :=
  modify (set_current_bid (Some bid)) ;;
  modify (set_current_ask (Some ask)) ;;
  redraw.

Definition update_history (bars : list Bar) : M t unit :=
  modify (set_price_history bars) ;;
  match bars with
  | [] => ret tt
  | _ =>
    prices <- lift (collect_prices bars) ;;
    match prices with
    | [] => ret tt
    | _ =>
      min_price <- lift (py_min prices) ;;
      max_price <- lift (py_max prices) ;;
      let price_range := max_price - min_price in
      modify (set_price_scale (Some (min_price, max_price + price_range * 0.1)))
    end
  end ;;
  redraw.

(** [BaseChart.handle_drag] and [BaseChart.handle_zoom], on [event.y]. *)
Definition handle_drag (event_y : Z) : M t unit :=
  start <- gets drag_start ;;
  match start with
  | Some y0 =>
    let dy := IZR (event_y - y0) in
    modify (fun s => set_price_offset (price_offset s + dy * vertical_zoom s) s) ;;
    modify (set_drag_start (Some event_y)) ;;
    redraw
  | None => ret tt
  end.

Definition handle_zoom (event_y : Z) : M t unit :=
  start <- gets zoom_start ;;
  match start with
  | Some y0 =>
    let dy := IZR (event_y - y0) in
    let zoom_factor := exp (- dy / 200) in
    modify (fun s => set_vertical_zoom (vertical_zoom s * zoom_factor) s) ;;
    modify (fun s => set_vertical_zoom
                       (Rmax 0.1 (Rmin 10.0 (vertical_zoom s))) s) ;;
    modify (set_zoom_start (Some event_y)) ;;
    redraw
  | None => ret tt
  end.

End PriceChart.

(** ** [OptionsChart] (src/gui/options_chart.py) *)

Module OptionsChart.

(** [current_data] and [historical_bars] are [[]] for [None] too; the
    scale is one number, the price at the top of the axis. *)
Record t : Type := mk {
  tk : Canvas.t;
  current_data : list OptionRow;
  current_max : option R;
  current_spot : option R;
  exposure_type : string;
  historical_bars : list Bar;
  price_scale : option R;
  price_scale_labels : list nat;
  time_labels : list nat;
  option_bars : list nat;
  grid_lines : list nat;
  price_line : option nat;
  price_history_lines : list nat;
  vertical_zoom : R;
  price_offset : R;
  zoom_start : option Z;
  drag_start : option Z
}.

Definition set_tk (v : Canvas.t) (s : t) : t :=
  mk v (current_data s) (current_max s) (current_spot s) (exposure_type s) (historical_bars s) (price_scale s) (price_scale_labels s) (time_labels s) (option_bars s) (grid_lines s) (price_line s) (price_history_lines s) (vertical_zoom s) (price_offset s) (zoom_start s) (drag_start s).
Definition set_current_data (v : list OptionRow) (s : t) : t :=
  mk (tk s) v (current_max s) (current_spot s) (exposure_type s) (historical_bars s) (price_scale s) (price_scale_labels s) (time_labels s) (option_bars s) (grid_lines s) (price_line s) (price_history_lines s) (vertical_zoom s) (price_offset s) (zoom_start s) (drag_start s).
Definition set_current_max (v : option R) (s : t) : t :=
  mk (tk s) (current_data s) v (current_spot s) (exposure_type s) (historical_bars s) (price_scale s) (price_scale_labels s) (time_labels s) (option_bars s) (grid_lines s) (price_line s) (price_history_lines s) (vertical_zoom s) (price_offset s) (zoom_start s) (drag_start s).
Definition set_current_spot (v : option R) (s : t) : t :=
  mk (tk s) (current_data s) (current_max s) v (exposure_type s) (historical_bars s) (price_scale s) (price_scale_labels s) (time_labels s) (option_bars s) (grid_lines s) (price_line s) (price_history_lines s) (vertical_zoom s) (price_offset s) (zoom_start s) (drag_start s).
Definition set_exposure_type (v : string) (s : t) : t :=
  mk (tk s) (current_data s) (current_max s) (current_spot s) v (historical_bars s) (price_scale s) (price_scale_labels s) (time_labels s) (option_bars s) (grid_lines s) (price_line s) (price_history_lines s) (vertical_zoom s) (price_offset s) (zoom_start s) (drag_start s).
Definition set_historical_bars (v : list Bar) (s : t) : t :=
  mk (tk s) (current_data s) (current_max s) (current_spot s) (exposure_type s) v (price_scale s) (price_scale_labels s) (time_labels s) (option_bars s) (grid_lines s) (price_line s) (price_history_lines s) (vertical_zoom s) (price_offset s) (zoom_start s) (drag_start s).
Definition set_price_scale (v : option R) (s : t) : t :=
  mk (tk s) (current_data s) (current_max s) (current_spot s) (exposure_type s) (historical_bars s) v (price_scale_labels s) (time_labels s) (option_bars s) (grid_lines s) (price_line s) (price_history_lines s) (vertical_zoom s) (price_offset s) (zoom_start s) (drag_start s).
Definition set_price_scale_labels (v : list nat) (s : t) : t :=
  mk (tk s) (current_data s) (current_max s) (current_spot s) (exposure_type s) (historical_bars s) (price_scale s) v (time_labels s) (option_bars s) (grid_lines s) (price_line s) (price_history_lines s) (vertical_zoom s) (price_offset s) (zoom_start s) (drag_start s).
Definition set_time_labels (v : list nat) (s : t) : t :=
  mk (tk s) (current_data s) (current_max s) (current_spot s) (exposure_type s) (historical_bars s) (price_scale s) (price_scale_labels s) v (option_bars s) (grid_lines s) (price_line s) (price_history_lines s) (vertical_zoom s) (price_offset s) (zoom_start s) (drag_start s).
Definition set_option_bars (v : list nat) (s : t) : t :=
  mk (tk s) (current_data s) (current_max s) (current_spot s) (exposure_type s) (historical_bars s) (price_scale s) (price_scale_labels s) (time_labels s) v (grid_lines s) (price_line s) (price_history_lines s) (vertical_zoom s) (price_offset s) (zoom_start s) (drag_start s).
Definition set_grid_lines (v : list nat) (s : t) : t :=
  mk (tk s) (current_data s) (current_max s) (current_spot s) (exposure_type s) (historical_bars s) (price_scale s) (price_scale_labels s) (time_labels s) (option_bars s) v (price_line s) (price_history_lines s) (vertical_zoom s) (price_offset s) (zoom_start s) (drag_start s).
Definition set_price_line (v : option nat) (s : t) : t :=
  mk (tk s) (current_data s) (current_max s) (current_spot s) (exposure_type s) (historical_bars s) (price_scale s) (price_scale_labels s) (time_labels s) (option_bars s) (grid_lines s) v (price_history_lines s) (vertical_zoom s) (price_offset s) (zoom_start s) (drag_start s).
Definition set_price_history_lines (v : list nat) (s : t) : t :=
  mk (tk s) (current_data s) (current_max s) (current_spot s) (exposure_type s) (historical_bars s) (price_scale s) (price_scale_labels s) (time_labels s) (option_bars s) (grid_lines s) (price_line s) v (vertical_zoom s) (price_offset s) (zoom_start s) (drag_start s).
Definition set_vertical_zoom (v : R) (s : t) : t :=
  mk (tk s) (current_data s) (current_max s) (current_spot s) (exposure_type s) (historical_bars s) (price_scale s) (price_scale_labels s) (time_labels s) (option_bars s) (grid_lines s) (price_line s) (price_history_lines s) v (price_offset s) (zoom_start s) (drag_start s).
Definition set_price_offset (v : R) (s : t) : t :=
  mk (tk s) (current_data s) (current_max s) (current_spot s) (exposure_type s) (historical_bars s) (price_scale s) (price_scale_labels s) (time_labels s) (option_bars s) (grid_lines s) (price_line s) (price_history_lines s) (vertical_zoom s) v (zoom_start s) (drag_start s).
Definition set_zoom_start (v : option Z) (s : t) : t :=
  mk (tk s) (current_data s) (current_max s) (current_spot s) (exposure_type s) (historical_bars s) (price_scale s) (price_scale_labels s) (time_labels s) (option_bars s) (grid_lines s) (price_line s) (price_history_lines s) (vertical_zoom s) (price_offset s) v (drag_start s).
Definition set_drag_start (v : option Z) (s : t) : t :=
  mk (tk s) (current_data s) (current_max s) (current_spot s) (exposure_type s) (historical_bars s) (price_scale s) (price_scale_labels s) (time_labels s) (option_bars s) (grid_lines s) (price_line s) (price_history_lines s) (vertical_zoom s) (price_offset s) (zoom_start s) v.

#[global] Instance tk_canvas : TkCanvas t :=
  {| canvas := tk; set_canvas := set_tk;
     canvas_set_canvas := fun _ _ => eq_refl |}.

(** The margins are local constants of the methods. *)
Definition margin_left : R := 50.
Definition margin_right : R := 100.
Definition margin_bottom : R := 40.

Definition __init__ (width height : Z) : t :=
  mk (Canvas.empty width height) [] None None "GFL" [] None
     [] [] [] [] None [] 1 0 None None.

Definition _clear_price_history : M t unit :=
  old <- gets price_history_lines ;;
  for_each old (fun l => delete l) ;;
  modify (set_price_history_lines []) ;;
  old <- gets price_scale_labels ;;
  for_each old (fun l => delete l) ;;
  modify (set_price_scale_labels []) ;;
  old <- gets time_labels ;;
  for_each old (fun l => delete l) ;;
  modify (set_time_labels []).

Definition _clear_options_data : M t unit :=
  old <- gets option_bars ;;
  for_each old (fun l => delete l) ;;
  modify (set_option_bars []).

Definition _price_to_y (self : t) (price y_scale : R) : result R :=
  let height := IZR (Canvas.height (tk self)) in
  let usable_height := height - margin_bottom in
  let* q := py_div ((y_scale - price) * usable_height) y_scale in
  Ok (margin_bottom + q + price_offset self).

Definition _draw_price_scale (y_scale : R) : M t unit :=
  width <- winfo_width ;;
  height <- winfo_height ;;
  old <- gets price_scale_labels ;;
  for_each old (fun l => delete l) ;;
  modify (set_price_scale_labels []) ;;
  price_offset <- gets price_offset ;;
  let price_range := y_scale in
  q <- lift (py_div (y_scale * price_offset) height) ;;
  let base_price := q in
  for_each (seq 0 5) (fun i =>
    let y := INR i * (height - margin_bottom) / 4 in
    let price := y_scale - (INR i * price_range / 4) + base_price in
    l <- create_text (width - margin_right + 50) y
                     (Fixed "$" price 2 true) "w" "black" ;;
    modify (fun s => set_price_scale_labels (price_scale_labels s ++ [l]) s)).

Definition _draw_time_axis (bars : list Bar) : M t unit :=
  old <- gets time_labels ;;
  for_each old (fun l => delete l) ;;
  modify (set_time_labels []) ;;
  match bars with
  | [] => ret tt
  | _ =>
    width <- winfo_width ;;
    height <- winfo_height ;;
    let y := height - margin_bottom + 20 in
    let num_labels := 5%nat in
    let step := Nat.max 1 (length bars / (num_labels - 1)) in
    for_each (range_step 0 (length bars) step) (fun i =>
      if (length bars <=? i)%nat then ret tt
      else
        match nth_error bars i with
        | None => raise IndexError
        | Some bar =>
          q <- lift (py_div ((width - margin_left - margin_right) * INR i)
                            (INR (length bars) - 1)) ;;
          let x := margin_left + q in
          l <- create_text x y (Literal (strftime_HMS (date bar))) "n" "black" ;;
          modify (fun s => set_time_labels (time_labels s ++ [l]) s)
        end)
  end.

(** [draw_price_history(bars, y_scale)]; the argument [y_scale] may be the
    [None] a chart without a scale holds, which [y_scale / vertical_zoom]
    rejects with a [TypeError]. *)
Definition draw_price_history (bars : list Bar) (y_scale : option R)
  : M t unit :=
  try_except
    (modify (set_historical_bars bars) ;;
     modify (set_price_scale y_scale) ;;
     _clear_price_history ;;
     match bars with
     | [] => ret tt
     | _ =>
       width <- winfo_width ;;
       height <- winfo_height ;;
       let usable_width := width - margin_right - margin_left in
       vertical_zoom <- gets vertical_zoom ;;
       y_scale <- match y_scale with
                  | Some v => lift (py_div v vertical_zoom)
                  | None => raise TypeError
                  end ;;
       _draw_price_scale y_scale ;;
       points <- for_fold (enumerate bars) ([], [])
         (fun '(bid_points, ask_points) '(i, bar) =>
           q <- lift (py_div (usable_width * INR i) (INR (length bars))) ;;
           let x := margin_left + q in
           match bid bar, ask bar with
           | Some b, Some a =>
             y_bid <- read (fun self => _price_to_y self b y_scale) ;;
             y_ask <- read (fun self => _price_to_y self a y_scale) ;;
             ret (bid_points ++ [x; y_bid], ask_points ++ [x; y_ask])
           | _, _ =>
             c <- lift (getattr_close bar) ;;
             y <- read (fun self => _price_to_y self c y_scale) ;;
             ret (bid_points ++ [x; y], ask_points ++ [x; y])
           end) ;;
       let '(bid_points, ask_points) := points in
       when (4 <=? length bid_points)%nat
            (l <- create_line bid_points "green" None true ;;
             modify (fun s => set_price_history_lines
                                (price_history_lines s ++ [l]) s)) ;;
       when (4 <=? length ask_points)%nat
            (l <- create_line ask_points "red" None true ;;
             modify (fun s => set_price_history_lines
                                (price_history_lines s ++ [l]) s)) ;;
       _draw_time_axis bars
     end).

Definition draw_price_line (price : R) : M t unit :=
  old <- gets price_line ;;
  match old with
  | Some l => when (negb (l =? 0)%nat) (delete l)
  | None => ret tt
  end ;;
  scale <- gets price_scale ;;
  match scale with
  | None => ret tt
  | Some price_scale =>
    if negb (truthy price_scale) then ret tt
    else
      width <- winfo_width ;;
      vertical_zoom <- gets vertical_zoom ;;
      y_scale <- lift (py_div price_scale vertical_zoom) ;;
      y <- read (fun self => _price_to_y self price y_scale) ;;
      l <- create_line [0; y; width - margin_right; y]
                       "blue" (Some (4, 4)%Z) false ;;
      modify (set_price_line (Some l))
  end.

Definition _calculate_exposure (self : t) (ticker : option Ticker)
           (exposure_type : string) : R :=
  match ticker with
  | None => 0
  | Some ticker =>
    match modelGreeks ticker with
    | None => 0
    | Some greeks_delta =>
      let delta :=
        match greeks_delta with
        | Some d => if truthy d then Rabs d else 0
        | None => 0
        end in
      let oi := attr_or 0 (openInterest ticker) in
      let volume := attr_or 0 (volume ticker) in
      if (exposure_type =? "DEX")%string then delta * oi * 50
      else if (exposure_type =? "VOI")%string then volume * oi
      else if (exposure_type =? "OI")%string then oi
      else
        match current_spot self with
        | Some spot =>
          if (exposure_type =? "GFL")%string && truthy spot
          then delta * oi * spot
          else 0
        | None => 0
        end
    end
  end.

Definition _draw_exposure_scale (max_exp : R) : M t unit :=
  width <- winfo_width ;;
  height <- winfo_height ;;
  let axis_x := width - margin_right in
  let bar_max_width := width - margin_right - 50 in
  let scale_y := height - margin_bottom + 10 in
  let scale_points := [0; max_exp / 4; max_exp / 2; (3 * max_exp) / 4; max_exp] in
  for_each (enumerate scale_points) (fun '(i, exposure) =>
    let x := axis_x - (INR i * bar_max_width / 4) in
    l <- create_text x scale_y (Fixed EmptyString exposure 0 true) "n" "black" ;;
    modify (fun s => set_option_bars (option_bars s ++ [l]) s)).

(** The first loop of [draw_delta_chart]. *)
Definition row_exposures (self : t) (row : OptionRow) : R * R * R :=
  let '(strike, call_ticker, put_ticker) := row in
  (strike,
   _calculate_exposure self call_ticker (exposure_type self),
   _calculate_exposure self put_ticker (exposure_type self)).

Definition observed_max (exposures : list (R * R * R)) : R :=
  fold_left (fun max_exp '(_, call_exp, put_exp) =>
               Rmax (Rmax max_exp call_exp) put_exp)
            exposures 0.

Definition draw_delta_chart (data : list OptionRow) (max_exposure : option R)
           (spot_price : option R) (exposure_type : option string) : M t unit :=
  modify (set_current_data data) ;;
  modify (set_current_max max_exposure) ;;
  modify (set_current_spot spot_price) ;;
  match exposure_type with
  | Some e => when (negb (e =? EmptyString)%string) (modify (set_exposure_type e))
  | None => ret tt
  end ;;
  _clear_options_data ;;
  self <- get ;;
  let exposures := map (row_exposures self) data in
  let max_exp := observed_max exposures in
  let max_exp := Rmax max_exp 1.0 in
  width <- winfo_width ;;
  height <- winfo_height ;;
  let axis_x := width - margin_right in
  let bar_max_width := width - margin_right - 50 in
  bar_height <- match data with
                | _ :: _ => lift (py_div (height - margin_bottom)
                                         (INR (length data + 1)))
                | [] => ret ((height - margin_bottom) / 10)
                end ;;
  let bar_thickness := bar_height * 0.25 in
  for_each (enumerate exposures) (fun '(i, (strike, call_exp, put_exp)) =>
    let y := (INR i + 1) * bar_height in
    call_width <- (if Rltb 0 max_exp
                   then q <- lift (py_div call_exp max_exp) ;;
                        ret (q * bar_max_width)
                   else ret 0) ;;
    put_width <- (if Rltb 0 max_exp
                  then q <- lift (py_div put_exp max_exp) ;;
                       ret (q * bar_max_width)
                  else ret 0) ;;
    when (Rltb 0 call_exp)
      (bar <- create_rectangle axis_x (y - bar_thickness)
                               (axis_x - call_width) y "#90EE90" ;;
       modify (fun s => set_option_bars (option_bars s ++ [bar]) s)) ;;
    when (Rltb 0 put_exp)
      (bar <- create_rectangle axis_x y
                               (axis_x - put_width) (y + bar_thickness)
                               "#FFB6C6" ;;
       modify (fun s => set_option_bars (option_bars s ++ [bar]) s)) ;;
    l <- create_text (width - 5) y (Str strike) "e" "black" ;;
    modify (fun s => set_option_bars (option_bars s ++ [l]) s)) ;;
  _draw_exposure_scale max_exp ;;
  self <- get ;;
  when (match historical_bars self with _ :: _ => true | [] => false end
        && truthy_opt (price_scale self))
       (draw_price_history (historical_bars self) (price_scale self)) ;;
  match spot_price with
  | Some spot => when (truthy spot) (draw_price_line spot)
  | None => ret tt
  end.

Definition redraw : M t unit :=
  self <- get ;;
  when (match historical_bars self with _ :: _ => true | [] => false end
        && truthy_opt (price_scale self))
       (draw_price_history (historical_bars self) (price_scale self)) ;;
  self <- get ;;
  match current_data self with
  | _ :: _ =>
    draw_delta_chart (current_data self) (current_max self)
                     (current_spot self) (Some (exposure_type self))
  | [] => ret tt
  end.

Definition handle_drag (event_y : Z) : M t unit :=
  start <- gets drag_start ;;
  match start with
  | Some y0 =>
    let dy := IZR (event_y - y0) in
    modify (fun s => set_price_offset (price_offset s + dy) s) ;;
    modify (set_drag_start (Some event_y)) ;;
    redraw
  | None => ret tt
  end.

Definition handle_zoom (event_y : Z) : M t unit :=
  start <- gets zoom_start ;;
  match start with
  | Some y0 =>
    let dy := IZR (event_y - y0) in
    let zoom_factor := exp (- dy / 200) in
    modify (fun s => set_vertical_zoom (vertical_zoom s * zoom_factor) s) ;;
    modify (fun s => set_vertical_zoom
                       (Rmax 0.1 (Rmin 10.0 (vertical_zoom s))) s) ;;
    modify (set_zoom_start (Some event_y)) ;;
    redraw
  | None => ret tt
  end.

End OptionsChart.

(** ** [ChartManager] (src/gui/chart_manager.py) *)

Module ChartManager.

(** The manager and the chart it drives.  [historical_bars] names the same
    Python list in the manager and, once drawn, in the chart; here each
    holds the value of that list.  [update_prices], the one method that
    mutates the list, hands it to [draw_price_history] in the same call,
    which stores it in the chart again, so both values agree whenever a
    method returns. *)
Record t : Type := mk {
  chart : OptionsChart.t;
  historical_bars : list Bar;
  current_data : list OptionRow;
  max_exposure : option R;
  spot_price : option R
}.

Definition set_chart (v : OptionsChart.t) (s : t) : t :=
  mk v (historical_bars s) (current_data s) (max_exposure s) (spot_price s).
Definition set_historical_bars (v : list Bar) (s : t) : t :=
  mk (chart s) v (current_data s) (max_exposure s) (spot_price s).
Definition set_current_data (v : list OptionRow) (s : t) : t :=
  mk (chart s) (historical_bars s) v (max_exposure s) (spot_price s).
Definition set_max_exposure (v : option R) (s : t) : t :=
  mk (chart s) (historical_bars s) (current_data s) v (spot_price s).
Definition set_spot_price (v : option R) (s : t) : t :=
  mk (chart s) (historical_bars s) (current_data s) (max_exposure s) v.

Definition __init__ (chart : OptionsChart.t) : t :=
  mk chart [] [] None None.

(** A call of a method of [self.chart]. *)
Definition on_chart {A : Type} (m : M OptionsChart.t A) : M t A :=
  fun s => let (r, c) := m (chart s) in (r, set_chart c s).

(** [last_bar = bars[-1]; last_bar.bid = bid; last_bar.ask = ask]. *)
Fixpoint set_last_quote (bid ask : R) (bars : list Bar) : list Bar :=
  match bars with
  | [] => []
  | [last_bar] =>
    [{| date := date last_bar; bid := Some bid; ask := Some ask;
        close := close last_bar |}]
  | bar :: rest => bar :: set_last_quote bid ask rest
  end.

Definition update_prices (bid ask : R) : M t unit :=
  bars <- gets historical_bars ;;
  match bars with
  | [] => ret tt
  | _ =>
    modify (fun s => set_historical_bars (set_last_quote bid ask bars) s) ;;
    modify (set_spot_price (Some ((bid + ask) / 2))) ;;
    self <- get ;;
    on_chart (OptionsChart.draw_price_history
                (historical_bars self) (OptionsChart.price_scale (chart self))) ;;
    on_chart (OptionsChart.draw_price_line ((bid + ask) / 2))
  end.

Definition update_with_historical (bars : list Bar) : M t unit :=
  match bars with
  | [] => ret tt
  | _ =>
    modify (set_historical_bars bars) ;;
    prices <- lift (collect_prices bars) ;;
    match prices with
    | [] => ret tt
    | _ =>
      min_price <- lift (py_min prices) ;;
      max_price <- lift (py_max prices) ;;
      let price_range := max_price - min_price in
      let scale := max_price + (price_range * 0.1) in
      spot <- match nth_error bars (length bars - 1) with
              | Some last_bar =>
                match bid last_bar with
                | Some b =>
                  match ask last_bar with
                  | Some a => ret ((b + a) / 2)
                  | None => raise AttributeError
                  end
                | None => lift (getattr_close last_bar)
                end
              | None => raise IndexError
              end ;;
      modify (set_spot_price (Some spot)) ;;
      on_chart (OptionsChart.draw_price_history bars (Some scale)) ;;
      when (truthy spot) (on_chart (OptionsChart.draw_price_line spot))
    end
  end.

Definition update_with_options (delta_data : list OptionRow)
           (max_exposure : option R) (spot_price : option R) : M t unit :=
  modify (set_current_data delta_data) ;;
  modify (set_max_exposure max_exposure) ;;
  modify (set_spot_price spot_price) ;;
  self <- get ;;
  when (match historical_bars self with _ :: _ => true | [] => false end)
       (on_chart (modify (OptionsChart.set_historical_bars (historical_bars self)))) ;;
  self <- get ;;
  on_chart (OptionsChart.draw_delta_chart
              delta_data max_exposure spot_price
              (Some (OptionsChart.exposure_type (chart self)))).

Definition update_exposure_type (exposure_type : string) : M t unit :=
  self <- get ;;
  match current_data self with
  | _ :: _ =>
    on_chart (OptionsChart.draw_delta_chart
                (current_data self) (max_exposure self) (spot_price self)
                (Some exposure_type))
  | [] => ret tt
  end.

End ChartManager.

(** ** [ESOptionsWindow] (src/gui/es_options_window.py) *)

Module ESOptionsWindow.

(** The window: the chart it packs, the [StringVar] behind the exposure
    dropdown, and the options its methods set on the widgets (the [state]
    of the two refresh buttons, the [text] of the connect button, the
    [text] and [fg] of the status label). *)
Record t : Type := mk {
  chart : UnifiedChart.t;
  exposure_type : string;
  refresh_btn : string;
  cancel_btn : string;
  connect_btn : string;
  conn_status : string * string
}.

Definition set_chart (v : UnifiedChart.t) (s : t) : t :=
  mk v (exposure_type s) (refresh_btn s) (cancel_btn s) (connect_btn s) (conn_status s).
Definition set_exposure_type (v : string) (s : t) : t :=
  mk (chart s) v (refresh_btn s) (cancel_btn s) (connect_btn s) (conn_status s).
Definition set_refresh_btn (v : string) (s : t) : t :=
  mk (chart s) (exposure_type s) v (cancel_btn s) (connect_btn s) (conn_status s).
Definition set_cancel_btn (v : string) (s : t) : t :=
  mk (chart s) (exposure_type s) (refresh_btn s) v (connect_btn s) (conn_status s).
Definition set_connect_btn (v : string) (s : t) : t :=
  mk (chart s) (exposure_type s) (refresh_btn s) (cancel_btn s) v (conn_status s).
Definition set_conn_status (v : string * string) (s : t) : t :=
  mk (chart s) (exposure_type s) (refresh_btn s) (cancel_btn s) (connect_btn s) v.

(** The window [__init__] builds, once Tk has laid the chart out at the
    given size. *)
Definition __init__ (width height : Z) : t :=
  mk (UnifiedChart.__init__ width height) "GFL" "normal" "disabled" "Connect"
     ("Not Connected"%string, "red"%string).

(** A call of a method of [self.chart]. *)
Definition on_chart {A : Type} (m : M UnifiedChart.t A) : M t A :=
  fun s => let (r, c) := m (chart s) in (r, set_chart c s).

(** The handler of [<<ComboboxSelected>>]; the event is not read. *)
Definition _on_exposure_changed : M t unit :=
  self <- get ;;
  on_chart (UnifiedChart.update_options
              (UnifiedChart.options_data (chart self))
              (UnifiedChart.max_exposure (chart self))
              (UnifiedChart.current_bid (chart self))
              (Some (exposure_type self))).

Definition update_connection_status (connected : bool) (error_msg : option string)
  : M t unit :=
  if connected then
    modify (set_conn_status ("Connected"%string, "green"%string)) ;;
    modify (set_connect_btn "Disconnect")
  else
    let text :=
      match error_msg with
      | None => "Disconnected"%string
      | Some msg => if (msg =? EmptyString)%string then "Disconnected"%string
                    else ("Error: " ++ msg)%string
      end in
    modify (set_conn_status (text, "red"%string)) ;;
    modify (set_connect_btn "Connect").

Definition set_refresh_state (is_refreshing : bool) : M t unit :=
  if is_refreshing then
    modify (set_refresh_btn "disabled") ;;
    modify (set_cancel_btn "normal")
  else
    modify (set_refresh_btn "normal") ;;
    modify (set_cancel_btn "disabled").

Definition update_chart (delta_data : list OptionRow) (max_exposure : option R)
           (spot_price : option R) : M t unit :=
  self <- get ;;
  on_chart (UnifiedChart.update_options delta_data max_exposure spot_price
                                        (Some (exposure_type self))).

Definition update_prices (bid ask : R) : M t unit :=
  on_chart (UnifiedChart.update_prices bid ask).

Definition update_history (bars : list Bar) : M t unit :=
  on_chart (UnifiedChart.update_history bars).

End ESOptionsWindow.

(** ** [OptionsDataProcessor] (src/market_data/options_data.py) *)

Module OptionsDataProcessor.

(** The processor keeps the tickers it subscribed to and the spot price of
    the last request.  A ticker is read as the attributes it holds when the
    method reads it. *)
Record t : Type := mk {
  market_data_subscriptions : list (option Ticker);
  spot_price : option R
}.

Definition set_market_data_subscriptions (v : list (option Ticker)) (s : t) : t :=
  mk v (spot_price s).
Definition set_spot_price (v : option R) (s : t) : t :=
  mk (market_data_subscriptions s) v.

Definition __init__ : t := mk [] None.

Definition calculate_exposure (self : t) (ticker : option Ticker)
           (exposure_type : string) : R :=
  match ticker with
  | None => 0
  | Some ticker =>
    match modelGreeks ticker with
    | None => 0
    | Some greeks_delta =>
      let delta :=
        match greeks_delta with
        | Some d => if truthy d then Rabs d else 0
        | None => 0
        end in
      let volume :=
        match volume ticker with
        | Some v => if truthy v then v else 0
        | None => 0
        end in
      let oi :=
        if (right ticker =? "C")%string
        then attr_or 0 (callOpenInterest ticker)
        else attr_or 0 (putOpenInterest ticker) in
      if (exposure_type =? "DEX")%string then delta * oi * 50
      else if (exposure_type =? "VOI")%string then volume * oi
      else
        match spot_price self with
        | Some spot =>
          if (exposure_type =? "GFL")%string && truthy spot
          then delta * oi * spot
          else oi
        | None => oi
        end
    end
  end.

(** [request_market_data(contracts, spot_price)]; [reqMktData] is the
    ticker the gateway hands out for a contract and a tick list. *)
Definition request_market_data {Contract : Type}
           (reqMktData : Contract -> string -> option Ticker)
           (contracts : list (R * Contract * Contract)) (spot_price : option R)
  : M t (list OptionRow) :=
  modify (set_spot_price spot_price) ;;
  let genericTickList := "100,101,104,106,236,258"%string in
  for_fold contracts []
    (fun tickers '(strike, call, put) =>
       let call_ticker := reqMktData call genericTickList in
       let put_ticker := reqMktData put genericTickList in
       modify (fun s => set_market_data_subscriptions
                          (market_data_subscriptions s ++ [call_ticker; put_ticker]) s) ;;
       ret (tickers ++ [(strike, call_ticker, put_ticker)])).

(** [process_market_data(tickers, exposure_type)], after its [ib.sleep(5)].
    Nothing in the body of the loop raises on a ticker of this model, so
    the [except] branch around it is never taken. *)
Definition process_market_data (self : t) (tickers : list OptionRow)
           (exposure_type : string) : list OptionRow * R :=
  let '(delta_data, max_exposure) :=
    fold_left
      (fun '(delta_data, max_exposure) '(strike, call_ticker, put_ticker) =>
         let delta_data := delta_data ++ [(strike, call_ticker, put_ticker)] in
         let call_exposure := calculate_exposure self call_ticker exposure_type in
         let put_exposure := calculate_exposure self put_ticker exposure_type in
         (delta_data, Rmax (Rmax max_exposure call_exposure) put_exposure))
      tickers ([], 0) in
  (delta_data, Rmax max_exposure 1.0).

End OptionsDataProcessor.

(** ** Price utilities (src/market_data/utils.py) *)

(** A float that may be [nan], the value of a ticker field that has no
    data; every other float is read as a real number. *)
Inductive pyfloat : Type :=
| Float (x : R)
| NaN.

(** [bool(v)] of a float: [0.0] is false, and [nan] is true. *)
Definition float_truthy (v : pyfloat) : bool :=
  match v with
  | Float x => truthy x
  | NaN => true
  end.

(** [bool(v)] of an attribute that holds [None] or a float. *)
Definition py_truthy (v : option pyfloat) : bool :=
  match v with
  | Some v => float_truthy v
  | None => false
  end.

(** [(a + b) / 2] on floats, and on attributes ([None + b] raises). *)
Definition float_mid (a b : pyfloat) : pyfloat :=
  match a, b with
  | Float x, Float y => Float ((x + y) / 2)
  | _, _ => NaN
  end.

Definition py_mid (a b : option pyfloat) : result pyfloat :=
  match a, b with
  | Some a, Some b => Ok (float_mid a b)
  | _, _ => Raise TypeError
  end.

Module utils.

(** The attributes of a ticker that are read for a price: each holds
    [None] or a float. *)
Record Ticker : Type := {
  last : option pyfloat;
  bid : option pyfloat;
  ask : option pyfloat;
  close : option pyfloat
}.

(** [is_valid_price(value)] for [None] or a float ([float(value)] is then
    the value itself and does not raise). *)
Definition is_valid_price (value : option pyfloat) : bool :=
  match value with
  | None => false
  | Some float_val =>
    negb (match float_val with
          | NaN => true
          | Float x => if Req_dec_T x 0 then true else false
          end)
  end.

(** [format_price(price)]. *)
Definition format_price (price : option pyfloat) : result label :=
  if negb (is_valid_price price) then Ok (Literal "N/A")
  else
    match price with
    | Some (Float x) => Ok (Fixed EmptyString x 2 false)
    | Some NaN => Ok (Literal "nan")
    | None => Raise TypeError
    end.

(** [get_price(ticker)]; the result is the attribute itself where the
    function returns one. *)
Definition get_price (ticker : Ticker) : result (option pyfloat) :=
  if is_valid_price (last ticker) then Ok (last ticker)
  else if is_valid_price (bid ticker) && is_valid_price (ask ticker) then
    let* mid := py_mid (bid ticker) (ask ticker) in Ok (Some mid)
  else if is_valid_price (close ticker) then Ok (close ticker)
  else Ok (Some (Float 0.0)).

End utils.

(** ** Contracts (src/contracts) *)

(** [datetime.date] is its proleptic Gregorian ordinal ([toordinal()]: day
    1 is 0001-01-01, a Monday; [date.max] is day 3652059), and
    [datetime.now()] is the day with the microseconds since midnight. *)
Definition date_max : Z := 3652059.

(** [d.weekday()]: Monday is 0. *)
Definition weekday (d : Z) : Z := ((d + 6) mod 7)%Z.

(** [d + timedelta(days=n)]; [None] is the [OverflowError] of a date out
    of range. *)
Definition date_plus_days (d n : Z) : option Z :=
  if ((1 <=? d + n) && (d + n <=? date_max))%Z then Some (d + n)%Z else None.

Record instant : Type := {
  today : Z;
  microseconds : Z
}.

Definition microseconds_per_day : Z := 86400000000.

Definition now_hour (now : instant) : Z := (microseconds now / 3600000000)%Z.
Definition now_minute (now : instant) : Z := ((microseconds now / 60000000) mod 60)%Z.

(** [(expiry - now).days] for a midnight [expiry]: a [timedelta] keeps
    its seconds and microseconds non-negative, so [days] is the floor. *)
Definition days_until (expiry : Z) (now : instant) : Z :=
  ((expiry * microseconds_per_day
    - (today now * microseconds_per_day + microseconds now))
   / microseconds_per_day)%Z.

Module es_weeklies.

Definition get_weekly_trading_class : string := "E1B".

Definition get_next_expiry (today : Z) : option Z :=
  let days_to_friday := ((4 - weekday today) mod 7)%Z in
  date_plus_days today days_to_friday.

End es_weeklies.

(** What the gateway answers to the requests of the contract classes;
    [None] is a request that raises. *)
Record Future : Type := {
  conId : Z;
  lastTradeDateOrContractMonth : string
}.

Record ContractDetails : Type := {
  contract : Future
}.

Record OptionChain : Type := {
  tradingClass : string;
  strikes : list R
}.

Record IB : Type := {
  reqContractDetails : option (list ContractDetails);
  reqSecDefOptParams : Z -> option (list OptionChain)
}.

Module ESContract.

Section Methods.
(** [datetime.strptime(s, '%Y%m%d')], the day of the midnight it returns;
    [None] is its [ValueError]. *)
Variable strptime_Ymd : string -> option Z.

(** The loop of [get_active_contract]: [(active_contract, min_days)],
    with [None] for [float('inf')]; the outer [None] is an exception. *)
Definition nearest (now : instant)
           (acc : option (option Future * option Z)) (detail : ContractDetails)
  : option (option Future * option Z) :=
  match acc with
  | None => None
  | Some (active_contract, min_days) =>
    match strptime_Ymd (lastTradeDateOrContractMonth (contract detail)) with
    | None => None
    | Some expiry =>
      let days_to_expiry := days_until expiry now in
      if ((0 <? days_to_expiry)
          && match min_days with
             | None => true
             | Some m => days_to_expiry <? m
             end)%Z
      then Some (Some (contract detail), Some days_to_expiry)
      else Some (active_contract, min_days)
    end
  end.

Definition get_active_contract (ib : IB) (now : instant) : option Future :=
  match reqContractDetails ib with
  | None => None
  | Some [] => None
  | Some details =>
    match fold_left (nearest now) details (Some (None, None)) with
    | None => None
    | Some (active_contract, _) => active_contract
    end
  end.

End Methods.

Definition get_next_expiry (now : instant) : option (Z * string) :=
  let today := today now in
  let days_to_friday := ((4 - weekday today) mod 7)%Z in
  match date_plus_days today days_to_friday with
  | None => None
  | Some next_friday =>
    match (if ((weekday today =? 4)
               && ((15 <? now_hour now)
                   || ((now_hour now =? 15) && (15 <=? now_minute now))))%Z
           then date_plus_days next_friday 7
           else Some next_friday) with
    | None => None
    | Some next_friday =>
      let week_code :=
        if (7 <? days_to_friday)%Z
        then String (ascii_of_nat 66) EmptyString
        else String (ascii_of_nat 65) EmptyString in
      let trading_class := ("E1" ++ week_code)%string in
      Some (next_friday, trading_class)
    end
  end.

End ESContract.

Module ESOptionsManager.

(** [sorted(l)] on floats. *)
Fixpoint insort (x : R) (l : list R) : list R :=
  match l with
  | [] => [x]
  | y :: ys => if Rle_dec x y then x :: l else y :: insort x ys
  end.

Definition py_sorted (l : list R) : list R := fold_right insort [] l.

Definition get_trading_class_for_date (expiry_date : Z) : option string :=
  Some es_weeklies.get_weekly_trading_class.

Section Methods.
Variable strptime_Ymd : string -> option Z.

Definition get_available_strikes (ib : IB) (now : instant)
           (trading_class : string) (center_price : R) : option (list R) :=
  match ESContract.get_active_contract strptime_Ymd ib now with
  | None => None
  | Some contract =>
    match reqSecDefOptParams ib (conId contract) with
    | None => None
    | Some [] => None
    | Some chains =>
      match find (fun c => (tradingClass c =? trading_class)%string) chains with
      | None => None
      | Some chain =>
        Some (py_sorted (filter (fun s => Rleb (Rabs (s - center_price)) 150)
                                (strikes chain)))
      end
    end
  end.

End Methods.

(** [FuturesOption(...)], the request [create_option_contracts] builds for
    one side of a strike. *)
Module FuturesOption.
Record t : Type := mk {
  symbol : string;
  lastTradeDateOrContractMonth : string;
  strike : R;
  right : string;
  exchange : string;
  currency : string;
  multiplier : string;
  tradingClass : string
}.
End FuturesOption.

(** [create_option_contracts(strikes, expiry, trading_class)];
    [qualifyContracts] is the list the gateway answers a request with,
    [None] when the call raises (the strike is logged and left out). *)
Definition create_option_contracts {Contract : Type}
           (qualifyContracts : FuturesOption.t -> option (list Contract))
           (strikes : list R) (expiry trading_class : string)
  : list (R * Contract * Contract) :=
  fold_left
    (fun contracts strike =>
       let call := FuturesOption.mk "ES" expiry strike "C" "CME" "USD" "50"
                                    trading_class in
       let put := FuturesOption.mk "ES" expiry strike "P" "CME" "USD" "50"
                                   trading_class in
       match qualifyContracts call with
       | None => contracts
       | Some qualified_call =>
         match qualifyContracts put with
         | None => contracts
         | Some qualified_put =>
           match qualified_call, qualified_put with
           | call0 :: _, put0 :: _ => contracts ++ [(strike, call0, put0)]
           | _, _ => contracts
           end
         end
       end)
    strikes [].

(** [get_current_es_price()]: [reqMktData] is the ticker the gateway
    hands out for the contract, [cancelMktData] whether the cancellation
    returns; [None] is a call that raises.  Every exception ends in the
    [except] branch, which returns [None] as well. *)
Definition get_current_es_price
           (strptime_Ymd : string -> option Z) (ib : IB) (now : instant)
           (reqMktData : Future -> option utils.Ticker)
           (cancelMktData : Future -> option unit) : option pyfloat :=
  match ESContract.get_active_contract strptime_Ymd ib now with
  | None => None
  | Some contract =>
    match reqMktData contract with
    | None => None
    | Some ticker =>
      let price :=
        if py_truthy (utils.last ticker) then Ok (utils.last ticker)
        else if py_truthy (utils.bid ticker) && py_truthy (utils.ask ticker) then
          let* mid := py_mid (utils.bid ticker) (utils.ask ticker) in Ok (Some mid)
        else Ok None in
      match price with
      | Raise _ => None
      | Ok price =>
        match cancelMktData contract with
        | None => None
        | Some _ => price
        end
      end
    end
  end.

End ESOptionsManager.

(** * Vocabulary of the properties *)

(** A transform that is defined everywhere and strictly decreasing. *)
Definition decreasing (f : R -> result R) : Prop :=
  forall p q, p < q -> exists yp yq, f p = Ok yp /\ f q = Ok yq /\ yq < yp.

(** |delta| of a ticker with greeks: [abs(delta) if delta else 0.0]. *)
Definition abs_delta (greeks_delta : option R) : R :=
  match greeks_delta with
  | Some d => Rabs d
  | None => 0
  end.

(** The open interest [UnifiedChart] reads, by the side of the option. *)
Definition side_open_interest (ticker : Ticker) : R :=
  if (right ticker =? "C")%string
  then attr_or 0 (callOpenInterest ticker)
  else attr_or 0 (putOpenInterest ticker).

(** The call of the spec's worked example: delta 0.4, open interest 1000,
    volume 500. *)
Definition sample_call : Ticker :=
  {| modelGreeks := Some (Some 0.4); volume := Some 500;
     openInterest := Some 1000; callOpenInterest := Some 1000;
     putOpenInterest := None; right := "C" |}.

(** [frames f m]: the method [m] leaves the observation [f] of [self] as
    it was, whether it returns or raises. *)
Definition frames {Self A D : Type} (f : Self -> D) (m : M Self A) : Prop :=
  forall s, f (snd (m s)) = f s.

(** [triple P m Q]: from a state where [P] holds, the method [m] returns
    (it does not raise) a value and a state that satisfy [Q]. *)
Definition triple {Self A : Type} (P : Self -> Prop) (m : M Self A)
           (Q : A -> Self -> Prop) : Prop :=
  forall s, P s -> exists a, fst (m s) = Ok a /\ Q a (snd (m s)).

(** [total m]: the method [m] returns, from every state. *)
Definition total {Self A : Type} (m : M Self A) : Prop :=
  forall s, exists a, fst (m s) = Ok a.

(** The items a trace created, in order, whatever became of them. *)
Definition created_items (log : list command) : list item :=
  flat_map (fun c => match c with Create _ it => [it] | _ => [] end) log.

Definition created {Self : Type} `{TkCanvas Self} (s : Self) : list item :=
  created_items (Canvas.log (canvas s)).

(** What a [UnifiedChart] holds besides its trace of canvas calls and the
    ids in [grid_lines]: the cached feeds, the viewport, the gesture in
    progress and the size of the widget. *)
Definition unified_data (s : UnifiedChart.t) :=
  (UnifiedChart.price_history s, UnifiedChart.current_bid s,
   UnifiedChart.current_ask s, UnifiedChart.options_data s,
   UnifiedChart.max_exposure s, UnifiedChart.exposure_type s,
   UnifiedChart.price_scale s, UnifiedChart.vertical_zoom s,
   UnifiedChart.horizontal_zoom s, UnifiedChart.price_offset s,
   UnifiedChart.zoom_start s, UnifiedChart.drag_start s,
   Canvas.width (UnifiedChart.tk s), Canvas.height (UnifiedChart.tk s)).

(** The gesture events Tk delivers to a [UnifiedChart], with the handler
    [__init__] binds to each. *)
Inductive gesture : Type :=
| StartDrag (e : UnifiedChart.event)     (* <Button-1> *)
| HandleDrag (e : UnifiedChart.event)    (* <B1-Motion> *)
| EndDrag (e : UnifiedChart.event)       (* <ButtonRelease-1> *)
| StartZoom (e : UnifiedChart.event)     (* <Control-Button-1> *)
| HandleZoom (e : UnifiedChart.event)    (* <Control-B1-Motion> *)
| EndZoom (e : UnifiedChart.event).      (* <Control-ButtonRelease-1> *)

Definition handler (g : gesture) : M UnifiedChart.t unit :=
  match g with
  | StartDrag e => UnifiedChart.start_drag e
  | HandleDrag e => UnifiedChart.handle_drag e
  | EndDrag e => UnifiedChart.end_drag e
  | StartZoom e => UnifiedChart.start_zoom e
  | HandleZoom e => UnifiedChart.handle_zoom e
  | EndZoom e => UnifiedChart.end_zoom e
  end.

(** The chart after the handlers of a sequence of events have run, one
    after the other.  An exception in a handler is reported by Tk's event
    loop, which goes on with the chart as the handler left it. *)
Definition after_gestures (gs : list gesture) (s : UnifiedChart.t)
  : UnifiedChart.t :=
  fold_left (fun s g => snd (handler g s)) gs s.

Definition is_handle_drag (g : gesture) : Prop :=
  match g with
  | HandleDrag _ => True
  | _ => False
  end.

(** [max(0.1, min(10.0, z))]. *)
Definition clamp_zoom (z : R) : R := Rmax 0.1 (Rmin 10.0 z).

(** The least and the greatest element of a list of prices. *)
Definition is_minimum (m : R) (l : list R) : Prop :=
  In m l /\ forall p, In p l -> m <= p.

Definition is_maximum (m : R) (l : list R) : Prop :=
  In m l /\ forall p, In p l -> p <= m.

(** A sample of the data model: a quote with both [bid] and [ask], or a
    bar without [bid] that has a [close]. *)
Definition quote_or_trade (bar : Bar) : Prop :=
  (exists b a, bid bar = Some b /\ ask bar = Some a)
  \/ (bid bar = None /\ exists c, close bar = Some c).

(** What a [PriceChart] and an [OptionsChart] hold besides the trace of
    canvas calls and the ids of the items they track. *)
Definition price_chart_data (s : PriceChart.t) :=
  (PriceChart.price_scale s, PriceChart.vertical_zoom s,
   PriceChart.price_offset s, PriceChart.price_history s,
   PriceChart.current_bid s, PriceChart.current_ask s,
   Canvas.width (PriceChart.tk s), Canvas.height (PriceChart.tk s)).

Definition options_chart_data (s : OptionsChart.t) :=
  (OptionsChart.current_data s, OptionsChart.current_max s,
   OptionsChart.current_spot s, OptionsChart.exposure_type s,
   OptionsChart.historical_bars s, OptionsChart.price_scale s,
   OptionsChart.vertical_zoom s, OptionsChart.price_offset s,
   Canvas.width (OptionsChart.tk s), Canvas.height (OptionsChart.tk s)).

(** Sample bars: a quote and a trade at a given time. *)
Definition quote (d : datetime) (b a : R) : Bar :=
  {| date := d; bid := Some b; ask := Some a; close := None |}.

Definition trade (d : datetime) (c : R) : Bar :=
  {| date := d; bid := None; ask := None; close := Some c |}.

Definition at_time (h m sec : nat) : datetime :=
  {| hour := h; minute := m; second := sec |}.

(** A short history: a quote, then a trade. *)
Definition sample_history : list Bar :=
  [quote (at_time 9 30 0) 100 110; trade (at_time 9 31 0) 105].

(** The label [UnifiedChart._draw_time_axis] draws for the bar at index
    [i] of [count] visible bars. *)
Definition unified_time_label (s : UnifiedChart.t) (count i : nat) (bar : Bar)
  : item :=
  text (UnifiedChart.margin_left
        + (IZR (Canvas.width (UnifiedChart.tk s)) - UnifiedChart.margin_left
           - UnifiedChart.margin_right - UnifiedChart.strike_margin)
          * INR i / INR count)
       (IZR (Canvas.height (UnifiedChart.tk s)) - UnifiedChart.margin_bottom + 20)
       (Literal (strftime_HMS (date bar))) "n" "black".

(** The indices [range(0, count, max(1, count // 4))] of the labelled bars. *)
Definition time_label_indices (count : nat) : list nat :=
  range_step 0 count (Nat.max 1 (count / 4)).

(** The transform of a [UnifiedChart] has a non-zero divisor: the chart
    has no scale yet (and [_price_to_y] is 0), or the scale bounds differ
    and the zoom is not 0. *)
Definition transform_defined (s : UnifiedChart.t) : Prop :=
  match UnifiedChart.price_scale s with
  | None => True
  | Some (lo, hi) => (hi - lo) * UnifiedChart.vertical_zoom s <> 0
  end.

(** The current-price line of a [UnifiedChart] at height [y]. *)
Definition unified_price_line (s : UnifiedChart.t) (y : R) : item :=
  line [UnifiedChart.margin_left; y;
        IZR (Canvas.width (UnifiedChart.tk s)) - UnifiedChart.margin_right
        - UnifiedChart.strike_margin; y]
       "blue" (Some (4, 4)%Z) false.

(** The last bar of a history after a live quote: [bid] and [ask] are the
    new ones, the time and the close are kept. *)
Definition with_quote (bid ask : R) (bar : Bar) : Bar :=
  {| date := date bar; bid := Some bid; ask := Some ask; close := close bar |}.

(** The current-price line of an [OptionsChart] at height [y]. *)
Definition options_price_line (o : OptionsChart.t) (y : R) : item :=
  line [0; y; IZR (Canvas.width (OptionsChart.tk o)) - OptionsChart.margin_right; y]
       "blue" (Some (4, 4)%Z) false.

(** A [UnifiedChart] and a [ChartManager] that hold one quote, 5000/5001
    at 09:30:00, on a scale around it. *)
Definition live_history : list Bar := [quote (at_time 9 30 0) 5000 5001].

Definition live_chart : UnifiedChart.t :=
  UnifiedChart.set_price_scale
    (Some (4990, 5010))
    (UnifiedChart.set_price_history live_history (UnifiedChart.__init__ 1400 750)).

Definition live_manager : ChartManager.t :=
  ChartManager.set_historical_bars
    live_history
    (ChartManager.__init__
       (OptionsChart.set_price_scale
          (Some 5010)
          (OptionsChart.set_historical_bars live_history
                                            (OptionsChart.__init__ 1400 750)))).

(** The length of every exposure bar a trace drew: a bar is a rectangle
    from the axis at [x0] to [x1 = x0 - width], so its length is
    [x0 - x1]. *)
Definition bar_lengths (its : list item) : list R :=
  flat_map (fun it => match it with
                      | rectangle x0 _ x1 _ _ => [x0 - x1]
                      | _ => []
                      end) its.

Definition drawn_bars {Self : Type} `{TkCanvas Self} (s : Self) : list R :=
  bar_lengths (created s).

(** The exposures that get a bar, in drawing order: for every row the
    call's and then the put's, when positive. *)
Definition drawn_exposures (exposures : list (R * R * R)) : list R :=
  flat_map (fun '(_, call_exp, put_exp) =>
              (if Rltb 0 call_exp then [call_exp] else [])
              ++ (if Rltb 0 put_exp then [put_exp] else []))
           exposures.

(** What [OptionsChart.draw_delta_chart] reads and never writes after it
    has stored its arguments. *)
Definition options_view (s : OptionsChart.t) :=
  (OptionsChart.current_spot s, OptionsChart.exposure_type s,
   OptionsChart.vertical_zoom s, OptionsChart.price_offset s,
   Canvas.width (OptionsChart.tk s), Canvas.height (OptionsChart.tk s)).

(** The chart once [draw_delta_chart] has stored its arguments. *)
Definition options_stored (data : list OptionRow) (max_exposure spot_price : option R)
           (exposure_type : option string) (o : OptionsChart.t) : OptionsChart.t :=
  let o0 := OptionsChart.set_current_spot
              spot_price
              (OptionsChart.set_current_max
                 max_exposure (OptionsChart.set_current_data data o)) in
  match exposure_type with
  | Some e => if negb (e =? EmptyString)%string
              then OptionsChart.set_exposure_type e o0 else o0
  | None => o0
  end.

(** Options rows: the spec's sample call alone on its strike; a call whose
    delta exposure is 0.01 * 1 * 50 = 0.5; a strike without tickers. *)
Definition sample_rows : list OptionRow := [(5000, Some sample_call, None)].

Definition small_call : Ticker :=
  {| modelGreeks := Some (Some 0.01); volume := Some 0;
     openInterest := Some 1; callOpenInterest := Some 1;
     putOpenInterest := None; right := "C" |}.

Definition small_rows : list OptionRow := [(5000, Some small_call, None)].

Definition empty_rows : list OptionRow := [(5000, None, None)].

(** A [UnifiedChart] with the sample call cached and the spot at 5000. *)
Definition priced_chart : UnifiedChart.t :=
  UnifiedChart.set_options_data
    sample_rows
    (UnifiedChart.set_max_exposure
       (Some 1000)
       (UnifiedChart.set_current_bid (Some 5000) (UnifiedChart.__init__ 1400 750))).

(** A history whose prices are all the same: one quote with bid = ask. *)
Definition flat_history : list Bar := [quote (at_time 9 30 0) 5000 5000].


(** The [event.y] of the last of a run of motion events that started at
    [y0]. *)
Definition last_y (y0 : Z) (es : list UnifiedChart.event) : Z :=
  fold_left (fun _ e => UnifiedChart.event_y e) es y0.

(** A button press in the plot area of a [UnifiedChart]: left of the
    price scale and not below the time axis. *)
Definition in_plot_area (s : UnifiedChart.t) (e : UnifiedChart.event) : Prop :=
  UnifiedChart.margin_right + UnifiedChart.strike_margin
  < IZR (Canvas.width (UnifiedChart.tk s)) - IZR (UnifiedChart.event_x e)
  /\ IZR (UnifiedChart.event_y e)
     <= IZR (Canvas.height (UnifiedChart.tk s)) - UnifiedChart.margin_bottom.

(** An event that starts no gesture on [s]: a motion, a release, or a
    press in the plot area. *)
Definition starts_nothing (s : UnifiedChart.t) (g : gesture) : Prop :=
  match g with
  | StartDrag e | StartZoom e => in_plot_area s e
  | _ => True
  end.

(** The kinds of canvas calls of a trace. *)
Definition is_create (c : command) : Prop :=
  match c with Create _ _ => True | _ => False end.

Definition is_delete (c : command) : Prop :=
  match c with Delete _ => True | _ => False end.

(** [appends P m]: whether it returns or raises, the method [m] only adds
    canvas calls of kind [P] to the trace.  [appends_then P Q m]: it adds
    calls of kind [P], and after them calls of kind [Q]. *)
Definition appends {Self A : Type} `{TkCanvas Self} (P : command -> Prop)
           (m : M Self A) : Prop :=
  forall s, exists cs,
    Canvas.log (canvas (snd (m s))) = Canvas.log (canvas s) ++ cs /\ Forall P cs.

Definition appends_then {Self A : Type} `{TkCanvas Self} (P Q : command -> Prop)
           (m : M Self A) : Prop :=
  forall s, exists ds cs,
    Canvas.log (canvas (snd (m s))) = Canvas.log (canvas s) ++ ds ++ cs
    /\ Forall P ds /\ Forall Q cs.

(** The items a canvas shows, bottom to top. *)
Definition displayed {Self : Type} `{TkCanvas Self} (s : Self) : list item :=
  map snd (Canvas.items (canvas s)).

(** The grid [UnifiedChart._draw_empty_grid] draws on a widget of the size
    of [s]: five dashed lines from the top margin down to the time axis,
    then the time axis and the price axis. *)
Definition unified_grid_y (s : UnifiedChart.t) (i : nat) : R :=
  UnifiedChart.margin_top
  + INR i * (IZR (Canvas.height (UnifiedChart.tk s)) - UnifiedChart.margin_top
             - UnifiedChart.margin_bottom) / 4.

Definition unified_axis_x (s : UnifiedChart.t) : R :=
  UnifiedChart.margin_left
  + (IZR (Canvas.width (UnifiedChart.tk s)) - UnifiedChart.margin_left
     - UnifiedChart.margin_right - UnifiedChart.strike_margin).

Definition unified_grid (s : UnifiedChart.t) : list item :=
  map (fun i => line [UnifiedChart.margin_left; unified_grid_y s i;
                      unified_axis_x s; unified_grid_y s i]
                     "lightgray" (Some (2, 2)%Z) false)
      (seq 0 5)
  ++ [line [UnifiedChart.margin_left;
            IZR (Canvas.height (UnifiedChart.tk s)) - UnifiedChart.margin_bottom;
            unified_axis_x s;
            IZR (Canvas.height (UnifiedChart.tk s)) - UnifiedChart.margin_bottom]
           "black" None false;
      line [unified_axis_x s; UnifiedChart.margin_top;
            unified_axis_x s;
            IZR (Canvas.height (UnifiedChart.tk s)) - UnifiedChart.margin_bottom]
           "black" None false].

(** A bar that contributes no price: it lacks [bid] or [ask], and has no
    [close] either. *)
Definition unpriced (bar : Bar) : Prop :=
  (bid bar = None \/ ask bar = None) /\ close bar = None.

(** The bounds of the price axis of a [UnifiedChart] with scale
    [(lo, hi)], after zoom and drag. *)
Definition unified_axis_bounds (s : UnifiedChart.t) (lo hi : R) : R * R :=
  ((hi + lo) / 2 - (hi - lo) * UnifiedChart.vertical_zoom s / 2
   + UnifiedChart.price_offset s,
   (hi + lo) / 2 + (hi - lo) * UnifiedChart.vertical_zoom s / 2
   + UnifiedChart.price_offset s).

(** The price levels of a [UnifiedChart]: a dashed line and a label at
    each of the five heights of the grid, the label of level [i] reading
    the price a fraction [i / 4] down from the top bound. *)
Definition unified_scale_items (s : UnifiedChart.t) (bounds : R * R) : list item :=
  flat_map
    (fun i =>
       let price := snd bounds - INR i * (snd bounds - fst bounds) / 4 in
       [line [UnifiedChart.margin_left; unified_grid_y s i;
              IZR (Canvas.width (UnifiedChart.tk s)) - UnifiedChart.margin_right
              - UnifiedChart.strike_margin;
              unified_grid_y s i]
             "lightgray" (Some (2, 2)%Z) false;
        text (IZR (Canvas.width (UnifiedChart.tk s)) - UnifiedChart.margin_right
              - UnifiedChart.strike_margin + 25)
             (unified_grid_y s i)
             (Fixed "$" price 2 true) "w" "black"])
    (seq 0 5).

(** The price labels of an [OptionsChart] for a scale [y_scale]: label
    [i] is at height [i / 4] of the way down the plot and reads the price
    that far down from [y_scale], shifted by the drag offset. *)
Definition options_label_y (o : OptionsChart.t) (i : nat) : R :=
  INR i * (IZR (Canvas.height (OptionsChart.tk o)) - OptionsChart.margin_bottom) / 4.

Definition options_label_price (o : OptionsChart.t) (y_scale : R) (i : nat) : R :=
  y_scale - INR i * y_scale / 4
  + y_scale * OptionsChart.price_offset o / IZR (Canvas.height (OptionsChart.tk o)).

Definition options_scale_labels (o : OptionsChart.t) (y_scale : R) : list item :=
  flat_map
    (fun i =>
       [text (IZR (Canvas.width (OptionsChart.tk o)) - OptionsChart.margin_right + 50)
             (options_label_y o i)
             (Fixed "$" (options_label_price o y_scale i) 2 true) "w" "black"])
    (seq 0 5).

(** The price levels [BaseChart._draw_price_scale(lo, hi)] draws on a
    [PriceChart]: level [i] is at height [i / 4] of the way down the plot
    and reads the price that far down the zoomed axis. *)
Definition price_chart_level_y (c : PriceChart.t) (i : nat) : R :=
  PriceChart.margin_top
  + INR i * (IZR (Canvas.height (PriceChart.tk c)) - PriceChart.margin_top
             - PriceChart.margin_bottom) / 4.

Definition price_chart_level_price (c : PriceChart.t) (lo hi : R) (i : nat) : R :=
  let top := (hi + lo) / 2 + (hi - lo) * PriceChart.vertical_zoom c / 2
             + PriceChart.price_offset c in
  let bottom := (hi + lo) / 2 - (hi - lo) * PriceChart.vertical_zoom c / 2
                + PriceChart.price_offset c in
  top - INR i * (top - bottom) / 4.

Definition price_chart_levels (c : PriceChart.t) (lo hi : R) : list item :=
  flat_map
    (fun i =>
       [line [PriceChart.margin_left; price_chart_level_y c i;
              IZR (Canvas.width (PriceChart.tk c)) - PriceChart.margin_right;
              price_chart_level_y c i]
             "lightgray" (Some (2, 2)%Z) false;
        text (IZR (Canvas.width (PriceChart.tk c)) - PriceChart.margin_right + 50)
             (price_chart_level_y c i)
             (Fixed "$" (price_chart_level_price c lo hi i) 2 true) "w" "black"])
    (seq 0 5).

(** A canvas call that does not create a time label (a text whose content
    is a formatted time). *)
Definition no_time_label (c : command) : Prop :=
  match c with
  | Create _ (text _ _ (Literal _) _ _) => False
  | _ => True
  end.

(** The time label an [OptionsChart] draws for the bar at index [i] of
    [count] bars. *)
Definition options_time_label (o : OptionsChart.t) (count i : nat) (bar : Bar)
  : item :=
  text (OptionsChart.margin_left
        + (IZR (Canvas.width (OptionsChart.tk o)) - OptionsChart.margin_left
           - OptionsChart.margin_right) * INR i / (INR count - 1))
       (IZR (Canvas.height (OptionsChart.tk o)) - OptionsChart.margin_bottom + 20)
       (Literal (strftime_HMS (date bar))) "n" "black".

(** A ticker slot that yields no exposure because it has no model greeks
    (yet): no ticker at all, or a ticker whose [modelGreeks] is absent or
    [None]. *)
Definition no_greeks (ticker : option Ticker) : Prop :=
  match ticker with
  | None => True
  | Some t => modelGreeks t = None
  end.

Definition row_without_greeks (row : OptionRow) : Prop :=
  let '(_, call_ticker, put_ticker) := row in
  no_greeks call_ticker /\ no_greeks put_ticker.

(** The exposures of a row as the processor computes them. *)
Definition processed_exposures (p : OptionsDataProcessor.t) (exposure_type : string)
           (row : OptionRow) : R * R * R :=
  let '(strike, call_ticker, put_ticker) := row in
  (strike,
   OptionsDataProcessor.calculate_exposure p call_ticker exposure_type,
   OptionsDataProcessor.calculate_exposure p put_ticker exposure_type).

(** A Friday afternoon from 15:15 on: the cutoff of
    [ESContract.get_next_expiry]. *)
Definition after_friday_cutoff (now : instant) : Prop :=
  weekday (today now) = 4%Z
  /\ ((15 < now_hour now)%Z
      \/ (now_hour now = 15%Z /\ (15 <= now_minute now)%Z)).

(** [friday] is the first Friday on or after [day]. *)
Definition coming_friday (day friday : Z) : Prop :=
  weekday friday = 4%Z
  /\ (day <= friday <= day + 6)%Z
  /\ forall d, (day <= d < friday)%Z -> weekday d <> 4%Z.

(** The whole days from [now] to the expiry of a contract, when its
    expiry date parses. *)
Definition days_to_expiry (strptime_Ymd : string -> option Z) (now : instant)
           (detail : ContractDetails) : option Z :=
  match strptime_Ymd (lastTradeDateOrContractMonth (contract detail)) with
  | Some expiry => Some (days_until expiry now)
  | None => None
  end.

(** A list of floats in ascending order. *)
Fixpoint ascending (l : list R) : Prop :=
  match l with
  | [] => True
  | x :: rest => (forall y, In y rest -> x <= y) /\ ascending rest
  end.

(** A gateway that lists the December 2024 and the March 2025 future and
    one option chain of class E1B; a parser that knows their expiries
    (2024-12-20 is day 739240, 2025-03-21 is day 739331); a clock on
    2024-11-05 at 16:00. *)
Definition sample_strptime (s : string) : option Z :=
  if (s =? "20250321")%string then Some 739331%Z
  else if (s =? "20241220")%string then Some 739240%Z
  else None.

Definition sample_details : list ContractDetails :=
  [{| contract := {| conId := 2; lastTradeDateOrContractMonth := "20250321" |} |};
   {| contract := {| conId := 1; lastTradeDateOrContractMonth := "20241220" |} |}].

Definition sample_ib : IB :=
  {| reqContractDetails := Some sample_details;
     reqSecDefOptParams :=
       fun _ => Some [{| tradingClass := "E1B";
                         strikes := [6000; 5100; 5000; 5900; 5150] |}] |}.

Definition sample_now : instant :=
  {| today := 739195; microseconds := 57600000000 |}.

(** The y of a price on a [UnifiedChart] (0 where the transform raises). *)
Definition unified_y (s : UnifiedChart.t) (price : R) : R :=
  match UnifiedChart._price_to_y s price with
  | Ok y => y
  | Raise _ => 0
  end.

(** What a [UnifiedChart] draws for one options row with exposures
    [(strike, call_exp, put_exp)]: from the strike axis leftwards, the
    call bar above the y of the strike and the put bar below it, each
    drawn when the exposure is positive, and the strike label. *)
Definition unified_row_items (s : UnifiedChart.t) (thickness max_exp : R)
           (row : R * R * R) : list item :=
  let '(strike, call_exp, put_exp) := row in
  let width := IZR (Canvas.width (UnifiedChart.tk s)) in
  let y := unified_y s strike in
  let axis := width - UnifiedChart.margin_right - UnifiedChart.strike_margin in
  let span := width - UnifiedChart.margin_left - UnifiedChart.margin_right
              - UnifiedChart.strike_margin in
  (if Rltb 0 call_exp
   then [rectangle axis (y - thickness) (axis - call_exp / max_exp * span) y
                   "#90EE90"]
   else [])
  ++ (if Rltb 0 put_exp
      then [rectangle axis y (axis - put_exp / max_exp * span) (y + thickness)
                      "#FFB6C6"]
      else [])
  ++ [text (width - UnifiedChart.margin_right + 10) y (Str strike) "w" "black"].

(** The marks of the exposure scale of an [OptionsChart]: the label that
    reads [v] is [v / max_exp] of the span left of the strike axis. *)
Definition options_exposure_marks (o : OptionsChart.t) (max_exp : R) : list item :=
  map (fun v =>
         text (IZR (Canvas.width (OptionsChart.tk o)) - OptionsChart.margin_right
               - v / max_exp
                 * (IZR (Canvas.width (OptionsChart.tk o))
                    - OptionsChart.margin_right - 50))
              (IZR (Canvas.height (OptionsChart.tk o)) - OptionsChart.margin_bottom
               + 10)
              (Fixed EmptyString v 0 true) "n" "black")
      [0; max_exp / 4; max_exp / 2; 3 * max_exp / 4; max_exp].

(** The x of bar [i] out of [count] visible bars on a [UnifiedChart]. *)
Definition unified_bar_x (s : UnifiedChart.t) (count i : nat) : R :=
  UnifiedChart.margin_left
  + (IZR (Canvas.width (UnifiedChart.tk s)) - UnifiedChart.margin_left
     - UnifiedChart.margin_right - UnifiedChart.strike_margin)
    * INR i / INR count.

(** The price a bar puts on the bid line and on the ask line: its quote
    when it has both sides, else its close on both. *)
Definition bid_side (bar : Bar) : R :=
  match bid bar, ask bar with
  | Some b, Some _ => b
  | _, _ => match close bar with Some c => c | None => 0 end
  end.

Definition ask_side (bar : Bar) : R :=
  match bid bar, ask bar with
  | Some _, Some a => a
  | _, _ => match close bar with Some c => c | None => 0 end
  end.

(** The coordinates of a history line of a [UnifiedChart]: x and y of
    every visible bar, oldest first. *)
Definition unified_history_points (s : UnifiedChart.t) (side : Bar -> R)
           (visible : list Bar) : list R :=
  flat_map (fun '(i, bar) =>
              [unified_bar_x s (length visible) i; unified_y s (side bar)])
           (enumerate visible).

(** The bid line and the ask line, drawn once two bars are visible. *)
Definition unified_history_lines (s : UnifiedChart.t) (visible : list Bar)
  : list item :=
  if (2 <=? length visible)%nat
  then [line (unified_history_points s bid_side visible) "red" None true;
        line (unified_history_points s ask_side visible) "green" None true]
  else [].

(** The labels of the cached quote, drawn when both sides are non-zero. *)
Definition unified_quote_labels (s : UnifiedChart.t) : list item :=
  match UnifiedChart.current_bid s, UnifiedChart.current_ask s with
  | Some b, Some a =>
    if truthy b && truthy a
    then [text (IZR (Canvas.width (UnifiedChart.tk s)) - UnifiedChart.margin_right
                - UnifiedChart.strike_margin + 5)
               (unified_y s b) (Fixed "Bid: $" b 2 false) "w" "red";
          text (IZR (Canvas.width (UnifiedChart.tk s)) - UnifiedChart.margin_right
                - UnifiedChart.strike_margin + 5)
               (unified_y s a) (Fixed "Ask: $" a 2 false) "w" "green"]
    else []
  | _, _ => []
  end.

(** The time labels below the visible bars. *)
Definition unified_time_labels (s : UnifiedChart.t) (visible : list Bar)
  : list item :=
  flat_map (fun i => match nth_error visible i with
                     | Some bar => [unified_time_label s (length visible) i bar]
                     | None => []
                     end)
           (time_label_indices (length visible)).

(** The calls a [MarketMonitor] makes on its window, and the event of the
    exposure dropdown. *)
Inductive window_call : Type :=
| OnExposureChanged
| UpdateConnectionStatus (connected : bool) (error_msg : option string)
| SetRefreshState (is_refreshing : bool)
| UpdateChart (delta_data : list OptionRow) (max_exposure spot_price : option R)
| UpdatePrices (bid ask : R)
| UpdateHistory (bars : list Bar).

Definition window_method (c : window_call) : M ESOptionsWindow.t unit :=
  match c with
  | OnExposureChanged => ESOptionsWindow._on_exposure_changed
  | UpdateConnectionStatus connected error_msg =>
    ESOptionsWindow.update_connection_status connected error_msg
  | SetRefreshState is_refreshing => ESOptionsWindow.set_refresh_state is_refreshing
  | UpdateChart delta_data max_exposure spot_price =>
    ESOptionsWindow.update_chart delta_data max_exposure spot_price
  | UpdatePrices bid ask => ESOptionsWindow.update_prices bid ask
  | UpdateHistory bars => ESOptionsWindow.update_history bars
  end.

(** The window after a run of calls, each of which returned or raised. *)
Definition window_after (calls : list window_call) (w : ESOptionsWindow.t)
  : ESOptionsWindow.t :=
  fold_left (fun w c => snd (window_method c w)) calls w.

(** Exactly one of the two refresh buttons is enabled, and the connect
    button offers to disconnect exactly when the status label reads
    Connected (in green; every other status is red). *)
Definition controls_consistent (w : ESOptionsWindow.t) : Prop :=
  ((ESOptionsWindow.refresh_btn w = "normal"%string
    /\ ESOptionsWindow.cancel_btn w = "disabled"%string)
   \/ (ESOptionsWindow.refresh_btn w = "disabled"%string
       /\ ESOptionsWindow.cancel_btn w = "normal"%string))
  /\ ((ESOptionsWindow.connect_btn w = "Disconnect"%string
       /\ ESOptionsWindow.conn_status w = ("Connected"%string, "green"%string))
      \/ (ESOptionsWindow.connect_btn w = "Connect"%string
          /\ fst (ESOptionsWindow.conn_status w) <> "Connected"%string
          /\ snd (ESOptionsWindow.conn_status w) = "red"%string)).

(** The widgets of the control panel. *)
Definition controls (w : ESOptionsWindow.t) :=
  (ESOptionsWindow.exposure_type w, ESOptionsWindow.refresh_btn w,
   ESOptionsWindow.cancel_btn w, ESOptionsWindow.connect_btn w,
   ESOptionsWindow.conn_status w).

(** The calls that only reach the chart. *)
Definition chart_call (c : window_call) : bool :=
  match c with
  | OnExposureChanged | UpdateChart _ _ _ | UpdatePrices _ _ | UpdateHistory _ => true
  | UpdateConnectionStatus _ _ | SetRefreshState _ => false
  end.

(** Both sides of a strike qualify: the gateway answers the request for
    the call and the request for the put with a non-empty list. *)
Definition qualifies {Contract : Type}
           (qualifyContracts : ESOptionsManager.FuturesOption.t -> option (list Contract))
           (expiry trading_class : string) (strike : R) : bool :=
  match qualifyContracts
          (ESOptionsManager.FuturesOption.mk "ES" expiry strike "C" "CME" "USD" "50"
                                             trading_class),
        qualifyContracts
          (ESOptionsManager.FuturesOption.mk "ES" expiry strike "P" "CME" "USD" "50"
                                             trading_class) with
  | Some (_ :: _), Some (_ :: _) => true
  | _, _ => false
  end.

(** The strike of a row [(strike, call, put)]. *)
Definition row_strike {A B : Type} (row : R * A * B) : R := fst (fst row).

(** The two tickers of a row, call first. *)
Definition row_tickers (row : OptionRow) : list (option Ticker) :=
  [snd (fst row); snd row].

(** A gateway that qualifies every request but those for strike 5100, by
    the name of the contract, and has no data for any ticker. *)
Definition sample_qualify (o : ESOptionsManager.FuturesOption.t) : option (list string) :=
  if Req_dec_T (ESOptionsManager.FuturesOption.strike o) 5100 then Some []
  else Some [ESOptionsManager.FuturesOption.right o].

Definition sample_reqMktData (c : string) (ticks : string) : option Ticker := None.

(** [hoare P m Q E]: from a state that satisfies [P], the method [m]
    returns [a] in a state that satisfies [Q a], or raises in a state that
    satisfies [E]. *)
Definition hoare {Self A : Type} (P : Self -> Prop) (m : M Self A)
           (Q : A -> Self -> Prop) (E : Self -> Prop) : Prop :=
  forall s, P s ->
            match fst (m s) with
            | Ok a => Q a (snd (m s))
            | Raise _ => E (snd (m s))
            end.

(** A dashed light-gray line: a level of the price scale. *)
Definition is_level_line (it : item) : bool :=
  match it with
  | line _ fill (Some _) _ => (fill =? "lightgray")%string
  | _ => false
  end.

Definition level_lines_of (shown : list (nat * item)) : list (nat * item) :=
  filter (fun p => is_level_line (snd p)) shown.

(** The number of level lines a chart shows. *)
Definition level_lines {Self : Type} `{TkCanvas Self} (s : Self) : nat :=
  length (level_lines_of (Canvas.items (canvas s))).

(** The canvas numbers a new item above every item on display. *)
Definition canvas_fresh (c : Canvas.t) : Prop :=
  forall id it, In (id, it) (Canvas.items c) -> (id < Canvas.next_id c)%nat.

(** The ids a [PriceChart] keeps to delete their items later. *)
Definition price_chart_tracked (s : PriceChart.t) : list nat :=
  PriceChart.price_labels s ++ PriceChart.time_labels s ++ PriceChart.price_lines s
  ++ match PriceChart.current_price_line s with
     | Some l => [l]
     | None => []
     end.

(** The ids a [PriceChart] keeps were handed out by its canvas, and none
    is the id of a level line on display. *)
Definition price_chart_tracks_no_level (s : PriceChart.t) : Prop :=
  forall id, In id (price_chart_tracked s) ->
             (id < Canvas.next_id (PriceChart.tk s))%nat
             /\ ~ In id (map fst (level_lines_of (Canvas.items (PriceChart.tk s)))).

(** The invariant of a [PriceChart] that shows [c] level lines. *)
Definition keeps_levels (c : nat) (s : PriceChart.t) : Prop :=
  canvas_fresh (PriceChart.tk s) /\ price_chart_tracks_no_level s
  /\ level_lines s = c.

(** The chart after [n] calls of [redraw], each of which returned or
    raised. *)
Definition redraws (n : nat) (s : PriceChart.t) : PriceChart.t :=
  Nat.iter n (fun s => snd (PriceChart.redraw s)) s.

(** A fresh [PriceChart] with one bar of history and its scale. *)
Definition sample_price_chart : PriceChart.t :=
  PriceChart.set_price_scale
    (Some (4990, 5010))
    (PriceChart.set_price_history live_history (PriceChart.__init__ 1400 750)).

(** A ticker before any data arrived: every price field is [nan]; and one
    with a quote but no trade yet. *)
Definition quoted_ticker : utils.Ticker :=
  {| utils.last := Some NaN; utils.bid := Some (Float 5000);
     utils.ask := Some (Float 5001); utils.close := Some (Float 4990) |}.

Definition sample_reqFuture (c : Future) : option utils.Ticker := Some quoted_ticker.

Definition sample_cancel (c : Future) : option unit := Some tt.

(** * Properties *)

(** ** The Python primitives *)

Lemma py_div_ok (a b : R) : b <> 0 -> py_div a b = Ok (a / b).
Proof.
  intros Hb. unfold py_div. destruct (Req_dec_T b 0) as [E | _]; [contradiction | reflexivity].
Qed.

Lemma py_div_by_zero (a b : R) : b = 0 -> py_div a b = Raise ZeroDivisionError.
Proof.
  intros Hb. unfold py_div. destruct (Req_dec_T b 0) as [_ | N]; [reflexivity | contradiction].
Qed.

Lemma truthy_nonzero (x : R) : x <> 0 -> truthy x = true.
Proof.
  intros Hx. unfold truthy. destruct (Req_dec_T x 0); [contradiction | reflexivity].
Qed.

Lemma truthy_zero : truthy 0 = false.
Proof.
  unfold truthy. destruct (Req_dec_T 0 0) as [_ | N]; [reflexivity | now elim N].
Qed.

Lemma truthy_true_iff (x : R) : truthy x = true <-> x <> 0.
Proof.
  unfold truthy. destruct (Req_dec_T x 0); split; intros; congruence.
Qed.

Lemma Rltb_true_iff (a b : R) : Rltb a b = true <-> a < b.
Proof.
  unfold Rltb. destruct (Rlt_dec a b); split; intros; congruence.
Qed.

Lemma Rltb_false_iff (a b : R) : Rltb a b = false <-> b <= a.
Proof.
  unfold Rltb. destruct (Rlt_dec a b); split; intros; try congruence; lra.
Qed.

Lemma Rleb_true_iff (a b : R) : Rleb a b = true <-> a <= b.
Proof.
  unfold Rleb. destruct (Rle_dec a b); split; intros; congruence.
Qed.

Lemma Rleb_false_iff (a b : R) : Rleb a b = false <-> b < a.
Proof.
  unfold Rleb. destruct (Rle_dec a b); split; intros; try congruence; lra.
Qed.

(** ** The price-to-y transform *)

Section UnifiedTransform.
Import UnifiedChart.
Variables (self : t) (lo hi : R).
Hypothesis scale : price_scale self = Some (lo, hi).

Lemma unified_price_to_y_eq (price : R) :
  (hi - lo) * vertical_zoom self <> 0 ->
  _price_to_y self price =
  Ok (margin_top
      + ((hi + lo) / 2 + (hi - lo) * vertical_zoom self / 2 + price_offset self - price)
        * (IZR (Canvas.height (tk self)) - margin_top - margin_bottom)
        / ((hi - lo) * vertical_zoom self)).
Proof.
  intros Hnz. unfold _price_to_y. rewrite scale. cbv zeta.
  assert (Hv : vertical_zoom self <> 0) by (intros E; apply Hnz; rewrite E; ring).
  assert (Hr : hi - lo <> 0) by (intros E; apply Hnz; rewrite E; ring).
  rewrite py_div_ok by lra. cbn [rbind]. f_equal. f_equal. field.
  repeat split; try assumption. lra.
Qed.

Lemma unified_price_to_y_degenerate (price : R) :
  (hi - lo) * vertical_zoom self = 0 ->
  _price_to_y self price = Raise ZeroDivisionError.
Proof.
  intros Hz. unfold _price_to_y. rewrite scale. cbv zeta.
  rewrite py_div_by_zero by lra. reflexivity.
Qed.

End UnifiedTransform.

Section PriceChartTransform.
Import PriceChart.
Variables (self : t) (lo hi : R).
Hypothesis scale : price_scale self = Some (lo, hi).

Lemma price_chart_price_to_y_eq (price : R) :
  hi - lo <> 0 ->
  _price_to_y self price =
  Ok (margin_top
      + (1 - (price - lo) / (hi - lo))
        * (IZR (Canvas.height (tk self)) - margin_top - margin_bottom)).
Proof.
  intros Hnz. unfold _price_to_y. rewrite scale. cbv zeta.
  rewrite py_div_ok by exact Hnz. reflexivity.
Qed.

Lemma price_chart_price_to_y_degenerate (price : R) :
  hi - lo = 0 -> _price_to_y self price = Raise ZeroDivisionError.
Proof.
  intros Hz. unfold _price_to_y. rewrite scale. cbv zeta.
  rewrite py_div_by_zero by exact Hz. reflexivity.
Qed.

End PriceChartTransform.

Lemma options_chart_price_to_y_eq (self : OptionsChart.t) (price y_scale : R) :
  y_scale <> 0 ->
  OptionsChart._price_to_y self price y_scale =
  Ok (OptionsChart.margin_bottom
      + (y_scale - price)
        * (IZR (Canvas.height (OptionsChart.tk self)) - OptionsChart.margin_bottom)
        / y_scale
      + OptionsChart.price_offset self).
Proof.
  intros Hnz. unfold OptionsChart._price_to_y. cbv zeta.
  rewrite py_div_ok by exact Hnz. reflexivity.
Qed.

Lemma div_lt_compat_pos (a b c : R) : 0 < c -> a < b -> a / c < b / c.
Proof.
  intros Hc Hab. unfold Rdiv. apply Rmult_lt_compat_r; [apply Rinv_0_lt_compat|]; assumption.
Qed.

(** C1 (as amended).  With a scale [lo < hi], vertical zoom 1 and price
    offset 0, on a canvas taller than the top and bottom margins together,
    [UnifiedChart._price_to_y] and [PriceChart._price_to_y] map [hi] to
    [margin_top], [lo] to the canvas height less [margin_bottom], and are
    strictly decreasing in the price.  [OptionsChart._price_to_y], whose
    scale is the single price at the top of its axis, is strictly
    decreasing in the price for every positive scale and every offset. *)
Theorem price_to_y_transform (lo hi : R) (height : Z) :
  lo < hi ->
  20 + 40 < IZR height ->
  (forall u : UnifiedChart.t,
      UnifiedChart.price_scale u = Some (lo, hi) ->
      UnifiedChart.vertical_zoom u = 1 ->
      UnifiedChart.price_offset u = 0 ->
      Canvas.height (UnifiedChart.tk u) = height ->
      UnifiedChart._price_to_y u hi = Ok UnifiedChart.margin_top
      /\ UnifiedChart._price_to_y u lo
         = Ok (IZR height - UnifiedChart.margin_bottom)
      /\ decreasing (UnifiedChart._price_to_y u))
  /\ (forall c : PriceChart.t,
      PriceChart.price_scale c = Some (lo, hi) ->
      Canvas.height (PriceChart.tk c) = height ->
      PriceChart._price_to_y c hi = Ok PriceChart.margin_top
      /\ PriceChart._price_to_y c lo
         = Ok (IZR height - PriceChart.margin_bottom)
      /\ decreasing (PriceChart._price_to_y c))
  /\ (forall (o : OptionsChart.t) (y_scale : R),
      0 < y_scale ->
      Canvas.height (OptionsChart.tk o) = height ->
      decreasing (fun price => OptionsChart._price_to_y o price y_scale)).
Proof.
  intros Hlh Hh. split; [| split].
  - intros u Hs Hz Ho Hc.
    assert (Hnz : (hi - lo) * UnifiedChart.vertical_zoom u <> 0) by (rewrite Hz; lra).
    pose proof (unified_price_to_y_eq u lo hi Hs) as E.
    unfold UnifiedChart.margin_top, UnifiedChart.margin_bottom in *.
    split; [| split].
    + rewrite (E hi Hnz), Hz, Ho, Hc. f_equal. field. lra.
    + rewrite (E lo Hnz), Hz, Ho, Hc. f_equal. field. lra.
    + intros p q Hpq. do 2 eexists. rewrite (E p Hnz), (E q Hnz).
      split; [reflexivity | split; [reflexivity |]].
      rewrite Hz, Ho, Hc. apply Rplus_lt_compat_l, div_lt_compat_pos; [lra | nra].
  - intros c Hs Hc.
    assert (Hnz : hi - lo <> 0) by lra.
    pose proof (price_chart_price_to_y_eq c lo hi Hs) as E.
    unfold PriceChart.margin_top, PriceChart.margin_bottom in *.
    split; [| split].
    + rewrite (E hi Hnz), Hc. f_equal. field. lra.
    + rewrite (E lo Hnz), Hc. f_equal. field. lra.
    + intros p q Hpq. do 2 eexists. rewrite (E p Hnz), (E q Hnz).
      split; [reflexivity | split; [reflexivity |]].
      rewrite Hc. apply Rplus_lt_compat_l, Rmult_lt_compat_r; [lra |].
      apply Rplus_lt_compat_l, Ropp_lt_contravar, div_lt_compat_pos; lra.
  - intros o y_scale Hy Hc p q Hpq. do 2 eexists.
    rewrite !options_chart_price_to_y_eq by lra.
    split; [reflexivity | split; [reflexivity |]].
    unfold OptionsChart.margin_bottom. rewrite Hc.
    apply Rplus_lt_compat_r, Rplus_lt_compat_l, div_lt_compat_pos; [lra | nra].
Qed.

Lemma price_to_y_transform_witness :
  let u := UnifiedChart.set_price_scale (Some (5000, 5100))
                                        (UnifiedChart.__init__ 1400 750) in
  UnifiedChart._price_to_y u 5100 = Ok 20
  /\ UnifiedChart._price_to_y u 5000 = Ok (750 - 40)
  /\ decreasing (UnifiedChart._price_to_y u).
Proof.
  destruct (price_to_y_transform 5000 5100 750) as [HU _]; [lra | lra |].
  apply HU; reflexivity.
Defined.

(** C1, the claim as written, fails in two places.  On an [OptionsChart]
    440 pixels high whose scale is 101 (what [ChartManager] computes for
    prices between 90 and 100), the top of the scale is drawn at y = 40, the
    highest price 100 just below it, the lowest price 90 at about 83.6 and
    price 0 at y = 440: neither a top margin (20 in the sibling charts, 0 for
    this chart's grid) nor the canvas height less the bottom margin (400) is
    the image of a bound.  On a [UnifiedChart] that Tk has not laid out yet
    (height 1), y grows with the price. *)
Lemma price_to_y_transform_counterexample :
  (let o := OptionsChart.__init__ 1400 440 in
   OptionsChart._price_to_y o 101 101 = Ok 40
   /\ OptionsChart._price_to_y o 100 101 = Ok (40 + 400 / 101)
   /\ OptionsChart._price_to_y o 90 101 = Ok (40 + 4400 / 101)
   /\ OptionsChart._price_to_y o 0 101 = Ok 440)
  /\ (let u := UnifiedChart.set_price_scale (Some (0, 1))
                                            (UnifiedChart.__init__ 1 1) in
      UnifiedChart._price_to_y u 0 = Ok (-39)
      /\ UnifiedChart._price_to_y u 1 = Ok 20).
Proof.
  split.
  - cbv zeta. rewrite !options_chart_price_to_y_eq by lra.
    unfold OptionsChart.margin_bottom. cbn.
    repeat split; f_equal; field.
  - cbv zeta.
    rewrite !(unified_price_to_y_eq
                (UnifiedChart.set_price_scale (Some (0, 1)) (UnifiedChart.__init__ 1 1))
                0 1 eq_refl) by (cbn; lra).
    unfold UnifiedChart.margin_top, UnifiedChart.margin_bottom. cbn.
    split; f_equal; field.
Qed.

(** ** Degenerate scale *)

(** C2.  The code does not meet the claim: with scale bounds [p = p] both
    [UnifiedChart._price_to_y] and [PriceChart._price_to_y] raise
    [ZeroDivisionError], for every price, zoom, offset and canvas size. *)
Theorem price_to_y_degenerate_scale_raises (p price : R) :
  (forall u : UnifiedChart.t,
      UnifiedChart._price_to_y (UnifiedChart.set_price_scale (Some (p, p)) u) price
      = Raise ZeroDivisionError)
  /\ (forall c : PriceChart.t,
      PriceChart._price_to_y (PriceChart.set_price_scale (Some (p, p)) c) price
      = Raise ZeroDivisionError).
Proof.
  split.
  - intros u.
    apply (unified_price_to_y_degenerate
             (UnifiedChart.set_price_scale (Some (p, p)) u) p p eq_refl).
    ring.
  - intros c.
    apply (price_chart_price_to_y_degenerate
             (PriceChart.set_price_scale (Some (p, p)) c) p p eq_refl).
    ring.
Qed.

(** ** Exposure formulas *)

Section Exposure.
Variables (ticker : Ticker) (greeks_delta : option R).
Hypothesis has_greeks : modelGreeks ticker = Some greeks_delta.

Lemma abs_delta_eq :
  match greeks_delta with
  | Some d => if truthy d then Rabs d else 0
  | None => 0
  end = abs_delta greeks_delta.
Proof.
  unfold abs_delta. destruct greeks_delta as [d |]; [| reflexivity].
  unfold truthy. destruct (Req_dec_T d 0) as [E | _]; [| reflexivity].
  rewrite E, Rabs_R0. reflexivity.
Qed.

Lemma unified_gfl_with_spot (u : UnifiedChart.t) (spot : R) :
  UnifiedChart.current_bid u = Some spot ->
  spot <> 0 ->
  UnifiedChart._calculate_exposure u (Some ticker) "GFL"
  = abs_delta greeks_delta * side_open_interest ticker * spot.
Proof.
  intros Hb Hs. unfold UnifiedChart._calculate_exposure.
  rewrite has_greeks, abs_delta_eq, Hb. fold (side_open_interest ticker). cbn.
  rewrite (truthy_nonzero spot Hs). reflexivity.
Qed.

Lemma unified_gfl_without_spot (u : UnifiedChart.t) :
  truthy_opt (UnifiedChart.current_bid u) = false ->
  UnifiedChart._calculate_exposure u (Some ticker) "GFL"
  = side_open_interest ticker.
Proof.
  intros Hb. unfold UnifiedChart._calculate_exposure.
  rewrite has_greeks. fold (side_open_interest ticker). cbn.
  destruct (UnifiedChart.current_bid u) as [spot |]; [| reflexivity].
  cbn in Hb. rewrite Hb. reflexivity.
Qed.

Lemma options_chart_gfl_with_spot (o : OptionsChart.t) (spot : R) :
  OptionsChart.current_spot o = Some spot ->
  OptionsChart._calculate_exposure o (Some ticker) "GFL"
  = abs_delta greeks_delta * attr_or 0 (openInterest ticker) * spot.
Proof.
  intros Hb. unfold OptionsChart._calculate_exposure.
  rewrite has_greeks, abs_delta_eq, Hb. cbn.
  unfold truthy. destruct (Req_dec_T spot 0) as [E | _]; [| reflexivity].
  rewrite E. ring.
Qed.

Lemma options_chart_gfl_without_spot (o : OptionsChart.t) :
  truthy_opt (OptionsChart.current_spot o) = false ->
  OptionsChart._calculate_exposure o (Some ticker) "GFL" = 0.
Proof.
  intros Hb. unfold OptionsChart._calculate_exposure.
  rewrite has_greeks. cbn.
  destruct (OptionsChart.current_spot o) as [spot |]; [| reflexivity].
  cbn in Hb. rewrite Hb. reflexivity.
Qed.

End Exposure.

(** C3.  The code does not meet the claim in [UnifiedChart]: with greeks
    present and no spot price cached ([current_bid] is [None] or 0), the
    GFL exposure of a side is its open interest, not 0.  (With a spot
    price both charts compute |delta| * oi * S, and [OptionsChart] yields 0
    without one: the four lemmas above.) *)
Theorem unified_gfl_without_spot_is_open_interest
        (u : UnifiedChart.t) (ticker : Ticker) (greeks_delta : option R) :
  modelGreeks ticker = Some greeks_delta ->
  truthy_opt (UnifiedChart.current_bid u) = false ->
  UnifiedChart._calculate_exposure u (Some ticker) "GFL"
  = side_open_interest ticker.
Proof.
  intros Hg Hb. exact (unified_gfl_without_spot ticker greeks_delta Hg u Hb).
Qed.

Lemma unified_gfl_without_spot_witness :
  UnifiedChart._calculate_exposure
    (UnifiedChart.__init__ 1400 750) (Some sample_call) "GFL"
  = 1000.
Proof.
  exact (unified_gfl_without_spot_is_open_interest
           (UnifiedChart.__init__ 1400 750) sample_call (Some 0.4)
           eq_refl eq_refl).
Defined.

(** ** Reasoning about methods *)

Section MethodFacts.
Context {Self : Type}.

Lemma bind_ok {A B : Type} (m : M Self A) (k : A -> M Self B) s a s' :
  m s = (Ok a, s') -> bind m k s = k a s'.
Proof. intros E. unfold bind. rewrite E. reflexivity. Qed.

Lemma bind_raise {A B : Type} (m : M Self A) (k : A -> M Self B) s e s' :
  m s = (Raise e, s') -> bind m k s = (Raise e, s').
Proof. intros E. unfold bind. rewrite E. reflexivity. Qed.

(** *** Frames *)

Section Frames.
Context {D : Type} (f : Self -> D).

Lemma frames_ret {A : Type} (a : A) : frames f (ret a).
Proof. intros s. reflexivity. Qed.

Lemma frames_gets {A : Type} (g : Self -> A) : frames f (gets g).
Proof. intros s. reflexivity. Qed.

Lemma frames_get : frames f get.
Proof. intros s. reflexivity. Qed.

Lemma frames_read {A : Type} (g : Self -> result A) : frames f (read g).
Proof. intros s. reflexivity. Qed.

Lemma frames_lift {A : Type} (r : result A) : frames f (lift r).
Proof. intros s. reflexivity. Qed.

Lemma frames_raise {A : Type} (e : exn) : frames f (raise (A := A) e).
Proof. intros s. reflexivity. Qed.

Lemma frames_modify (g : Self -> Self) :
  (forall s, f (g s) = f s) -> frames f (modify g).
Proof. intros Hg s. apply Hg. Qed.

Lemma frames_bind {A B : Type} (m : M Self A) (k : A -> M Self B) :
  frames f m -> (forall a, frames f (k a)) -> frames f (bind m k).
Proof.
  intros Hm Hk s. unfold bind. specialize (Hm s).
  destruct (m s) as [[a | e] s1]; cbn in *.
  - rewrite (Hk a s1). exact Hm.
  - exact Hm.
Qed.

Lemma frames_when (c : bool) (m : M Self unit) :
  frames f m -> frames f (when c m).
Proof. intros Hm. destruct c; [exact Hm | apply frames_ret]. Qed.

Lemma frames_try_except (m : M Self unit) :
  frames f m -> frames f (try_except m).
Proof.
  intros Hm s. unfold try_except. specialize (Hm s).
  destruct (m s) as [[u | e] s1]; exact Hm.
Qed.

Lemma frames_for_each {A : Type} (l : list A) (body : A -> M Self unit) :
  (forall x, frames f (body x)) -> frames f (for_each l body).
Proof.
  intros Hb. induction l as [| x xs IH]; cbn [for_each].
  - apply frames_ret.
  - apply frames_bind; [apply Hb | intros _; exact IH].
Qed.

Lemma frames_for_fold {A B : Type} (l : list A) (body : B -> A -> M Self B) :
  (forall acc x, frames f (body acc x)) ->
  forall acc, frames f (for_fold l acc body).
Proof.
  intros Hb. induction l as [| x xs IH]; intros acc; cbn [for_fold].
  - apply frames_ret.
  - apply frames_bind; [apply Hb | intros acc'; apply IH].
Qed.

End Frames.

(** *** Total correctness *)

Lemma triple_ret {A : Type} (P : Self -> Prop) (a : A) (Q : A -> Self -> Prop) :
  (forall s, P s -> Q a s) -> triple P (ret a) Q.
Proof. intros H s Hs. exists a. split; [reflexivity | apply H, Hs]. Qed.

Lemma triple_gets {A : Type} (P : Self -> Prop) (g : Self -> A)
      (Q : A -> Self -> Prop) :
  (forall s, P s -> Q (g s) s) -> triple P (gets g) Q.
Proof. intros H s Hs. exists (g s). split; [reflexivity | apply H, Hs]. Qed.

Lemma triple_modify (P : Self -> Prop) (g : Self -> Self)
      (Q : unit -> Self -> Prop) :
  (forall s, P s -> Q tt (g s)) -> triple P (modify g) Q.
Proof. intros H s Hs. exists tt. split; [reflexivity | apply H, Hs]. Qed.

Lemma triple_read {A : Type} (P : Self -> Prop) (g : Self -> result A)
      (Q : A -> Self -> Prop) :
  (forall s, P s -> exists a, g s = Ok a /\ Q a s) -> triple P (read g) Q.
Proof. intros H s Hs. exact (H s Hs). Qed.

Lemma triple_lift {A : Type} (P : Self -> Prop) (r : result A) (a : A)
      (Q : A -> Self -> Prop) :
  r = Ok a -> (forall s, P s -> Q a s) -> triple P (lift r) Q.
Proof. intros E H s Hs. exists a. split; [exact E | apply H, Hs]. Qed.

Lemma triple_bind {A B : Type} (P : Self -> Prop) (m : M Self A)
      (Q : A -> Self -> Prop) (k : A -> M Self B) (R : B -> Self -> Prop) :
  triple P m Q -> (forall a, triple (Q a) (k a) R) -> triple P (bind m k) R.
Proof.
  intros Hm Hk s Hs. destruct (Hm s Hs) as (a & Ea & Ha).
  unfold bind. destruct (m s) as [r s1]. cbn in Ea, Ha. subst r.
  exact (Hk a s1 Ha).
Qed.

Lemma triple_weaken {A : Type} (P P' : Self -> Prop) (m : M Self A)
      (Q Q' : A -> Self -> Prop) :
  triple P' m Q' -> (forall s, P s -> P' s) ->
  (forall a s, Q' a s -> Q a s) -> triple P m Q.
Proof.
  intros Hm HP HQ s Hs. destruct (Hm s (HP s Hs)) as (a & Ea & Ha).
  exists a. split; [exact Ea | apply HQ, Ha].
Qed.

Lemma triple_pure {A : Type} (phi : Prop) (P : Self -> Prop) (m : M Self A)
      (Q : A -> Self -> Prop) :
  (phi -> triple P m Q) -> triple (fun s => phi /\ P s) m Q.
Proof. intros H s [Hphi Hs]. exact (H Hphi s Hs). Qed.

(** Steps that leave [self] alone, in front of a continuation. *)
Lemma triple_read_bind {A B : Type} (P : Self -> Prop) (g : Self -> result A)
      (v : A) (k : A -> M Self B) (R : B -> Self -> Prop) :
  (forall s, P s -> g s = Ok v) -> triple P (k v) R ->
  triple P (bind (read g) k) R.
Proof.
  intros Hg Hk s Hs. unfold bind, read. rewrite (Hg s Hs). exact (Hk s Hs).
Qed.

Lemma triple_lift_bind {A B : Type} (P : Self -> Prop) (r : result A)
      (v : A) (k : A -> M Self B) (R : B -> Self -> Prop) :
  r = Ok v -> triple P (k v) R -> triple P (bind (lift r) k) R.
Proof. intros E. apply triple_read_bind. intros; exact E. Qed.

Lemma triple_gets_bind {A B : Type} (P : Self -> Prop) (g : Self -> A)
      (v : A) (k : A -> M Self B) (R : B -> Self -> Prop) :
  (forall s, P s -> g s = v) -> triple P (k v) R ->
  triple P (bind (gets g) k) R.
Proof.
  intros Hg Hk s Hs. unfold bind, gets. rewrite (Hg s Hs). exact (Hk s Hs).
Qed.

Lemma triple_pure_r {A : Type} (phi : Prop) (P : Self -> Prop) (m : M Self A)
      (Q : A -> Self -> Prop) :
  triple P m Q -> triple (fun s => P s /\ phi) m Q.
Proof. intros H s [Hs _]. exact (H s Hs). Qed.

Lemma triple_when (P : Self -> Prop) (c : bool) (m : M Self unit)
      (Q : unit -> Self -> Prop) :
  (c = true -> triple P m Q) -> (c = false -> forall s, P s -> Q tt s) ->
  triple P (when c m) Q.
Proof.
  intros Ht Hf. destruct c; cbn.
  - apply Ht. reflexivity.
  - apply triple_ret. apply Hf. reflexivity.
Qed.

(** A loop whose body keeps [I] and extends an observation [obs] (a list)
    by [g x] extends it by the [g x] of all the elements in order. *)
Lemma triple_for_each {A C : Type} (I : Self -> Prop) (obs : Self -> list C)
      (g : A -> list C) (l : list A) (body : A -> M Self unit) :
  (forall x c, In x l ->
               triple (fun s => I s /\ obs s = c) (body x)
                      (fun _ s => I s /\ obs s = c ++ g x)) ->
  forall c, triple (fun s => I s /\ obs s = c) (for_each l body)
                   (fun _ s => I s /\ obs s = c ++ flat_map g l).
Proof.
  induction l as [| x xs IH]; intros Hb c; cbn [for_each flat_map].
  - apply triple_ret. intros s [Hi Ho]. rewrite app_nil_r. auto.
  - eapply triple_bind.
    + apply Hb. left. reflexivity.
    + intros u. eapply triple_weaken.
      * apply (IH (fun y c' Hy => Hb y c' (or_intror Hy)) (c ++ g x)).
      * auto.
      * cbn. intros u' s [Hi Ho]. rewrite app_assoc. auto.
Qed.

(** A step that keeps [I], in front of a continuation. *)
Lemma triple_seq {A B : Type} (I : Self -> Prop) (m : M Self A)
      (k : A -> M Self B) (R : B -> Self -> Prop) :
  triple I m (fun _ s => I s) -> (forall a, triple I (k a) R) ->
  triple I (bind m k) R.
Proof. intros Hm Hk. exact (triple_bind I m (fun _ s => I s) k R Hm Hk). Qed.

Lemma triple_gets_seq {A B : Type} (I : Self -> Prop) (g : Self -> A)
      (k : A -> M Self B) (R : B -> Self -> Prop) :
  (forall a, triple I (k a) R) -> triple I (bind (gets g) k) R.
Proof.
  intros Hk. apply triple_seq; [| exact Hk]. apply triple_gets. auto.
Qed.

(** A step that returns [v] and leaves [self] alone, whatever the state. *)
Lemma triple_pure_bind {A B : Type} (P : Self -> Prop) (m : M Self A) (v : A)
      (k : A -> M Self B) (R : B -> Self -> Prop) :
  (forall s, m s = (Ok v, s)) -> triple P (k v) R -> triple P (bind m k) R.
Proof.
  intros Hm Hk s Hs. unfold bind. rewrite Hm. exact (Hk s Hs).
Qed.

(** A method that keeps [I] and frames [g] keeps every value of [g]. *)
Lemma triple_frame {A D : Type} (I : Self -> Prop) (g : Self -> D)
      (m : M Self A) (w : D) :
  triple I m (fun _ s => I s) -> frames g m ->
  triple (fun s => I s /\ g s = w) m (fun _ s => I s /\ g s = w).
Proof.
  intros Hm Hg s [Hi Hw]. destruct (Hm s Hi) as (a & Ea & Hi').
  exists a. split; [exact Ea |]. split; [exact Hi' | rewrite Hg; exact Hw].
Qed.

Lemma triple_get_seq {B : Type} (I : Self -> Prop)
      (k : Self -> M Self B) (R : B -> Self -> Prop) :
  (forall self, I self -> triple I (k self) R) -> triple I (bind get k) R.
Proof. intros Hk s Hs. exact (Hk s Hs s Hs). Qed.

(** A loop whose body keeps [I]. *)
Lemma triple_for_each_inv {A : Type} (I : Self -> Prop) (l : list A)
      (body : A -> M Self unit) :
  (forall x, In x l -> triple I (body x) (fun _ s => I s)) ->
  triple I (for_each l body) (fun _ s => I s).
Proof.
  induction l as [| x xs IH]; intros Hb; cbn [for_each].
  - apply triple_ret. auto.
  - eapply triple_bind.
    + apply Hb. left. reflexivity.
    + intros u. apply IH. intros y Hy. apply Hb. right. exact Hy.
Qed.

(** A precondition may fix the value of an observation that the
    postcondition does not need. *)
Lemma triple_forget {A C : Type} (I : Self -> Prop) (obs : Self -> C)
      (m : M Self A) (Q : C -> A -> Self -> Prop) :
  (forall c, triple (fun s => I s /\ obs s = c) m
                    (fun a s => I s /\ Q c a s)) ->
  triple I m (fun _ s => I s).
Proof.
  intros H s Hs. destruct (H (obs s) s (conj Hs eq_refl)) as (a & Ea & Hi & _).
  exists a. split; assumption.
Qed.

(** A loop with local variables whose body keeps [I]. *)
Lemma triple_for_fold {A B : Type} (I : Self -> Prop) (J : B -> Prop)
      (l : list A) (body : B -> A -> M Self B) :
  (forall acc x, In x l -> J acc ->
                 triple I (body acc x) (fun acc' s => I s /\ J acc')) ->
  forall acc, J acc ->
              triple I (for_fold l acc body) (fun acc' s => I s /\ J acc').
Proof.
  induction l as [| x xs IH]; intros Hb acc Hacc; cbn [for_fold].
  - apply triple_ret. auto.
  - eapply triple_bind.
    + apply Hb; [left; reflexivity | exact Hacc].
    + intros acc'. intros s [Hi Hj].
      exact (IH (fun a y Hy => Hb a y (or_intror Hy)) acc' Hj s Hi).
Qed.

End MethodFacts.

(** *** The canvas *)

Section CanvasFacts.
Context {Self : Type} `{TkCanvas Self}.

Lemma created_items_app (l1 l2 : list command) :
  created_items (l1 ++ l2) = created_items l1 ++ created_items l2.
Proof. unfold created_items. apply flat_map_app. Qed.

Lemma created_create (it : item) (s : Self) :
  created (snd (create it s)) = created s ++ [it].
Proof.
  unfold created, create. cbn. rewrite canvas_set_canvas. cbn.
  rewrite created_items_app. reflexivity.
Qed.

Lemma created_delete (id : nat) (s : Self) :
  created (snd (delete id s)) = created s.
Proof.
  unfold created, delete, modify. cbn. rewrite canvas_set_canvas. cbn.
  rewrite created_items_app. cbn. apply app_nil_r.
Qed.

Lemma created_delete_all (s : Self) :
  created (snd (delete_all s)) = created s.
Proof.
  unfold created, delete_all, modify. cbn. rewrite canvas_set_canvas. cbn.
  rewrite created_items_app. cbn. apply app_nil_r.
Qed.

Lemma create_ok (it : item) (s : Self) :
  fst (create it s) = Ok (Canvas.next_id (canvas s)).
Proof. reflexivity. Qed.

End CanvasFacts.

(** Frames are proved by following the structure of the method. *)
Create HintDb frames.

Ltac frames_step :=
  lazymatch goal with
  | |- frames _ (ret _) => apply frames_ret
  | |- frames _ (gets _) => apply frames_gets
  | |- frames _ get => apply frames_get
  | |- frames _ (read _) => apply frames_read
  | |- frames _ (lift _) => apply frames_lift
  | |- frames _ (raise _) => apply frames_raise
  | |- frames _ winfo_width => apply frames_gets
  | |- frames _ winfo_height => apply frames_gets
  | |- frames _ (bind _ _) => apply frames_bind; [| intros ?]
  | |- frames _ (when _ _) => apply frames_when
  | |- frames _ (try_except _) => apply frames_try_except
  | |- frames _ (for_each _ _) => apply frames_for_each; intros ?
  | |- frames _ (for_fold _ _ _) => apply frames_for_fold; intros ? ?
  | |- frames _ (modify _) => apply frames_modify; intros ?; reflexivity
  | |- frames _ (match ?x with _ => _ end) => destruct x
  | |- frames _ (match ?x with _ => _ end _) => destruct x
  | |- frames _ (if ?x then _ else _) => destruct x
  | |- frames _ _ =>
    first [ progress cbv beta zeta
          | solve [auto with frames nocore]
          | (intros ?; reflexivity) ]
  end.

Ltac frames_tac := repeat frames_step.

(** ** [UnifiedChart]: what drawing leaves alone *)

Section UnifiedFrames.
Import UnifiedChart.

Lemma unified_frames_draw_empty_grid : frames unified_data _draw_empty_grid.
Proof. unfold _draw_empty_grid. frames_tac. Qed.

Lemma unified_frames_draw_time_axis bars : frames unified_data (_draw_time_axis bars).
Proof. unfold _draw_time_axis. frames_tac. Qed.

Lemma unified_frames_draw_price_scale : frames unified_data _draw_price_scale.
Proof. unfold _draw_price_scale. frames_tac. Qed.

#[local] Hint Resolve unified_frames_draw_empty_grid unified_frames_draw_time_axis
  unified_frames_draw_price_scale : frames.

Lemma unified_frames_draw_price_history : frames unified_data _draw_price_history.
Proof. unfold _draw_price_history. frames_tac. Qed.

Lemma unified_frames_draw_options_data : frames unified_data _draw_options_data.
Proof. unfold _draw_options_data. frames_tac. Qed.

Lemma unified_frames_draw_current_price : frames unified_data _draw_current_price.
Proof. unfold _draw_current_price. frames_tac. Qed.

#[local] Hint Resolve unified_frames_draw_price_history
  unified_frames_draw_options_data unified_frames_draw_current_price : frames.

Lemma unified_frames_redraw : frames unified_data redraw.
Proof. unfold redraw. frames_tac. Qed.

End UnifiedFrames.

Section UnifiedData.
Import UnifiedChart.

Lemma unified_data_inv (a b : t) :
  unified_data a = unified_data b ->
  price_history a = price_history b
  /\ current_bid a = current_bid b
  /\ current_ask a = current_ask b
  /\ options_data a = options_data b
  /\ max_exposure a = max_exposure b
  /\ exposure_type a = exposure_type b
  /\ price_scale a = price_scale b
  /\ vertical_zoom a = vertical_zoom b
  /\ horizontal_zoom a = horizontal_zoom b
  /\ price_offset a = price_offset b
  /\ Canvas.height (tk a) = Canvas.height (tk b)
  /\ Canvas.width (tk a) = Canvas.width (tk b).
Proof.
  unfold unified_data. intros E. injection E as -> -> -> -> -> -> -> -> -> -> _ _ -> ->.
  repeat split.
Qed.

Lemma unified_price_to_y_data (a b : t) (price : R) :
  unified_data a = unified_data b -> _price_to_y a price = _price_to_y b price.
Proof.
  intros E. apply unified_data_inv in E.
  destruct E as (_ & _ & _ & _ & _ & _ & Es & Ez & _ & Eo & Eh & _).
  unfold _price_to_y. rewrite Es, Ez, Eo, Eh. reflexivity.
Qed.

Lemma unified_calculate_exposure_data (a b : t) ticker exposure_type :
  unified_data a = unified_data b ->
  _calculate_exposure a ticker exposure_type
  = _calculate_exposure b ticker exposure_type.
Proof.
  intros E. apply unified_data_inv in E.
  destruct E as (_ & Eb & _).
  unfold _calculate_exposure. rewrite Eb. reflexivity.
Qed.

(** The state in which [update_options] calls [redraw]. *)
Lemma update_options_eq data max_exposure spot_price exposure_type (s : t) :
  exists s1,
    update_options data max_exposure spot_price exposure_type s = redraw s1
    /\ price_history s1 = price_history s
    /\ price_scale s1 = price_scale s
    /\ options_data s1 = data
    /\ UnifiedChart.max_exposure s1 = max_exposure
    /\ (truthy_opt spot_price = true ->
        current_bid s1 = spot_price /\ current_ask s1 = spot_price)
    /\ (truthy_opt spot_price = false ->
        current_bid s1 = current_bid s /\ current_ask s1 = current_ask s).
Proof.
  unfold update_options, bind, modify, when, ret.
  destruct spot_price as [spot |]; [destruct (truthy spot) eqn:Et |];
    (destruct exposure_type as [e |]; [destruct (negb (e =? EmptyString)%string) |]);
    cbn [truthy_opt]; rewrite ?Et;
    eexists; (split; [reflexivity |]); cbn;
    repeat split; intros; congruence.
Qed.

End UnifiedData.

(** ** Pushing an options snapshot *)

(** C10.  [UnifiedChart.update_options] with a truthy spot price stores it
    as both the cached bid and the cached ask; with [None] or 0 it leaves
    them as they were; and in no case does it modify the cached price
    history or price scale (whether or not the redraw it ends with
    raises). *)
Theorem update_options_quote_and_frame
        (s : UnifiedChart.t) (data : list OptionRow)
        (max_exposure spot_price : option R) (exposure_type : option string) :
  let s' := snd (UnifiedChart.update_options
                   data max_exposure spot_price exposure_type s) in
  (truthy_opt spot_price = true ->
   UnifiedChart.current_bid s' = spot_price
   /\ UnifiedChart.current_ask s' = spot_price)
  /\ (truthy_opt spot_price = false ->
      UnifiedChart.current_bid s' = UnifiedChart.current_bid s
      /\ UnifiedChart.current_ask s' = UnifiedChart.current_ask s)
  /\ UnifiedChart.price_history s' = UnifiedChart.price_history s
  /\ UnifiedChart.price_scale s' = UnifiedChart.price_scale s.
Proof.
  cbv zeta.
  destruct (update_options_eq data max_exposure spot_price exposure_type s)
    as (s1 & -> & Eh & Es & _ & _ & Ht & Hf).
  destruct (unified_data_inv _ _ (unified_frames_redraw s1))
    as (Eh' & Eb' & Ea' & _ & _ & _ & Es' & _).
  rewrite Eh', Eb', Ea', Es'. repeat split; try tauto; congruence.
Qed.

(** ** Gestures *)

Lemma clamp_zoom_range (z : R) : 0.1 <= clamp_zoom z <= 10.
Proof.
  unfold clamp_zoom, Rmax, Rmin.
  destruct (Rle_dec 10.0 z); destruct (Rle_dec 0.1 _); lra.
Qed.

Lemma clamp_zoom_id (z : R) : 0.1 <= z <= 10 -> clamp_zoom z = z.
Proof.
  intros Hz. unfold clamp_zoom, Rmax, Rmin.
  destruct (Rle_dec 10.0 z); destruct (Rle_dec 0.1 _); lra.
Qed.

Lemma clamp_zoom_above (z : R) : 10 <= z -> clamp_zoom z = 10.
Proof.
  intros Hz. unfold clamp_zoom, Rmax, Rmin.
  destruct (Rle_dec 10.0 z); destruct (Rle_dec 0.1 _); lra.
Qed.

Section GestureFacts.
Import UnifiedChart.

(** What a handler has done to the viewport when it calls [redraw]. *)
Lemma handle_zoom_eq (e : event) (s : t) :
  match zoom_start s with
  | None => handle_zoom e s = (Ok tt, s)
  | Some (x, y, zoom_type) =>
    exists s1,
    handle_zoom e s = redraw s1
    /\ zoom_start s1 = Some (event_x e, event_y e, zoom_type)
    /\ price_scale s1 = price_scale s
    /\ price_offset s1 = price_offset s
    /\ Canvas.height (tk s1) = Canvas.height (tk s)
    /\ vertical_zoom s1
       = (if (zoom_type =? "price")%string
          then clamp_zoom (vertical_zoom s * exp (- IZR (event_y e - y) / 200))
          else vertical_zoom s)
    /\ horizontal_zoom s1
       = (if (zoom_type =? "price")%string then horizontal_zoom s
          else if (zoom_type =? "time")%string
               then clamp_zoom (horizontal_zoom s * exp (IZR (event_x e - x) / 200))
               else horizontal_zoom s)
  end.
Proof.
  unfold handle_zoom, bind, gets.
  destruct (zoom_start s) as [[[x y] zoom_type] |]; [| reflexivity].
  destruct (zoom_type =? "price")%string;
    [| destruct (zoom_type =? "time")%string];
    eexists; (split; [reflexivity |]); repeat split.
Qed.

Lemma handle_drag_eq (e : event) (s : t) :
  match drag_start s with
  | None => handle_drag e s = (Ok tt, s)
  | Some (x, y, drag_type) =>
    exists s1,
    handle_drag e s = redraw s1
    /\ vertical_zoom s1 = vertical_zoom s
    /\ horizontal_zoom s1
       = (if (drag_type =? "price")%string then horizontal_zoom s
          else if (drag_type =? "time")%string
               then Rmax 1.0 (horizontal_zoom s + IZR (event_x e - x) * 0.01)
               else horizontal_zoom s)
  end.
Proof.
  unfold handle_drag, bind, gets.
  destruct (drag_start s) as [[[x y] drag_type] |]; [| reflexivity].
  destruct (drag_type =? "price")%string;
    [| destruct (drag_type =? "time")%string];
    eexists; (split; [reflexivity |]); repeat split.
Qed.

Lemma start_drag_zooms (e : event) (s : t) :
  vertical_zoom (snd (start_drag e s)) = vertical_zoom s
  /\ horizontal_zoom (snd (start_drag e s)) = horizontal_zoom s.
Proof.
  unfold start_drag, bind, winfo_width, winfo_height, gets.
  destruct (Rleb _ _); [| destruct (Rltb _ _)]; split; reflexivity.
Qed.

Lemma start_zoom_zooms (e : event) (s : t) :
  vertical_zoom (snd (start_zoom e s)) = vertical_zoom s
  /\ horizontal_zoom (snd (start_zoom e s)) = horizontal_zoom s.
Proof.
  unfold start_zoom, bind, winfo_width, winfo_height, gets.
  destruct (Rleb _ _); [| destruct (Rltb _ _)]; split; reflexivity.
Qed.

Lemma redraw_zooms (s : t) :
  vertical_zoom (snd (redraw s)) = vertical_zoom s
  /\ horizontal_zoom (snd (redraw s)) = horizontal_zoom s.
Proof.
  destruct (unified_data_inv _ _ (unified_frames_redraw s))
    as (_ & _ & _ & _ & _ & _ & _ & Ev & Eh & _).
  split; assumption.
Qed.

(** One handler keeps the vertical zoom in range and the horizontal zoom
    above 0.1; only [handle_drag] can take the horizontal zoom above 10. *)
Lemma handler_zooms (g : gesture) (s : t) :
  0.1 <= vertical_zoom s <= 10 ->
  0.1 <= horizontal_zoom s ->
  (0.1 <= vertical_zoom (snd (handler g s)) <= 10
   /\ 0.1 <= horizontal_zoom (snd (handler g s)))
  /\ (~ is_handle_drag g -> horizontal_zoom s <= 10 ->
      horizontal_zoom (snd (handler g s)) <= 10).
Proof.
  intros Hv Hh. destruct g as [e | e | e | e | e | e]; cbn [handler is_handle_drag].
  - destruct (start_drag_zooms e s) as [-> ->]. tauto.
  - pose proof (handle_drag_eq e s) as E.
    destruct (drag_start s) as [[[x y] drag_type] |].
    + destruct E as (s1 & -> & Ev & Eh).
      destruct (redraw_zooms s1) as [-> ->]. rewrite Ev, Eh.
      split; [| tauto]. split; [exact Hv |].
      destruct (drag_type =? "price")%string;
        [| destruct (drag_type =? "time")%string]; try exact Hh.
      pose proof (Rmax_l 1.0 (horizontal_zoom s + IZR (event_x e - x) * 0.01)).
      lra.
    + rewrite E. cbn. tauto.
  - cbn. tauto.
  - destruct (start_zoom_zooms e s) as [-> ->]. tauto.
  - pose proof (handle_zoom_eq e s) as E.
    destruct (zoom_start s) as [[[x y] zoom_type] |].
    + destruct E as (s1 & -> & _ & _ & _ & _ & Ev & Eh).
      destruct (redraw_zooms s1) as [-> ->]. rewrite Ev, Eh.
      destruct (zoom_type =? "price")%string;
        [| destruct (zoom_type =? "time")%string];
        repeat match goal with
               | |- context [clamp_zoom ?z] =>
                 pose proof (clamp_zoom_range z); generalize dependent (clamp_zoom z); intros
               end;
        repeat split; intros; lra.
    + rewrite E. cbn. tauto.
  - cbn. tauto.
Qed.

End GestureFacts.

(** C5 (as amended).  From a chart whose vertical zoom is within
    [0.1, 10.0] and whose horizontal zoom is at least 0.1 (after
    [__init__] both are 1.0), after every sequence of gesture events the
    vertical zoom is within [0.1, 10.0] and the horizontal zoom is at least
    0.1; and a horizontal zoom that started at most 10.0 is still at most
    10.0 when no event of the sequence is a drag ([<B1-Motion>]), the one
    handler that raises it without an upper bound. *)
Theorem zoom_clamping (gs : list gesture) (s : UnifiedChart.t) :
  0.1 <= UnifiedChart.vertical_zoom s <= 10 ->
  0.1 <= UnifiedChart.horizontal_zoom s ->
  (0.1 <= UnifiedChart.vertical_zoom (after_gestures gs s) <= 10
   /\ 0.1 <= UnifiedChart.horizontal_zoom (after_gestures gs s))
  /\ (Forall (fun g => ~ is_handle_drag g) gs ->
      UnifiedChart.horizontal_zoom s <= 10 ->
      UnifiedChart.horizontal_zoom (after_gestures gs s) <= 10).
Proof.
  revert s. induction gs as [| g gs IH]; intros s Hv Hh.
  - cbn. tauto.
  - unfold after_gestures. cbn [fold_left]. fold (after_gestures gs (snd (handler g s))).
    destruct (handler_zooms g s Hv Hh) as [[Hv' Hh'] Hd].
    destruct (IH _ Hv' Hh') as [Hinv Hup].
    split; [exact Hinv |].
    intros Hall Hs. inversion Hall as [| g' gs' Hg Hgs]; subst.
    apply Hup; [exact Hgs | apply Hd; assumption].
Qed.

Lemma zoom_clamping_witness :
  let s0 := UnifiedChart.__init__ 1400 750 in
  let gs := [StartZoom {| UnifiedChart.event_x := 1350; UnifiedChart.event_y := 700 |};
             HandleZoom {| UnifiedChart.event_x := 1350; UnifiedChart.event_y := 100 |};
             EndZoom {| UnifiedChart.event_x := 1350; UnifiedChart.event_y := 100 |}] in
  (0.1 <= UnifiedChart.vertical_zoom (after_gestures gs s0) <= 10
   /\ 0.1 <= UnifiedChart.horizontal_zoom (after_gestures gs s0))
  /\ (Forall (fun g => ~ is_handle_drag g) gs ->
      UnifiedChart.horizontal_zoom s0 <= 10 ->
      UnifiedChart.horizontal_zoom (after_gestures gs s0) <= 10).
Proof.
  cbv zeta. apply zoom_clamping; cbn; lra.
Defined.

Lemma start_drag_on_time_axis (e : UnifiedChart.event) (s : UnifiedChart.t) :
  UnifiedChart.margin_right + UnifiedChart.strike_margin
  < IZR (Canvas.width (UnifiedChart.tk s)) - IZR (UnifiedChart.event_x e) ->
  IZR (Canvas.height (UnifiedChart.tk s)) - UnifiedChart.margin_bottom
  < IZR (UnifiedChart.event_y e) ->
  UnifiedChart.start_drag e s
  = (Ok tt,
     UnifiedChart.set_drag_start
       (Some (UnifiedChart.event_x e, UnifiedChart.event_y e, "time"%string)) s).
Proof.
  intros Hx Hy.
  unfold UnifiedChart.start_drag, bind, winfo_width, winfo_height, gets. cbn.
  apply Rleb_false_iff in Hx. apply Rltb_true_iff in Hy.
  rewrite Hx, Hy. reflexivity.
Qed.

(** C5, the claim as written, fails: on a fresh 1400 x 750 chart, pressing
    the button on the time axis at x = 100 and dragging to x = 1100 sets
    the horizontal zoom to max(1.0, 1.0 + 1000 * 0.01) = 11. *)
Lemma zoom_clamping_counterexample :
  UnifiedChart.horizontal_zoom
    (after_gestures
       [StartDrag {| UnifiedChart.event_x := 100; UnifiedChart.event_y := 730 |};
        HandleDrag {| UnifiedChart.event_x := 1100; UnifiedChart.event_y := 730 |}]
       (UnifiedChart.__init__ 1400 750))
  = 11.
Proof.
  unfold after_gestures. cbn [fold_left handler].
  rewrite start_drag_on_time_axis
    by (unfold UnifiedChart.margin_right, UnifiedChart.strike_margin,
        UnifiedChart.margin_bottom; cbn; lra).
  cbn [snd].
  match goal with
  | |- context [UnifiedChart.handle_drag ?e ?s] =>
    pose proof (handle_drag_eq e s) as E
  end.
  cbn [UnifiedChart.drag_start UnifiedChart.set_drag_start] in E.
  destruct E as (s1 & -> & _ & Eh).
  destruct (redraw_zooms s1) as [_ ->]. rewrite Eh. cbn.
  unfold Rmax. destruct (Rle_dec _ _); lra.
Qed.

Lemma unified_data_gesture (a b : UnifiedChart.t) :
  unified_data a = unified_data b ->
  UnifiedChart.zoom_start a = UnifiedChart.zoom_start b
  /\ UnifiedChart.drag_start a = UnifiedChart.drag_start b.
Proof.
  unfold unified_data. intros E. injection E as _ _ _ _ _ _ _ _ _ _ -> -> _ _.
  split; reflexivity.
Qed.

Lemma exp_round_trip (a : R) : exp (- a / 200) * exp (- - a / 200) = 1.
Proof.
  rewrite <- exp_plus. replace (- a / 200 + - - a / 200) with 0 by field.
  apply exp_0.
Qed.

(** One zoom drag on the price axis, seen from outside. *)
Lemma handle_zoom_price (e : UnifiedChart.event) (s : UnifiedChart.t) (x y : Z) :
  UnifiedChart.zoom_start s = Some (x, y, "price"%string) ->
  let s' := snd (UnifiedChart.handle_zoom e s) in
  UnifiedChart.zoom_start s'
  = Some (UnifiedChart.event_x e, UnifiedChart.event_y e, "price"%string)
  /\ UnifiedChart.vertical_zoom s'
     = clamp_zoom (UnifiedChart.vertical_zoom s
                   * exp (- IZR (UnifiedChart.event_y e - y) / 200))
  /\ UnifiedChart.price_scale s' = UnifiedChart.price_scale s
  /\ UnifiedChart.price_offset s' = UnifiedChart.price_offset s
  /\ Canvas.height (UnifiedChart.tk s') = Canvas.height (UnifiedChart.tk s).
Proof.
  intros Hz. cbv zeta. pose proof (handle_zoom_eq e s) as E. rewrite Hz in E.
  destruct E as (s1 & -> & Ez & Es & Eo & Eh & Ev & _).
  pose proof (unified_frames_redraw s1) as F.
  destruct (unified_data_inv _ _ F)
    as (_ & _ & _ & _ & _ & _ & Es' & Ev' & _ & Eo' & Eh' & _).
  destruct (unified_data_gesture _ _ F) as [Ez' _].
  rewrite Ez', Es', Ev', Eo', Eh', Ez, Es, Ev, Eo, Eh. cbn. repeat split.
Qed.

(** C6 (as amended).  On the price axis, a zoom drag from y0 to y1 followed
    by the drag back to y0 multiplies the vertical zoom by
    k = exp(-(y1 - y0)/200) and then divides it by k.  When the zoom is
    within [0.1, 10.0] before and the zoom times k is within [0.1, 10.0]
    too, so that the clamp does not cut, the round trip restores the
    vertical zoom and with it the y coordinate of every price. *)
Theorem zoom_round_trip (s : UnifiedChart.t) (x0 y0 : Z)
        (e1 e2 : UnifiedChart.event) :
  UnifiedChart.zoom_start s = Some (x0, y0, "price"%string) ->
  UnifiedChart.event_y e2 = y0 ->
  0.1 <= UnifiedChart.vertical_zoom s <= 10 ->
  0.1 <= UnifiedChart.vertical_zoom s
         * exp (- IZR (UnifiedChart.event_y e1 - y0) / 200) <= 10 ->
  let s' := after_gestures [HandleZoom e1; HandleZoom e2] s in
  UnifiedChart.vertical_zoom s' = UnifiedChart.vertical_zoom s
  /\ forall price,
      UnifiedChart._price_to_y s' price = UnifiedChart._price_to_y s price.
Proof.
  intros Hz Hy Hv Hk. cbv zeta. unfold after_gestures. cbn [fold_left handler].
  destruct (handle_zoom_price e1 s x0 y0 Hz) as (Hz1 & Hv1 & Hs1 & Ho1 & Hh1).
  set (s1 := snd (UnifiedChart.handle_zoom e1 s)) in *.
  destruct (handle_zoom_price e2 s1 _ _ Hz1) as (_ & Hv2 & Hs2 & Ho2 & Hh2).
  set (s2 := snd (UnifiedChart.handle_zoom e2 s1)) in *.
  assert (Ev : UnifiedChart.vertical_zoom s2 = UnifiedChart.vertical_zoom s).
  { rewrite Hv2, Hv1, Hy. rewrite (clamp_zoom_id _ Hk).
    replace (IZR (y0 - UnifiedChart.event_y e1))
      with (- IZR (UnifiedChart.event_y e1 - y0))
      by (rewrite !minus_IZR; ring).
    rewrite Rmult_assoc, exp_round_trip, Rmult_1_r.
    apply clamp_zoom_id, Hv. }
  split; [exact Ev |].
  intros price. unfold UnifiedChart._price_to_y.
  rewrite Ev, Hs2, Hs1, Ho2, Ho1, Hh2, Hh1. reflexivity.
Qed.

Lemma exp_1_bounds : 2 < exp 1 <= 3.
Proof.
  split; [| exact exp_le_3].
  pose proof (exp_ineq1 1). lra.
Qed.

Lemma exp_minus_1_bounds : / 3 <= exp (- 1) < / 2.
Proof.
  assert (E : exp (- 1) = / exp 1) by (rewrite <- exp_Ropp; f_equal; lra).
  rewrite E. destruct exp_1_bounds as [Hl Hu]. split.
  - apply Rinv_le_contravar; lra.
  - apply Rinv_lt_contravar; lra.
Qed.

Lemma zoom_round_trip_witness :
  let s := UnifiedChart.set_zoom_start
             (Some (1350, 300, "price"%string))%Z
             (UnifiedChart.set_price_scale (Some (5000, 5100))
                                           (UnifiedChart.__init__ 1400 750)) in
  let s' := after_gestures
              [HandleZoom {| UnifiedChart.event_x := 1350; UnifiedChart.event_y := 100 |};
               HandleZoom {| UnifiedChart.event_x := 1350; UnifiedChart.event_y := 300 |}]
              s in
  UnifiedChart.vertical_zoom s' = UnifiedChart.vertical_zoom s
  /\ forall price,
      UnifiedChart._price_to_y s' price = UnifiedChart._price_to_y s price.
Proof.
  cbv zeta.
  apply (zoom_round_trip _ 1350 300); try reflexivity; cbn.
  - lra.
  - replace (- -200 / 200) with 1 by field.
    pose proof exp_1_bounds. lra.
Defined.

(** C6, the claim as written, fails when the clamp cuts.  With the
    vertical zoom at 10.0 (the upper bound, where zooming out ends), the
    drag from y = 300 to y = 100 has k = exp(1), within [0.1, 10]: the zoom
    stays 10.0; the drag back divides it by k, and the zoom is 10 / e.
    On a chart 460 pixels high with the scale (0, 100), the price 100 is
    drawn at y = 200 before the round trip and above y = 180 after it. *)
Lemma zoom_round_trip_counterexample :
  let s := UnifiedChart.set_zoom_start
             (Some (1350, 300, "price"%string))%Z
             (UnifiedChart.set_vertical_zoom 10
                (UnifiedChart.set_price_scale (Some (0, 100))
                                              (UnifiedChart.__init__ 1400 460))) in
  let s' := after_gestures
              [HandleZoom {| UnifiedChart.event_x := 1350; UnifiedChart.event_y := 100 |};
               HandleZoom {| UnifiedChart.event_x := 1350; UnifiedChart.event_y := 300 |}]
              s in
  UnifiedChart.vertical_zoom s' = 10 * exp (- 1)
  /\ UnifiedChart._price_to_y s 100 = Ok 200
  /\ exists y, UnifiedChart._price_to_y s' 100 = Ok y /\ y < 180.
Proof.
  cbv zeta. unfold after_gestures. cbn [fold_left handler].
  match goal with
  | |- context [UnifiedChart.handle_zoom ?e ?s] =>
    destruct (handle_zoom_price e s 1350 300 eq_refl) as (Hz1 & Hv1 & Hs1 & Ho1 & Hh1);
      remember (snd (UnifiedChart.handle_zoom e s)) as s1 eqn:Es1; clear Es1
  end.
  match goal with
  | |- context [UnifiedChart.handle_zoom ?e s1] =>
    destruct (handle_zoom_price e s1 _ _ Hz1) as (_ & Hv2 & Hs2 & Ho2 & Hh2);
      remember (snd (UnifiedChart.handle_zoom e s1)) as s2 eqn:Es2; clear Es2
  end.
  cbn in Hv1, Hs1, Ho1, Hh1, Hv2.
  pose proof exp_1_bounds as He. pose proof exp_minus_1_bounds as Ht.
  replace (- -200 / 200) with 1 in Hv1 by field.
  replace (- (200) / 200) with (- 1) in Hv2 by field.
  rewrite clamp_zoom_above in Hv1 by lra.
  rewrite Hv1, clamp_zoom_id in Hv2 by lra.
  split; [exact Hv2 |]. split.
  - match goal with
    | |- UnifiedChart._price_to_y ?s _ = _ =>
      rewrite (unified_price_to_y_eq s 0 100 eq_refl) by (cbn; lra)
    end.
    unfold UnifiedChart.margin_top, UnifiedChart.margin_bottom. cbn.
    f_equal. field.
  - assert (Hs : UnifiedChart.price_scale s2 = Some (0, 100)) by congruence.
    rewrite (unified_price_to_y_eq s2 0 100 Hs) by (rewrite Hv2; lra).
    eexists. split; [reflexivity |].
    rewrite Hv2, Ho2, Ho1, Hh2, Hh1.
    unfold UnifiedChart.margin_top, UnifiedChart.margin_bottom.
    set (t := exp (- 1)) in *.
    replace (20 + ((100 + 0) / 2 + (100 - 0) * (10 * t) / 2 + 0 - 100)
                  * (460 - 20 - 40) / ((100 - 0) * (10 * t)))
      with (220 - 20 * / t) by (field; lra).
    assert (2 < / t).
    { replace 2 with (/ / 2) by field. apply Rinv_lt_contravar; lra. }
    lra.
Qed.

(** ** The scale of a pushed history *)

Lemma fold_left_Rmin_minimum (xs : list R) (x : R) :
  is_minimum (fold_left Rmin xs x) (x :: xs).
Proof.
  revert x. induction xs as [| y ys IH]; intros x; cbn [fold_left].
  - split; [left; reflexivity |]. intros p [<- | []]. lra.
  - destruct (IH (Rmin x y)) as [Hin Hle]. split.
    + destruct Hin as [E | Hin]; [| right; right; exact Hin].
      rewrite <- E. unfold Rmin. destruct (Rle_dec x y); [left | right; left]; reflexivity.
    + intros p [<- | [<- | Hp]].
      * etransitivity; [apply Hle; left; reflexivity | apply Rmin_l].
      * etransitivity; [apply Hle; left; reflexivity | apply Rmin_r].
      * apply Hle. right. exact Hp.
Qed.

Lemma fold_left_Rmax_maximum (xs : list R) (x : R) :
  is_maximum (fold_left Rmax xs x) (x :: xs).
Proof.
  revert x. induction xs as [| y ys IH]; intros x; cbn [fold_left].
  - split; [left; reflexivity |]. intros p [<- | []]. lra.
  - destruct (IH (Rmax x y)) as [Hin Hle]. split.
    + destruct Hin as [E | Hin]; [| right; right; exact Hin].
      rewrite <- E. unfold Rmax. destruct (Rle_dec x y); [right; left | left]; reflexivity.
    + intros p [<- | [<- | Hp]].
      * etransitivity; [apply Rmax_l | apply Hle; left; reflexivity].
      * etransitivity; [apply Rmax_r | apply Hle; left; reflexivity].
      * apply Hle. right. exact Hp.
Qed.

Lemma py_min_max_spec (prices : list R) :
  prices <> [] ->
  exists lo hi,
    py_min prices = Ok lo /\ py_max prices = Ok hi
    /\ is_minimum lo prices /\ is_maximum hi prices.
Proof.
  destruct prices as [| x xs]; [congruence |]. intros _.
  exists (fold_left Rmin xs x), (fold_left Rmax xs x).
  repeat split; try apply fold_left_Rmin_minimum; apply fold_left_Rmax_maximum.
Qed.

Lemma bar_prices_quote_or_trade (bar : Bar) :
  quote_or_trade bar -> exists p ps, bar_prices bar = Ok (p :: ps).
Proof.
  unfold bar_prices, getattr_close.
  intros [(b & a & -> & ->) | (-> & c & ->)]; cbn; eauto.
Qed.

Lemma collect_prices_quote_or_trade (bars : list Bar) :
  Forall quote_or_trade bars -> bars <> [] ->
  exists prices, collect_prices bars = Ok prices /\ prices <> [].
Proof.
  intros Hall Hne. destruct bars as [| bar rest]; [congruence |].
  inversion Hall as [| ? ? Hbar Hrest]; subst.
  destruct (bar_prices_quote_or_trade bar Hbar) as (p & ps & Ep).
  assert (Hr : exists qs, collect_prices rest = Ok qs).
  { clear - Hrest. induction Hrest as [| b bs Hb _ (qs & IH)]; cbn.
    - eauto.
    - destruct (bar_prices_quote_or_trade b Hb) as (p & ps & ->). rewrite IH.
      cbn. eauto. }
  destruct Hr as (qs & Eq). cbn. rewrite Ep, Eq. cbn.
  eexists. split; [reflexivity | discriminate].
Qed.

Section OtherFrames.

Lemma price_chart_frames_draw_price_scale lo hi :
  frames price_chart_data (PriceChart._draw_price_scale lo hi).
Proof. unfold PriceChart._draw_price_scale. frames_tac. Qed.

Lemma price_chart_frames_draw_time_axis :
  frames price_chart_data PriceChart._draw_time_axis.
Proof. unfold PriceChart._draw_time_axis. frames_tac. Qed.

#[local] Hint Resolve price_chart_frames_draw_price_scale
  price_chart_frames_draw_time_axis : frames.

Lemma price_chart_frames_redraw : frames price_chart_data PriceChart.redraw.
Proof. unfold PriceChart.redraw. frames_tac. Qed.

Lemma options_chart_frames_clear_price_history :
  frames options_chart_data OptionsChart._clear_price_history.
Proof. unfold OptionsChart._clear_price_history. frames_tac. Qed.

Lemma options_chart_frames_clear_options_data :
  frames options_chart_data OptionsChart._clear_options_data.
Proof. unfold OptionsChart._clear_options_data. frames_tac. Qed.

Lemma options_chart_frames_draw_price_scale y_scale :
  frames options_chart_data (OptionsChart._draw_price_scale y_scale).
Proof. unfold OptionsChart._draw_price_scale. frames_tac. Qed.

Lemma options_chart_frames_draw_time_axis bars :
  frames options_chart_data (OptionsChart._draw_time_axis bars).
Proof. unfold OptionsChart._draw_time_axis. frames_tac. Qed.

Lemma options_chart_frames_draw_price_line price :
  frames options_chart_data (OptionsChart.draw_price_line price).
Proof. unfold OptionsChart.draw_price_line. frames_tac. Qed.

Lemma options_chart_frames_draw_exposure_scale max_exp :
  frames options_chart_data (OptionsChart._draw_exposure_scale max_exp).
Proof. unfold OptionsChart._draw_exposure_scale. frames_tac. Qed.

End OtherFrames.

#[local] Hint Resolve options_chart_frames_clear_price_history
  options_chart_frames_clear_options_data
  options_chart_frames_draw_price_scale options_chart_frames_draw_time_axis
  options_chart_frames_draw_price_line options_chart_frames_draw_exposure_scale
  : frames.

Lemma snd_try_except {Self : Type} (m : M Self unit) (s : Self) :
  snd (try_except m s) = snd (m s).
Proof. unfold try_except. destruct (m s) as [[u | e] s1]; reflexivity. Qed.

Lemma fst_try_except {Self : Type} (m : M Self unit) (s : Self) :
  fst (try_except m s) = Ok tt.
Proof. unfold try_except. destruct (m s) as [[[] | e] s1]; reflexivity. Qed.

Lemma bind_modify {Self B : Type} (g : Self -> Self) (k : unit -> M Self B)
      (s : Self) :
  bind (modify g) k s = k tt (g s).
Proof. reflexivity. Qed.

Lemma bind_gets {Self A B : Type} (g : Self -> A) (k : A -> M Self B) (s : Self) :
  bind (gets g) k s = k (g s) s.
Proof. reflexivity. Qed.

(** [draw_price_history bars y_scale] stores its two arguments and then
    only draws. *)
Lemma options_chart_draw_price_history_data bars y_scale (o : OptionsChart.t) :
  options_chart_data (snd (OptionsChart.draw_price_history bars y_scale o))
  = options_chart_data
      (OptionsChart.set_price_scale y_scale
         (OptionsChart.set_historical_bars bars o)).
Proof.
  unfold OptionsChart.draw_price_history.
  rewrite snd_try_except, !bind_modify.
  match goal with
  | |- options_chart_data (snd (?m ?s)) = _ =>
    assert (F : frames options_chart_data m); [| exact (F s)]
  end.
  frames_tac.
Qed.

Lemma options_chart_data_inv (a b : OptionsChart.t) :
  options_chart_data a = options_chart_data b ->
  OptionsChart.historical_bars a = OptionsChart.historical_bars b
  /\ OptionsChart.price_scale a = OptionsChart.price_scale b
  /\ OptionsChart.vertical_zoom a = OptionsChart.vertical_zoom b
  /\ OptionsChart.price_offset a = OptionsChart.price_offset b
  /\ Canvas.height (OptionsChart.tk a) = Canvas.height (OptionsChart.tk b)
  /\ Canvas.width (OptionsChart.tk a) = Canvas.width (OptionsChart.tk b)
  /\ OptionsChart.current_spot a = OptionsChart.current_spot b
  /\ OptionsChart.exposure_type a = OptionsChart.exposure_type b.
Proof.
  unfold options_chart_data. intros E. injection E as _ _ -> -> -> -> -> -> -> ->.
  repeat split.
Qed.

Lemma price_chart_data_inv (a b : PriceChart.t) :
  price_chart_data a = price_chart_data b ->
  PriceChart.price_scale a = PriceChart.price_scale b
  /\ PriceChart.price_history a = PriceChart.price_history b
  /\ Canvas.height (PriceChart.tk a) = Canvas.height (PriceChart.tk b).
Proof.
  unfold price_chart_data. intros E. injection E as -> _ _ -> _ _ _ ->.
  repeat split.
Qed.

Section HistoryScale.
Variables (bars : list Bar) (prices : list R) (lo hi : R).
Hypothesis bars_nonempty : bars <> [].
Hypothesis collected : collect_prices bars = Ok prices.
Hypothesis prices_nonempty : prices <> [].
Hypothesis minimum : py_min prices = Ok lo.
Hypothesis maximum : py_max prices = Ok hi.

Lemma unified_update_history_eq (u : UnifiedChart.t) :
  UnifiedChart.update_history bars u
  = UnifiedChart.redraw
      (UnifiedChart.set_price_scale
         (Some (lo - (hi - lo) * 0.1, hi + (hi - lo) * 0.1))
         (UnifiedChart.set_price_history bars u)).
Proof.
  unfold UnifiedChart.update_history. rewrite bind_modify.
  destruct bars as [| bar rest]; [congruence |].
  unfold bind at 1. unfold bind at 1, lift, read. rewrite collected.
  destruct prices as [| p ps]; [congruence |].
  unfold bind at 1. rewrite minimum. unfold bind at 1. rewrite maximum.
  reflexivity.
Qed.

Lemma price_chart_update_history_eq (c : PriceChart.t) :
  PriceChart.update_history bars c
  = PriceChart.redraw
      (PriceChart.set_price_scale
         (Some (lo, hi + (hi - lo) * 0.1))
         (PriceChart.set_price_history bars c)).
Proof.
  unfold PriceChart.update_history. rewrite bind_modify.
  destruct bars as [| bar rest]; [congruence |].
  unfold bind at 1. unfold bind at 1, lift, read. rewrite collected.
  destruct prices as [| p ps]; [congruence |].
  unfold bind at 1. rewrite minimum. unfold bind at 1. rewrite maximum.
  reflexivity.
Qed.

End HistoryScale.

Lemma on_chart_eq {A : Type} (m : M OptionsChart.t A) (s : ChartManager.t) :
  ChartManager.on_chart m s
  = (fst (m (ChartManager.chart s)),
     ChartManager.set_chart (snd (m (ChartManager.chart s))) s).
Proof.
  unfold ChartManager.on_chart. destruct (m (ChartManager.chart s)). reflexivity.
Qed.

Lemma on_chart_draw_price_history bars y_scale (s : ChartManager.t) :
  ChartManager.on_chart (OptionsChart.draw_price_history bars y_scale) s
  = (Ok tt,
     ChartManager.set_chart
       (snd (OptionsChart.draw_price_history bars y_scale (ChartManager.chart s)))
       s).
Proof.
  rewrite on_chart_eq. f_equal.
  unfold OptionsChart.draw_price_history. apply fst_try_except.
Qed.

Lemma nth_error_last_quote_or_trade (bars : list Bar) :
  Forall quote_or_trade bars -> bars <> [] ->
  exists last_bar,
    nth_error bars (length bars - 1) = Some last_bar /\ quote_or_trade last_bar.
Proof.
  intros Hall Hne.
  destruct (nth_error bars (length bars - 1)) as [bar |] eqn:E.
  - exists bar. split; [reflexivity |].
    rewrite Forall_forall in Hall. apply Hall. eapply nth_error_In, E.
  - apply nth_error_None in E. destruct bars; [congruence | cbn in E; lia].
Qed.

Lemma chart_manager_update_with_historical_scale
      (bars : list Bar) (prices : list R) (lo hi : R) (m : ChartManager.t) :
  Forall quote_or_trade bars -> bars <> [] ->
  collect_prices bars = Ok prices -> prices <> [] ->
  py_min prices = Ok lo -> py_max prices = Ok hi ->
  OptionsChart.price_scale
    (ChartManager.chart (snd (ChartManager.update_with_historical bars m)))
  = Some (hi + (hi - lo) * 0.1).
Proof.
  intros Hall Hne Hc Hp Hlo Hhi.
  destruct (nth_error_last_quote_or_trade bars Hall Hne) as (last_bar & El & Hl).
  unfold ChartManager.update_with_historical.
  destruct bars as [| bar rest] eqn:Eb; [congruence |]. rewrite <- Eb in *.
  rewrite bind_modify. unfold bind at 1, lift, read. rewrite Hc.
  destruct prices as [| p ps] eqn:Ep; [congruence |]. rewrite <- Ep in *.
  unfold bind at 1. rewrite Hlo. unfold bind at 1. rewrite Hhi.
  cbv zeta. rewrite El.
  assert (Hspot : exists spot,
             forall s : ChartManager.t,
               match bid last_bar with
               | Some b =>
                 match ask last_bar with
                 | Some a => ret ((b + a) / 2)
                 | None => raise AttributeError
                 end
               | None => lift (getattr_close last_bar)
               end s = (Ok spot, s)).
  { destruct Hl as [(b & a & -> & ->) | (-> & c & Ec)].
    - eexists. reflexivity.
    - exists c. intros s. unfold lift, read, getattr_close. rewrite Ec. reflexivity. }
  destruct Hspot as (spot & Hspot).
  unfold bind at 1. rewrite Hspot. rewrite bind_modify.
  unfold bind at 1. rewrite on_chart_draw_price_history.
  match goal with
  | |- context [when ?c ?body ?s0] =>
    assert (F : frames (fun st => options_chart_data (ChartManager.chart st))
                       (when c body))
  end.
  { apply frames_when. intros st. rewrite on_chart_eq. cbn.
    apply options_chart_frames_draw_price_line. }
  match goal with
  | |- context [when ?c ?body ?s0] => specialize (F s0)
  end.
  cbn beta in F. apply options_chart_data_inv in F.
  destruct F as (_ & -> & _). cbn [ChartManager.chart ChartManager.set_chart].
  match goal with
  | |- context [OptionsChart.draw_price_history ?b ?y ?o] =>
    pose proof (options_chart_draw_price_history_data b y o) as G
  end.
  apply options_chart_data_inv in G. destruct G as (_ & -> & _). reflexivity.
Qed.

(** C7 (as amended).  For a non-empty pushed history whose bars are quotes
    or trades, with lo and hi the least and the greatest of the collected
    bid/ask (or close) values: [UnifiedChart.update_history] sets the scale
    to (lo - 0.1 * (hi - lo), hi + 0.1 * (hi - lo));
    [PriceChart.update_history] sets it to (lo, hi + 0.1 * (hi - lo)), the
    lower bound being the raw minimum; and
    [ChartManager.update_with_historical] hands the chart the single bound
    hi + 0.1 * (hi - lo). *)
Theorem history_scale_bounds (bars : list Bar) :
  Forall quote_or_trade bars -> bars <> [] ->
  exists prices lo hi,
    collect_prices bars = Ok prices
    /\ is_minimum lo prices /\ is_maximum hi prices
    /\ (forall u : UnifiedChart.t,
           UnifiedChart.price_scale (snd (UnifiedChart.update_history bars u))
           = Some (lo - (hi - lo) * 0.1, hi + (hi - lo) * 0.1))
    /\ (forall c : PriceChart.t,
           PriceChart.price_scale (snd (PriceChart.update_history bars c))
           = Some (lo, hi + (hi - lo) * 0.1))
    /\ (forall m : ChartManager.t,
           OptionsChart.price_scale
             (ChartManager.chart
                (snd (ChartManager.update_with_historical bars m)))
           = Some (hi + (hi - lo) * 0.1)).
Proof.
  intros Hall Hne.
  destruct (collect_prices_quote_or_trade bars Hall Hne) as (prices & Hc & Hp).
  destruct (py_min_max_spec prices Hp) as (lo & hi & Hlo & Hhi & Hmin & Hmax).
  exists prices, lo, hi. repeat split; try assumption; try apply Hmin; try apply Hmax.
  - intros u.
    rewrite (unified_update_history_eq bars prices lo hi Hne Hc Hp Hlo Hhi).
    destruct (unified_data_inv _ _ (unified_frames_redraw
      (UnifiedChart.set_price_scale
         (Some (lo - (hi - lo) * 0.1, hi + (hi - lo) * 0.1))
         (UnifiedChart.set_price_history bars u))))
      as (_ & _ & _ & _ & _ & _ & -> & _).
    reflexivity.
  - intros c.
    rewrite (price_chart_update_history_eq bars prices lo hi Hne Hc Hp Hlo Hhi).
    destruct (price_chart_data_inv _ _ (price_chart_frames_redraw
      (PriceChart.set_price_scale (Some (lo, hi + (hi - lo) * 0.1))
         (PriceChart.set_price_history bars c))))
      as (-> & _).
    reflexivity.
  - intros m.
    exact (chart_manager_update_with_historical_scale
             bars prices lo hi m Hall Hne Hc Hp Hlo Hhi).
Qed.

Lemma sample_history_quote_or_trade : Forall quote_or_trade sample_history.
Proof.
  unfold sample_history. apply Forall_cons; [| apply Forall_cons; [| apply Forall_nil]].
  - left. exists 100, 110. split; reflexivity.
  - right. split; [reflexivity | exists 105; reflexivity].
Qed.

Lemma history_scale_bounds_witness :
  exists prices lo hi,
    collect_prices sample_history = Ok prices
    /\ is_minimum lo prices /\ is_maximum hi prices
    /\ (forall u : UnifiedChart.t,
           UnifiedChart.price_scale
             (snd (UnifiedChart.update_history sample_history u))
           = Some (lo - (hi - lo) * 0.1, hi + (hi - lo) * 0.1))
    /\ (forall c : PriceChart.t,
           PriceChart.price_scale
             (snd (PriceChart.update_history sample_history c))
           = Some (lo, hi + (hi - lo) * 0.1))
    /\ (forall m : ChartManager.t,
           OptionsChart.price_scale
             (ChartManager.chart
                (snd (ChartManager.update_with_historical sample_history m)))
           = Some (hi + (hi - lo) * 0.1)).
Proof.
  apply history_scale_bounds.
  - exact sample_history_quote_or_trade.
  - discriminate.
Defined.

Lemma py_min_sample : py_min [100; 110; 105] = Ok 100.
Proof.
  cbn. f_equal. unfold Rmin.
  repeat (destruct (Rle_dec _ _); try lra).
Qed.

Lemma py_max_sample : py_max [100; 110; 105] = Ok 110.
Proof.
  cbn. f_equal. unfold Rmax.
  repeat (destruct (Rle_dec _ _); try lra).
Qed.

(** C7, the claim as written, fails in two of the three variants.  For the
    history of a quote 100/110 and a trade at 105 (range 10), the claim's
    lower bound is 99; [PriceChart.update_history] sets the scale to
    (100, 111), and [ChartManager.update_with_historical] gives the chart
    111 alone. *)
Lemma history_scale_bounds_counterexample :
  PriceChart.price_scale
    (snd (PriceChart.update_history sample_history (PriceChart.__init__ 1400 750)))
  = Some (100, 111)
  /\ OptionsChart.price_scale
       (ChartManager.chart
          (snd (ChartManager.update_with_historical
                  sample_history
                  (ChartManager.__init__ (OptionsChart.__init__ 1400 750)))))
     = Some 111.
Proof.
  assert (Hne : sample_history <> []) by discriminate.
  assert (Hc : collect_prices sample_history = Ok [100; 110; 105]) by reflexivity.
  assert (Hp : [100; 110; 105] <> []) by discriminate.
  split.
  - rewrite (price_chart_update_history_eq sample_history _ 100 110
               Hne Hc Hp py_min_sample py_max_sample).
    match goal with
    | |- PriceChart.price_scale (snd (PriceChart.redraw ?s)) = _ =>
      destruct (price_chart_data_inv _ _ (price_chart_frames_redraw s)) as (-> & _)
    end.
    cbn. do 2 f_equal. lra.
  - rewrite (chart_manager_update_with_historical_scale
               sample_history _ 100 110 _ sample_history_quote_or_trade
               Hne Hc Hp py_min_sample py_max_sample).
    f_equal. lra.
Qed.

(** ** The time axis *)

Example strftime_HMS_pads : strftime_HMS (at_time 9 5 3) = "09:05:03"%string.
Proof. reflexivity. Qed.

Lemma range_from_lt (fuel start stop step i : nat) :
  In i (range_from fuel start stop step) -> (i < stop)%nat.
Proof.
  revert start. induction fuel as [| fuel IH]; intros start; cbn [range_from].
  - intros [].
  - destruct (start <? stop)%nat eqn:E; [| intros []].
    apply Nat.ltb_lt in E. intros [<- | Hi]; [exact E | exact (IH _ Hi)].
Qed.

Lemma INR_length_nonzero {A : Type} (l : list A) : l <> [] -> INR (length l) <> 0.
Proof.
  intros Hl. apply not_0_INR. destruct l; [congruence | discriminate].
Qed.

Section UnifiedTimeAxis.
Import UnifiedChart.

Lemma unified_triple_create (s0 : t) (c : list item) (it : item) :
  triple (fun s => unified_data s = unified_data s0 /\ created s = c)
         (create it)
         (fun _ s => unified_data s = unified_data s0 /\ created s = c ++ [it]).
Proof.
  intros s [Hd Hc]. eexists. split; [reflexivity |]. split.
  - exact Hd.
  - rewrite created_create, Hc. reflexivity.
Qed.

Lemma unified_data_size (s s0 : t) :
  unified_data s = unified_data s0 ->
  IZR (Canvas.width (tk s)) = IZR (Canvas.width (tk s0))
  /\ IZR (Canvas.height (tk s)) = IZR (Canvas.height (tk s0)).
Proof.
  intros Hd.
  destruct (unified_data_inv _ _ Hd)
    as (_ & _ & _ & _ & _ & _ & _ & _ & _ & _ & -> & ->).
  split; reflexivity.
Qed.

Lemma unified_draw_time_axis_spec (s0 : t) (bars : list Bar) (c : list item) :
  bars <> [] ->
  triple (fun s => unified_data s = unified_data s0 /\ created s = c)
         (_draw_time_axis bars)
         (fun _ s =>
            unified_data s = unified_data s0
            /\ created s
               = c
                 ++ flat_map (fun i => match nth_error bars i with
                                       | Some bar =>
                                         [unified_time_label s0 (length bars) i bar]
                                       | None => []
                                       end)
                             (time_label_indices (length bars))).
Proof.
  intros Hne. unfold _draw_time_axis.
  destruct bars as [| b0 rest] eqn:Eb; [congruence |]. rewrite <- Eb in *. clear Eb.
  apply (triple_gets_bind _ _ (IZR (Canvas.width (tk s0)))).
  { intros s [Hd _]. apply (unified_data_size _ _ Hd). }
  apply (triple_gets_bind _ _ (IZR (Canvas.height (tk s0)))).
  { intros s [Hd _]. apply (unified_data_size _ _ Hd). }
  cbv zeta.
  apply (triple_for_each (fun s => unified_data s = unified_data s0) created).
  intros i c' Hi.
  apply range_from_lt in Hi.
  assert (E : (length bars <=? i)%nat = false) by (apply Nat.leb_gt; exact Hi).
  rewrite E.
  destruct (nth_error bars i) as [bar |] eqn:En;
    [| apply nth_error_None in En; lia].
  eapply triple_lift_bind.
  { apply py_div_ok, INR_length_nonzero, Hne. }
  eapply triple_bind.
  - apply unified_triple_create.
  - intros id. apply triple_ret. intros s Hs. exact Hs.
Qed.

End UnifiedTimeAxis.

Example time_label_indices_5 : time_label_indices 5 = [0; 1; 2; 3; 4]%nat.
Proof. reflexivity. Qed.

Example time_label_indices_6 : time_label_indices 6 = [0; 1; 2; 3; 4; 5]%nat.
Proof. reflexivity. Qed.

Example time_label_indices_8 : time_label_indices 8 = [0; 2; 4; 6]%nat.
Proof. reflexivity. Qed.

Example time_label_indices_11 : time_label_indices 11 = [0; 2; 4; 6; 8; 10]%nat.
Proof. reflexivity. Qed.

Example time_label_indices_390 :
  time_label_indices 390 = [0; 97; 194; 291; 388]%nat.
Proof. reflexivity. Qed.

(** C9.  The code does not meet the claim for 6, 7 and 11 visible bars.
    With seven bars the step is max(1, 7 // 4) = 1, and
    [UnifiedChart._draw_time_axis] returns after drawing seven time
    labels, one for each bar, where [num_labels = 5] was meant. *)
Theorem time_axis_seven_bars_seven_labels
        (s : UnifiedChart.t) (b0 b1 b2 b3 b4 b5 b6 : Bar) :
  let bars := [b0; b1; b2; b3; b4; b5; b6] in
  fst (UnifiedChart._draw_time_axis bars s) = Ok tt
  /\ created (snd (UnifiedChart._draw_time_axis bars s))
     = created s
       ++ [unified_time_label s 7 0 b0; unified_time_label s 7 1 b1;
           unified_time_label s 7 2 b2; unified_time_label s 7 3 b3;
           unified_time_label s 7 4 b4; unified_time_label s 7 5 b5;
           unified_time_label s 7 6 b6].
Proof.
  cbv zeta.
  destruct (unified_draw_time_axis_spec s [b0; b1; b2; b3; b4; b5; b6]
              (created s) ltac:(discriminate) s (conj eq_refl eq_refl))
    as ([] & Er & _ & Ec).
  split; [exact Er | exact Ec].
Qed.

(** ** Methods that always return *)

Section Total.
Context {Self : Type}.

Lemma total_ret {A : Type} (a : A) : total (ret (Self := Self) a).
Proof. intros s. exists a. reflexivity. Qed.

Lemma total_gets {A : Type} (g : Self -> A) : total (gets g).
Proof. intros s. exists (g s). reflexivity. Qed.

Lemma total_modify (g : Self -> Self) : total (modify g).
Proof. intros s. exists tt. reflexivity. Qed.

Lemma total_bind {A B : Type} (m : M Self A) (k : A -> M Self B) :
  total m -> (forall a, total (k a)) -> total (bind m k).
Proof.
  intros Hm Hk s. destruct (Hm s) as (a & Ea). unfold bind.
  destruct (m s) as [r s1]. cbn in Ea. subst r. apply Hk.
Qed.

Lemma total_when (c : bool) (m : M Self unit) : total m -> total (when c m).
Proof. intros Hm. destruct c; [exact Hm | apply total_ret]. Qed.

Lemma total_try_except (m : M Self unit) : total (try_except m).
Proof. intros s. exists tt. apply fst_try_except. Qed.

Lemma total_for_each {A : Type} (l : list A) (body : A -> M Self unit) :
  (forall x, total (body x)) -> total (for_each l body).
Proof.
  intros Hb. induction l as [| x xs IH]; cbn [for_each].
  - apply total_ret.
  - apply total_bind; [apply Hb | intros _; exact IH].
Qed.

Lemma total_create `{TkCanvas Self} (it : item) : total (create it).
Proof. intros s. eexists. reflexivity. Qed.

(** A method that always returns and frames [f] keeps every value of [f]. *)
Lemma triple_of_frames {A D : Type} (f : Self -> D) (m : M Self A) (v : D) :
  frames f m -> total m ->
  triple (fun s => f s = v) m (fun _ s => f s = v).
Proof.
  intros Hf Ht s Hs. destruct (Ht s) as (a & Ea). exists a.
  split; [exact Ea | rewrite Hf; exact Hs].
Qed.

Lemma frames_pair {A D E : Type} (f : Self -> D) (g : Self -> E) (m : M Self A) :
  frames f m -> frames g m -> frames (fun s => (f s, g s)) m.
Proof. intros Hf Hg s. rewrite Hf, Hg. reflexivity. Qed.

Lemma triple_of_frames2 {A D E : Type} (f : Self -> D) (g : Self -> E)
      (m : M Self A) (v : D) (w : E) :
  frames f m -> frames g m -> total m ->
  triple (fun s => f s = v /\ g s = w) m (fun _ s => f s = v /\ g s = w).
Proof.
  intros Hf Hg Ht s [Hv Hw]. destruct (Ht s) as (a & Ea). exists a.
  split; [exact Ea | rewrite Hf, Hg; split; assumption].
Qed.

(** What [bind] returned, read backwards. *)
Lemma bind_ok_inv {A B : Type} (m : M Self A) (k : A -> M Self B) s b s' :
  bind m k s = (Ok b, s') ->
  exists a s1, m s = (Ok a, s1) /\ k a s1 = (Ok b, s').
Proof.
  unfold bind. destruct (m s) as [[a | e] s1]; intros E.
  - exists a, s1. split; [reflexivity | exact E].
  - discriminate.
Qed.

End Total.

Create HintDb total.
#[local] Hint Resolve total_ret total_gets total_modify total_try_except
  total_create : total.

Ltac total_step :=
  lazymatch goal with
  | |- total (bind _ _) => apply total_bind; [| intros ?]
  | |- total (when _ _) => apply total_when
  | |- total (for_each _ _) => apply total_for_each; intros ?
  | |- total (match ?x with _ => _ end) => destruct x
  | |- total (if ?x then _ else _) => destruct x
  | |- total _ =>
    first [ progress cbv beta zeta
          | solve [auto with total nocore]
          | progress unfold get, delete, delete_all, create_line, create_text,
            create_rectangle, winfo_width, winfo_height ]
  end.

Ltac total_tac := repeat total_step.

Section UnifiedRedraw.
Import UnifiedChart.

Lemma unified_total_draw_empty_grid : total _draw_empty_grid.
Proof. unfold _draw_empty_grid. total_tac. Qed.

Lemma unified_draw_empty_grid_data (s0 : t) :
  triple (fun s => unified_data s = unified_data s0) _draw_empty_grid
         (fun _ s => unified_data s = unified_data s0).
Proof.
  apply triple_of_frames;
    [apply unified_frames_draw_empty_grid | apply unified_total_draw_empty_grid].
Qed.

End UnifiedRedraw.

Lemma In_skipn {A : Type} (n : nat) (l : list A) (x : A) :
  In x (skipn n l) -> In x l.
Proof.
  intros Hx. rewrite <- (firstn_skipn n l). apply in_or_app. right. exact Hx.
Qed.

Section UnifiedDrawing.
Import UnifiedChart.
Variable s0 : t.

(** The invariant of drawing: the data of the chart is that of [s0]. *)
Let I (s : t) : Prop := unified_data s = unified_data s0.

Lemma unified_create_data (it : item) :
  triple I (create it) (fun _ s => I s).
Proof. intros s Hs. eexists. split; [reflexivity | exact Hs]. Qed.

Lemma unified_price_to_y_defined (price : R) :
  transform_defined s0 -> exists y, _price_to_y s0 price = Ok y.
Proof.
  unfold transform_defined. destruct (price_scale s0) as [[lo hi] |] eqn:Es.
  - intros Hnz. rewrite (unified_price_to_y_eq s0 lo hi Es price Hnz). eauto.
  - intros _. unfold _price_to_y. rewrite Es. eauto.
Qed.

(** A step [y <- self._price_to_y(price)] under the invariant. *)
Lemma unified_triple_price_to_y {B : Type} (price : R)
      (k : R -> M t B) (R' : B -> t -> Prop) :
  transform_defined s0 ->
  (forall y, _price_to_y s0 price = Ok y -> triple I (k y) R') ->
  triple I (bind (read (fun self => _price_to_y self price)) k) R'.
Proof.
  intros Hd Hk. destruct (unified_price_to_y_defined price Hd) as (y & Ey).
  apply (triple_read_bind _ _ y).
  - intros s Hs. rewrite (unified_price_to_y_data s s0 price Hs). exact Ey.
  - apply Hk, Ey.
Qed.

Lemma unified_draw_price_scale_keeps :
  transform_defined s0 -> triple I _draw_price_scale (fun _ s => I s).
Proof.
  intros Hd. unfold _draw_price_scale.
  apply (triple_gets_bind _ _ (price_scale s0)).
  { intros s Hs. apply (unified_data_inv _ _ Hs). }
  destruct (price_scale s0) as [[lo hi] |]; [| apply triple_ret; auto].
  unfold winfo_width, winfo_height.
  apply triple_gets_seq; intros w. apply triple_gets_seq; intros h.
  apply triple_gets_seq; intros vz. apply triple_gets_seq; intros po.
  cbv zeta. apply triple_for_each_inv. intros i _.
  apply unified_triple_price_to_y; [exact Hd | intros y _].
  apply triple_seq; [apply unified_create_data | intros id1].
  apply triple_seq; [apply unified_create_data | intros id2].
  apply triple_ret. auto.
Qed.

Lemma unified_get_visible_bars_ok :
  horizontal_zoom s0 <> 0 ->
  exists visible,
    _get_visible_bars s0 = Ok visible
    /\ forall bar, In bar visible -> In bar (price_history s0).
Proof.
  intros Hz. unfold _get_visible_bars.
  destruct (price_history s0) as [| b rest] eqn:Eh.
  - exists []. split; [reflexivity | intros bar []].
  - rewrite py_div_ok by exact Hz. cbn [rbind]. eexists. split; [reflexivity |].
    intros bar. apply In_skipn.
Qed.

Lemma unified_get_visible_bars_data (s : t) :
  I s -> _get_visible_bars s = _get_visible_bars s0.
Proof.
  intros Hs. destruct (unified_data_inv _ _ Hs)
    as (Eh & _ & _ & _ & _ & _ & _ & _ & Ez & _).
  unfold _get_visible_bars. rewrite Eh, Ez. reflexivity.
Qed.

Lemma unified_draw_time_axis_keeps (bars : list Bar) :
  triple I (_draw_time_axis bars) (fun _ s => I s).
Proof.
  destruct bars as [| b rest] eqn:Eb.
  - apply triple_ret. auto.
  - rewrite <- Eb.
    apply (triple_forget I created _
             (fun c _ s => created s
                           = c ++ flat_map
                                    (fun i => match nth_error bars i with
                                              | Some bar =>
                                                [unified_time_label s0 (length bars) i bar]
                                              | None => []
                                              end)
                                    (time_label_indices (length bars)))).
    intros c. apply unified_draw_time_axis_spec. rewrite Eb. discriminate.
Qed.

Lemma unified_draw_price_history_keeps :
  transform_defined s0 ->
  horizontal_zoom s0 <> 0 ->
  Forall quote_or_trade (price_history s0) ->
  triple I _draw_price_history (fun _ s => I s).
Proof.
  intros Hd Hz Hall. unfold _draw_price_history, winfo_width, winfo_height.
  apply triple_gets_seq; intros w. apply triple_gets_seq; intros h.
  cbv zeta.
  apply triple_seq; [apply unified_draw_price_scale_keeps, Hd | intros u].
  destruct (unified_get_visible_bars_ok Hz) as (visible & Ev & Hin).
  apply (triple_read_bind _ _ visible).
  { intros s Hs. rewrite (unified_get_visible_bars_data s Hs). exact Ev. }
  apply (triple_bind I _ (fun _ s => I s /\ True)).
  { apply (triple_for_fold I (fun _ => True)); [| exact Logic.I].
    intros [bid_points ask_points] [i bar] Hi _.
    assert (Hbar : quote_or_trade bar).
    { rewrite Forall_forall in Hall. apply Hall, Hin.
      unfold enumerate in Hi. eapply in_combine_r, Hi. }
    assert (Hne : visible <> []).
    { intros E. rewrite E in Hi. exact Hi. }
    eapply triple_lift_bind.
    { apply py_div_ok, INR_length_nonzero, Hne. }
    destruct Hbar as [(b & a & -> & ->) | (-> & c & Ec)].
    - apply unified_triple_price_to_y; [exact Hd | intros y1 _].
      apply unified_triple_price_to_y; [exact Hd | intros y2 _].
      apply triple_ret. auto.
    - eapply triple_lift_bind.
      { unfold getattr_close. rewrite Ec. reflexivity. }
      apply unified_triple_price_to_y; [exact Hd | intros y _].
      apply triple_ret. auto. }
  intros [bid_points ask_points]. cbv beta. apply triple_pure_r.
  apply triple_seq; [| intros u1].
  { apply triple_when; [intros _ | auto].
    apply triple_seq; [apply unified_create_data | intros id].
    apply triple_ret. auto. }
  apply triple_seq; [| intros u2].
  { apply triple_when; [intros _ | auto].
    apply triple_seq; [apply unified_create_data | intros id].
    apply triple_ret. auto. }
  apply triple_gets_seq; intros cb. apply triple_gets_seq; intros ca.
  apply triple_seq; [| intros u3; apply unified_draw_time_axis_keeps].
  destruct cb as [b |]; [destruct ca as [a |] |]; try (apply triple_ret; auto).
  apply triple_when; [intros _ | auto].
  apply unified_triple_price_to_y; [exact Hd | intros y1 _].
  apply triple_seq; [apply unified_create_data | intros id1].
  apply unified_triple_price_to_y; [exact Hd | intros y2 _].
  apply triple_seq; [apply unified_create_data | intros id2].
  apply triple_ret. auto.
Qed.

End UnifiedDrawing.

Section UnifiedCurrentPrice.
Import UnifiedChart.

Lemma unified_draw_current_price_run (s : t) (bid ask : R) :
  current_bid s = Some bid -> current_ask s = Some ask ->
  match _price_to_y s ((bid + ask) / 2) with
  | Ok y =>
    exists s',
    _draw_current_price s = (Ok tt, s')
    /\ unified_data s' = unified_data s
    /\ created s' = created s ++ [unified_price_line s y]
  | Raise e => _draw_current_price s = (Raise e, s)
  end.
Proof.
  intros Hb Ha. unfold _draw_current_price, winfo_width.
  rewrite bind_gets. unfold get. rewrite bind_gets. rewrite Hb, Ha.
  destruct (_price_to_y s ((bid + ask) / 2)) as [y | e] eqn:Ey.
  - rewrite (bind_ok _ _ s y s) by (unfold read; rewrite Ey; reflexivity).
    eexists. split; [reflexivity |]. split; [reflexivity |].
    cbn [snd]. exact (created_create _ s).
  - apply bind_raise. unfold read. rewrite Ey. reflexivity.
Qed.

(** When [redraw] returns on a chart with some data and a non-zero cached
    bid and ask, the last item it created is the current-price line, at
    the y of the mid-price. *)
Lemma unified_redraw_returns_price_line (s : t) (bid ask : R) :
  price_history s <> [] ->
  current_bid s = Some bid -> current_ask s = Some ask ->
  bid <> 0 -> ask <> 0 ->
  fst (redraw s) = Ok tt ->
  exists y before,
    _price_to_y s ((bid + ask) / 2) = Ok y
    /\ created (snd (redraw s)) = before ++ [unified_price_line s y].
Proof.
  intros Hh Hb Ha Hbz Haz Hr.
  destruct (redraw s) as [r s'] eqn:E. cbn in Hr. subst r. cbn [snd].
  unfold redraw in E.
  apply bind_ok_inv in E as (u1 & s1 & E1 & E).
  apply bind_ok_inv in E as (u2 & s2 & E2 & E).
  unfold get in E. rewrite bind_gets in E.
  assert (D1 : unified_data s1 = unified_data s).
  { replace s1 with (snd (delete_all s)) by (rewrite E1; reflexivity). reflexivity. }
  assert (D2 : unified_data s2 = unified_data s).
  { replace s2 with (snd (_draw_empty_grid s1)) by (rewrite E2; reflexivity).
    rewrite unified_frames_draw_empty_grid. exact D1. }
  assert (E' : bind (when (match price_history s2, price_scale s2 with
                           | _ :: _, Some _ => true
                           | _, _ => false
                           end) _draw_price_history)
                    (fun _ =>
                       bind (when (match options_data s2 with
                                   | _ :: _ => true
                                   | [] => false
                                   end) _draw_options_data)
                            (fun _ =>
                               when (truthy_opt (current_bid s2)
                                     && truthy_opt (current_ask s2))
                                    _draw_current_price)) s2
               = (Ok tt, s')).
  { destruct (unified_data_inv _ _ D2) as (Eh & _).
    destruct (price_history s2) as [| b rest] eqn:Eh2; [congruence |].
    destruct (options_data s2); exact E. }
  clear E. apply bind_ok_inv in E' as (u3 & s3 & E3 & E).
  apply bind_ok_inv in E as (u4 & s4 & E4 & E).
  assert (D3 : unified_data s3 = unified_data s).
  { replace s3 with (snd (when (match price_history s2, price_scale s2 with
                                | _ :: _, Some _ => true
                                | _, _ => false
                                end) _draw_price_history s2))
      by (rewrite E3; reflexivity).
    rewrite (frames_when unified_data _ _ unified_frames_draw_price_history).
    exact D2. }
  assert (D4 : unified_data s4 = unified_data s).
  { replace s4 with (snd (when (match options_data s2 with
                                | _ :: _ => true
                                | [] => false
                                end) _draw_options_data s3))
      by (rewrite E4; reflexivity).
    rewrite (frames_when unified_data _ _ unified_frames_draw_options_data).
    exact D3. }
  destruct (unified_data_inv _ _ D2) as (_ & Eb2 & Ea2 & _).
  destruct (unified_data_inv _ _ D4)
    as (_ & Eb4 & Ea4 & _ & _ & _ & _ & _ & _ & _ & _ & Ew4).
  rewrite Eb2, Ea2, Hb, Ha in E. cbn [truthy_opt] in E.
  rewrite (truthy_nonzero bid Hbz), (truthy_nonzero ask Haz) in E. cbn [andb when] in E.
  pose proof (unified_draw_current_price_run s4 bid ask) as Hrun.
  rewrite Eb4, Ea4 in Hrun. specialize (Hrun Hb Ha).
  rewrite (unified_price_to_y_data s4 s _ D4) in Hrun.
  destruct (_price_to_y s ((bid + ask) / 2)) as [y | e].
  - destruct Hrun as (s'' & Erun & _ & Ec). rewrite Erun in E.
    injection E as <-. exists y, (created s4). split; [reflexivity |].
    rewrite Ec. unfold unified_price_line. rewrite Ew4. reflexivity.
  - rewrite Hrun in E. discriminate.
Qed.

(** [redraw] returns when the chart holds a price history of quotes and
    trades, no options data, and a transform with a non-zero divisor. *)
Lemma unified_redraw_returns (s : t) :
  options_data s = [] ->
  transform_defined s ->
  horizontal_zoom s <> 0 ->
  Forall quote_or_trade (price_history s) ->
  fst (redraw s) = Ok tt.
Proof.
  intros Ho Hd Hz Hall.
  assert (T : triple (fun s1 => unified_data s1 = unified_data s) redraw
                     (fun _ s1 => unified_data s1 = unified_data s)).
  { unfold redraw.
    apply triple_seq; [apply triple_modify; intros s1 Hs; exact Hs | intros u1].
    apply triple_seq; [apply unified_draw_empty_grid_data | intros u2].
    apply triple_get_seq. intros self Hself.
    destruct (unified_data_inv _ _ Hself) as (Eh & Eb & Ea & Eo & _ & _ & Es & _).
    rewrite Eh, Eo, Ho, Es.
    destruct (price_history s) as [| b rest] eqn:Ehs; [apply triple_ret; auto |].
    apply triple_seq; [| intros u3].
    { apply triple_when; [intros _ | auto].
      apply unified_draw_price_history_keeps; try assumption.
      rewrite Ehs. exact Hall. }
    apply triple_seq; [| intros u4].
    { apply triple_when; [discriminate | auto]. }
    apply triple_when; [intros Hc | auto].
    apply andb_prop in Hc. destruct Hc as [Hc1 Hc2].
    rewrite Eb in Hc1. rewrite Ea in Hc2.
    destruct (current_bid s) as [bid |] eqn:Ebid; [| discriminate].
    destruct (current_ask s) as [ask |] eqn:Eask; [| discriminate].
    intros s4 H4.
    pose proof (unified_draw_current_price_run s4 bid ask) as Hrun.
    destruct (unified_data_inv _ _ H4) as (_ & Eb4 & Ea4 & _).
    rewrite Eb4, Ea4 in Hrun. specialize (Hrun Ebid Eask).
    rewrite (unified_price_to_y_data s4 s _ H4) in Hrun.
    destruct (unified_price_to_y_defined s ((bid + ask) / 2) Hd) as (y & Ey).
    rewrite Ey in Hrun. destruct Hrun as (s' & Erun & Hdata & _).
    exists tt. rewrite Erun. split; [reflexivity | cbn; congruence]. }
  destruct (T s eq_refl) as ([] & Er & _). exact Er.
Qed.

End UnifiedCurrentPrice.

(** ** Live quotes *)

Lemma set_last_quote_app (bid ask : R) (init : list Bar) (last_bar : Bar) :
  ChartManager.set_last_quote bid ask (init ++ [last_bar])
  = init ++ [with_quote bid ask last_bar].
Proof.
  induction init as [| bar rest IH]; [reflexivity |].
  cbn [app ChartManager.set_last_quote]. rewrite IH.
  destruct (rest ++ [last_bar]) eqn:E; [| reflexivity].
  destruct rest; discriminate.
Qed.

Section OptionsPriceLine.
Import OptionsChart.

Lemma options_draw_price_line_run (o : t) (price scale : R) :
  price_scale o = Some scale -> scale <> 0 -> vertical_zoom o <> 0 ->
  exists y o',
    _price_to_y o price (scale / vertical_zoom o) = Ok y
    /\ draw_price_line price o = (Ok tt, o')
    /\ options_chart_data o' = options_chart_data o
    /\ created o' = created o ++ [options_price_line o y].
Proof.
  intros Hs Hnz Hvz.
  assert (Hys : scale / vertical_zoom o <> 0).
  { unfold Rdiv. apply Rmult_integral_contrapositive_currified;
      [exact Hnz | apply Rinv_neq_0_compat, Hvz]. }
  eexists. unfold draw_price_line. rewrite bind_gets.
  set (m0 := match price_line o with
             | Some l => when (negb (l =? 0)%nat) (delete l)
             | None => ret tt
             end).
  assert (H0 : exists o1, m0 o = (Ok tt, o1)
                          /\ options_chart_data o1 = options_chart_data o
                          /\ created o1 = created o).
  { subst m0. destruct (price_line o) as [l |]; [destruct (negb (l =? 0)%nat) |];
      cbn [when]; eexists; (split; [reflexivity |]); split; try reflexivity.
    exact (created_delete l o). }
  destruct H0 as (o1 & E0 & D1 & C1).
  rewrite (bind_ok _ _ _ _ _ E0), bind_gets.
  destruct (options_chart_data_inv _ _ D1) as (_ & Es & Ez & Eo & Eh & Ew & _).
  rewrite Es, Hs, (truthy_nonzero scale Hnz). cbn [negb].
  unfold winfo_width. rewrite !bind_gets, Ez.
  rewrite (bind_ok _ _ o1 (scale / vertical_zoom o) o1)
    by (unfold lift, read; rewrite py_div_ok by exact Hvz; reflexivity).
  rewrite (options_chart_price_to_y_eq o _ _ Hys).
  rewrite (bind_ok _ _ o1 _ o1)
    by (unfold read; rewrite (options_chart_price_to_y_eq o1 _ _ Hys), Eh, Eo;
        reflexivity).
  eexists. split; [reflexivity |]. split; [reflexivity |]. split.
  - cbn. exact D1.
  - cbn [snd]. unfold options_price_line. rewrite <- C1, <- Ew.
    exact (created_create _ o1).
Qed.

End OptionsPriceLine.

Lemma chart_manager_update_prices_eq (bid ask : R) (m : ChartManager.t) :
  ChartManager.historical_bars m <> [] ->
  ChartManager.update_prices bid ask m
  = bind (ChartManager.on_chart
            (OptionsChart.draw_price_history
               (ChartManager.set_last_quote bid ask (ChartManager.historical_bars m))
               (OptionsChart.price_scale (ChartManager.chart m))))
         (fun _ => ChartManager.on_chart
                     (OptionsChart.draw_price_line ((bid + ask) / 2)))
         (ChartManager.set_spot_price
            (Some ((bid + ask) / 2))
            (ChartManager.set_historical_bars
               (ChartManager.set_last_quote bid ask (ChartManager.historical_bars m))
               m)).
Proof.
  intros Hne. unfold ChartManager.update_prices. rewrite bind_gets.
  destruct (ChartManager.historical_bars m) as [| bar rest]; [congruence |].
  reflexivity.
Qed.

Lemma options_price_to_y_data (a b : OptionsChart.t) (price y_scale : R) :
  options_chart_data a = options_chart_data b ->
  OptionsChart._price_to_y a price y_scale = OptionsChart._price_to_y b price y_scale.
Proof.
  intros E. destruct (options_chart_data_inv _ _ E) as (_ & _ & _ & Eo & Eh & _).
  unfold OptionsChart._price_to_y. rewrite Eo, Eh. reflexivity.
Qed.

Lemma chart_manager_update_prices_spec
      (bid ask : R) (m : ChartManager.t) (init : list Bar) (last_bar : Bar) :
  ChartManager.historical_bars m = init ++ [last_bar] ->
  let m' := snd (ChartManager.update_prices bid ask m) in
  ChartManager.historical_bars m' = init ++ [with_quote bid ask last_bar]
  /\ OptionsChart.historical_bars (ChartManager.chart m')
     = init ++ [with_quote bid ask last_bar]
  /\ OptionsChart.price_scale (ChartManager.chart m')
     = OptionsChart.price_scale (ChartManager.chart m)
  /\ forall scale,
      OptionsChart.price_scale (ChartManager.chart m) = Some scale ->
      scale <> 0 ->
      OptionsChart.vertical_zoom (ChartManager.chart m) <> 0 ->
      fst (ChartManager.update_prices bid ask m) = Ok tt
      /\ exists y before,
          OptionsChart._price_to_y
            (ChartManager.chart m') ((bid + ask) / 2)
            (scale / OptionsChart.vertical_zoom (ChartManager.chart m))
          = Ok y
          /\ created (ChartManager.chart m')
             = before ++ [options_price_line (ChartManager.chart m') y].
Proof.
  intros Hb. cbv zeta.
  assert (Hne : ChartManager.historical_bars m <> []).
  { rewrite Hb. destruct init; discriminate. }
  rewrite (chart_manager_update_prices_eq bid ask m Hne).
  rewrite (bind_ok _ _ _ _ _ (on_chart_draw_price_history _ _ _)).
  rewrite on_chart_eq. cbn [fst snd ChartManager.chart ChartManager.set_chart
                            ChartManager.set_spot_price
                            ChartManager.set_historical_bars
                            ChartManager.historical_bars].
  rewrite Hb, set_last_quote_app.
  set (bars' := init ++ [with_quote bid ask last_bar]).
  set (o1 := snd (OptionsChart.draw_price_history
                    bars' (OptionsChart.price_scale (ChartManager.chart m))
                    (ChartManager.chart m))).
  pose proof (options_chart_draw_price_history_data
                bars' (OptionsChart.price_scale (ChartManager.chart m))
                (ChartManager.chart m)) as D1.
  fold o1 in D1.
  pose proof (options_chart_frames_draw_price_line ((bid + ask) / 2) o1) as D2.
  destruct (options_chart_data_inv _ _ D1) as (Eh1 & Es1 & Ez1 & _).
  destruct (options_chart_data_inv _ _ D2) as (Eh2 & Es2 & _).
  cbn in Eh1, Es1, Ez1.
  split; [reflexivity |]. split; [congruence |]. split; [congruence |].
  intros scale Hs Hnz Hvz.
  assert (Hs1 : OptionsChart.price_scale o1 = Some scale) by congruence.
  assert (Hv1 : OptionsChart.vertical_zoom o1 <> 0) by congruence.
  destruct (options_draw_price_line_run o1 ((bid + ask) / 2) scale Hs1 Hnz Hv1)
    as (y & o' & Ey & Erun & Hd & Hc).
  rewrite Erun. cbn [fst snd]. split; [reflexivity |].
  exists y, (created o1). split.
  - rewrite (options_price_to_y_data o' o1 _ _ Hd), <- Ez1. exact Ey.
  - rewrite Hc. unfold options_price_line.
    destruct (options_chart_data_inv _ _ Hd) as (_ & _ & _ & _ & _ & -> & _).
    reflexivity.
Qed.

Lemma unified_update_prices_spec (bid ask : R) (u : UnifiedChart.t) :
  UnifiedChart.price_history u <> [] ->
  let u' := snd (UnifiedChart.update_prices bid ask u) in
  UnifiedChart.price_history u' = UnifiedChart.price_history u
  /\ UnifiedChart.price_scale u' = UnifiedChart.price_scale u
  /\ UnifiedChart.current_bid u' = Some bid
  /\ UnifiedChart.current_ask u' = Some ask
  /\ (bid <> 0 -> ask <> 0 ->
      (UnifiedChart.options_data u = [] ->
       transform_defined u ->
       UnifiedChart.horizontal_zoom u <> 0 ->
       Forall quote_or_trade (UnifiedChart.price_history u) ->
       fst (UnifiedChart.update_prices bid ask u) = Ok tt)
      /\ (fst (UnifiedChart.update_prices bid ask u) = Ok tt ->
          exists y before,
            UnifiedChart._price_to_y u' ((bid + ask) / 2) = Ok y
            /\ created u' = before ++ [unified_price_line u' y])).
Proof.
  intros Hh. cbv zeta.
  set (u1 := UnifiedChart.set_current_ask
               (Some ask) (UnifiedChart.set_current_bid (Some bid) u)).
  assert (E : UnifiedChart.update_prices bid ask u = UnifiedChart.redraw u1)
    by reflexivity.
  rewrite E.
  pose proof (unified_frames_redraw u1) as F.
  destruct (unified_data_inv _ _ F)
    as (Eh & Eb & Ea & _ & _ & _ & Es & _ & _ & _ & _ & Ew).
  split; [exact Eh |]. split; [exact Es |]. split; [exact Eb |]. split; [exact Ea |].
  intros Hbz Haz. split.
  - intros Ho Hd Hz Hall. apply unified_redraw_returns; assumption.
  - intros Hr.
    destruct (unified_redraw_returns_price_line u1 bid ask Hh eq_refl eq_refl
                                                Hbz Haz Hr)
      as (y & before & Ey & Ec).
    exists y, before. split.
    + rewrite (unified_price_to_y_data _ _ _ F). exact Ey.
    + rewrite Ec. unfold unified_price_line. rewrite Ew. reflexivity.
Qed.

(** C8 (as amended).  For a non-empty cached history of n samples and a
    live quote (bid, ask):
    - [ChartManager.update_prices] sets the bid and ask of the n-th sample
      (in the manager's history and in the chart's), leaves samples 1 to
      n-1 and the chart's scale as they were, and, when that scale and the
      vertical zoom are not 0, returns after drawing the current-price
      line at the y of the mid-price (bid + ask) / 2;
    - [UnifiedChart.update_prices] changes no sample, the n-th included:
      it caches the quote as the current bid and ask and leaves history
      and scale as they were; with a non-zero bid and ask, the redraw
      returns when the history is one of quotes and trades, no options
      are cached and the transform has a non-zero divisor, and whenever it
      returns the last item it drew is the current-price line at the y of
      the mid-price. *)
Theorem live_quote_update (bid ask : R) :
  (forall (m : ChartManager.t) (init : list Bar) (last_bar : Bar),
      ChartManager.historical_bars m = init ++ [last_bar] ->
      let m' := snd (ChartManager.update_prices bid ask m) in
      ChartManager.historical_bars m' = init ++ [with_quote bid ask last_bar]
      /\ OptionsChart.historical_bars (ChartManager.chart m')
         = init ++ [with_quote bid ask last_bar]
      /\ OptionsChart.price_scale (ChartManager.chart m')
         = OptionsChart.price_scale (ChartManager.chart m)
      /\ forall scale,
          OptionsChart.price_scale (ChartManager.chart m) = Some scale ->
          scale <> 0 ->
          OptionsChart.vertical_zoom (ChartManager.chart m) <> 0 ->
          fst (ChartManager.update_prices bid ask m) = Ok tt
          /\ exists y before,
              OptionsChart._price_to_y
                (ChartManager.chart m') ((bid + ask) / 2)
                (scale / OptionsChart.vertical_zoom (ChartManager.chart m))
              = Ok y
              /\ created (ChartManager.chart m')
                 = before ++ [options_price_line (ChartManager.chart m') y])
  /\ (forall u : UnifiedChart.t,
      UnifiedChart.price_history u <> [] ->
      let u' := snd (UnifiedChart.update_prices bid ask u) in
      UnifiedChart.price_history u' = UnifiedChart.price_history u
      /\ UnifiedChart.price_scale u' = UnifiedChart.price_scale u
      /\ UnifiedChart.current_bid u' = Some bid
      /\ UnifiedChart.current_ask u' = Some ask
      /\ (bid <> 0 -> ask <> 0 ->
          (UnifiedChart.options_data u = [] ->
           transform_defined u ->
           UnifiedChart.horizontal_zoom u <> 0 ->
           Forall quote_or_trade (UnifiedChart.price_history u) ->
           fst (UnifiedChart.update_prices bid ask u) = Ok tt)
          /\ (fst (UnifiedChart.update_prices bid ask u) = Ok tt ->
              exists y before,
                UnifiedChart._price_to_y u' ((bid + ask) / 2) = Ok y
                /\ created u' = before ++ [unified_price_line u' y]))).
Proof.
  split.
  - intros m init last_bar. apply chart_manager_update_prices_spec.
  - intros u. apply unified_update_prices_spec.
Qed.

Lemma live_history_quote_or_trade : Forall quote_or_trade live_history.
Proof.
  apply Forall_cons; [| apply Forall_nil].
  left. exists 5000, 5001. split; reflexivity.
Qed.

Lemma live_quote_update_witness :
  (let m' := snd (ChartManager.update_prices 5001 5002 live_manager) in
   ChartManager.historical_bars m' = [quote (at_time 9 30 0) 5001 5002]
   /\ OptionsChart.price_scale (ChartManager.chart m') = Some 5010
   /\ fst (ChartManager.update_prices 5001 5002 live_manager) = Ok tt
   /\ exists y before,
       OptionsChart._price_to_y (ChartManager.chart m') ((5001 + 5002) / 2)
                                (5010 / 1) = Ok y
       /\ created (ChartManager.chart m')
          = before ++ [options_price_line (ChartManager.chart m') y])
  /\ (let u' := snd (UnifiedChart.update_prices 5001 5002 live_chart) in
      UnifiedChart.price_history u' = live_history
      /\ UnifiedChart.price_scale u' = Some (4990, 5010)
      /\ fst (UnifiedChart.update_prices 5001 5002 live_chart) = Ok tt
      /\ exists y before,
          UnifiedChart._price_to_y u' ((5001 + 5002) / 2) = Ok y
          /\ created u' = before ++ [unified_price_line u' y]).
Proof.
  destruct (live_quote_update 5001 5002) as [HM HU]. split.
  - destruct (HM live_manager [] (quote (at_time 9 30 0) 5000 5001) eq_refl)
      as (Eh & _ & Es & Hline).
    destruct (Hline 5010 eq_refl) as (Er & Hl); [lra | cbn; lra |].
    cbv zeta. repeat split; assumption.
  - destruct (HU live_chart) as (Eh & Es & _ & _ & Hline); [discriminate |].
    destruct Hline as [Hret Hl]; [lra | lra |].
    assert (Er : fst (UnifiedChart.update_prices 5001 5002 live_chart) = Ok tt).
    { apply Hret.
      - reflexivity.
      - unfold transform_defined. cbn. lra.
      - cbn. lra.
      - exact live_history_quote_or_trade. }
    cbv zeta. repeat split; try assumption. exact (Hl Er).
Defined.

(** C8, the claim as written, fails for [UnifiedChart.update_prices]: after
    the quote 5001/5002 the only (hence most recent) cached sample still
    has bid 5000 and ask 5001; the quote is in [current_bid] and
    [current_ask]. *)
Lemma live_quote_update_counterexample :
  let u' := snd (UnifiedChart.update_prices 5001 5002 live_chart) in
  UnifiedChart.price_history u' = [quote (at_time 9 30 0) 5000 5001]
  /\ UnifiedChart.current_bid u' = Some 5001
  /\ UnifiedChart.current_ask u' = Some 5002.
Proof.
  cbv zeta.
  destruct (unified_update_prices_spec 5001 5002 live_chart)
    as (Eh & _ & Eb & Ea & _); [discriminate |].
  repeat split; assumption.
Qed.

(** ** Exposure bars *)

Lemma bar_lengths_app (l1 l2 : list item) :
  bar_lengths (l1 ++ l2) = bar_lengths l1 ++ bar_lengths l2.
Proof. unfold bar_lengths. apply flat_map_app. Qed.

Section DrawnBars.
Context {Self : Type} `{TkCanvas Self}.

Lemma drawn_bars_create (it : item) (s : Self) :
  drawn_bars (snd (create it s)) = drawn_bars s ++ bar_lengths [it].
Proof. unfold drawn_bars. rewrite created_create. apply bar_lengths_app. Qed.

Lemma frames_drawn_bars_create_line coords fill dash smooth :
  frames drawn_bars (create_line coords fill dash smooth).
Proof.
  intros s. unfold create_line. rewrite drawn_bars_create. apply app_nil_r.
Qed.

Lemma frames_drawn_bars_create_text x y content anchor fill :
  frames drawn_bars (create_text x y content anchor fill).
Proof.
  intros s. unfold create_text. rewrite drawn_bars_create. apply app_nil_r.
Qed.

Lemma frames_drawn_bars_delete (id : nat) : frames drawn_bars (delete id).
Proof. intros s. unfold drawn_bars. rewrite created_delete. reflexivity. Qed.

Lemma frames_drawn_bars_delete_all : frames drawn_bars delete_all.
Proof. intros s. unfold drawn_bars. rewrite created_delete_all. reflexivity. Qed.

End DrawnBars.

#[local] Hint Resolve frames_drawn_bars_create_line frames_drawn_bars_create_text
  frames_drawn_bars_delete frames_drawn_bars_delete_all : frames.

Section OptionsBarsFrames.
Import OptionsChart.

Lemma options_drawn_bars_clear_price_history : frames drawn_bars _clear_price_history.
Proof. unfold _clear_price_history. frames_tac. Qed.

Lemma options_drawn_bars_clear_options_data : frames drawn_bars _clear_options_data.
Proof. unfold _clear_options_data. frames_tac. Qed.

Lemma options_drawn_bars_draw_price_scale y_scale :
  frames drawn_bars (_draw_price_scale y_scale).
Proof. unfold _draw_price_scale. frames_tac. Qed.

Lemma options_drawn_bars_draw_time_axis bars :
  frames drawn_bars (_draw_time_axis bars).
Proof. unfold _draw_time_axis. frames_tac. Qed.

Lemma options_drawn_bars_draw_price_line price :
  frames drawn_bars (draw_price_line price).
Proof. unfold draw_price_line. frames_tac. Qed.

Lemma options_drawn_bars_draw_exposure_scale max_exp :
  frames drawn_bars (_draw_exposure_scale max_exp).
Proof. unfold _draw_exposure_scale. frames_tac. Qed.

#[local] Hint Resolve options_drawn_bars_clear_price_history
  options_drawn_bars_draw_price_scale options_drawn_bars_draw_time_axis : frames.

Lemma options_drawn_bars_draw_price_history bars y_scale :
  frames drawn_bars (draw_price_history bars y_scale).
Proof. unfold draw_price_history. frames_tac. Qed.

Lemma options_view_clear_price_history : frames options_view _clear_price_history.
Proof. unfold _clear_price_history. frames_tac. Qed.

Lemma options_view_clear_options_data : frames options_view _clear_options_data.
Proof. unfold _clear_options_data. frames_tac. Qed.

Lemma options_view_draw_price_scale y_scale :
  frames options_view (_draw_price_scale y_scale).
Proof. unfold _draw_price_scale. frames_tac. Qed.

Lemma options_view_draw_time_axis bars :
  frames options_view (_draw_time_axis bars).
Proof. unfold _draw_time_axis. frames_tac. Qed.

Lemma options_view_draw_price_line price :
  frames options_view (draw_price_line price).
Proof. unfold draw_price_line. frames_tac. Qed.

Lemma options_view_draw_exposure_scale max_exp :
  frames options_view (_draw_exposure_scale max_exp).
Proof. unfold _draw_exposure_scale. frames_tac. Qed.

#[local] Hint Resolve options_view_clear_price_history
  options_view_draw_price_scale options_view_draw_time_axis : frames.

Lemma options_view_draw_price_history bars y_scale :
  frames options_view (draw_price_history bars y_scale).
Proof. unfold draw_price_history. frames_tac. Qed.

Lemma options_total_clear_options_data : total _clear_options_data.
Proof. unfold _clear_options_data. total_tac. Qed.

Lemma options_total_draw_exposure_scale max_exp :
  total (_draw_exposure_scale max_exp).
Proof. unfold _draw_exposure_scale. total_tac. Qed.

Lemma options_total_draw_price_history bars y_scale :
  total (draw_price_history bars y_scale).
Proof. unfold draw_price_history. apply total_try_except. Qed.

End OptionsBarsFrames.

(** *** The running maximum *)

Section ObservedMax.

Let step (max_exp : R) (row : R * R * R) : R :=
  let '(_, call_exp, put_exp) := row in Rmax (Rmax max_exp call_exp) put_exp.

Lemma fold_max_spec (exposures : list (R * R * R)) (acc : R) :
  acc <= fold_left step exposures acc
  /\ (forall strike call_exp put_exp,
         In (strike, call_exp, put_exp) exposures ->
         call_exp <= fold_left step exposures acc
         /\ put_exp <= fold_left step exposures acc)
  /\ (fold_left step exposures acc = acc
      \/ exists strike call_exp put_exp,
          In (strike, call_exp, put_exp) exposures
          /\ (fold_left step exposures acc = call_exp
              \/ fold_left step exposures acc = put_exp)).
Proof.
  revert acc. induction exposures as [| [[strike c] p] rest IH]; intros acc;
    cbn [fold_left].
  - split; [lra |]. split; [intros ? ? ? [] | left; reflexivity].
  - destruct (IH (step acc (strike, c, p))) as (Hge & Hall & Hatt).
    assert (Hs : acc <= step acc (strike, c, p)
                 /\ c <= step acc (strike, c, p)
                 /\ p <= step acc (strike, c, p)).
    { cbn. pose proof (Rmax_l (Rmax acc c) p). pose proof (Rmax_r (Rmax acc c) p).
      pose proof (Rmax_l acc c). pose proof (Rmax_r acc c). lra. }
    destruct Hs as (Ha & Hc & Hp).
    split; [lra |]. split.
    + intros s' c' p' [E | Hin].
      * injection E as <- <- <-. lra.
      * apply (Hall s' c' p' Hin).
    + destruct Hatt as [E | (s' & c' & p' & Hin & E)].
      * rewrite E. cbn. unfold Rmax.
        destruct (Rle_dec acc c); destruct (Rle_dec _ p);
          [right | right | right | left; reflexivity];
          exists strike, c, p; (split; [left; reflexivity |]); auto.
      * right. exists s', c', p'. split; [right; exact Hin | exact E].
Qed.

Lemma observed_max_spec (exposures : list (R * R * R)) :
  0 <= OptionsChart.observed_max exposures
  /\ (forall strike call_exp put_exp,
         In (strike, call_exp, put_exp) exposures ->
         call_exp <= OptionsChart.observed_max exposures
         /\ put_exp <= OptionsChart.observed_max exposures)
  /\ (0 < OptionsChart.observed_max exposures ->
      exists strike call_exp put_exp,
        In (strike, call_exp, put_exp) exposures
        /\ (OptionsChart.observed_max exposures = call_exp
            \/ OptionsChart.observed_max exposures = put_exp)).
Proof.
  destruct (fold_max_spec exposures 0) as (Hge & Hall & Hatt).
  change (fold_left step exposures 0) with (OptionsChart.observed_max exposures) in *.
  split; [exact Hge |]. split; [exact Hall |].
  intros Hpos. destruct Hatt as [E | Hex]; [lra | exact Hex].
Qed.

End ObservedMax.

Lemma drawn_exposures_In (exposures : list (R * R * R)) (e : R) :
  In e (drawn_exposures exposures)
  <-> 0 < e /\ exists strike call_exp put_exp,
        In (strike, call_exp, put_exp) exposures /\ (e = call_exp \/ e = put_exp).
Proof.
  unfold drawn_exposures. rewrite in_flat_map. split.
  - intros ([[strike c] p] & Hin & He). apply in_app_or in He.
    destruct He as [He | He].
    + destruct (Rltb 0 c) eqn:Ec; [| destruct He].
      destruct He as [<- | []]. apply Rltb_true_iff in Ec.
      split; [exact Ec |]. exists strike, c, p. auto.
    + destruct (Rltb 0 p) eqn:Ep; [| destruct He].
      destruct He as [<- | []]. apply Rltb_true_iff in Ep.
      split; [exact Ep |]. exists strike, c, p. auto.
  - intros (Hpos & strike & c & p & Hin & He).
    exists (strike, c, p). split; [exact Hin |]. apply in_or_app.
    destruct He as [-> | ->]; [left | right];
      apply Rltb_true_iff in Hpos; rewrite Hpos; left; reflexivity.
Qed.

(** The bars of the rows, whatever the indices [enumerate] attaches. *)
Lemma flat_map_enumerated_rows (f : R -> R) (exposures : list (R * R * R))
      (indices : list nat) :
  length indices = length exposures ->
  flat_map (fun '(_, (_, call_exp, put_exp)) =>
              (if Rltb 0 call_exp then [f call_exp] else [])
              ++ (if Rltb 0 put_exp then [f put_exp] else []))
           (combine indices exposures)
  = map f (drawn_exposures exposures).
Proof.
  revert indices. induction exposures as [| [[strike c] p] rest IH];
    intros [| i indices] Hlen; try discriminate; [reflexivity |].
  cbn [combine flat_map drawn_exposures].
  fold (drawn_exposures rest). rewrite !map_app, (IH indices) by (cbn in Hlen; lia).
  destruct (Rltb 0 c); destruct (Rltb 0 p); reflexivity.
Qed.

Section OptionsBars.
Import OptionsChart.

Lemma options_view_inv (a b : t) :
  options_view a = options_view b ->
  current_spot a = current_spot b
  /\ exposure_type a = exposure_type b
  /\ vertical_zoom a = vertical_zoom b
  /\ price_offset a = price_offset b
  /\ Canvas.width (tk a) = Canvas.width (tk b)
  /\ Canvas.height (tk a) = Canvas.height (tk b).
Proof.
  unfold options_view. intros E. injection E as -> -> -> -> -> ->. repeat split.
Qed.

Lemma options_row_exposures_view (a b : t) (row : OptionRow) :
  options_view a = options_view b -> row_exposures a row = row_exposures b row.
Proof.
  intros E. destruct (options_view_inv _ _ E) as (Es & Ee & _).
  destruct row as [[strike call_ticker] put_ticker].
  unfold row_exposures, _calculate_exposure. rewrite Es, Ee. reflexivity.
Qed.

Lemma options_create_bars v (c : list R) (it : item) :
  triple (fun s : t => options_view s = v /\ drawn_bars s = c)
         (create it)
         (fun _ s => options_view s = v /\ drawn_bars s = c ++ bar_lengths [it]).
Proof.
  intros s [Hv Hc]. eexists. split; [reflexivity |]. split; [exact Hv |].
  rewrite drawn_bars_create, Hc. reflexivity.
Qed.

Lemma options_create_view v (it : item) :
  triple (fun s : t => options_view s = v) (create it)
         (fun _ s => options_view s = v).
Proof. intros s Hv. eexists. split; [reflexivity | exact Hv]. Qed.

(** [draw_price_line] returns when the vertical zoom is not 0. *)
Lemma options_draw_price_line_keeps (o : t) (price : R) :
  vertical_zoom o <> 0 ->
  triple (fun s => options_view s = options_view o) (draw_price_line price)
         (fun _ s => options_view s = options_view o).
Proof.
  intros Hvz. unfold draw_price_line.
  apply triple_gets_seq. intros old.
  apply triple_seq; [| intros u].
  { destruct old as [l |]; [| apply triple_ret; auto].
    apply triple_when; [intros _ | auto].
    apply triple_modify. intros s Hs. exact Hs. }
  apply triple_gets_seq. intros scale.
  destruct scale as [scale |]; [| apply triple_ret; auto].
  destruct (truthy scale) eqn:Et; cbn [negb]; [| apply triple_ret; auto].
  apply truthy_true_iff in Et.
  unfold winfo_width. apply triple_gets_seq. intros w.
  apply (triple_gets_bind _ _ (vertical_zoom o)).
  { intros s Hs. apply (options_view_inv _ _ Hs). }
  eapply triple_lift_bind; [apply py_div_ok, Hvz |].
  assert (Hys : scale / vertical_zoom o <> 0).
  { unfold Rdiv. apply Rmult_integral_contrapositive_currified;
      [exact Et | apply Rinv_neq_0_compat, Hvz]. }
  eapply triple_read_bind.
  { intros s Hs. rewrite (options_chart_price_to_y_eq s _ _ Hys).
    destruct (options_view_inv _ _ Hs) as (_ & _ & _ & -> & _ & ->). reflexivity. }
  apply triple_seq; [apply options_create_view | intros l].
  apply triple_modify. intros s Hs. exact Hs.
Qed.

Lemma options_draw_delta_chart_spec
      (o : t) (data : list OptionRow) (max_exposure spot_price : option R)
      (exposure_type : option string) :
  vertical_zoom o <> 0 ->
  let o1 := options_stored data max_exposure spot_price exposure_type o in
  let exposures := map (row_exposures o1) data in
  let norm := Rmax (observed_max exposures) 1.0 in
  let span := IZR (Canvas.width (tk o)) - margin_right - 50 in
  exists o',
    draw_delta_chart data max_exposure spot_price exposure_type o = (Ok tt, o')
    /\ options_view o' = options_view o1
    /\ drawn_bars o'
       = drawn_bars o ++ map (fun e => e / norm * span) (drawn_exposures exposures).
Proof.
  intros Hvz o1 exposures norm span.
  assert (Hvz1 : vertical_zoom o1 <> 0).
  { unfold o1, options_stored. destruct exposure_type as [e |];
      [destruct (negb (e =? EmptyString)%string) |]; exact Hvz. }
  assert (Hnorm : 0 < norm).
  { unfold norm. pose proof (Rmax_r (observed_max exposures) 1.0). lra. }
  assert (T : triple (fun s => s = o)
                     (draw_delta_chart data max_exposure spot_price exposure_type)
                     (fun _ s =>
                        options_view s = options_view o1
                        /\ drawn_bars s
                           = drawn_bars o
                             ++ map (fun e => e / norm * span)
                                    (drawn_exposures exposures))).
  { unfold draw_delta_chart.
    apply (triple_bind _ _ (fun _ s => s = set_current_data data o));
      [apply triple_modify; intros s ->; reflexivity | intros u0].
    apply (triple_bind _ _ (fun _ s => s = set_current_max max_exposure
                                             (set_current_data data o)));
      [apply triple_modify; intros s ->; reflexivity | intros u1].
    apply (triple_bind _ _ (fun _ s => s = set_current_spot spot_price
                                             (set_current_max max_exposure
                                                (set_current_data data o))));
      [apply triple_modify; intros s ->; reflexivity | intros u2].
    apply (triple_bind _ _ (fun _ s => options_view s = options_view o1
                                       /\ drawn_bars s = drawn_bars o)).
    { unfold o1, options_stored. destruct exposure_type as [e |];
        [destruct (negb (e =? EmptyString)%string); cbn [when] |];
        [apply triple_modify | apply triple_ret | apply triple_ret];
        intros s ->; split; reflexivity. }
    intros u3.
    apply triple_seq; [| intros u4].
    { apply triple_of_frames2;
        [apply options_view_clear_options_data
        | apply options_drawn_bars_clear_options_data
        | apply options_total_clear_options_data]. }
    apply triple_get_seq. intros self [Hself _].
    assert (Hexp : map (row_exposures self) data = exposures).
    { apply map_ext. intros row. apply options_row_exposures_view, Hself. }
    cbv zeta. rewrite Hexp. fold norm.
    apply (triple_gets_bind _ _ (IZR (Canvas.width (tk o)))).
    { intros s [Hs _]. destruct (options_view_inv _ _ Hs) as (_ & _ & _ & _ & Ew & _).
      change (IZR (Canvas.width (tk s)) = IZR (Canvas.width (tk o))). rewrite Ew.
      unfold o1, options_stored. destruct exposure_type as [e |];
        [destruct (negb (e =? EmptyString)%string) |]; reflexivity. }
    unfold winfo_height. apply triple_gets_seq. intros h.
    assert (Hbh : exists bar_height,
               forall s : t,
                 match data with
                 | _ :: _ => lift (py_div (h - margin_bottom)
                                          (INR (length data + 1)))
                 | [] => ret ((h - margin_bottom) / 10)
                 end s = (Ok bar_height, s)).
    { destruct data as [| row rest].
      - eexists. reflexivity.
      - eexists. intros s. unfold lift, read. rewrite py_div_ok; [reflexivity |].
        apply not_0_INR. rewrite Nat.add_1_r. discriminate. }
    destruct Hbh as (bar_height & Hbh).
    apply (triple_pure_bind _ _ bar_height); [exact Hbh |].
    apply (triple_bind _ _ (fun _ s => options_view s = options_view o1
                                       /\ drawn_bars s
                                          = drawn_bars o
                                            ++ map (fun e => e / norm * span)
                                                   (drawn_exposures exposures))).
    { eapply triple_weaken.
      - apply (triple_for_each
                 (fun s => options_view s = options_view o1) drawn_bars
                 (fun '(_, (_, call_exp, put_exp)) =>
                    (if Rltb 0 call_exp then [call_exp / norm * span] else [])
                    ++ (if Rltb 0 put_exp then [put_exp / norm * span] else []))).
        intros [i [[strike call_exp] put_exp]] c _.
        assert (Hlt : Rltb 0 norm = true) by (apply Rltb_true_iff, Hnorm).
        rewrite Hlt.
        apply (triple_pure_bind _ _ (call_exp / norm * span)).
        { intros s. unfold bind, lift, read. rewrite py_div_ok by lra. reflexivity. }
        apply (triple_pure_bind _ _ (put_exp / norm * span)).
        { intros s. unfold bind, lift, read. rewrite py_div_ok by lra. reflexivity. }
        apply (triple_bind _ _ (fun _ s =>
                                  options_view s = options_view o1
                                  /\ drawn_bars s
                                     = c ++ (if Rltb 0 call_exp
                                             then [call_exp / norm * span] else []))).
        { destruct (Rltb 0 call_exp); cbn [when].
          - eapply triple_bind; [apply options_create_bars | intros bar].
            apply triple_modify. intros s [Hs Hc]. split; [exact Hs |].
            change (drawn_bars s = c ++ [call_exp / norm * span]).
            rewrite Hc. cbn. do 2 f_equal. unfold span. ring.
          - apply triple_ret. intros s [Hs Hc]. rewrite app_nil_r. auto. }
        intros u5.
        apply (triple_bind _ _ (fun _ s =>
                                  options_view s = options_view o1
                                  /\ drawn_bars s
                                     = c ++ (if Rltb 0 call_exp
                                             then [call_exp / norm * span] else [])
                                         ++ (if Rltb 0 put_exp
                                             then [put_exp / norm * span] else []))).
        { destruct (Rltb 0 put_exp); cbn [when].
          - eapply triple_bind; [apply options_create_bars | intros bar].
            apply triple_modify. intros s [Hs Hc]. split; [exact Hs |].
            change (drawn_bars s
                    = c ++ (if Rltb 0 call_exp
                            then [call_exp / norm * span] else [])
                        ++ [put_exp / norm * span]).
            rewrite Hc, <- app_assoc. cbn. do 3 f_equal. unfold span. ring.
          - apply triple_ret. intros s [Hs Hc]. rewrite app_nil_r. auto. }
        intros u6.
        eapply triple_bind; [apply options_create_bars | intros l].
        apply triple_modify. intros s [Hs Hc]. split; [exact Hs |].
        change (drawn_bars s
                = c ++ (if Rltb 0 call_exp then [call_exp / norm * span] else [])
                    ++ (if Rltb 0 put_exp then [put_exp / norm * span] else [])).
        rewrite Hc. cbn [bar_lengths flat_map]. rewrite app_nil_r. reflexivity.
      - intros s Hs. exact Hs.
      - cbv beta. intros u5 s [Hs Hc]. split; [exact Hs |]. rewrite Hc. f_equal.
        unfold enumerate.
        apply (flat_map_enumerated_rows (fun e => e / norm * span)).
        rewrite length_seq. reflexivity. }
    intros u5.
    apply triple_seq; [| intros u6].
    { apply triple_of_frames2;
        [apply options_view_draw_exposure_scale
        | apply options_drawn_bars_draw_exposure_scale
        | apply options_total_draw_exposure_scale]. }
    apply triple_get_seq. intros self2 _.
    apply triple_seq; [| intros u7].
    { apply triple_when; [intros _ | auto].
      apply triple_of_frames2;
        [apply options_view_draw_price_history
        | apply options_drawn_bars_draw_price_history
        | apply options_total_draw_price_history]. }
    destruct spot_price as [spot |]; [| apply triple_ret; auto].
    apply triple_when; [intros _ | auto].
    apply triple_frame;
      [apply options_draw_price_line_keeps, Hvz1
      | apply options_drawn_bars_draw_price_line]. }
  destruct (T o eq_refl) as ([] & Er & Hv & Hb).
  exists (snd (draw_delta_chart data max_exposure spot_price exposure_type o)).
  split; [| split; assumption].
  destruct (draw_delta_chart data max_exposure spot_price exposure_type o) as [r o'].
  cbn in Er. subst r. reflexivity.
Qed.

End OptionsBars.

Section UnifiedBars.
Import UnifiedChart.

Lemma unified_create_bars (u : t) (c : list R) (it : item) :
  triple (fun s : t => unified_data s = unified_data u /\ drawn_bars s = c)
         (create it)
         (fun _ s => unified_data s = unified_data u
                     /\ drawn_bars s = c ++ bar_lengths [it]).
Proof.
  intros s [Hv Hc]. eexists. split; [reflexivity |]. split; [exact Hv |].
  rewrite drawn_bars_create, Hc. reflexivity.
Qed.

Lemma unified_row_exposures_data (a b : t) (row : OptionRow) :
  unified_data a = unified_data b -> row_exposures a row = row_exposures b row.
Proof.
  intros E. destruct (unified_data_inv _ _ E) as (_ & Eb & _ & _ & _ & Ee & _).
  destruct row as [[strike call_ticker] put_ticker].
  unfold row_exposures, _calculate_exposure. rewrite Eb, Ee. reflexivity.
Qed.

Lemma unified_draw_options_data_spec (u : t) (m : R) :
  options_data u <> [] ->
  max_exposure u = Some m -> m <> 0 ->
  transform_defined u ->
  let exposures := map (row_exposures u) (options_data u) in
  let max_exp := observed_max exposures in
  let span := IZR (Canvas.width (tk u)) - margin_left - margin_right
              - strike_margin in
  0 < max_exp ->
  exists u',
    _draw_options_data u = (Ok tt, u')
    /\ unified_data u' = unified_data u
    /\ drawn_bars u'
       = drawn_bars u
         ++ map (fun e => e / max_exp * span) (drawn_exposures exposures).
Proof.
  intros Hne Hm Hmz Hd exposures max_exp span Hpos.
  assert (T : triple (fun s => unified_data s = unified_data u
                               /\ drawn_bars s = drawn_bars u)
                     _draw_options_data
                     (fun _ s =>
                        unified_data s = unified_data u
                        /\ drawn_bars s
                           = drawn_bars u
                             ++ map (fun e => e / max_exp * span)
                                    (drawn_exposures exposures))).
  { unfold _draw_options_data.
    apply triple_get_seq. intros self [Hself _].
    destruct (unified_data_inv _ _ Hself) as (_ & _ & _ & Eo & Em & _).
    assert (Hexp : map (row_exposures self) (options_data self) = exposures).
    { rewrite Eo. apply map_ext. intros row.
      apply unified_row_exposures_data, Hself. }
    rewrite Em, Hm. rewrite Eo in *.
    destruct (options_data u) as [| row rest] eqn:Eou; [congruence |].
    rewrite (truthy_nonzero m Hmz). cbn [negb].
    apply (triple_gets_bind _ _ (IZR (Canvas.width (tk u)))).
    { intros s [Hs _]. apply (unified_data_size _ _ Hs). }
    unfold winfo_height. apply triple_gets_seq. intros h.
    cbv zeta.
    eapply triple_lift_bind.
    { apply py_div_ok, not_0_INR. rewrite Nat.add_1_r. discriminate. }
    rewrite Hexp. fold max_exp.
    eapply triple_weaken.
    - apply (triple_for_each
               (fun s => unified_data s = unified_data u) drawn_bars
               (fun '(_, (_, call_exp, put_exp)) =>
                  (if Rltb 0 call_exp then [call_exp / max_exp * span] else [])
                  ++ (if Rltb 0 put_exp then [put_exp / max_exp * span] else []))).
      intros [i [[strike call_exp] put_exp]] c _.
      destruct (unified_price_to_y_defined u strike Hd) as (y & Ey).
      apply (triple_read_bind _ _ y).
      { intros s [Hs _]. rewrite (unified_price_to_y_data s u strike Hs). exact Ey. }
      eapply triple_lift_bind; [apply py_div_ok; lra |].
      eapply triple_lift_bind; [apply py_div_ok; lra |].
      apply (triple_bind _ _ (fun _ s =>
                                unified_data s = unified_data u
                                /\ drawn_bars s
                                   = c ++ (if Rltb 0 call_exp
                                           then [call_exp / max_exp * span]
                                           else []))).
      { destruct (Rltb 0 call_exp); cbn [when].
        - eapply triple_bind; [apply unified_create_bars | intros bar].
          apply triple_ret. intros s [Hs Hc]. split; [exact Hs |].
          rewrite Hc. cbn. do 2 f_equal. unfold span. ring.
        - apply triple_ret. intros s [Hs Hc]. rewrite app_nil_r. auto. }
      intros u5.
      apply (triple_bind _ _ (fun _ s =>
                                unified_data s = unified_data u
                                /\ drawn_bars s
                                   = c ++ (if Rltb 0 call_exp
                                           then [call_exp / max_exp * span]
                                           else [])
                                       ++ (if Rltb 0 put_exp
                                           then [put_exp / max_exp * span]
                                           else []))).
      { destruct (Rltb 0 put_exp); cbn [when].
        - eapply triple_bind; [apply unified_create_bars | intros bar].
          apply triple_ret. intros s [Hs Hc]. split; [exact Hs |].
          rewrite Hc, <- app_assoc. cbn. do 3 f_equal. unfold span. ring.
        - apply triple_ret. intros s [Hs Hc]. rewrite app_nil_r. auto. }
      intros u6.
      eapply triple_bind; [apply unified_create_bars | intros l].
      apply triple_ret. intros s [Hs Hc]. split; [exact Hs |].
      rewrite Hc. cbn [bar_lengths flat_map]. rewrite app_nil_r. reflexivity.
    - intros s Hs. exact Hs.
    - cbv beta. intros u5 s [Hs Hc]. split; [exact Hs |]. rewrite Hc. f_equal.
      unfold enumerate.
      apply (flat_map_enumerated_rows (fun e => e / max_exp * span)).
      rewrite length_seq. reflexivity. }
  destruct (T u (conj eq_refl eq_refl)) as ([] & Er & Hv & Hb).
  exists (snd (_draw_options_data u)). split; [| split; assumption].
  destruct (_draw_options_data u) as [r u']. cbn in Er. subst r. reflexivity.
Qed.

(** With options cached, a non-zero [max_exposure] argument and no
    positive exposure in any row, the first bar width divides by zero. *)
Lemma unified_draw_options_data_zero (u : t) (m : R) :
  options_data u <> [] ->
  max_exposure u = Some m -> m <> 0 ->
  transform_defined u ->
  observed_max (map (row_exposures u) (options_data u)) = 0 ->
  _draw_options_data u = (Raise ZeroDivisionError, u).
Proof.
  intros Hne Hm Hmz Hd Hzero. unfold _draw_options_data, get.
  rewrite bind_gets, Hm.
  destruct (options_data u) as [| [[strike call_ticker] put_ticker] rest] eqn:Eo;
    [congruence |].
  rewrite (truthy_nonzero m Hmz). cbn [negb].
  unfold winfo_width, winfo_height. rewrite !bind_gets. cbv zeta.
  rewrite (bind_ok _ _ u _ u)
    by (unfold lift, read; rewrite py_div_ok;
        [reflexivity | apply not_0_INR; rewrite Nat.add_1_r; discriminate]).
  rewrite Hzero. unfold enumerate. cbn [map length seq combine for_each].
  apply bind_raise.
  destruct (unified_price_to_y_defined u strike Hd) as (y & Ey).
  unfold row_exposures. cbv beta iota.
  rewrite (bind_ok _ _ u y u) by (unfold read; rewrite Ey; reflexivity).
  apply bind_raise. unfold lift, read.
  rewrite py_div_by_zero by reflexivity. reflexivity.
Qed.

End UnifiedBars.

Lemma bars_within_span (norm span : R) (exposures : list R) :
  0 < norm -> 0 <= span ->
  (forall e, In e exposures -> 0 < e <= norm) ->
  Forall (fun b => b <= span) (map (fun e => e / norm * span) exposures).
Proof.
  intros Hn Hs Hall. apply Forall_forall. intros b Hb.
  apply in_map_iff in Hb. destruct Hb as (e & <- & He).
  destruct (Hall e He) as [Hpos Hle].
  assert (e / norm <= 1).
  { apply (Rmult_le_reg_r norm); [exact Hn |]. unfold Rdiv.
    rewrite Rmult_assoc, Rinv_l by lra. lra. }
  assert (0 <= e / norm).
  { unfold Rdiv. apply Rmult_le_pos; [lra |]. left. apply Rinv_0_lt_compat, Hn. }
  nra.
Qed.

Lemma drawn_exposures_bounded (exposures : list (R * R * R)) (e : R) :
  In e (drawn_exposures exposures) ->
  0 < e <= OptionsChart.observed_max exposures.
Proof.
  intros He. apply drawn_exposures_In in He.
  destruct He as (Hpos & strike & c & p & Hin & Hcp).
  destruct (observed_max_spec exposures) as (_ & Hall & _).
  destruct (Hall strike c p Hin) as [Hc Hp].
  destruct Hcp as [-> | ->]; lra.
Qed.

Lemma observed_max_drawn (exposures : list (R * R * R)) :
  0 < OptionsChart.observed_max exposures ->
  In (OptionsChart.observed_max exposures) (drawn_exposures exposures).
Proof.
  intros Hpos. apply drawn_exposures_In. split; [exact Hpos |].
  destruct (observed_max_spec exposures) as (_ & _ & Hatt).
  exact (Hatt Hpos).
Qed.

(** C4 (as amended).
    - [OptionsChart.draw_delta_chart] (with a vertical zoom that is not 0)
      returns, and the bars it draws are, for the positive call and put
      exposures of the rows in order, exposure / max(observedMax, 1.0)
      times the span width - 150; when the span is not negative no bar is
      longer than the span; and when observedMax is at least 1.0 the row
      that holds it has a bar of exactly the span.
    - [UnifiedChart._draw_options_data], on a chart with options, a
      non-zero [max_exposure], a transform with a non-zero divisor and a
      positive observedMax, returns, and the bars it draws are exposure /
      observedMax times the span width - 210; none is longer than a
      non-negative span, and the row that holds observedMax has a bar of
      exactly the span. *)
Theorem exposure_bar_lengths :
  (forall (o : OptionsChart.t) (data : list OptionRow)
          (max_exposure spot_price : option R) (exposure_type : option string),
      OptionsChart.vertical_zoom o <> 0 ->
      let r := OptionsChart.draw_delta_chart
                 data max_exposure spot_price exposure_type o in
      let exposures := map (OptionsChart.row_exposures (snd r)) data in
      let observed := OptionsChart.observed_max exposures in
      let norm := Rmax observed 1.0 in
      let span := IZR (Canvas.width (OptionsChart.tk o))
                  - OptionsChart.margin_right - 50 in
      let bars := map (fun e => e / norm * span) (drawn_exposures exposures) in
      fst r = Ok tt
      /\ drawn_bars (snd r) = drawn_bars o ++ bars
      /\ (0 <= span -> Forall (fun b => b <= span) bars)
      /\ (1 <= observed ->
          In observed (drawn_exposures exposures)
          /\ observed / norm * span = span))
  /\ (forall (u : UnifiedChart.t) (m : R),
      UnifiedChart.options_data u <> [] ->
      UnifiedChart.max_exposure u = Some m -> m <> 0 ->
      transform_defined u ->
      let exposures := map (UnifiedChart.row_exposures u)
                           (UnifiedChart.options_data u) in
      let observed := UnifiedChart.observed_max exposures in
      let span := IZR (Canvas.width (UnifiedChart.tk u))
                  - UnifiedChart.margin_left - UnifiedChart.margin_right
                  - UnifiedChart.strike_margin in
      let bars := map (fun e => e / observed * span) (drawn_exposures exposures) in
      0 < observed ->
      let r := UnifiedChart._draw_options_data u in
      fst r = Ok tt
      /\ drawn_bars (snd r) = drawn_bars u ++ bars
      /\ (0 <= span -> Forall (fun b => b <= span) bars)
      /\ In observed (drawn_exposures exposures)
      /\ observed / observed * span = span).
Proof.
  split.
  - intros o data max_exposure spot_price exposure_type Hvz. cbv zeta.
    destruct (options_draw_delta_chart_spec
                o data max_exposure spot_price exposure_type Hvz)
      as (o' & Er & Hv & Hb).
    rewrite Er. cbn [fst snd].
    assert (Hexp : map (OptionsChart.row_exposures o') data
                   = map (OptionsChart.row_exposures
                            (options_stored data max_exposure spot_price
                                            exposure_type o)) data).
    { apply map_ext. intros row. apply options_row_exposures_view, Hv. }
    rewrite Hexp.
    set (exposures := map (OptionsChart.row_exposures
                             (options_stored data max_exposure spot_price
                                             exposure_type o)) data) in *.
    assert (Hmax : OptionsChart.observed_max exposures
                   <= Rmax (OptionsChart.observed_max exposures) 1.0)
      by apply Rmax_l.
    assert (Hone : 1 <= Rmax (OptionsChart.observed_max exposures) 1.0).
    { pose proof (Rmax_r (OptionsChart.observed_max exposures) 1.0). lra. }
    split; [reflexivity |]. split; [exact Hb |]. split.
    + intros Hspan. apply bars_within_span; [lra | exact Hspan |].
      intros e He. pose proof (drawn_exposures_bounded exposures e He). lra.
    + intros Hobs. split; [apply observed_max_drawn; lra |].
      rewrite Rmax_left by lra. field. lra.
  - intros u m Hne Hm Hmz Hd. cbv zeta. intros Hpos.
    destruct (unified_draw_options_data_spec u m Hne Hm Hmz Hd Hpos)
      as (u' & Er & _ & Hb).
    rewrite Er. cbn [fst snd].
    split; [reflexivity |]. split; [exact Hb |]. split; [| split].
    + intros Hspan. apply bars_within_span; [exact Hpos | exact Hspan |].
      intros e He. exact (drawn_exposures_bounded _ e He).
    + apply observed_max_drawn. exact Hpos.
    + field. apply Rgt_not_eq. exact Hpos.
Qed.

Lemma priced_chart_observed_max :
  0 < UnifiedChart.observed_max
        (map (UnifiedChart.row_exposures priced_chart)
             (UnifiedChart.options_data priced_chart)).
Proof.
  change UnifiedChart.observed_max with OptionsChart.observed_max.
  set (exposures := map (UnifiedChart.row_exposures priced_chart)
                        (UnifiedChart.options_data priced_chart)).
  destruct (observed_max_spec exposures) as (_ & Hall & _).
  destruct (Hall 5000
                 (UnifiedChart._calculate_exposure priced_chart (Some sample_call) "GFL")
                 0) as [Hc _].
  { left. reflexivity. }
  rewrite (unified_gfl_with_spot sample_call (Some 0.4) eq_refl priced_chart 5000
                                 eq_refl) in Hc by lra.
  assert (0 < Rabs 0.4) by (apply Rabs_pos_lt; lra).
  assert (E : side_open_interest sample_call = 1000) by reflexivity.
  unfold abs_delta in Hc. rewrite E in Hc. nra.
Qed.

Lemma exposure_bar_lengths_witness :
  (let o := OptionsChart.__init__ 1400 750 in
   let r := OptionsChart.draw_delta_chart
              sample_rows None (Some 5000) (Some "OI"%string) o in
   let exposures := map (OptionsChart.row_exposures (snd r)) sample_rows in
   let observed := OptionsChart.observed_max exposures in
   let norm := Rmax observed 1.0 in
   let span := IZR (Canvas.width (OptionsChart.tk o))
               - OptionsChart.margin_right - 50 in
   let bars := map (fun e => e / norm * span) (drawn_exposures exposures) in
   fst r = Ok tt
   /\ drawn_bars (snd r) = drawn_bars o ++ bars
   /\ (0 <= span -> Forall (fun b => b <= span) bars)
   /\ (1 <= observed ->
       In observed (drawn_exposures exposures)
       /\ observed / norm * span = span))
  /\ (let u := priced_chart in
      let exposures := map (UnifiedChart.row_exposures u)
                           (UnifiedChart.options_data u) in
      let observed := UnifiedChart.observed_max exposures in
      let span := IZR (Canvas.width (UnifiedChart.tk u))
                  - UnifiedChart.margin_left - UnifiedChart.margin_right
                  - UnifiedChart.strike_margin in
      let bars := map (fun e => e / observed * span) (drawn_exposures exposures) in
      let r := UnifiedChart._draw_options_data u in
      fst r = Ok tt
      /\ drawn_bars (snd r) = drawn_bars u ++ bars
      /\ (0 <= span -> Forall (fun b => b <= span) bars)
      /\ In observed (drawn_exposures exposures)
      /\ observed / observed * span = span).
Proof.
  destruct exposure_bar_lengths as [HO HU]. split.
  - cbv zeta. apply HO. cbn. lra.
  - cbv zeta. apply (HU priced_chart 1000).
    + discriminate.
    + reflexivity.
    + lra.
    + exact Logic.I.
    + exact priced_chart_observed_max.
Defined.

Lemma Rmax_0_0 : Rmax (Rmax 0 0) 0 = 0.
Proof. unfold Rmax. repeat (destruct (Rle_dec _ _)); lra. Qed.

(** [redraw] on a chart that holds options and no price history. *)
Lemma unified_redraw_options_raise (s : UnifiedChart.t) (e : exn) :
  UnifiedChart.price_history s = [] ->
  UnifiedChart.options_data s <> [] ->
  (forall s2, unified_data s2 = unified_data s ->
              UnifiedChart._draw_options_data s2 = (Raise e, s2)) ->
  fst (UnifiedChart.redraw s) = Raise e.
Proof.
  intros Hh Ho Hraise. unfold UnifiedChart.redraw.
  unfold delete_all at 1. rewrite bind_modify.
  match goal with
  | |- context [bind UnifiedChart._draw_empty_grid _ ?s1] =>
    destruct (unified_draw_empty_grid_data s s1 eq_refl) as ([] & E2 & D2);
      destruct (UnifiedChart._draw_empty_grid s1) as [r2 s2] eqn:Eg
  end.
  cbn in E2, D2. subst r2.
  rewrite (bind_ok _ _ _ _ _ Eg). unfold get. rewrite bind_gets.
  destruct (unified_data_inv _ _ D2) as (Eh & _ & _ & Eo & _).
  rewrite Eh, Hh, Eo.
  destruct (UnifiedChart.options_data s) as [| row rest]; [congruence |].
  cbn [when]. unfold bind at 1. unfold ret at 1.
  unfold bind at 1. rewrite (Hraise s2 D2). reflexivity.
Qed.

(** C4, the claim as written, fails in two places.  On a 1400-pixel wide
    [OptionsChart] (span 1250), one row whose only exposure is 0.5 holds
    the maximum, and its bar is 0.5 / max(0.5, 1.0) * 1250 = 625 long, not
    1250.  On a fresh [UnifiedChart], an options snapshot without greeks
    (every exposure is 0) pushed with [max_exposure = 1] raises
    [ZeroDivisionError]: the bar width divides by the observed maximum
    0. *)
Lemma exposure_bar_lengths_counterexample :
  drawn_bars
    (snd (OptionsChart.draw_delta_chart
            small_rows None None (Some "DEX"%string)
            (OptionsChart.__init__ 1400 750)))
  = [625]
  /\ fst (UnifiedChart.update_options
            empty_rows (Some 1) None None (UnifiedChart.__init__ 1400 750))
     = Raise ZeroDivisionError.
Proof.
  split.
  - destruct (options_draw_delta_chart_spec
                (OptionsChart.__init__ 1400 750) small_rows None None
                (Some "DEX"%string))
      as (o' & Er & _ & Hb); [cbn; lra |].
    rewrite Er. cbn [snd]. rewrite Hb. clear Er Hb o'.
    assert (Hexp : map (OptionsChart.row_exposures
                          (options_stored small_rows None None (Some "DEX"%string)
                                          (OptionsChart.__init__ 1400 750)))
                       small_rows
                   = [(5000, 0.5, 0)]).
    { unfold small_rows. cbn [map]. unfold OptionsChart.row_exposures.
      do 2 f_equal. f_equal.
      unfold OptionsChart._calculate_exposure, small_call.
      cbn [modelGreeks openInterest volume attr_or].
      rewrite truthy_nonzero by lra. rewrite Rabs_pos_eq by lra.
      cbn. lra. }
    rewrite Hexp.
    assert (Hobs : OptionsChart.observed_max [(5000, 0.5, 0)] = 0.5).
    { unfold OptionsChart.observed_max. cbn [fold_left]. unfold Rmax.
      repeat (destruct (Rle_dec _ _)); lra. }
    rewrite Hobs.
    assert (Hnorm : Rmax 0.5 1.0 = 1).
    { unfold Rmax. destruct (Rle_dec _ _); lra. }
    rewrite Hnorm. unfold drawn_exposures. cbn [flat_map].
    assert (H1 : Rltb 0 0.5 = true) by (apply Rltb_true_iff; lra).
    assert (H2 : Rltb 0 0 = false) by (apply Rltb_false_iff; lra).
    rewrite H1, H2. cbn [app map]. unfold OptionsChart.margin_right.
    cbn. f_equal. lra.
  - destruct (update_options_eq empty_rows (Some 1) None None
                                (UnifiedChart.__init__ 1400 750))
      as (s1 & -> & Eh & Es & Eo & Em & _).
    apply unified_redraw_options_raise.
    + rewrite Eh. reflexivity.
    + rewrite Eo. discriminate.
    + intros s2 D2.
      destruct (unified_data_inv _ _ D2) as (_ & _ & _ & Eo2 & Em2 & _ & Es2 & _).
      apply (unified_draw_options_data_zero s2 1).
      * rewrite Eo2, Eo. discriminate.
      * congruence.
      * lra.
      * unfold transform_defined. rewrite Es2, Es. exact Logic.I.
      * rewrite Eo2, Eo. unfold empty_rows. cbn [map].
        unfold UnifiedChart.row_exposures, UnifiedChart._calculate_exposure,
          UnifiedChart.observed_max.
        cbn [fold_left]. exact Rmax_0_0.
Qed.

(** ** A flat history *)

Section FlatHistory.
Import UnifiedChart.

Lemma unified_draw_price_scale_degenerate (s : t) (p q : R) :
  price_scale s = Some (p, q) ->
  (q - p) * vertical_zoom s = 0 ->
  _draw_price_scale s = (Raise ZeroDivisionError, s).
Proof.
  intros Hs Hz. unfold _draw_price_scale.
  rewrite bind_gets, Hs. unfold winfo_width, winfo_height.
  rewrite !bind_gets. cbv zeta. cbn [seq for_each].
  apply bind_raise. apply bind_raise. unfold read.
  rewrite (unified_price_to_y_degenerate s p q Hs _ Hz). reflexivity.
Qed.

Lemma unified_draw_price_history_degenerate (s : t) (p q : R) :
  price_scale s = Some (p, q) ->
  (q - p) * vertical_zoom s = 0 ->
  _draw_price_history s = (Raise ZeroDivisionError, s).
Proof.
  intros Hs Hz. unfold _draw_price_history, winfo_width, winfo_height.
  rewrite !bind_gets. cbv zeta. apply bind_raise.
  exact (unified_draw_price_scale_degenerate s p q Hs Hz).
Qed.

(** The degenerate scale of C2 is one the chart reaches by itself: pushing
    a history whose prices are all equal makes the redraw that ends
    [update_history] raise [ZeroDivisionError]. *)
Lemma flat_history_raises :
  fst (update_history flat_history (__init__ 1400 750))
  = Raise ZeroDivisionError.
Proof.
  rewrite (unified_update_history_eq flat_history [5000; 5000] 5000 5000);
    try reflexivity; try discriminate.
  2:{ cbn. f_equal. unfold Rmin. destruct (Rle_dec _ _); reflexivity. }
  2:{ cbn. f_equal. unfold Rmax. destruct (Rle_dec _ _); reflexivity. }
  unfold redraw. unfold delete_all at 1. rewrite bind_modify.
  match goal with
  | |- context [bind _draw_empty_grid _ ?s1] =>
    destruct (unified_draw_empty_grid_data s1 s1 eq_refl) as ([] & E2 & D2);
      destruct (_draw_empty_grid s1) as [r2 s2] eqn:Eg
  end.
  cbn [fst snd] in E2, D2. subst r2.
  rewrite (bind_ok _ _ _ _ _ Eg). unfold get. rewrite bind_gets.
  destruct (unified_data_inv _ _ D2) as (Eh & _ & _ & Eo & _ & _ & Es & Ev & _).
  cbn in Eh, Eo, Es, Ev. rewrite Eh, Eo, Es. unfold flat_history. cbn [when].
  unfold bind at 1.
  rewrite (unified_draw_price_history_degenerate s2 _ _ Es) by (rewrite Ev; lra).
  reflexivity.
Qed.

End FlatHistory.

(** * Further properties of the code *)

(** ** The visible window of the history *)


Section VisibleBars.
Import UnifiedChart.


End VisibleBars.


(** ** Gestures that move the price axis, and events that start none *)

Section DragFacts.
Import UnifiedChart.

(** One drag event on the price axis, seen from outside. *)
Lemma handle_drag_price (e : event) (s : t) (x y : Z) :
  drag_start s = Some (x, y, "price"%string) ->
  let s' := snd (handle_drag e s) in
  drag_start s' = Some (x, event_y e, "price"%string)
  /\ price_offset s'
     = price_offset s + IZR (event_y e - y) * 0.05 * vertical_zoom s
  /\ vertical_zoom s' = vertical_zoom s
  /\ horizontal_zoom s' = horizontal_zoom s
  /\ price_scale s' = price_scale s.
Proof.
  intros Hd. cbv zeta.
  assert (E : handle_drag e s
              = redraw (set_drag_start
                          (Some (x, event_y e, "price"%string))
                          (set_price_offset
                             (price_offset s
                              + IZR (event_y e - y) * 0.05 * vertical_zoom s) s))).
  { unfold handle_drag, bind, gets. rewrite Hd. reflexivity. }
  rewrite E.
  match goal with
  | |- context [redraw ?s1] =>
    pose proof (unified_frames_redraw s1) as F;
    destruct (unified_data_inv _ _ F)
      as (_ & _ & _ & _ & _ & _ & Es & Ev & Eh & Eo & _);
    destruct (unified_data_gesture _ _ F) as [_ Ed]
  end.
  rewrite Es, Ev, Eh, Eo, Ed. cbn. repeat split.
Qed.

Lemma handler_starts_nothing (g : gesture) (s : t) :
  drag_start s = None -> zoom_start s = None ->
  starts_nothing s g -> handler g s = (Ok tt, s).
Proof.
  intros Hd Hz Hg.
  destruct g as [e | e | e | e | e | e]; cbn [handler starts_nothing] in *.
  - destruct Hg as [Hx Hy].
    unfold start_drag, bind, winfo_width, winfo_height, gets. cbn [fst snd].
    apply Rleb_false_iff in Hx. apply Rltb_false_iff in Hy.
    change (canvas s) with (tk s). rewrite Hx, Hy. reflexivity.
  - pose proof (handle_drag_eq e s) as E. rewrite Hd in E. exact E.
  - unfold end_drag, modify. f_equal. destruct s. cbn in *. subst. reflexivity.
  - destruct Hg as [Hx Hy].
    unfold start_zoom, bind, winfo_width, winfo_height, gets. cbn [fst snd].
    apply Rleb_false_iff in Hx. apply Rltb_false_iff in Hy.
    change (canvas s) with (tk s). rewrite Hx, Hy. reflexivity.
  - pose proof (handle_zoom_eq e s) as E. rewrite Hz in E. exact E.
  - unfold end_zoom, modify. f_equal. destruct s. cbn in *. subst. reflexivity.
Qed.

End DragFacts.

(** X2.  Dragging the price axis of a [UnifiedChart] is additive: once a
    drag has started on the price scale at height y0, after any run of
    motion events the price offset has moved by
    (y - y0) * 0.05 * vertical zoom, where y is the height of the last
    event, whatever the path in between and whether or not a redraw
    raised; the zooms and the scale bounds are as before and the drag is
    still in progress from y. *)
Theorem price_drag_is_additive
        (es : list UnifiedChart.event) (s : UnifiedChart.t) (x0 y0 : Z) :
  UnifiedChart.drag_start s = Some (x0, y0, "price"%string) ->
  let s' := after_gestures (map HandleDrag es) s in
  UnifiedChart.price_offset s'
  = UnifiedChart.price_offset s
    + IZR (last_y y0 es - y0) * 0.05 * UnifiedChart.vertical_zoom s
  /\ UnifiedChart.drag_start s' = Some (x0, last_y y0 es, "price"%string)
  /\ UnifiedChart.vertical_zoom s' = UnifiedChart.vertical_zoom s
  /\ UnifiedChart.horizontal_zoom s' = UnifiedChart.horizontal_zoom s
  /\ UnifiedChart.price_scale s' = UnifiedChart.price_scale s.
Proof.
  revert s y0. induction es as [| e es IH]; intros s y0 Hd; cbv zeta.
  - cbn. rewrite Z.sub_diag, Hd. repeat split. lra.
  - unfold after_gestures, last_y. cbn [map fold_left handler].
    fold (after_gestures (map HandleDrag es) (snd (UnifiedChart.handle_drag e s))).
    fold (last_y (UnifiedChart.event_y e) es).
    destruct (handle_drag_price e s x0 y0 Hd) as (Hd1 & Ho1 & Hv1 & Hh1 & Hs1).
    destruct (IH _ _ Hd1) as (Ho & Hd' & Hv & Hh & Hs).
    rewrite Ho, Hd', Hv, Hh, Hs, Ho1, Hv1, Hh1, Hs1. repeat split.
    rewrite !minus_IZR. lra.
Qed.

Lemma price_drag_is_additive_witness :
  let s := UnifiedChart.set_drag_start (Some (1350%Z, 300%Z, "price"%string))
             (UnifiedChart.__init__ 1400 750) in
  let es := [{| UnifiedChart.event_x := 1350; UnifiedChart.event_y := 340 |};
             {| UnifiedChart.event_x := 1360; UnifiedChart.event_y := 320 |}] in
  let s' := after_gestures (map HandleDrag es) s in
  UnifiedChart.price_offset s'
  = UnifiedChart.price_offset s
    + IZR (last_y 300 es - 300) * 0.05 * UnifiedChart.vertical_zoom s
  /\ UnifiedChart.drag_start s' = Some (1350%Z, last_y 300%Z es, "price"%string)
  /\ UnifiedChart.vertical_zoom s' = UnifiedChart.vertical_zoom s
  /\ UnifiedChart.horizontal_zoom s' = UnifiedChart.horizontal_zoom s
  /\ UnifiedChart.price_scale s' = UnifiedChart.price_scale s.
Proof.
  cbv zeta. apply price_drag_is_additive. reflexivity.
Defined.

(** X3.  While no gesture is in progress on a [UnifiedChart], events that
    start none (motions, releases, and button presses in the plot area,
    left of the price scale and not below the time axis) leave the whole
    chart as it was: no attribute changes and nothing is drawn or
    deleted. *)
Theorem idle_events_change_nothing (gs : list gesture) (s : UnifiedChart.t) :
  UnifiedChart.drag_start s = None ->
  UnifiedChart.zoom_start s = None ->
  Forall (starts_nothing s) gs ->
  after_gestures gs s = s.
Proof.
  intros Hd Hz Hall. induction Hall as [| g gs Hg Hgs IH]; [reflexivity |].
  unfold after_gestures. cbn [fold_left].
  rewrite (handler_starts_nothing g s Hd Hz Hg). exact IH.
Qed.

Lemma idle_events_change_nothing_witness :
  let s := UnifiedChart.__init__ 1400 750 in
  let e := {| UnifiedChart.event_x := 600; UnifiedChart.event_y := 300 |} in
  after_gestures [StartDrag e; HandleDrag e; EndDrag e; StartZoom e; HandleZoom e] s = s.
Proof.
  cbv zeta. apply idle_events_change_nothing; [reflexivity | reflexivity |].
  repeat (apply Forall_cons; [| ]); try apply Forall_nil;
    cbn; unfold in_plot_area, UnifiedChart.margin_right, UnifiedChart.strike_margin,
         UnifiedChart.margin_bottom; cbn; try lra; exact I.
Defined.

(** ** What the canvas shows after a redraw *)

Section Appends.
Context {Self : Type} `{TkCanvas Self} (P : command -> Prop).

Lemma appends_nothing {A : Type} (m : M Self A) :
  (forall s, canvas (snd (m s)) = canvas s) -> appends P m.
Proof.
  intros Hm s. exists []. rewrite Hm, app_nil_r. split; [reflexivity | constructor].
Qed.

Lemma appends_ret {A : Type} (a : A) : appends P (ret a).
Proof. apply appends_nothing. reflexivity. Qed.

Lemma appends_gets {A : Type} (g : Self -> A) : appends P (gets g).
Proof. apply appends_nothing. reflexivity. Qed.

Lemma appends_read {A : Type} (g : Self -> result A) : appends P (read g).
Proof. apply appends_nothing. reflexivity. Qed.

Lemma appends_modify (g : Self -> Self) :
  (forall s, canvas (g s) = canvas s) -> appends P (modify g).
Proof. intros Hg. apply appends_nothing. exact Hg. Qed.

Lemma appends_create (it : item) :
  (forall id, P (Create id it)) -> appends P (create it).
Proof.
  intros Hp s. exists [Create (Canvas.next_id (canvas s)) it].
  unfold create. cbn. rewrite canvas_set_canvas. split; [reflexivity |].
  constructor; [apply Hp | constructor].
Qed.

Lemma appends_delete (id : nat) : P (Delete id) -> appends P (delete id).
Proof.
  intros Hp s. exists [Delete id].
  unfold delete, modify. cbn. rewrite canvas_set_canvas. split; [reflexivity |].
  constructor; [exact Hp | constructor].
Qed.

Lemma appends_delete_all : P DeleteAll -> appends P delete_all.
Proof.
  intros Hp s. exists [DeleteAll].
  unfold delete_all, modify. cbn. rewrite canvas_set_canvas. split; [reflexivity |].
  constructor; [exact Hp | constructor].
Qed.

Lemma appends_bind {A B : Type} (m : M Self A) (k : A -> M Self B) :
  appends P m -> (forall a, appends P (k a)) -> appends P (bind m k).
Proof.
  intros Hm Hk s. unfold bind. destruct (Hm s) as (cs & E & Hcs).
  destruct (m s) as [[a | e] s1]; cbn [snd] in *.
  - destruct (Hk a s1) as (cs' & E' & Hcs'). exists (cs ++ cs').
    rewrite E', E, app_assoc. split; [reflexivity | apply Forall_app; auto].
  - exists cs. auto.
Qed.

Lemma appends_when (c : bool) (m : M Self unit) :
  appends P m -> appends P (when c m).
Proof. intros Hm. destruct c; [exact Hm | apply appends_ret]. Qed.

Lemma appends_try_except (m : M Self unit) :
  appends P m -> appends P (try_except m).
Proof.
  intros Hm s. unfold try_except. destruct (Hm s) as (cs & E & Hcs).
  destruct (m s) as [[u | e] s1]; exists cs; auto.
Qed.

Lemma appends_for_each {A : Type} (l : list A) (body : A -> M Self unit) :
  (forall x, appends P (body x)) -> appends P (for_each l body).
Proof.
  intros Hb. induction l as [| x xs IH]; cbn [for_each].
  - apply appends_ret.
  - apply appends_bind; [apply Hb | intros _; exact IH].
Qed.

Lemma appends_for_fold {A B : Type} (l : list A) (body : B -> A -> M Self B) :
  (forall acc x, appends P (body acc x)) ->
  forall acc, appends P (for_fold l acc body).
Proof.
  intros Hb. induction l as [| x xs IH]; intros acc; cbn [for_fold].
  - apply appends_ret.
  - apply appends_bind; [apply Hb | intros acc'; apply IH].
Qed.

(** Calls of one kind, then calls of another. *)
Lemma appends_then_first {A B : Type} (Q : command -> Prop)
      (m : M Self A) (k : A -> M Self B) :
  appends P m -> (forall a, appends_then P Q (k a)) ->
  appends_then P Q (bind m k).
Proof.
  intros Hm Hk s. unfold bind. destruct (Hm s) as (cs & E & Hcs).
  destruct (m s) as [[a | e] s1]; cbn [snd] in *.
  - destruct (Hk a s1) as (ds & cs' & E' & Hds & Hcs'). exists (cs ++ ds), cs'.
    rewrite E', E, !app_assoc. split; [reflexivity |].
    split; [apply Forall_app; auto | exact Hcs'].
  - exists cs, []. rewrite app_nil_r. auto.
Qed.

Lemma appends_then_second {A : Type} (Q : command -> Prop) (m : M Self A) :
  appends Q m -> appends_then P Q m.
Proof.
  intros Hm s. destruct (Hm s) as (cs & E & Hcs). exists [], cs. auto.
Qed.

Lemma appends_then_last {A B : Type} (Q : command -> Prop)
      (m : M Self A) (k : A -> M Self B) :
  appends_then P Q m -> (forall a, appends Q (k a)) ->
  appends_then P Q (bind m k).
Proof.
  intros Hm Hk s. unfold bind. destruct (Hm s) as (ds & cs & E & Hds & Hcs).
  destruct (m s) as [[a | e] s1]; cbn [snd] in *.
  - destruct (Hk a s1) as (cs' & E' & Hcs'). exists ds, (cs ++ cs').
    rewrite E', E, <- !app_assoc. split; [reflexivity |].
    split; [exact Hds | apply Forall_app; auto].
  - exists ds, cs. auto.
Qed.

End Appends.

Create HintDb appends.

(** The calls a method adds are found by following its structure. *)
Ltac appends_step :=
  lazymatch goal with
  | |- appends _ (ret _) => apply appends_ret
  | |- appends _ (gets _) => apply appends_gets
  | |- appends _ get => apply appends_gets
  | |- appends _ (read _) => apply appends_read
  | |- appends _ (lift _) => apply appends_read
  | |- appends _ (raise _) => apply appends_read
  | |- appends _ winfo_width => apply appends_gets
  | |- appends _ winfo_height => apply appends_gets
  | |- appends _ (bind _ _) => apply appends_bind; [| intros ?]
  | |- appends _ (when _ _) => apply appends_when
  | |- appends _ (try_except _) => apply appends_try_except
  | |- appends _ (for_each _ _) => apply appends_for_each; intros ?
  | |- appends _ (for_fold _ _ _) => apply appends_for_fold; intros ? ?
  | |- appends _ (modify _) => apply appends_modify; intros ?; reflexivity
  | |- appends _ (create_line _ _ _ _) => apply appends_create; intros ?; exact I
  | |- appends _ (create_text _ _ _ _ _) => apply appends_create; intros ?; exact I
  | |- appends _ (create_rectangle _ _ _ _ _) => apply appends_create; intros ?; exact I
  | |- appends _ (delete _) => apply appends_delete; exact I
  | |- appends _ (match ?x with _ => _ end) => destruct x
  | |- appends _ (match ?x with _ => _ end _) => destruct x
  | |- appends _ (if ?x then _ else _) => destruct x
  | |- appends _ _ =>
    first [ progress cbv beta zeta
          | solve [auto with appends nocore] ]
  end.

Ltac appends_tac := repeat appends_step.

Section Display.

Lemma display_deletes (ds : list command) :
  Forall is_delete ds -> fold_left Canvas.display ds [] = [].
Proof.
  induction 1 as [| d ds Hd _ IH]; [reflexivity |].
  destruct d; try contradiction. cbn. exact IH.
Qed.

Lemma display_creates (cs : list command) (shown : list (nat * item)) :
  Forall is_create cs ->
  map snd (fold_left Canvas.display cs shown) = map snd shown ++ created_items cs.
Proof.
  intros Hcs. revert shown. induction Hcs as [| c cs Hc _ IH]; intros shown.
  - cbn. rewrite app_nil_r. reflexivity.
  - destruct c as [id it | |]; try contradiction. cbn [fold_left Canvas.display].
    rewrite IH, map_app. cbn. rewrite <- app_assoc. reflexivity.
Qed.

Lemma created_items_deletes (ds : list command) :
  Forall is_delete ds -> created_items ds = [].
Proof.
  induction 1 as [| d ds Hd _ IH]; [reflexivity |].
  destruct d; try contradiction. exact IH.
Qed.

(** After [delete("all")], deletions and then creations, the canvas shows
    what was created since. *)
Lemma display_after_delete_all (log ds cs : list command) :
  Forall is_delete ds -> Forall is_create cs ->
  map snd (fold_left Canvas.display (log ++ [DeleteAll] ++ ds ++ cs) [])
  = created_items cs
  /\ created_items (log ++ [DeleteAll] ++ ds ++ cs)
     = created_items log ++ created_items cs.
Proof.
  intros Hds Hcs. split.
  - rewrite !fold_left_app. cbn [fold_left Canvas.display].
    rewrite (display_deletes ds Hds), (display_creates cs [] Hcs). reflexivity.
  - rewrite !created_items_app, (created_items_deletes ds Hds). reflexivity.
Qed.

End Display.

Section UnifiedDisplay.
Import UnifiedChart.

Lemma unified_appends_draw_time_axis bars : appends is_create (_draw_time_axis bars).
Proof. unfold _draw_time_axis. appends_tac. Qed.

Lemma unified_appends_draw_price_scale : appends is_create _draw_price_scale.
Proof. unfold _draw_price_scale. appends_tac. Qed.

#[local] Hint Resolve unified_appends_draw_time_axis
  unified_appends_draw_price_scale : appends.

Lemma unified_appends_draw_price_history : appends is_create _draw_price_history.
Proof. unfold _draw_price_history. appends_tac. Qed.

Lemma unified_appends_draw_options_data : appends is_create _draw_options_data.
Proof. unfold _draw_options_data. appends_tac. Qed.

Lemma unified_appends_draw_current_price : appends is_create _draw_current_price.
Proof. unfold _draw_current_price. appends_tac. Qed.

#[local] Hint Resolve unified_appends_draw_price_history
  unified_appends_draw_options_data unified_appends_draw_current_price : appends.

Lemma unified_appends_draw_empty_grid :
  appends_then is_delete is_create _draw_empty_grid.
Proof.
  unfold _draw_empty_grid.
  apply appends_then_first; [apply appends_gets | intros w].
  apply appends_then_first; [apply appends_gets | intros h].
  apply appends_then_first; [apply appends_gets | intros old].
  apply appends_then_first; [appends_tac | intros u].
  apply appends_then_second. appends_tac.
Qed.

(** The trace of one [redraw]. *)
Lemma unified_redraw_trace (s : t) :
  exists ds cs,
    Canvas.log (tk (snd (redraw s)))
    = Canvas.log (tk s) ++ [DeleteAll] ++ ds ++ cs
    /\ Forall is_delete ds /\ Forall is_create cs.
Proof.
  unfold redraw.
  assert (Hrest : appends_then is_delete is_create
            (bind _draw_empty_grid
               (fun _ =>
                  bind get
                    (fun self =>
                       match price_history self, options_data self with
                       | [], [] => ret tt
                       | _, _ =>
                         bind (when (match price_history self, price_scale self with
                                     | _ :: _, Some _ => true
                                     | _, _ => false
                                     end) _draw_price_history)
                              (fun _ =>
                                 bind (when (match options_data self with
                                             | _ :: _ => true
                                             | [] => false
                                             end) _draw_options_data)
                                      (fun _ =>
                                         when (truthy_opt (current_bid self)
                                               && truthy_opt (current_ask self))
                                              _draw_current_price))
                       end)))).
  { apply appends_then_last; [apply unified_appends_draw_empty_grid | intros u].
    appends_tac. }
  unfold bind at 1. unfold delete_all at 1, modify at 1.
  destruct (Hrest (set_canvas (Canvas.delete_all (canvas s)) s))
    as (ds & cs & E & Hds & Hcs).
  exists ds, cs. split; [| split; assumption].
  change (tk ?x) with (canvas x). rewrite E. cbn. rewrite <- app_assoc. reflexivity.
Qed.

End UnifiedDisplay.

(** X4.  After [UnifiedChart.redraw], whether it returned or raised part
    of the way, the canvas shows exactly the items this call drew, in the
    order it drew them: nothing of an earlier drawing is left behind. *)
Theorem redraw_shows_what_it_drew (s : UnifiedChart.t) :
  let s' := snd (UnifiedChart.redraw s) in
  created s' = created s ++ displayed s'.
Proof.
  cbv zeta. destruct (unified_redraw_trace s) as (ds & cs & E & Hds & Hcs).
  destruct (display_after_delete_all (Canvas.log (UnifiedChart.tk s)) ds cs Hds Hcs)
    as [Hshow Hmade].
  unfold displayed, created, Canvas.items.
  change (canvas ?x) with (UnifiedChart.tk x).
  rewrite E, Hshow, Hmade. reflexivity.
Qed.

Section UnifiedGrid.
Import UnifiedChart.

Lemma unified_for_each_delete (old : list nat) (s : t) :
  for_each old (fun l => delete l) s
  = (Ok tt,
     set_tk (Canvas.mk (Canvas.log (tk s) ++ map Delete old)
                       (Canvas.next_id (tk s))
                       (Canvas.width (tk s)) (Canvas.height (tk s))) s).
Proof.
  revert s. induction old as [| l old IH]; intros s; cbn [for_each map].
  - destruct s as [[log n w h] ? ? ? ? ? ? ? ? ? ? ? ? ?]. cbn.
    rewrite app_nil_r. reflexivity.
  - unfold bind. unfold delete at 1, modify at 1. rewrite IH. cbn.
    rewrite <- app_assoc. reflexivity.
Qed.

(** The ids and the trace of one [_draw_empty_grid]. *)
Lemma unified_draw_empty_grid_run (s : t) :
  let n := Canvas.next_id (tk s) in
  _draw_empty_grid s
  = (Ok tt,
     set_grid_lines
       (seq n 7)
       (set_tk (Canvas.mk (Canvas.log (tk s) ++ map Delete (grid_lines s)
                           ++ map (fun p => Create (fst p) (snd p))
                                  (combine (seq n 7) (unified_grid s)))
                          (7 + n)
                          (Canvas.width (tk s)) (Canvas.height (tk s))) s)).
Proof.
  cbv zeta. unfold _draw_empty_grid, winfo_width, winfo_height.
  rewrite !bind_gets. rewrite (bind_ok _ _ _ _ _ (unified_for_each_delete _ s)).
  destruct s as [[log n w h] ? ? ? ? ? ? ? ? ? ? ? ? gl].
  cbn -[INR Rplus Rminus Rmult Rdiv IZR].
  unfold unified_grid, unified_grid_y, unified_axis_x.
  cbn -[INR Rplus Rminus Rmult Rdiv IZR].
  unfold modify. cbn -[INR Rplus Rminus Rmult Rdiv IZR].
  rewrite <- !app_assoc. reflexivity.
Qed.

End UnifiedGrid.

Lemma display_created_pairs (ps shown : list (nat * item)) :
  fold_left Canvas.display (map (fun p => Create (fst p) (snd p)) ps) shown
  = shown ++ ps.
Proof.
  revert shown. induction ps as [| [id it] ps IH]; intros shown; cbn [map fold_left].
  - rewrite app_nil_r. reflexivity.
  - rewrite IH. cbn. rewrite <- app_assoc. reflexivity.
Qed.

Lemma Forall_is_delete (ids : list nat) : Forall is_delete (map Delete ids).
Proof. induction ids; constructor; [exact I | assumption]. Qed.

(** X5.  Pushing an empty history onto a [UnifiedChart] that caches no
    options data returns and clears the chart back to the empty grid: the
    canvas shows the seven grid lines and nothing else, [grid_lines] holds
    exactly their ids, the cached history is empty; the price scale of the
    history that was there before stays cached. *)
Theorem update_history_empty_shows_grid (s : UnifiedChart.t) :
  UnifiedChart.options_data s = [] ->
  let s' := snd (UnifiedChart.update_history [] s) in
  fst (UnifiedChart.update_history [] s) = Ok tt
  /\ UnifiedChart.price_history s' = []
  /\ UnifiedChart.price_scale s' = UnifiedChart.price_scale s
  /\ Canvas.items (UnifiedChart.tk s')
     = combine (UnifiedChart.grid_lines s') (unified_grid s)
  /\ length (UnifiedChart.grid_lines s') = 7%nat.
Proof.
  intros Ho. cbv zeta.
  change (UnifiedChart.update_history [] s)
    with (UnifiedChart.redraw (UnifiedChart.set_price_history [] s)).
  unfold UnifiedChart.redraw.
  rewrite (bind_ok delete_all _ _ tt
                   (snd (delete_all (UnifiedChart.set_price_history [] s))) eq_refl).
  rewrite (bind_ok _ _ _ _ _ (unified_draw_empty_grid_run _)).
  unfold get. rewrite bind_gets.
  cbn [UnifiedChart.price_history UnifiedChart.options_data
       UnifiedChart.set_grid_lines UnifiedChart.set_tk UnifiedChart.set_price_history
       UnifiedChart.price_scale UnifiedChart.grid_lines UnifiedChart.tk
       set_canvas canvas UnifiedChart.tk_canvas Canvas.delete_all
       delete_all modify snd fst
       Canvas.log Canvas.next_id Canvas.width Canvas.height].
  rewrite Ho. cbn [ret fst snd UnifiedChart.price_history UnifiedChart.price_scale
                   UnifiedChart.grid_lines UnifiedChart.tk].
  split; [reflexivity |]. split; [reflexivity |]. split; [reflexivity |].
  split; [| apply length_seq].
  unfold Canvas.items.
  cbn [Canvas.log UnifiedChart.tk UnifiedChart.set_grid_lines UnifiedChart.set_tk
       UnifiedChart.grid_lines].
  rewrite <- app_assoc, !fold_left_app. cbn [fold_left Canvas.display].
  rewrite (display_deletes _ (Forall_is_delete _)).
  rewrite display_created_pairs. reflexivity.
Qed.

Lemma update_history_empty_shows_grid_witness :
  let s := live_chart in
  let s' := snd (UnifiedChart.update_history [] s) in
  fst (UnifiedChart.update_history [] s) = Ok tt
  /\ UnifiedChart.price_history s' = []
  /\ UnifiedChart.price_scale s' = UnifiedChart.price_scale s
  /\ Canvas.items (UnifiedChart.tk s')
     = combine (UnifiedChart.grid_lines s') (unified_grid s)
  /\ length (UnifiedChart.grid_lines s') = 7%nat.
Proof.
  cbv zeta. apply update_history_empty_shows_grid. reflexivity.
Defined.

(** ** A history with a bar that has no price *)

Lemma collect_prices_unpriced (bars : list Bar) :
  Exists unpriced bars -> collect_prices bars = Raise AttributeError.
Proof.
  induction bars as [| bar rest IH]; intros Hex; [inversion Hex |].
  assert (Hbar : bar_prices bar = Raise AttributeError
                 \/ exists ps, bar_prices bar = Ok ps /\ ~ unpriced bar).
  { unfold bar_prices, getattr_close, unpriced.
    destruct (bid bar) as [b |]; destruct (ask bar) as [a |];
      destruct (close bar) as [c |]; cbn;
        try (left; reflexivity);
        right; eexists; (split; [reflexivity |]);
          intros [[H | H] H']; discriminate. }
  cbn [collect_prices].
  destruct Hbar as [-> | (ps & -> & Hnot)]; [reflexivity |].
  cbn [rbind]. rewrite IH; [reflexivity |].
  inversion Hex; subst; [contradiction | assumption].
Qed.

(** X6.  [update_history] is not atomic: when some bar of the new history
    has neither a quote (it lacks [bid] or [ask]) nor a [close], the call
    raises [AttributeError] after it has replaced the cached history and
    before it touches anything else, so the chart is left with the new
    history under the old price scale and nothing is redrawn.  This holds
    for [UnifiedChart] and [PriceChart]; [ChartManager.update_with_historical]
    likewise keeps the new bars and leaves its chart untouched. *)
Theorem update_history_unpriced_bar
        (bars : list Bar) (u : UnifiedChart.t) (c : PriceChart.t)
        (m : ChartManager.t) :
  Exists unpriced bars ->
  UnifiedChart.update_history bars u
  = (Raise AttributeError, UnifiedChart.set_price_history bars u)
  /\ PriceChart.update_history bars c
     = (Raise AttributeError, PriceChart.set_price_history bars c)
  /\ ChartManager.update_with_historical bars m
     = (Raise AttributeError, ChartManager.set_historical_bars bars m).
Proof.
  intros Hex. pose proof (collect_prices_unpriced bars Hex) as E.
  destruct bars as [| bar rest]; [inversion Hex |].
  unfold UnifiedChart.update_history, PriceChart.update_history,
    ChartManager.update_with_historical, bind, modify, lift, read.
  rewrite E. repeat split.
Qed.

Lemma update_history_unpriced_bar_witness :
  let bars := [quote (at_time 9 30 0) 5000 5001;
               {| date := at_time 9 31 0; bid := Some 5000; ask := None;
                  close := None |}] in
  UnifiedChart.update_history bars live_chart
  = (Raise AttributeError, UnifiedChart.set_price_history bars live_chart)
  /\ PriceChart.update_history bars (PriceChart.__init__ 1400 750)
     = (Raise AttributeError,
        PriceChart.set_price_history bars (PriceChart.__init__ 1400 750))
  /\ ChartManager.update_with_historical bars live_manager
     = (Raise AttributeError, ChartManager.set_historical_bars bars live_manager).
Proof.
  cbv zeta. apply update_history_unpriced_bar.
  apply Exists_cons_tl, Exists_cons_hd. split; [right |]; reflexivity.
Defined.

(** ** The price levels of the scale *)

Section UnifiedScale.
Import UnifiedChart.
Variables (s0 : t) (lo hi : R).
Hypothesis scale : price_scale s0 = Some (lo, hi).
Hypothesis defined : (hi - lo) * vertical_zoom s0 <> 0.

(** Level [i] of the zoomed axis is at height [i] of the grid. *)
Lemma unified_level_on_grid (i : nat) :
  let bounds := unified_axis_bounds s0 lo hi in
  _price_to_y s0 (snd bounds - INR i * (snd bounds - fst bounds) / 4)
  = Ok (unified_grid_y s0 i).
Proof.
  cbv zeta. rewrite (unified_price_to_y_eq s0 lo hi scale _ defined).
  unfold unified_axis_bounds, unified_grid_y. cbn [fst snd]. do 2 f_equal.
  field. split; intros E; apply defined; rewrite E; ring.
Qed.

Lemma unified_draw_price_scale_spec (c : list item) :
  triple (fun s => unified_data s = unified_data s0 /\ created s = c)
         _draw_price_scale
         (fun _ s =>
            unified_data s = unified_data s0
            /\ created s
               = c ++ unified_scale_items s0 (unified_axis_bounds s0 lo hi)).
Proof.
  unfold _draw_price_scale.
  apply (triple_gets_bind _ _ (Some (lo, hi))).
  { intros s [Hs _]. rewrite <- scale. apply (unified_data_inv _ _ Hs). }
  apply (triple_gets_bind _ _ (IZR (Canvas.width (tk s0)))).
  { intros s [Hs _]. apply (unified_data_size _ _ Hs). }
  unfold winfo_height. apply triple_gets_seq. intros h.
  apply (triple_gets_bind _ _ (vertical_zoom s0)).
  { intros s [Hs _]. apply (unified_data_inv _ _ Hs). }
  apply (triple_gets_bind _ _ (price_offset s0)).
  { intros s [Hs _]. apply (unified_data_inv _ _ Hs). }
  cbv zeta. unfold unified_scale_items.
  apply (triple_for_each (fun s => unified_data s = unified_data s0) created).
  intros i c' _.
  apply (triple_read_bind _ _ (unified_grid_y s0 i)).
  { intros s [Hs _]. rewrite (unified_price_to_y_data s s0 _ Hs).
    exact (unified_level_on_grid i). }
  eapply triple_bind; [apply unified_triple_create | intros id1].
  eapply triple_bind; [apply unified_triple_create | intros id2].
  apply triple_ret. intros s [Hs Hc]. split; [exact Hs |].
  rewrite Hc, <- app_assoc. reflexivity.
Qed.

End UnifiedScale.

(** X7.  On a [UnifiedChart] with a price scale whose bounds differ and a
    non-zero vertical zoom, [_draw_price_scale] returns and draws five
    price levels, each a dashed line with its label, at the five heights
    of the empty grid, 20 + i * (height - 60) / 4: zooming and dragging
    the price axis change the prices the labels read (level i reads the
    price i / 4 of the way down from the top of the zoomed axis, whose
    middle is the middle of the scale plus the offset and whose length is
    the length of the scale times the zoom), never where the levels
    are. *)
Theorem price_levels_stay_on_the_grid (s : UnifiedChart.t) (lo hi : R) :
  UnifiedChart.price_scale s = Some (lo, hi) ->
  (hi - lo) * UnifiedChart.vertical_zoom s <> 0 ->
  let bounds := unified_axis_bounds s lo hi in
  fst (UnifiedChart._draw_price_scale s) = Ok tt
  /\ created (snd (UnifiedChart._draw_price_scale s))
     = created s ++ unified_scale_items s bounds
  /\ (fst bounds + snd bounds) / 2 = (lo + hi) / 2 + UnifiedChart.price_offset s
  /\ snd bounds - fst bounds = (hi - lo) * UnifiedChart.vertical_zoom s
  /\ forall i, unified_grid_y s i
               = 20 + INR i * (IZR (Canvas.height (UnifiedChart.tk s)) - 60) / 4.
Proof.
  intros Hs Hd. cbv zeta.
  destruct (unified_draw_price_scale_spec s lo hi Hs Hd (created s) s
              (conj eq_refl eq_refl)) as ([] & Er & _ & Ec).
  split; [exact Er |]. split; [exact Ec |].
  unfold unified_axis_bounds, unified_grid_y, UnifiedChart.margin_top,
    UnifiedChart.margin_bottom. cbn [fst snd].
  split; [field |]. split; [field |]. intros i. field.
Qed.

Lemma price_levels_stay_on_the_grid_witness :
  let s := UnifiedChart.set_vertical_zoom 2 live_chart in
  let bounds := unified_axis_bounds s 4990 5010 in
  fst (UnifiedChart._draw_price_scale s) = Ok tt
  /\ created (snd (UnifiedChart._draw_price_scale s))
     = created s ++ unified_scale_items s bounds
  /\ (fst bounds + snd bounds) / 2 = (4990 + 5010) / 2 + UnifiedChart.price_offset s
  /\ snd bounds - fst bounds = (5010 - 4990) * UnifiedChart.vertical_zoom s
  /\ forall i, unified_grid_y s i
               = 20 + INR i * (IZR (Canvas.height (UnifiedChart.tk s)) - 60) / 4.
Proof.
  cbv zeta. apply price_levels_stay_on_the_grid; [reflexivity | cbn; lra].
Defined.

(** ** Scale labels against the transform, in the other chart classes *)

Section OptionsScale.
Import OptionsChart.

Lemma options_triple_create v (c : list item) (it : item) :
  triple (fun s : t => options_view s = v /\ created s = c)
         (create it)
         (fun _ s => options_view s = v /\ created s = c ++ [it]).
Proof.
  intros s [Hv Hc]. eexists. split; [reflexivity |]. split; [exact Hv |].
  rewrite created_create, Hc. reflexivity.
Qed.

Lemma options_frames_created_deletes (old : list nat) :
  frames (Self := t) created (for_each old (fun l => delete l)).
Proof. apply frames_for_each. intros l s. apply created_delete. Qed.

Lemma options_frames_view_deletes (old : list nat) :
  frames options_view (for_each old (fun l => delete l)).
Proof. frames_tac. Qed.

Lemma options_total_deletes (old : list nat) :
  total (Self := t) (for_each old (fun l => delete l)).
Proof. apply total_for_each. intros l. apply total_modify. Qed.

Lemma options_view_size (s o : t) :
  options_view s = options_view o ->
  IZR (Canvas.width (tk s)) = IZR (Canvas.width (tk o))
  /\ IZR (Canvas.height (tk s)) = IZR (Canvas.height (tk o)).
Proof.
  intros E. destruct (options_view_inv _ _ E) as (_ & _ & _ & _ & -> & ->).
  split; reflexivity.
Qed.

Lemma options_draw_price_scale_spec (o : t) (y_scale : R) (c : list item) :
  IZR (Canvas.height (tk o)) <> 0 ->
  triple (fun s => options_view s = options_view o /\ created s = c)
         (_draw_price_scale y_scale)
         (fun _ s => options_view s = options_view o
                     /\ created s = c ++ options_scale_labels o y_scale).
Proof.
  intros Hh. unfold _draw_price_scale.
  apply (triple_gets_bind _ _ (IZR (Canvas.width (tk o)))).
  { intros s [Hs _]. apply (options_view_size _ _ Hs). }
  apply (triple_gets_bind _ _ (IZR (Canvas.height (tk o)))).
  { intros s [Hs _]. apply (options_view_size _ _ Hs). }
  apply triple_gets_seq. intros old.
  apply triple_seq; [| intros u].
  { apply triple_of_frames2;
      [apply options_frames_view_deletes | apply options_frames_created_deletes
      | apply options_total_deletes]. }
  apply triple_seq; [apply triple_modify; intros s Hs; exact Hs | intros u1].
  apply (triple_gets_bind _ _ (price_offset o)).
  { intros s [Hs _]. apply (options_view_inv _ _ Hs). }
  cbv zeta.
  eapply triple_lift_bind; [apply py_div_ok, Hh |].
  unfold options_scale_labels.
  apply (triple_for_each (fun s => options_view s = options_view o) created).
  intros i c' _.
  eapply triple_bind; [apply options_triple_create | intros l].
  apply triple_modify. intros s Hs. exact Hs.
Qed.

End OptionsScale.

(** X8.  The price labels of an [OptionsChart] are not where their prices
    are plotted.  For a non-zero scale on a widget of non-zero height,
    [_draw_price_scale] returns and draws five labels, label i at height
    i * (height - 40) / 4; the price it reads is mapped by [_price_to_y]
    (with which the history and the current-price line are drawn) to that
    height plus 40 + 40 * price_offset / height: every label sits that far
    above its price, 40 pixels (the bottom margin) before any drag. *)
Theorem options_chart_labels_sit_above_their_price
        (o : OptionsChart.t) (y_scale : R) :
  y_scale <> 0 ->
  IZR (Canvas.height (OptionsChart.tk o)) <> 0 ->
  let o' := snd (OptionsChart._draw_price_scale y_scale o) in
  fst (OptionsChart._draw_price_scale y_scale o) = Ok tt
  /\ created o' = created o ++ options_scale_labels o y_scale
  /\ forall i,
       OptionsChart._price_to_y o' (options_label_price o y_scale i) y_scale
       = Ok (options_label_y o i + 40
             + 40 * OptionsChart.price_offset o
               / IZR (Canvas.height (OptionsChart.tk o))).
Proof.
  intros Hys Hh. cbv zeta.
  destruct (options_draw_price_scale_spec o y_scale (created o) Hh o
              (conj eq_refl eq_refl)) as ([] & Er & Hv & Hc).
  split; [exact Er |]. split; [exact Hc |]. intros i.
  rewrite (options_chart_price_to_y_eq _ _ _ Hys).
  destruct (options_view_inv _ _ Hv) as (_ & _ & _ & -> & _ & ->).
  unfold options_label_price, options_label_y, OptionsChart.margin_bottom.
  f_equal. field. split; assumption.
Qed.

Lemma options_chart_labels_sit_above_their_price_witness :
  let o := OptionsChart.__init__ 1400 750 in
  let o' := snd (OptionsChart._draw_price_scale 5010 o) in
  fst (OptionsChart._draw_price_scale 5010 o) = Ok tt
  /\ created o' = created o ++ options_scale_labels o 5010
  /\ forall i,
       OptionsChart._price_to_y o' (options_label_price o 5010 i) 5010
       = Ok (options_label_y o i + 40
             + 40 * OptionsChart.price_offset o
               / IZR (Canvas.height (OptionsChart.tk o))).
Proof.
  cbv zeta. apply options_chart_labels_sit_above_their_price; cbn; lra.
Defined.

Section PriceChartScale.
Import PriceChart.

Lemma price_chart_data_view (a b : t) :
  price_chart_data a = price_chart_data b ->
  price_scale a = price_scale b
  /\ vertical_zoom a = vertical_zoom b
  /\ price_offset a = price_offset b
  /\ IZR (Canvas.width (tk a)) = IZR (Canvas.width (tk b))
  /\ IZR (Canvas.height (tk a)) = IZR (Canvas.height (tk b)).
Proof.
  unfold price_chart_data. intros E. injection E as -> -> -> _ _ _ -> ->.
  repeat split.
Qed.

Lemma price_chart_triple_create v (c : list item) (it : item) :
  triple (fun s : t => price_chart_data s = v /\ created s = c)
         (create it)
         (fun _ s => price_chart_data s = v /\ created s = c ++ [it]).
Proof.
  intros s [Hv Hc]. eexists. split; [reflexivity |]. split; [exact Hv |].
  rewrite created_create, Hc. reflexivity.
Qed.

Lemma price_chart_draw_price_scale_spec (c0 : t) (lo hi : R) (c : list item) :
  triple (fun s => price_chart_data s = price_chart_data c0 /\ created s = c)
         (_draw_price_scale lo hi)
         (fun _ s => price_chart_data s = price_chart_data c0
                     /\ created s = c ++ price_chart_levels c0 lo hi).
Proof.
  unfold _draw_price_scale.
  apply (triple_gets_bind _ _ (IZR (Canvas.width (tk c0)))).
  { intros s [Hs _]. apply (price_chart_data_view _ _ Hs). }
  apply (triple_gets_bind _ _ (IZR (Canvas.height (tk c0)))).
  { intros s [Hs _]. apply (price_chart_data_view _ _ Hs). }
  apply triple_gets_seq. intros old.
  apply triple_seq; [| intros u].
  { apply triple_of_frames2.
    - frames_tac.
    - apply frames_for_each. intros l s. apply created_delete.
    - apply total_for_each. intros l. apply total_modify. }
  apply triple_seq; [apply triple_modify; intros s Hs; exact Hs | intros u1].
  apply (triple_gets_bind _ _ (vertical_zoom c0)).
  { intros s [Hs _]. apply (price_chart_data_view _ _ Hs). }
  apply (triple_gets_bind _ _ (price_offset c0)).
  { intros s [Hs _]. apply (price_chart_data_view _ _ Hs). }
  cbv zeta. unfold price_chart_levels.
  apply (triple_for_each (fun s => price_chart_data s = price_chart_data c0) created).
  intros i c' _.
  eapply triple_bind; [apply price_chart_triple_create | intros l1].
  eapply triple_bind; [apply price_chart_triple_create | intros l2].
  apply triple_modify. intros s [Hs Hc]. split; [exact Hs |].
  rewrite <- app_assoc in Hc. exact Hc.
Qed.

End PriceChartScale.

(** X9.  On a [PriceChart] with scale (lo, hi), lo different from hi, and
    a plot of non-zero height, the price levels [redraw] has
    [BaseChart._draw_price_scale] draw agree with [PriceChart._price_to_y],
    the transform the price lines are drawn with, exactly when the chart
    is neither zoomed nor dragged: every level is at the y of the price it
    reads if and only if the vertical zoom is 1 and the price offset is 0.
    The transform ignores both; the labels do not. *)
Theorem price_chart_levels_match_unzoomed (c : PriceChart.t) (lo hi : R) :
  PriceChart.price_scale c = Some (lo, hi) ->
  hi - lo <> 0 ->
  IZR (Canvas.height (PriceChart.tk c)) - PriceChart.margin_top
  - PriceChart.margin_bottom <> 0 ->
  let c' := snd (PriceChart._draw_price_scale lo hi c) in
  fst (PriceChart._draw_price_scale lo hi c) = Ok tt
  /\ created c' = created c ++ price_chart_levels c lo hi
  /\ ((forall i, PriceChart._price_to_y c' (price_chart_level_price c lo hi i)
                 = Ok (price_chart_level_y c i))
      <-> PriceChart.vertical_zoom c = 1 /\ PriceChart.price_offset c = 0).
Proof.
  intros Hs Hr Hu. cbv zeta.
  destruct (price_chart_draw_price_scale_spec c lo hi (created c) c
              (conj eq_refl eq_refl)) as ([] & Er & Hv & Hc).
  split; [exact Er |]. split; [exact Hc |].
  destruct (price_chart_data_view _ _ Hv) as (Es & _ & _ & _ & Eh).
  rewrite Hs in Es.
  assert (Ey : forall i,
             PriceChart._price_to_y
               (snd (PriceChart._draw_price_scale lo hi c))
               (price_chart_level_price c lo hi i)
             = Ok (PriceChart.margin_top
                   + (1 - (price_chart_level_price c lo hi i - lo) / (hi - lo))
                     * (IZR (Canvas.height (PriceChart.tk c)) - PriceChart.margin_top
                        - PriceChart.margin_bottom))).
  { intros i. rewrite (price_chart_price_to_y_eq _ lo hi Es _ Hr), Eh. reflexivity. }
  set (u := IZR (Canvas.height (PriceChart.tk c)) - PriceChart.margin_top
            - PriceChart.margin_bottom) in *.
  split.
  - intros Hall.
    pose proof (Hall 0%nat) as H0. pose proof (Hall 4%nat) as H4.
    rewrite Ey in H0, H4. injection H0 as H0. injection H4 as H4.
    unfold price_chart_level_price, price_chart_level_y in H0, H4.
    fold u in H0, H4. cbn [INR] in H0, H4.
    assert (K0 : (1 - ((hi + lo) / 2 + (hi - lo) * PriceChart.vertical_zoom c / 2
                       + PriceChart.price_offset c - lo) / (hi - lo)) = 0).
    { apply (Rmult_eq_reg_r u); [| exact Hu].
      rewrite Rmult_0_l.
      replace (0 * u / 4) with 0 in H0 by field.
      replace ((hi + lo) / 2 + (hi - lo) * PriceChart.vertical_zoom c / 2 +
               PriceChart.price_offset c -
               0 * ((hi + lo) / 2 + (hi - lo) * PriceChart.vertical_zoom c / 2 +
                    PriceChart.price_offset c -
                    ((hi + lo) / 2 - (hi - lo) * PriceChart.vertical_zoom c / 2 +
                     PriceChart.price_offset c)) / 4)
        with ((hi + lo) / 2 + (hi - lo) * PriceChart.vertical_zoom c / 2 +
              PriceChart.price_offset c) in H0 by field.
      lra. }
    assert (K4 : (1 - ((hi + lo) / 2 - (hi - lo) * PriceChart.vertical_zoom c / 2
                       + PriceChart.price_offset c - lo) / (hi - lo)) = 1).
    { apply (Rmult_eq_reg_r u); [| exact Hu].
      replace ((1 + 1 + 1 + 1) * u / 4) with u in H4 by field.
      replace ((hi + lo) / 2 + (hi - lo) * PriceChart.vertical_zoom c / 2 +
               PriceChart.price_offset c -
               (1 + 1 + 1 + 1) *
               ((hi + lo) / 2 + (hi - lo) * PriceChart.vertical_zoom c / 2 +
                PriceChart.price_offset c -
                ((hi + lo) / 2 - (hi - lo) * PriceChart.vertical_zoom c / 2 +
                 PriceChart.price_offset c)) / 4)
        with ((hi + lo) / 2 - (hi - lo) * PriceChart.vertical_zoom c / 2 +
              PriceChart.price_offset c) in H4 by field.
      lra. }
    assert (A0 : (hi + lo) / 2 + (hi - lo) * PriceChart.vertical_zoom c / 2
                 + PriceChart.price_offset c - lo = hi - lo).
    { apply (Rmult_eq_reg_r (/ (hi - lo))); [| apply Rinv_neq_0_compat, Hr].
      rewrite Rinv_r by exact Hr. unfold Rdiv in K0. lra. }
    assert (A4 : (hi + lo) / 2 - (hi - lo) * PriceChart.vertical_zoom c / 2
                 + PriceChart.price_offset c - lo = 0).
    { apply (Rmult_eq_reg_r (/ (hi - lo))); [| apply Rinv_neq_0_compat, Hr].
      rewrite Rmult_0_l. unfold Rdiv in K4. lra. }
    assert (Hz : (hi - lo) * PriceChart.vertical_zoom c = hi - lo) by lra.
    assert (Hv1 : PriceChart.vertical_zoom c = 1).
    { apply (Rmult_eq_reg_l (hi - lo)); [lra | exact Hr]. }
    split; [exact Hv1 |]. rewrite Hv1 in A0. lra.
  - intros [Hv1 Ho] i. rewrite Ey. f_equal.
    unfold price_chart_level_price, price_chart_level_y. fold u.
    rewrite Hv1, Ho. field. exact Hr.
Qed.

Lemma price_chart_levels_match_unzoomed_witness :
  let c := PriceChart.set_price_scale (Some (4990, 5010))
             (PriceChart.__init__ 1400 750) in
  let c' := snd (PriceChart._draw_price_scale 4990 5010 c) in
  fst (PriceChart._draw_price_scale 4990 5010 c) = Ok tt
  /\ created c' = created c ++ price_chart_levels c 4990 5010
  /\ ((forall i, PriceChart._price_to_y c' (price_chart_level_price c 4990 5010 i)
                 = Ok (price_chart_level_y c i))
      <-> PriceChart.vertical_zoom c = 1 /\ PriceChart.price_offset c = 0).
Proof.
  cbv zeta. apply price_chart_levels_match_unzoomed;
    [reflexivity | lra | unfold PriceChart.margin_top, PriceChart.margin_bottom; cbn; lra].
Defined.

(** ** The time axis of an [OptionsChart] *)

Section OptionsTimeAxis.
Import OptionsChart.

Lemma options_draw_time_axis_spec (o : t) (bars : list Bar) (c : list item) :
  (2 <= length bars)%nat ->
  triple (fun s => options_view s = options_view o /\ created s = c)
         (_draw_time_axis bars)
         (fun _ s =>
            options_view s = options_view o
            /\ created s
               = c
                 ++ flat_map (fun i => match nth_error bars i with
                                       | Some bar =>
                                         [options_time_label o (length bars) i bar]
                                       | None => []
                                       end)
                             (time_label_indices (length bars))).
Proof.
  intros Hlen. unfold _draw_time_axis.
  apply triple_gets_seq. intros old.
  apply triple_seq; [| intros u].
  { apply triple_of_frames2;
      [apply options_frames_view_deletes | apply options_frames_created_deletes
      | apply options_total_deletes]. }
  apply triple_seq; [apply triple_modify; intros s Hs; exact Hs | intros u1].
  destruct bars as [| b0 rest] eqn:Eb; [cbn in Hlen; lia |].
  rewrite <- Eb in *. clear Eb.
  apply (triple_gets_bind _ _ (IZR (Canvas.width (tk o)))).
  { intros s [Hs _]. apply (options_view_size _ _ Hs). }
  apply (triple_gets_bind _ _ (IZR (Canvas.height (tk o)))).
  { intros s [Hs _]. apply (options_view_size _ _ Hs). }
  cbv zeta.
  apply (triple_for_each (fun s => options_view s = options_view o) created).
  intros i c' Hi.
  apply range_from_lt in Hi.
  assert (E : (length bars <=? i)%nat = false) by (apply Nat.leb_gt; exact Hi).
  rewrite E.
  destruct (nth_error bars i) as [bar |] eqn:En;
    [| apply nth_error_None in En; lia].
  eapply triple_lift_bind.
  { apply py_div_ok. apply le_INR in Hlen. cbn in Hlen. lra. }
  eapply triple_bind; [apply options_triple_create | intros l].
  apply triple_modify. intros s Hs. exact Hs.
Qed.

(** With one bar the x of the label divides by len(bars) - 1 = 0. *)
Lemma options_time_axis_one_bar_loop (bar : Bar) (s : t) :
  (width <- winfo_width ;;
   height <- winfo_height ;;
   let y := height - margin_bottom + 20 in
   let num_labels := 5%nat in
   let step := Nat.max 1 (length [bar] / (num_labels - 1)) in
   for_each (range_step 0 (length [bar]) step) (fun i =>
     if (length [bar] <=? i)%nat then ret tt
     else
       match nth_error [bar] i with
       | None => raise IndexError
       | Some bar =>
         q <- lift (py_div ((width - margin_left - margin_right) * INR i)
                           (INR (length [bar]) - 1)) ;;
         let x := margin_left + q in
         l <- create_text x y (Literal (strftime_HMS (date bar))) "n" "black" ;;
         modify (fun s => set_time_labels (time_labels s ++ [l]) s)
       end)) s
  = (Raise ZeroDivisionError, s).
Proof.
  unfold winfo_width, winfo_height. rewrite !bind_gets. cbv zeta.
  cbn [length Nat.div Nat.divmod Nat.max Nat.sub fst range_step range_from
       Nat.ltb Nat.leb Nat.add for_each nth_error].
  apply bind_raise. apply bind_raise. unfold lift, read.
  rewrite py_div_by_zero by (cbn; lra). reflexivity.
Qed.

Lemma options_time_axis_one_bar (bar : Bar) (o : t) :
  fst (_draw_time_axis [bar] o) = Raise ZeroDivisionError.
Proof.
  unfold _draw_time_axis. rewrite bind_gets.
  destruct (options_total_deletes (time_labels o) o) as ([] & Ed).
  destruct (for_each (time_labels o) (fun l => delete l) o) as [r s1] eqn:E.
  cbn in Ed. subst r.
  rewrite (bind_ok _ _ _ _ _ E), bind_modify.
  rewrite options_time_axis_one_bar_loop. reflexivity.
Qed.

Lemma options_appends_time_axis_one_bar (bar : Bar) :
  appends no_time_label (_draw_time_axis [bar]).
Proof.
  unfold _draw_time_axis.
  apply appends_bind; [apply appends_gets | intros old].
  apply appends_bind; [| intros u].
  { apply appends_for_each. intros l. apply appends_delete. exact I. }
  apply appends_bind; [apply appends_modify; intros s; reflexivity | intros u1].
  apply appends_nothing. intros s.
  rewrite options_time_axis_one_bar_loop. reflexivity.
Qed.

Lemma options_appends_clear_price_history :
  appends no_time_label _clear_price_history.
Proof. unfold _clear_price_history. appends_tac. Qed.

Lemma options_appends_draw_price_scale y_scale :
  appends no_time_label (_draw_price_scale y_scale).
Proof. unfold _draw_price_scale. appends_tac. Qed.

Lemma options_appends_one_bar_history (bar : Bar) (y_scale : option R) :
  appends no_time_label (draw_price_history [bar] y_scale).
Proof.
  unfold draw_price_history. cbv beta iota zeta.
  apply appends_try_except.
  apply appends_bind; [apply appends_modify; intros s; reflexivity | intros u0].
  apply appends_bind; [apply appends_modify; intros s; reflexivity | intros u1].
  apply appends_bind; [apply options_appends_clear_price_history | intros u2].
  apply appends_bind; [apply appends_gets | intros w].
  apply appends_bind; [apply appends_gets | intros h].
  apply appends_bind; [apply appends_gets | intros vz].
  apply appends_bind; [destruct y_scale; apply appends_read | intros ys].
  apply appends_bind; [apply options_appends_draw_price_scale | intros u3].
  apply appends_bind; [appends_tac | intros [bid_points ask_points]].
  apply appends_bind; [appends_tac | intros u4].
  apply appends_bind; [appends_tac | intros u5].
  apply options_appends_time_axis_one_bar.
Qed.

End OptionsTimeAxis.

(** X10.  The time axis of an [OptionsChart] needs two bars.  With one
    bar, [_draw_time_axis] raises [ZeroDivisionError] (the x of a label
    divides by len(bars) - 1); [draw_price_history] swallows the
    exception and returns, and none of the canvas calls it made creates a
    time label.  With two bars or more, [_draw_time_axis] returns and
    draws one label for every index of range(0, n, max(1, n // 4)), the
    label of index i at x = 50 + (width - 150) * i / (n - 1). *)
Theorem options_chart_time_axis_needs_two_bars (o : OptionsChart.t) :
  (forall bar y_scale,
      fst (OptionsChart._draw_time_axis [bar] o) = Raise ZeroDivisionError
      /\ fst (OptionsChart.draw_price_history [bar] y_scale o) = Ok tt
      /\ exists calls,
          Canvas.log (OptionsChart.tk
                        (snd (OptionsChart.draw_price_history [bar] y_scale o)))
          = Canvas.log (OptionsChart.tk o) ++ calls
          /\ Forall no_time_label calls)
  /\ (forall bars,
         (2 <= length bars)%nat ->
         fst (OptionsChart._draw_time_axis bars o) = Ok tt
         /\ created (snd (OptionsChart._draw_time_axis bars o))
            = created o
              ++ flat_map (fun i => match nth_error bars i with
                                    | Some bar =>
                                      [options_time_label o (length bars) i bar]
                                    | None => []
                                    end)
                          (time_label_indices (length bars))).
Proof.
  split.
  - intros bar y_scale. split; [apply options_time_axis_one_bar |].
    split; [unfold OptionsChart.draw_price_history; apply fst_try_except |].
    exact (options_appends_one_bar_history bar y_scale o).
  - intros bars Hlen.
    destruct (options_draw_time_axis_spec o bars (created o) Hlen o
                (conj eq_refl eq_refl)) as ([] & Er & _ & Ec).
    split; [exact Er | exact Ec].
Qed.

(** ** Changing the exposure type *)

(** X11.  [ChartManager.update_exposure_type] only acts on cached options
    data.  While the manager caches none, the call changes nothing: the
    chart keeps its previous exposure type and the selection is lost.
    With cached data, a non-empty type and a non-zero vertical zoom, the
    call returns, the chart's exposure type is the new one and its spot is
    the manager's, and the manager's own attributes are unchanged. *)
Theorem update_exposure_type_needs_data (m : ChartManager.t) (e : string) :
  (ChartManager.current_data m = [] ->
   ChartManager.update_exposure_type e m = (Ok tt, m))
  /\ (ChartManager.current_data m <> [] ->
      e <> EmptyString ->
      OptionsChart.vertical_zoom (ChartManager.chart m) <> 0 ->
      let m' := snd (ChartManager.update_exposure_type e m) in
      fst (ChartManager.update_exposure_type e m) = Ok tt
      /\ OptionsChart.exposure_type (ChartManager.chart m') = e
      /\ OptionsChart.current_spot (ChartManager.chart m') = ChartManager.spot_price m
      /\ ChartManager.current_data m' = ChartManager.current_data m
      /\ ChartManager.max_exposure m' = ChartManager.max_exposure m
      /\ ChartManager.spot_price m' = ChartManager.spot_price m
      /\ ChartManager.historical_bars m' = ChartManager.historical_bars m).
Proof.
  unfold ChartManager.update_exposure_type, get. rewrite bind_gets. split.
  - intros ->. reflexivity.
  - intros Hd He Hvz. cbv zeta.
    destruct (ChartManager.current_data m) as [| row rest] eqn:Ed; [congruence |].
    rewrite on_chart_eq. cbn [fst snd].
    destruct (options_draw_delta_chart_spec
                (ChartManager.chart m) (row :: rest) (ChartManager.max_exposure m)
                (ChartManager.spot_price m) (Some e) Hvz)
      as (o' & -> & Hv & _).
    cbn [fst snd ChartManager.chart ChartManager.set_chart
         ChartManager.current_data ChartManager.max_exposure
         ChartManager.spot_price ChartManager.historical_bars].
    destruct (options_view_inv _ _ Hv) as (Es & Ee & _).
    rewrite Es, Ee. unfold options_stored.
    assert (Hne : negb (e =? EmptyString)%string = true).
    { apply negb_true_iff, String.eqb_neq, He. }
    rewrite Hne. cbn. repeat split. exact Ed.
Qed.

Lemma update_exposure_type_needs_data_witness :
  let m := ChartManager.set_current_data sample_rows live_manager in
  let m' := snd (ChartManager.update_exposure_type "DEX" m) in
  fst (ChartManager.update_exposure_type "DEX" m) = Ok tt
  /\ OptionsChart.exposure_type (ChartManager.chart m') = "DEX"%string
  /\ OptionsChart.current_spot (ChartManager.chart m') = ChartManager.spot_price m
  /\ ChartManager.current_data m' = ChartManager.current_data m
  /\ ChartManager.max_exposure m' = ChartManager.max_exposure m
  /\ ChartManager.spot_price m' = ChartManager.spot_price m
  /\ ChartManager.historical_bars m' = ChartManager.historical_bars m.
Proof.
  cbv zeta.
  apply (proj2 (update_exposure_type_needs_data
                  (ChartManager.set_current_data sample_rows live_manager) "DEX"));
    [discriminate | discriminate | cbn; lra].
Defined.

Section WindowFacts.
Import UnifiedChart.

(** The state in which [update_options] calls [redraw], with the exposure
    type it has stored. *)
Lemma update_options_stored data max_exposure spot_price exposure_type (s : t) :
  exists s1,
    update_options data max_exposure spot_price exposure_type s = redraw s1
    /\ price_history s1 = price_history s
    /\ price_scale s1 = price_scale s
    /\ options_data s1 = data
    /\ UnifiedChart.max_exposure s1 = max_exposure
    /\ current_bid s1 = (if truthy_opt spot_price then spot_price else current_bid s)
    /\ current_ask s1 = (if truthy_opt spot_price then spot_price else current_ask s)
    /\ UnifiedChart.exposure_type s1
       = match exposure_type with
         | Some e => if (e =? EmptyString)%string
                     then UnifiedChart.exposure_type s else e
         | None => UnifiedChart.exposure_type s
         end
    /\ vertical_zoom s1 = vertical_zoom s
    /\ horizontal_zoom s1 = horizontal_zoom s
    /\ price_offset s1 = price_offset s
    /\ tk s1 = tk s.
Proof.
  unfold update_options, bind, modify, when, ret.
  destruct spot_price as [spot |]; [destruct (truthy spot) eqn:Et |];
    (destruct exposure_type as [e |]; [destruct (e =? EmptyString)%string |]);
    cbn [truthy_opt negb]; rewrite ?Et;
    eexists; (split; [reflexivity |]); cbn; repeat split.
Qed.

End WindowFacts.

Lemma window_on_chart_eq {A : Type} (m : M UnifiedChart.t A) (w : ESOptionsWindow.t) :
  ESOptionsWindow.on_chart m w
  = (fst (m (ESOptionsWindow.chart w)),
     ESOptionsWindow.set_chart (snd (m (ESOptionsWindow.chart w))) w).
Proof.
  unfold ESOptionsWindow.on_chart. destruct (m (ESOptionsWindow.chart w)). reflexivity.
Qed.

(** X12.  Choosing an exposure type in the window's dropdown loses the
    spread of the live quote: [_on_exposure_changed] passes the cached bid
    as the spot price of [update_options], so with a non-zero cached bid
    the cached ask becomes the bid (and the current-price line, drawn at
    their mean, moves to the bid).  The options rows, their maximum, the
    price history and the price scale are kept, the chart takes the
    selected type when it is not empty, and the window's own attributes
    are unchanged, whether or not the redraw raises. *)
Theorem exposure_change_copies_bid_to_ask (w : ESOptionsWindow.t) (b : R) :
  UnifiedChart.current_bid (ESOptionsWindow.chart w) = Some b ->
  b <> 0 ->
  let w' := snd (ESOptionsWindow._on_exposure_changed w) in
  let c := ESOptionsWindow.chart w in
  let c' := ESOptionsWindow.chart w' in
  UnifiedChart.current_bid c' = Some b
  /\ UnifiedChart.current_ask c' = Some b
  /\ UnifiedChart.options_data c' = UnifiedChart.options_data c
  /\ UnifiedChart.max_exposure c' = UnifiedChart.max_exposure c
  /\ UnifiedChart.price_history c' = UnifiedChart.price_history c
  /\ UnifiedChart.price_scale c' = UnifiedChart.price_scale c
  /\ (ESOptionsWindow.exposure_type w <> EmptyString ->
      UnifiedChart.exposure_type c' = ESOptionsWindow.exposure_type w)
  /\ ESOptionsWindow.set_chart c w' = w.
Proof.
  intros Hb Hbz. cbv zeta.
  unfold ESOptionsWindow._on_exposure_changed, get. rewrite bind_gets.
  rewrite window_on_chart_eq. cbn [snd ESOptionsWindow.chart ESOptionsWindow.set_chart].
  destruct (update_options_stored
              (UnifiedChart.options_data (ESOptionsWindow.chart w))
              (UnifiedChart.max_exposure (ESOptionsWindow.chart w))
              (UnifiedChart.current_bid (ESOptionsWindow.chart w))
              (Some (ESOptionsWindow.exposure_type w))
              (ESOptionsWindow.chart w))
    as (s1 & -> & Eh & Es & Eo & Em & Ebid & Eask & Ety & _).
  destruct (unified_data_inv _ _ (unified_frames_redraw s1))
    as (Eh' & Eb' & Ea' & Eo' & Em' & Ety' & Es' & _).
  rewrite Eh', Eb', Ea', Eo', Em', Ety', Es', Eh, Es, Eo, Em, Ebid, Eask, Ety.
  rewrite Hb. cbn [truthy_opt]. rewrite (truthy_nonzero b Hbz).
  repeat split.
  - intros Hne. apply String.eqb_neq in Hne. rewrite Hne. reflexivity.
  - destruct w. reflexivity.
Qed.

Lemma exposure_change_copies_bid_to_ask_witness :
  let w := ESOptionsWindow.set_chart
             (UnifiedChart.set_current_ask
                (Some 5001) (UnifiedChart.set_current_bid (Some 5000) live_chart))
             (ESOptionsWindow.__init__ 1400 750) in
  let w' := snd (ESOptionsWindow._on_exposure_changed w) in
  let c := ESOptionsWindow.chart w in
  let c' := ESOptionsWindow.chart w' in
  UnifiedChart.current_bid c' = Some 5000
  /\ UnifiedChart.current_ask c' = Some 5000
  /\ UnifiedChart.options_data c' = UnifiedChart.options_data c
  /\ UnifiedChart.max_exposure c' = UnifiedChart.max_exposure c
  /\ UnifiedChart.price_history c' = UnifiedChart.price_history c
  /\ UnifiedChart.price_scale c' = UnifiedChart.price_scale c
  /\ (ESOptionsWindow.exposure_type w <> EmptyString ->
      UnifiedChart.exposure_type c' = ESOptionsWindow.exposure_type w)
  /\ ESOptionsWindow.set_chart c w' = w.
Proof.
  cbv zeta. apply exposure_change_copies_bid_to_ask; [reflexivity | lra].
Defined.

(** ** From the processor to the chart *)


Lemma process_market_data_fold
      (p : OptionsDataProcessor.t) (exposure_type : string)
      (f : list OptionRow * R -> OptionRow -> list OptionRow * R)
      (tickers delta_data : list OptionRow) (max_exposure : R) :
  (forall d m row,
      f (d, m) row
      = (d ++ [row],
         (fun max_exp '(_, call_exp, put_exp) =>
            Rmax (Rmax max_exp call_exp) put_exp)
           m (processed_exposures p exposure_type row))) ->
  fold_left f tickers (delta_data, max_exposure)
  = (delta_data ++ tickers,
     fold_left (fun max_exp '(_, call_exp, put_exp) =>
                  Rmax (Rmax max_exp call_exp) put_exp)
               (map (processed_exposures p exposure_type) tickers) max_exposure).
Proof.
  intros Hf. revert delta_data max_exposure.
  induction tickers as [| row rest IH];
    intros delta_data max_exposure; cbn [fold_left map].
  - rewrite app_nil_r. reflexivity.
  - rewrite Hf, IH, <- app_assoc. reflexivity.
Qed.

Lemma process_market_data_eq
      (p : OptionsDataProcessor.t) (tickers : list OptionRow) (exposure_type : string) :
  OptionsDataProcessor.process_market_data p tickers exposure_type
  = (tickers,
     Rmax (OptionsChart.observed_max
             (map (processed_exposures p exposure_type) tickers)) 1.0).
Proof.
  unfold OptionsDataProcessor.process_market_data.
  rewrite (process_market_data_fold p exposure_type _ tickers [] 0).
  - reflexivity.
  - intros d m [[strike call_ticker] put_ticker]. reflexivity.
Qed.


Section SnapshotWithoutGreeks.
Import UnifiedChart.

Lemma exposure_without_greeks (u : t) (ticker : option Ticker) (exposure_type : string) :
  no_greeks ticker -> _calculate_exposure u ticker exposure_type = 0.
Proof.
  unfold no_greeks, _calculate_exposure.
  destruct ticker as [ticker |]; [intros -> |]; reflexivity.
Qed.

Lemma observed_max_without_greeks (u : t) (rows : list OptionRow) :
  Forall row_without_greeks rows ->
  observed_max (map (row_exposures u) rows) = 0.
Proof.
  unfold observed_max. induction 1 as [| [[strike call_ticker] put_ticker] rest [Hc Hp] _ IH];
    [reflexivity |].
  cbn [map fold_left row_exposures].
  rewrite (exposure_without_greeks u _ _ Hc), (exposure_without_greeks u _ _ Hp).
  rewrite Rmax_0_0. exact IH.
Qed.

(** [redraw] on a chart whose history (if any) can be drawn and whose
    options cannot. *)
Lemma unified_redraw_options_raise_after_history (s : t) (e : exn) :
  options_data s <> [] ->
  transform_defined s ->
  horizontal_zoom s <> 0 ->
  Forall quote_or_trade (price_history s) ->
  (forall s2, unified_data s2 = unified_data s ->
              _draw_options_data s2 = (Raise e, s2)) ->
  fst (redraw s) = Raise e.
Proof.
  intros Ho Hd Hz Hall Hraise. unfold redraw.
  unfold delete_all at 1. rewrite bind_modify.
  match goal with
  | |- context [bind _draw_empty_grid _ ?s1] =>
    destruct (unified_draw_empty_grid_data s s1 eq_refl) as ([] & E2 & D2);
      destruct (_draw_empty_grid s1) as [r2 s2] eqn:Eg
  end.
  cbn in E2, D2. subst r2.
  rewrite (bind_ok _ _ _ _ _ Eg). unfold get. rewrite bind_gets.
  destruct (unified_data_inv _ _ D2) as (Eh & _ & _ & Eo & _ & _ & Es & _).
  rewrite Eh, Eo, Es.
  destruct (options_data s) as [| row rest]; [congruence |].
  assert (T : triple (fun s1 => unified_data s1 = unified_data s)
                     (when (match price_history s, price_scale s with
                            | _ :: _, Some _ => true
                            | _, _ => false
                            end) _draw_price_history)
                     (fun _ s1 => unified_data s1 = unified_data s)).
  { apply triple_when; [intros _ | auto].
    apply unified_draw_price_history_keeps; assumption. }
  destruct (T s2 D2) as ([] & E3 & D3).
  destruct (when _ _draw_price_history s2) as [r3 s3] eqn:Ew.
  cbn in E3, D3. subst r3.
  assert (Hgoal : fst (bind (when (match price_history s, price_scale s with
                                    | _ :: _, Some _ => true
                                    | _, _ => false
                                    end) _draw_price_history)
                            (fun _ =>
                               bind (when true _draw_options_data)
                                    (fun _ =>
                                       when (truthy_opt (current_bid s2)
                                             && truthy_opt (current_ask s2))
                                            _draw_current_price)) s2)
                  = Raise e).
  { rewrite (bind_ok _ _ _ _ _ Ew). unfold bind. cbn [when].
    rewrite (Hraise s3 D3). reflexivity. }
  destruct (price_history s); exact Hgoal.
Qed.

End SnapshotWithoutGreeks.

(** X14.  An options snapshot whose tickers carry no model greeks yet
    makes the chart raise, in spite of the processor's floor.  For such
    rows (not none), [process_market_data] returns exactly 1.0 as the
    maximum, every exposure being 0; pushed through
    [ESOptionsWindow.update_chart] with a non-zero spot, onto a chart
    whose history (if any) is drawable, the snapshot passes the guard on
    [max_exposure], and [_draw_options_data] divides the first exposure
    by the maximum it computes itself, 0: [update_chart] raises
    [ZeroDivisionError]. *)
Theorem snapshot_without_greeks_raises
        (w : ESOptionsWindow.t) (p : OptionsDataProcessor.t)
        (tickers : list OptionRow) (spot : R) :
  tickers <> [] ->
  Forall row_without_greeks tickers ->
  spot <> 0 ->
  transform_defined (ESOptionsWindow.chart w) ->
  UnifiedChart.horizontal_zoom (ESOptionsWindow.chart w) <> 0 ->
  Forall quote_or_trade (UnifiedChart.price_history (ESOptionsWindow.chart w)) ->
  let processed :=
    OptionsDataProcessor.process_market_data
      (OptionsDataProcessor.set_spot_price (Some spot) p)
      tickers (ESOptionsWindow.exposure_type w) in
  fst processed = tickers
  /\ snd processed = 1
  /\ fst (ESOptionsWindow.update_chart
            (fst processed) (Some (snd processed)) (Some spot) w)
     = Raise ZeroDivisionError.
Proof.
  intros Hne Hrows Hspot Hd Hz Hall. cbv zeta.
  rewrite process_market_data_eq. cbn [fst snd].
  assert (Hmax : Rmax (OptionsChart.observed_max
                         (map (processed_exposures
                                 (OptionsDataProcessor.set_spot_price (Some spot) p)
                                 (ESOptionsWindow.exposure_type w)) tickers)) 1.0
                 = 1).
  { replace (map (processed_exposures
                    (OptionsDataProcessor.set_spot_price (Some spot) p)
                    (ESOptionsWindow.exposure_type w)) tickers)
      with (map (UnifiedChart.row_exposures
                   (UnifiedChart.set_exposure_type
                      (ESOptionsWindow.exposure_type w)
                      (UnifiedChart.set_current_bid (Some spot)
                                                    (ESOptionsWindow.chart w))))
                tickers).
    - change (OptionsChart.observed_max ?l) with (UnifiedChart.observed_max l).
      rewrite (observed_max_without_greeks _ _ Hrows).
      rewrite Rmax_right by lra. lra.
    - apply map_ext. intros [[strike call_ticker] put_ticker]. reflexivity. }
  rewrite Hmax. split; [reflexivity |]. split; [reflexivity |].
  unfold ESOptionsWindow.update_chart, get. rewrite bind_gets, window_on_chart_eq.
  cbn [fst].
  destruct (update_options_stored tickers (Some 1) (Some spot)
              (Some (ESOptionsWindow.exposure_type w)) (ESOptionsWindow.chart w))
    as (s1 & -> & Eh & Es & Eo & Em & _ & _ & _ & Ev & Ehz & Eoff & Etk).
  apply unified_redraw_options_raise_after_history.
  - rewrite Eo. exact Hne.
  - unfold transform_defined in *. rewrite Es, Ev. exact Hd.
  - rewrite Ehz. exact Hz.
  - rewrite Eh. exact Hall.
  - intros s2 D2.
    destruct (unified_data_inv _ _ D2)
      as (_ & _ & _ & Eo2 & Em2 & _ & Es2 & Ev2 & _).
    apply (unified_draw_options_data_zero s2 1).
    + rewrite Eo2, Eo. exact Hne.
    + rewrite Em2, Em. reflexivity.
    + lra.
    + unfold transform_defined in *. rewrite Es2, Ev2, Es, Ev. exact Hd.
    + rewrite Eo2, Eo. apply observed_max_without_greeks, Hrows.
Qed.

Lemma snapshot_without_greeks_raises_witness :
  let w := ESOptionsWindow.set_chart live_chart (ESOptionsWindow.__init__ 1400 750) in
  let processed :=
    OptionsDataProcessor.process_market_data
      (OptionsDataProcessor.set_spot_price (Some 5000) OptionsDataProcessor.__init__)
      empty_rows (ESOptionsWindow.exposure_type w) in
  fst processed = empty_rows
  /\ snd processed = 1
  /\ fst (ESOptionsWindow.update_chart
            (fst processed) (Some (snd processed)) (Some 5000) w)
     = Raise ZeroDivisionError.
Proof.
  cbv zeta. apply snapshot_without_greeks_raises.
  - discriminate.
  - apply Forall_cons; [split; exact I | apply Forall_nil].
  - lra.
  - cbn. lra.
  - cbn. lra.
  - exact live_history_quote_or_trade.
Defined.

(** ** Expiries and contracts *)

Lemma weekday_range (d : Z) : (0 <= weekday d < 7)%Z.
Proof. unfold weekday. apply Z.mod_pos_bound. lia. Qed.

Lemma coming_friday_exists (day : Z) :
  coming_friday day (day + (4 - weekday day) mod 7).
Proof.
  unfold coming_friday, weekday. repeat split.
  - pose proof (Z.mod_pos_bound (day + 6) 7 ltac:(lia)).
    pose proof (Z.mod_pos_bound (4 - (day + 6) mod 7) 7 ltac:(lia)).
    pose proof (Z.div_mod (day + 6) 7 ltac:(lia)).
    pose proof (Z.div_mod (4 - (day + 6) mod 7) 7 ltac:(lia)).
    pose proof (Z.div_mod (day + (4 - (day + 6) mod 7) mod 7 + 6) 7 ltac:(lia)).
    pose proof (Z.mod_pos_bound (day + (4 - (day + 6) mod 7) mod 7 + 6) 7 ltac:(lia)).
    lia.
  - pose proof (Z.mod_pos_bound (4 - (day + 6) mod 7) 7 ltac:(lia)). lia.
  - pose proof (Z.mod_pos_bound (4 - (day + 6) mod 7) 7 ltac:(lia)). lia.
  - intros d Hd E.
    pose proof (Z.mod_pos_bound (day + 6) 7 ltac:(lia)).
    pose proof (Z.mod_pos_bound (4 - (day + 6) mod 7) 7 ltac:(lia)).
    pose proof (Z.div_mod (day + 6) 7 ltac:(lia)).
    pose proof (Z.div_mod (4 - (day + 6) mod 7) 7 ltac:(lia)).
    pose proof (Z.div_mod (d + 6) 7 ltac:(lia)).
    lia.
Qed.

(** [date.max], 9999-12-31, is a Friday: the coming Friday of a date is a
    date. *)
Lemma coming_friday_in_range (day : Z) :
  (1 <= day <= date_max)%Z ->
  date_plus_days day ((4 - weekday day) mod 7) = Some (day + (4 - weekday day) mod 7)%Z.
Proof.
  intros Hd. unfold date_plus_days.
  assert (H : (1 <= day + (4 - weekday day) mod 7 <= date_max)%Z).
  { unfold weekday, date_max in *.
    pose proof (Z.mod_pos_bound (day + 6) 7 ltac:(lia)).
    pose proof (Z.mod_pos_bound (4 - (day + 6) mod 7) 7 ltac:(lia)).
    pose proof (Z.div_mod (day + 6) 7 ltac:(lia)).
    pose proof (Z.div_mod (4 - (day + 6) mod 7) 7 ltac:(lia)).
    lia. }
  destruct H as [H1 H2]. apply Z.leb_le in H1, H2. rewrite H1, H2. reflexivity.
Qed.

(** X15.  For every date of the calendar, [es_weeklies.get_next_expiry]
    returns a date (the addition never overflows: the last date,
    9999-12-31, is a Friday), and that date is the first Friday on or
    after the given day: the day itself on a Friday, else at most six days
    later with no Friday in between. *)
Theorem weekly_expiry_is_the_coming_friday (day : Z) :
  (1 <= day <= date_max)%Z ->
  exists friday,
    es_weeklies.get_next_expiry day = Some friday
    /\ coming_friday day friday
    /\ (weekday day = 4%Z -> friday = day).
Proof.
  intros Hd. exists (day + (4 - weekday day) mod 7)%Z.
  unfold es_weeklies.get_next_expiry. cbv zeta.
  split; [apply coming_friday_in_range, Hd |].
  split; [apply coming_friday_exists |].
  intros E. rewrite E. change ((4 - 4) mod 7)%Z with 0%Z. lia.
Qed.

Lemma weekly_expiry_is_the_coming_friday_witness :
  exists friday,
    es_weeklies.get_next_expiry 739195 = Some friday
    /\ coming_friday 739195 friday
    /\ (weekday 739195 = 4%Z -> friday = 739195%Z).
Proof.
  apply weekly_expiry_is_the_coming_friday. unfold date_max. lia.
Defined.

(** X16.  [ESContract.get_next_expiry] never offers the trading class of
    the second week: the days to Friday are at most six, so the test
    [days_to_friday > 7] fails and every result carries the class "E1A",
    which is not the class "E1B" that [get_weekly_trading_class] and
    [ESOptionsManager.get_trading_class_for_date] return.  For a clock
    reading at least a week before the end of the calendar the method
    returns, and its date is a Friday: a week from today on a Friday from
    15:15 on, and the first Friday on or after today otherwise. *)
Theorem next_expiry_is_a_friday_of_class_E1A (now : instant) :
  (1 <= today now <= date_max - 7)%Z ->
  (exists friday,
      ESContract.get_next_expiry now = Some (friday, "E1A"%string)
      /\ weekday friday = 4%Z
      /\ (after_friday_cutoff now -> friday = (today now + 7)%Z)
      /\ (~ after_friday_cutoff now -> coming_friday (today now) friday))
  /\ (forall clock friday trading_class expiry_date,
         ESContract.get_next_expiry clock = Some (friday, trading_class) ->
         trading_class = "E1A"%string
         /\ ESOptionsManager.get_trading_class_for_date expiry_date
            <> Some trading_class).
Proof.
  intros Hd. split.
  - unfold ESContract.get_next_expiry. cbv zeta.
    rewrite coming_friday_in_range by (unfold date_max in *; lia).
    pose proof (coming_friday_exists (today now)) as Hf.
    pose proof (Z.mod_pos_bound (4 - weekday (today now)) 7 ltac:(lia)) as Hk.
    assert (Hlt : (7 <? (4 - weekday (today now)) mod 7)%Z = false)
      by (apply Z.ltb_ge; lia).
    rewrite Hlt.
    destruct ((weekday (today now) =? 4)%Z
              && ((15 <? now_hour now)%Z
                  || ((now_hour now =? 15)%Z && (15 <=? now_minute now)%Z)))
      eqn:Ec.
    + assert (Hcut : after_friday_cutoff now).
      { apply andb_prop in Ec. destruct Ec as [E1 E2]. apply Z.eqb_eq in E1.
        split; [exact E1 |]. apply orb_prop in E2. destruct E2 as [E2 | E2].
        - left. apply Z.ltb_lt, E2.
        - right. apply andb_prop in E2. destruct E2 as [E2 E3].
          apply Z.eqb_eq in E2. apply Z.leb_le in E3. split; assumption. }
      destruct Hcut as [Hw Hc]. rewrite Hw in *. change ((4 - 4) mod 7)%Z with 0%Z in *.
      rewrite Z.add_0_r in *.
      unfold date_plus_days.
      assert (H1 : (1 <=? today now + 7)%Z = true) by (apply Z.leb_le; lia).
      assert (H2 : (today now + 7 <=? date_max)%Z = true) by (apply Z.leb_le; lia).
      rewrite H1, H2. cbn [andb].
      exists (today now + 7)%Z. split; [reflexivity |]. split.
      * unfold weekday in *.
        pose proof (Z.div_mod (today now + 6) 7 ltac:(lia)).
        pose proof (Z.div_mod (today now + 7 + 6) 7 ltac:(lia)).
        pose proof (Z.mod_pos_bound (today now + 7 + 6) 7 ltac:(lia)).
        lia.
      * split; [reflexivity |]. intros Hn. exfalso. apply Hn. split; assumption.
    + exists (today now + (4 - weekday (today now)) mod 7)%Z.
      split; [reflexivity |]. split; [apply Hf |]. split.
      * intros [Hw Hc]. exfalso.
        apply Z.eqb_eq in Hw. rewrite Hw in Ec. cbn [andb] in Ec.
        apply orb_false_elim in Ec. destruct Ec as [E1 E2].
        apply Z.ltb_ge in E1. destruct Hc as [Hc | [Hc1 Hc2]]; [lia |].
        apply Z.eqb_eq in Hc1. apply Z.leb_le in Hc2.
        rewrite Hc1, Hc2 in E2. discriminate.
      * intros _. exact Hf.
  - intros clock friday trading_class expiry_date.
    unfold ESContract.get_next_expiry. cbv zeta.
    pose proof (Z.mod_pos_bound (4 - weekday (today clock)) 7 ltac:(lia)) as Hk.
    assert (Hlt : (7 <? (4 - weekday (today clock)) mod 7)%Z = false)
      by (apply Z.ltb_ge; lia).
    rewrite Hlt.
    destruct (date_plus_days (today clock) _) as [next_friday |]; [| discriminate].
    match goal with
    | |- context [if ?c then date_plus_days next_friday 7 else Some next_friday] =>
      destruct (if c then date_plus_days next_friday 7 else Some next_friday);
        [| discriminate]
    end.
    intros E. injection E as _ <-. split; [reflexivity |].
    unfold ESOptionsManager.get_trading_class_for_date,
      es_weeklies.get_weekly_trading_class. discriminate.
Qed.

Lemma next_expiry_is_a_friday_of_class_E1A_witness :
  let now := {| today := 739195; microseconds := 57600000000 |} in
  (exists friday,
      ESContract.get_next_expiry now = Some (friday, "E1A"%string)
      /\ weekday friday = 4%Z
      /\ (after_friday_cutoff now -> friday = (today now + 7)%Z)
      /\ (~ after_friday_cutoff now -> coming_friday (today now) friday))
  /\ (forall clock friday trading_class expiry_date,
         ESContract.get_next_expiry clock = Some (friday, trading_class) ->
         trading_class = "E1A"%string
         /\ ESOptionsManager.get_trading_class_for_date expiry_date
            <> Some trading_class).
Proof.
  cbv zeta. apply next_expiry_is_a_friday_of_class_E1A. unfold date_max. cbn. lia.
Defined.

Section ActiveContract.
Variable strptime_Ymd : string -> option Z.
Variable now : instant.

(** What the loop of [get_active_contract] has found after the details
    [seen]. *)
Let found (seen : list ContractDetails) (acc : option Future * option Z) : Prop :=
  match acc with
  | (Some c, Some days) =>
    exists pre d post,
      seen = pre ++ d :: post
      /\ contract d = c
      /\ days_to_expiry strptime_Ymd now d = Some days
      /\ (0 < days)%Z
      /\ (forall d' days', In d' pre ->
                           days_to_expiry strptime_Ymd now d' = Some days' ->
                           (0 < days')%Z -> (days < days')%Z)
      /\ (forall d' days', In d' post ->
                           days_to_expiry strptime_Ymd now d' = Some days' ->
                           (0 < days')%Z -> (days <= days')%Z)
  | (None, None) =>
    forall d days, In d seen ->
                   days_to_expiry strptime_Ymd now d = Some days -> (days <= 0)%Z
  | _ => False
  end.

Lemma nearest_step (seen : list ContractDetails) (acc : option Future * option Z)
      (d : ContractDetails) :
  found seen acc ->
  match days_to_expiry strptime_Ymd now d with
  | Some _ =>
    exists acc', ESContract.nearest strptime_Ymd now (Some acc) d = Some acc'
                 /\ found (seen ++ [d]) acc'
  | None => ESContract.nearest strptime_Ymd now (Some acc) d = None
  end.
Proof.
  intros Hf. unfold ESContract.nearest, days_to_expiry in *.
  destruct acc as [active min_days].
  destruct (strptime_Ymd (lastTradeDateOrContractMonth (contract d)))
    as [expiry |] eqn:Ep; [| reflexivity].
  set (days := days_until expiry now) in *.
  destruct active as [c |]; destruct min_days as [m |]; try contradiction.
  - destruct Hf as (pre & d0 & post & -> & Ec & Ed & Hpos & Hpre & Hpost).
    destruct (0 <? days)%Z eqn:E0; [destruct (days <? m)%Z eqn:E1 |]; cbn [andb].
    + apply Z.ltb_lt in E0, E1. eexists. split; [reflexivity |].
      exists (pre ++ d0 :: post), d, []. rewrite Ep. fold days.
      repeat split; try assumption.
      * intros d' days' Hin Hd' Hp'. apply in_app_or in Hin.
        destruct Hin as [Hin | [<- | Hin]].
        -- pose proof (Hpre d' days' Hin Hd' Hp'). lia.
        -- rewrite Ed in Hd'. injection Hd' as <-. exact E1.
        -- pose proof (Hpost d' days' Hin Hd' Hp'). lia.
      * intros d' days' [].
    + apply Z.ltb_lt in E0. apply Z.ltb_ge in E1. eexists. split; [reflexivity |].
      exists pre, d0, (post ++ [d]). rewrite <- app_assoc.
      repeat split; try assumption.
      intros d' days' Hin Hd' Hp'. apply in_app_or in Hin.
      destruct Hin as [Hin | [<- | []]].
      * exact (Hpost d' days' Hin Hd' Hp').
      * rewrite Ep in Hd'. injection Hd' as <-. exact E1.
    + apply Z.ltb_ge in E0. eexists. split; [reflexivity |].
      exists pre, d0, (post ++ [d]). rewrite <- app_assoc.
      repeat split; try assumption.
      intros d' days' Hin Hd' Hp'. apply in_app_or in Hin.
      destruct Hin as [Hin | [<- | []]].
      * exact (Hpost d' days' Hin Hd' Hp').
      * rewrite Ep in Hd'. injection Hd' as <-. fold days in Hp'. lia.
  - destruct (0 <? days)%Z eqn:E0; cbn [andb].
    + apply Z.ltb_lt in E0. eexists. split; [reflexivity |].
      exists seen, d, []. rewrite Ep. fold days.
      repeat split; try assumption.
      * intros d' days' Hin Hd' Hp'. pose proof (Hf d' days' Hin Hd'). lia.
      * intros d' days' [].
    + apply Z.ltb_ge in E0. eexists. split; [reflexivity |].
      intros d' days' Hin Hd'. apply in_app_or in Hin.
      destruct Hin as [Hin | [<- | []]].
      * exact (Hf d' days' Hin Hd').
      * rewrite Ep in Hd'. injection Hd' as <-. exact E0.
Qed.

Lemma nearest_raised (details : list ContractDetails) :
  fold_left (ESContract.nearest strptime_Ymd now) details None = None.
Proof. induction details as [| d rest IH]; [reflexivity | exact IH]. Qed.

Lemma nearest_fold (details seen : list ContractDetails)
      (acc : option Future * option Z) :
  found seen acc ->
  (Forall (fun d => days_to_expiry strptime_Ymd now d <> None) details ->
   exists acc',
     fold_left (ESContract.nearest strptime_Ymd now) details (Some acc) = Some acc'
     /\ found (seen ++ details) acc')
  /\ (Exists (fun d => days_to_expiry strptime_Ymd now d = None) details ->
      fold_left (ESContract.nearest strptime_Ymd now) details (Some acc) = None).
Proof.
  revert seen acc. induction details as [| d rest IH]; intros seen acc Hf.
  - split.
    + intros _. exists acc. rewrite app_nil_r. split; [reflexivity | exact Hf].
    + intros Hex. inversion Hex.
  - pose proof (nearest_step seen acc d Hf) as Hstep. cbn [fold_left].
    destruct (days_to_expiry strptime_Ymd now d) as [days |] eqn:Ed.
    + destruct Hstep as (acc1 & -> & Hf1).
      destruct (IH (seen ++ [d]) acc1 Hf1) as [Hall Hex].
      rewrite <- app_assoc in Hall. split.
      * intros HF. inversion HF; subst. apply Hall. assumption.
      * intros HE. inversion HE as [? ? Hd | ? ? Hr]; subst.
        -- congruence.
        -- apply Hex, Hr.
    + rewrite Hstep. split.
      * intros HF. inversion HF; subst. congruence.
      * intros _. apply nearest_raised.
Qed.

End ActiveContract.

(** X17.  [ESContract.get_active_contract] picks the nearest contract that
    has not expired.  When the gateway answers with contract details whose
    expiry dates all parse, the method returns the first contract of the
    list among those with the fewest whole days to expiry, counting only
    contracts with at least one whole day left; it returns [None] when no
    contract has a whole day left.  When one expiry date does not parse,
    the method returns [None], whatever the other contracts are. *)
Theorem active_contract_is_the_nearest
        (strptime_Ymd : string -> option Z) (ib : IB) (now : instant)
        (details : list ContractDetails) :
  reqContractDetails ib = Some details ->
  (Forall (fun d => days_to_expiry strptime_Ymd now d <> None) details ->
   match ESContract.get_active_contract strptime_Ymd ib now with
   | Some c =>
     exists pre d post days,
       details = pre ++ d :: post
       /\ contract d = c
       /\ days_to_expiry strptime_Ymd now d = Some days
       /\ (0 < days)%Z
       /\ (forall d' days', In d' pre ->
                            days_to_expiry strptime_Ymd now d' = Some days' ->
                            (0 < days')%Z -> (days < days')%Z)
       /\ (forall d' days', In d' post ->
                            days_to_expiry strptime_Ymd now d' = Some days' ->
                            (0 < days')%Z -> (days <= days')%Z)
   | None =>
     forall d days, In d details ->
                    days_to_expiry strptime_Ymd now d = Some days -> (days <= 0)%Z
   end)
  /\ (Exists (fun d => days_to_expiry strptime_Ymd now d = None) details ->
      ESContract.get_active_contract strptime_Ymd ib now = None).
Proof.
  intros Hreq. unfold ESContract.get_active_contract. rewrite Hreq.
  assert (H0 : forall d days, In d (@nil ContractDetails) ->
                              days_to_expiry strptime_Ymd now d = Some days ->
                              (days <= 0)%Z) by (intros d days []).
  destruct (nearest_fold strptime_Ymd now details [] (None, None) H0) as [Hall Hex].
  destruct details as [| d0 rest] eqn:Ed.
  - split; [intros _ d days [] | intros HE; inversion HE].
  - rewrite <- Ed in *. split.
    + intros HF. destruct (Hall HF) as ([active min_days] & -> & Hf).
      cbn [app] in Hf.
      destruct active as [c |]; destruct min_days as [m |]; try contradiction.
      * destruct Hf as (pre & d & post & E & Hrest). exists pre, d, post, m.
        split; [exact E | exact Hrest].
      * exact Hf.
    + intros HE. rewrite (Hex HE). reflexivity.
Qed.

Lemma active_contract_is_the_nearest_witness :
  (Forall (fun d => days_to_expiry sample_strptime sample_now d <> None)
          sample_details ->
   match ESContract.get_active_contract sample_strptime sample_ib sample_now with
   | Some c =>
     exists pre d post days,
       sample_details = pre ++ d :: post
       /\ contract d = c
       /\ days_to_expiry sample_strptime sample_now d = Some days
       /\ (0 < days)%Z
       /\ (forall d' days', In d' pre ->
                            days_to_expiry sample_strptime sample_now d' = Some days' ->
                            (0 < days')%Z -> (days < days')%Z)
       /\ (forall d' days', In d' post ->
                            days_to_expiry sample_strptime sample_now d' = Some days' ->
                            (0 < days')%Z -> (days <= days')%Z)
   | None =>
     forall d days, In d sample_details ->
                    days_to_expiry sample_strptime sample_now d = Some days ->
                    (days <= 0)%Z
   end)
  /\ (Exists (fun d => days_to_expiry sample_strptime sample_now d = None)
             sample_details ->
      ESContract.get_active_contract sample_strptime sample_ib sample_now = None).
Proof.
  apply (active_contract_is_the_nearest sample_strptime sample_ib sample_now
                                        sample_details).
  reflexivity.
Defined.

Section Sorting.
Import ESOptionsManager.

Lemma insort_In (x y : R) (l : list R) : In y (insort x l) <-> y = x \/ In y l.
Proof.
  induction l as [| z rest IH]; cbn [insort].
  - cbn. intuition.
  - destruct (Rle_dec x z); cbn [In]; [intuition | rewrite IH; intuition].
Qed.

Lemma insort_ascending (x : R) (l : list R) :
  ascending l -> ascending (insort x l).
Proof.
  induction l as [| z rest IH]; cbn [insort ascending].
  - intros _. split; [intros y [] | exact I].
  - intros [Hz Hrest]. destruct (Rle_dec x z) as [Hle | Hgt]; cbn [ascending].
    + split; [| split; assumption].
      intros y [<- | Hy]; [exact Hle |]. pose proof (Hz y Hy). lra.
    + split; [| apply IH, Hrest].
      intros y Hy. apply insort_In in Hy. destruct Hy as [-> | Hy]; [lra | apply Hz, Hy].
Qed.

Lemma insort_length (x : R) (l : list R) : length (insort x l) = S (length l).
Proof.
  induction l as [| z rest IH]; cbn [insort]; [reflexivity |].
  destruct (Rle_dec x z); cbn [length]; [reflexivity | rewrite IH; reflexivity].
Qed.

Lemma py_sorted_spec (l : list R) :
  ascending (py_sorted l)
  /\ (forall y, In y (py_sorted l) <-> In y l)
  /\ length (py_sorted l) = length l.
Proof.
  unfold py_sorted. induction l as [| x rest (Ha & Hin & Hlen)]; cbn [fold_right].
  - split; [exact I |]. split; [intros y; reflexivity | reflexivity].
  - split; [apply insort_ascending, Ha |]. split.
    + intros y. rewrite insort_In, Hin. cbn [In]. intuition.
    + rewrite insort_length, Hlen. reflexivity.
Qed.

End Sorting.

(** X18.  When [ESOptionsManager.get_available_strikes] returns a list, it
    is built from the first option chain of the requested trading class
    that the gateway lists for the active contract: the list is in
    ascending order, it holds exactly the strikes of that chain within 150
    points of the centre price (both ends included), and as many of them
    as the chain lists in that band. *)
Theorem available_strikes_are_sorted_and_near
        (strptime_Ymd : string -> option Z) (ib : IB) (now : instant)
        (trading_class : string) (center_price : R) (result : list R) :
  ESOptionsManager.get_available_strikes
    strptime_Ymd ib now trading_class center_price = Some result ->
  exists active chains before chain after,
    ESContract.get_active_contract strptime_Ymd ib now = Some active
    /\ reqSecDefOptParams ib (conId active) = Some chains
    /\ chains = before ++ chain :: after
    /\ tradingClass chain = trading_class
    /\ (forall c, In c before -> tradingClass c <> trading_class)
    /\ ascending result
    /\ (forall strike,
           In strike result
           <-> In strike (strikes chain) /\ Rabs (strike - center_price) <= 150)
    /\ length result
       = length (filter (fun s => Rleb (Rabs (s - center_price)) 150)
                        (strikes chain)).
Proof.
  unfold ESOptionsManager.get_available_strikes. intros E.
  destruct (ESContract.get_active_contract strptime_Ymd ib now) as [active |];
    [| discriminate].
  destruct (reqSecDefOptParams ib (conId active)) as [chains |] eqn:Er;
    [| discriminate].
  assert (E' : match find (fun c => (tradingClass c =? trading_class)%string) chains with
               | Some chain =>
                 Some (ESOptionsManager.py_sorted
                         (filter (fun s => Rleb (Rabs (s - center_price)) 150)
                                 (strikes chain)))
               | None => None
               end = Some result).
  { destruct chains; [discriminate | exact E]. }
  clear E.
  destruct (find _ chains) as [chain |] eqn:Ef; [| discriminate].
  injection E' as <-.
  assert (Hsplit : exists before after,
             chains = before ++ chain :: after
             /\ tradingClass chain = trading_class
             /\ forall c, In c before -> tradingClass c <> trading_class).
  { clear -Ef. induction chains as [| c rest IH]; [discriminate |].
    cbn [find] in Ef. destruct (tradingClass c =? trading_class)%string eqn:Ec.
    - injection Ef as ->. exists [], rest. split; [reflexivity |].
      split; [apply String.eqb_eq, Ec | intros c' []].
    - destruct (IH Ef) as (before & after & -> & Ht & Hb).
      exists (c :: before), after. split; [reflexivity |]. split; [exact Ht |].
      intros c' [<- | Hin]; [apply String.eqb_neq, Ec | apply Hb, Hin]. }
  destruct Hsplit as (before & after & Hc & Ht & Hb).
  destruct (py_sorted_spec
              (filter (fun s => Rleb (Rabs (s - center_price)) 150) (strikes chain)))
    as (Ha & Hin & Hlen).
  exists active, chains, before, chain, after.
  split; [reflexivity |]. split; [exact Er |]. split; [exact Hc |].
  split; [exact Ht |]. split; [exact Hb |]. split; [exact Ha |].
  split; [| exact Hlen].
  intros strike. rewrite Hin, filter_In, Rleb_true_iff. reflexivity.
Qed.

Lemma available_strikes_are_sorted_and_near_witness :
  exists active chains before chain after,
    ESContract.get_active_contract sample_strptime sample_ib sample_now = Some active
    /\ reqSecDefOptParams sample_ib (conId active) = Some chains
    /\ chains = before ++ chain :: after
    /\ tradingClass chain = "E1B"%string
    /\ (forall c, In c before -> tradingClass c <> "E1B"%string)
    /\ ascending [5000; 5100; 5150]
    /\ (forall strike,
           In strike [5000; 5100; 5150]
           <-> In strike (strikes chain) /\ Rabs (strike - 5050) <= 150)
    /\ length [5000; 5100; 5150]
       = length (filter (fun s => Rleb (Rabs (s - 5050)) 150) (strikes chain)).
Proof.
  apply (available_strikes_are_sorted_and_near
           sample_strptime sample_ib sample_now "E1B" 5050 [5000; 5100; 5150]).
  unfold ESOptionsManager.get_available_strikes.
  change (ESContract.get_active_contract sample_strptime sample_ib sample_now)
    with (Some {| conId := 1; lastTradeDateOrContractMonth := "20241220" |}).
  cbn [reqSecDefOptParams sample_ib conId find tradingClass String.eqb Ascii.eqb
       Bool.eqb strikes filter].
  repeat match goal with
         | |- context [Rleb ?a ?b] =>
           let E := fresh "E" in
           first [ assert (E : Rleb a b = true)
                     by (apply Rleb_true_iff; unfold Rabs;
                         destruct (Rcase_abs _); lra)
                 | assert (E : Rleb a b = false)
                     by (apply Rleb_false_iff; unfold Rabs;
                         destruct (Rcase_abs _); lra) ];
           rewrite E; clear E
         end.
  cbn [filter]. unfold ESOptionsManager.py_sorted.
  cbn [fold_right ESOptionsManager.insort].
  repeat match goal with
         | |- context [Rle_dec ?a ?b] =>
           destruct (Rle_dec a b); try lra; cbn [ESOptionsManager.insort]
         end.
  reflexivity.
Defined.


(** ** When a redraw returns *)

Section RedrawReturns.
Import UnifiedChart.

Lemma unified_draw_options_data_returns (s0 : t) :
  transform_defined s0 ->
  (options_data s0 = []
   \/ truthy_opt (max_exposure s0) = false
   \/ 0 < observed_max (map (row_exposures s0) (options_data s0))) ->
  triple (fun s => unified_data s = unified_data s0) _draw_options_data
         (fun _ s => unified_data s = unified_data s0).
Proof.
  intros Hd Hcase s Hs.
  destruct (unified_data_inv _ _ Hs)
    as (_ & _ & _ & Eo & Em & _ & Es & Ev & _).
  destruct (options_data s0) as [| row rest] eqn:Eo0.
  { exists tt. unfold _draw_options_data, get. rewrite bind_gets, Eo. split; [reflexivity | exact Hs]. }
  destruct (max_exposure s0) as [m |] eqn:Em0.
  2:{ exists tt. unfold _draw_options_data, get. rewrite bind_gets, Eo, Em.
      split; [reflexivity | exact Hs]. }
  destruct (truthy m) eqn:Et.
  2:{ exists tt. unfold _draw_options_data, get. rewrite bind_gets, Eo, Em, Et.
      split; [reflexivity | exact Hs]. }
  destruct Hcase as [Hc | [Hc | Hc]]; [discriminate | cbn in Hc; congruence |].
  assert (Hexp : map (row_exposures s) (options_data s)
                 = map (row_exposures s0) (row :: rest)).
  { rewrite Eo. apply map_ext. intros r. apply unified_row_exposures_data, Hs. }
  destruct (unified_draw_options_data_spec s m) as (u' & Er & Hdata & _).
  - rewrite Eo. discriminate.
  - rewrite Em. reflexivity.
  - apply truthy_true_iff, Et.
  - unfold transform_defined in *. rewrite Es, Ev. exact Hd.
  - rewrite Hexp. exact Hc.
  - exists tt. rewrite Er. split; [reflexivity |]. cbn [snd]. congruence.
Qed.

End RedrawReturns.

(** X19.  [UnifiedChart.redraw] returns, leaving every cached attribute
    as it was, on a chart that meets four conditions: the transform has a
    non-zero divisor (no scale yet, or scale bounds that differ under a
    non-zero vertical zoom); the horizontal zoom is not 0; every cached
    bar has a quote or, lacking [bid], a [close]; and the options rows are
    drawable, that is, there are none, or [max_exposure] is [None] or 0,
    or some cached exposure is positive. *)
Theorem redraw_returns (s : UnifiedChart.t) :
  transform_defined s ->
  UnifiedChart.horizontal_zoom s <> 0 ->
  Forall quote_or_trade (UnifiedChart.price_history s) ->
  (UnifiedChart.options_data s = []
   \/ truthy_opt (UnifiedChart.max_exposure s) = false
   \/ 0 < UnifiedChart.observed_max
            (map (UnifiedChart.row_exposures s) (UnifiedChart.options_data s))) ->
  fst (UnifiedChart.redraw s) = Ok tt
  /\ unified_data (snd (UnifiedChart.redraw s)) = unified_data s.
Proof.
  intros Hd Hz Hall Hopt. split; [| apply unified_frames_redraw].
  assert (T : triple (fun s1 => unified_data s1 = unified_data s) UnifiedChart.redraw
                     (fun _ s1 => unified_data s1 = unified_data s)).
  { unfold UnifiedChart.redraw.
    apply triple_seq; [apply triple_modify; intros s1 Hs; exact Hs | intros u1].
    apply triple_seq; [apply unified_draw_empty_grid_data | intros u2].
    apply triple_get_seq. intros self Hself.
    destruct (unified_data_inv _ _ Hself) as (Eh & Eb & Ea & Eo & _ & _ & Es & _).
    assert (Hrest : triple (fun s1 => unified_data s1 = unified_data s)
              (bind (when (match UnifiedChart.price_history self,
                                 UnifiedChart.price_scale self with
                           | _ :: _, Some _ => true
                           | _, _ => false
                           end) UnifiedChart._draw_price_history)
                    (fun _ =>
                       bind (when (match UnifiedChart.options_data self with
                                   | _ :: _ => true
                                   | [] => false
                                   end) UnifiedChart._draw_options_data)
                            (fun _ =>
                               when (truthy_opt (UnifiedChart.current_bid self)
                                     && truthy_opt (UnifiedChart.current_ask self))
                                    UnifiedChart._draw_current_price)))
              (fun _ s1 => unified_data s1 = unified_data s)).
    { apply triple_seq; [| intros u3].
      { apply triple_when; [intros _ | auto].
        apply unified_draw_price_history_keeps; assumption. }
      apply triple_seq; [| intros u4].
      { apply triple_when; [intros _ | auto].
        apply unified_draw_options_data_returns; assumption. }
      apply triple_when; [intros Hc | auto].
      apply andb_prop in Hc. destruct Hc as [Hc1 Hc2].
      rewrite Eb in Hc1. rewrite Ea in Hc2.
      destruct (UnifiedChart.current_bid s) as [bid |] eqn:Ebid; [| discriminate].
      destruct (UnifiedChart.current_ask s) as [ask |] eqn:Eask; [| discriminate].
      intros s4 H4.
      pose proof (unified_draw_current_price_run s4 bid ask) as Hrun.
      destruct (unified_data_inv _ _ H4) as (_ & Eb4 & Ea4 & _).
      rewrite Eb4, Ea4 in Hrun. specialize (Hrun Ebid Eask).
      rewrite (unified_price_to_y_data s4 s _ H4) in Hrun.
      destruct (unified_price_to_y_defined s ((bid + ask) / 2) Hd) as (y & Ey).
      rewrite Ey in Hrun. destruct Hrun as (s' & Erun & Hdata & _).
      exists tt. rewrite Erun. split; [reflexivity | cbn; congruence]. }
    destruct (UnifiedChart.price_history self) as [| b rest] eqn:Ehs.
    - destruct (UnifiedChart.options_data self) as [| row rows] eqn:Eos;
        [apply triple_ret; auto | exact Hrest].
    - exact Hrest. }
  destruct (T s eq_refl) as ([] & Er & _). exact Er.
Qed.

Lemma redraw_returns_witness :
  let s := UnifiedChart.set_price_history
             live_history
             (UnifiedChart.set_price_scale (Some (4990, 5010)) priced_chart) in
  fst (UnifiedChart.redraw s) = Ok tt
  /\ unified_data (snd (UnifiedChart.redraw s)) = unified_data s.
Proof.
  cbv zeta. apply redraw_returns.
  - cbn. lra.
  - cbn. lra.
  - exact live_history_quote_or_trade.
  - right. right. exact priced_chart_observed_max.
Defined.

(** ** Where the options rows and the exposure scale are drawn *)

Lemma flat_map_combine_snd {A B C : Type} (g : B -> list C)
      (indices : list A) (rows : list B) :
  length indices = length rows ->
  flat_map (fun '(_, row) => g row) (combine indices rows) = flat_map g rows.
Proof.
  revert indices. induction rows as [| row rest IH];
    intros [| i indices] Hlen; try discriminate; [reflexivity |].
  cbn [combine flat_map]. rewrite (IH indices) by (cbn in Hlen; lia). reflexivity.
Qed.

Section UnifiedRows.
Import UnifiedChart.

Lemma unified_draw_options_data_items (u : t) (m : R) :
  options_data u <> [] ->
  max_exposure u = Some m -> m <> 0 ->
  transform_defined u ->
  let exposures := map (row_exposures u) (options_data u) in
  let max_exp := observed_max exposures in
  let thickness :=
    (IZR (Canvas.height (tk u)) - margin_top - margin_bottom)
    / INR (length (options_data u) + 1) * 0.25 in
  0 < max_exp ->
  triple (fun s => unified_data s = unified_data u /\ created s = created u)
         _draw_options_data
         (fun _ s =>
            unified_data s = unified_data u
            /\ created s
               = created u
                 ++ flat_map (unified_row_items u thickness max_exp) exposures).
Proof.
  intros Hne Hm Hmz Hd exposures max_exp thickness Hpos.
  unfold _draw_options_data.
  apply triple_get_seq. intros self [Hself _].
  destruct (unified_data_inv _ _ Hself) as (_ & _ & _ & Eo & Em & _).
  assert (Hexp : map (row_exposures self) (options_data self) = exposures).
  { rewrite Eo. apply map_ext. intros row.
    apply unified_row_exposures_data, Hself. }
  rewrite Em, Hm. rewrite Eo in *.
  unfold thickness. clear thickness.
  destruct (options_data u) as [| row rest] eqn:Eou; [congruence |].
  rewrite (truthy_nonzero m Hmz). cbn [negb].
  apply (triple_gets_bind _ _ (IZR (Canvas.width (tk u)))).
  { intros s [Hs _]. apply (unified_data_size _ _ Hs). }
  apply (triple_gets_bind _ _ (IZR (Canvas.height (tk u)))).
  { intros s [Hs _]. apply (unified_data_size _ _ Hs). }
  cbv zeta.
  eapply triple_lift_bind.
  { apply py_div_ok, not_0_INR. rewrite Nat.add_1_r. discriminate. }
  rewrite Hexp. fold max_exp.
  set (thickness := (IZR (Canvas.height (tk u)) - margin_top - margin_bottom)
                    / INR (length (row :: rest) + 1) * 0.25).
  eapply triple_weaken.
  - apply (triple_for_each
             (fun s => unified_data s = unified_data u) created
             (fun '(_, row) => unified_row_items u thickness max_exp row)).
    intros [i [[strike call_exp] put_exp]] c _.
    destruct (unified_price_to_y_defined u strike Hd) as (y & Ey).
    assert (Eyu : unified_y u strike = y) by (unfold unified_y; rewrite Ey; reflexivity).
    apply (triple_read_bind _ _ y).
    { intros s [Hs _]. rewrite (unified_price_to_y_data s u strike Hs). exact Ey. }
    eapply triple_lift_bind; [apply py_div_ok; lra |].
    eapply triple_lift_bind; [apply py_div_ok; lra |].
    unfold unified_row_items. rewrite Eyu. cbv zeta.
    apply (triple_bind _ _ (fun _ s =>
             unified_data s = unified_data u
             /\ created s
                = c ++ (if Rltb 0 call_exp
                        then [rectangle
                                (IZR (Canvas.width (tk u)) - margin_right - strike_margin)
                                (y - thickness)
                                (IZR (Canvas.width (tk u)) - margin_right - strike_margin
                                 - call_exp / max_exp
                                   * (IZR (Canvas.width (tk u)) - margin_left
                                      - margin_right - strike_margin))
                                y "#90EE90"]
                        else []))).
    { destruct (Rltb 0 call_exp); cbn [when].
      - eapply triple_bind; [apply unified_triple_create | intros bar].
        apply triple_ret. intros s Hs. exact Hs.
      - apply triple_ret. intros s [Hs Hc]. rewrite app_nil_r. auto. }
    intros u5.
    apply (triple_bind _ _ (fun _ s =>
             unified_data s = unified_data u
             /\ created s
                = (c ++ (if Rltb 0 call_exp
                         then [rectangle
                                 (IZR (Canvas.width (tk u)) - margin_right - strike_margin)
                                 (y - thickness)
                                 (IZR (Canvas.width (tk u)) - margin_right - strike_margin
                                  - call_exp / max_exp
                                    * (IZR (Canvas.width (tk u)) - margin_left
                                       - margin_right - strike_margin))
                                 y "#90EE90"]
                         else []))
                  ++ (if Rltb 0 put_exp
                      then [rectangle
                              (IZR (Canvas.width (tk u)) - margin_right - strike_margin)
                              y
                              (IZR (Canvas.width (tk u)) - margin_right - strike_margin
                               - put_exp / max_exp
                                 * (IZR (Canvas.width (tk u)) - margin_left
                                    - margin_right - strike_margin))
                              (y + thickness) "#FFB6C6"]
                      else []))).
    { destruct (Rltb 0 put_exp); cbn [when].
      - eapply triple_bind; [apply unified_triple_create | intros bar].
        apply triple_ret. intros s Hs. exact Hs.
      - apply triple_ret. intros s [Hs Hc]. rewrite app_nil_r. auto. }
    intros u6.
    eapply triple_bind; [apply unified_triple_create | intros l].
    apply triple_ret. intros s [Hs Hc]. split; [exact Hs |].
    rewrite Hc, <- !app_assoc. reflexivity.
  - intros s Hs. exact Hs.
  - cbv beta. intros u5 s [Hs Hc]. split; [exact Hs |]. rewrite Hc. f_equal.
    unfold enumerate. apply flat_map_combine_snd. rewrite length_seq. reflexivity.
Qed.

End UnifiedRows.

(** X20.  The options rows of a [UnifiedChart] follow the price axis.
    With rows cached, a non-zero [max_exposure], a transform with a
    non-zero divisor and some positive exposure m, [_draw_options_data]
    returns and draws the rows in order: for every row the strike label
    at the y of the strike price, the call bar (when the call exposure is
    positive) from that y up by a quarter of row height, the put bar
    (when positive) from that y down by as much, each bar running left
    from the strike axis for exposure / m of the span; the row height is
    the plot height over the number of rows plus one.  On a chart that has
    no price scale yet, the y of every strike is 0: all rows are drawn on
    top of each other at the top of the canvas. *)
Theorem options_rows_follow_the_price_axis (u : UnifiedChart.t) (m : R) :
  UnifiedChart.options_data u <> [] ->
  UnifiedChart.max_exposure u = Some m -> m <> 0 ->
  transform_defined u ->
  let exposures := map (UnifiedChart.row_exposures u) (UnifiedChart.options_data u) in
  let max_exp := UnifiedChart.observed_max exposures in
  let thickness :=
    (IZR (Canvas.height (UnifiedChart.tk u)) - 20 - 40)
    / (INR (length (UnifiedChart.options_data u)) + 1) / 4 in
  0 < max_exp ->
  fst (UnifiedChart._draw_options_data u) = Ok tt
  /\ created (snd (UnifiedChart._draw_options_data u))
     = created u ++ flat_map (unified_row_items u thickness max_exp) exposures
  /\ (forall strike, UnifiedChart._price_to_y u strike = Ok (unified_y u strike))
  /\ (UnifiedChart.price_scale u = None -> forall strike, unified_y u strike = 0).
Proof.
  intros Hne Hm Hmz Hd exposures max_exp thickness Hpos.
  destruct (unified_draw_options_data_items u m Hne Hm Hmz Hd Hpos u
              (conj eq_refl eq_refl)) as ([] & Er & _ & Ec).
  split; [exact Er |]. split.
  - rewrite Ec. f_equal. f_equal. f_equal.
    unfold thickness, UnifiedChart.margin_top, UnifiedChart.margin_bottom.
    rewrite plus_INR. change (INR 1) with 1.
    generalize ((IZR (Canvas.height (UnifiedChart.tk u)) - 20 - 40)
                / (INR (length (UnifiedChart.options_data u)) + 1)).
    intros q. lra.
  - split.
    + intros strike. unfold unified_y.
      destruct (unified_price_to_y_defined u strike Hd) as (y & ->). reflexivity.
    + intros Hs strike. unfold unified_y, UnifiedChart._price_to_y. rewrite Hs.
      reflexivity.
Qed.

Lemma options_rows_follow_the_price_axis_witness :
  let u := priced_chart in
  let exposures := map (UnifiedChart.row_exposures u) (UnifiedChart.options_data u) in
  let max_exp := UnifiedChart.observed_max exposures in
  let thickness :=
    (IZR (Canvas.height (UnifiedChart.tk u)) - 20 - 40)
    / (INR (length (UnifiedChart.options_data u)) + 1) / 4 in
  fst (UnifiedChart._draw_options_data u) = Ok tt
  /\ created (snd (UnifiedChart._draw_options_data u))
     = created u ++ flat_map (unified_row_items u thickness max_exp) exposures
  /\ (forall strike, UnifiedChart._price_to_y u strike = Ok (unified_y u strike))
  /\ (UnifiedChart.price_scale u = None -> forall strike, unified_y u strike = 0).
Proof.
  cbv zeta. apply (options_rows_follow_the_price_axis priced_chart 1000).
  - discriminate.
  - reflexivity.
  - lra.
  - exact I.
  - exact priced_chart_observed_max.
Defined.

Section ExposureScale.
Import OptionsChart.

Lemma options_draw_exposure_scale_spec (o : t) (max_exp : R) (c : list item) :
  max_exp <> 0 ->
  triple (fun s => options_view s = options_view o /\ created s = c)
         (_draw_exposure_scale max_exp)
         (fun _ s => options_view s = options_view o
                     /\ created s = c ++ options_exposure_marks o max_exp).
Proof.
  intros Hm. unfold _draw_exposure_scale.
  apply (triple_gets_bind _ _ (IZR (Canvas.width (tk o)))).
  { intros s [Hs _]. apply (options_view_size _ _ Hs). }
  apply (triple_gets_bind _ _ (IZR (Canvas.height (tk o)))).
  { intros s [Hs _]. apply (options_view_size _ _ Hs). }
  cbv zeta. eapply triple_weaken.
  - apply (triple_for_each
             (fun s => options_view s = options_view o) created
             (fun '(i, exposure) =>
                [text (IZR (Canvas.width (tk o)) - margin_right
                       - INR i * (IZR (Canvas.width (tk o)) - margin_right - 50) / 4)
                      (IZR (Canvas.height (tk o)) - margin_bottom + 10)
                      (Fixed EmptyString exposure 0 true) "n" "black"])).
    intros [i exposure] c' _.
    eapply triple_bind; [apply options_triple_create | intros l].
    apply triple_modify. intros s Hs. exact Hs.
  - intros s Hs. exact Hs.
  - cbv beta. intros u s [Hs Hc]. split; [exact Hs |]. rewrite Hc. f_equal.
    unfold options_exposure_marks, enumerate.
    cbn [length seq combine flat_map map app INR].
    repeat match goal with
           | |- _ :: _ = _ :: _ => f_equal
           | |- text _ _ _ _ _ = text _ _ _ _ _ => f_equal
           end; field; exact Hm.
Qed.

End ExposureScale.

(** X21.  The exposure scale of an [OptionsChart] is true to its bars.
    For a non-zero maximum m (the chart passes max(observed, 1.0)),
    [_draw_exposure_scale] returns and draws the five labels 0, m/4, m/2,
    3m/4 and m below the time axis, and the label that reads v is drawn
    v / m of the span (width - 150) left of the strike axis, the fraction
    of the span that [draw_delta_chart] gives a bar of exposure v. *)
Theorem exposure_scale_matches_the_bars (o : OptionsChart.t) (max_exp : R) :
  max_exp <> 0 ->
  fst (OptionsChart._draw_exposure_scale max_exp o) = Ok tt
  /\ created (snd (OptionsChart._draw_exposure_scale max_exp o))
     = created o ++ options_exposure_marks o max_exp.
Proof.
  intros Hm.
  destruct (options_draw_exposure_scale_spec o max_exp (created o) Hm o
              (conj eq_refl eq_refl)) as ([] & Er & _ & Ec).
  split; assumption.
Qed.

Lemma exposure_scale_matches_the_bars_witness :
  fst (OptionsChart._draw_exposure_scale 1000 (OptionsChart.__init__ 1400 750)) = Ok tt
  /\ created (snd (OptionsChart._draw_exposure_scale
                     1000 (OptionsChart.__init__ 1400 750)))
     = created (OptionsChart.__init__ 1400 750)
       ++ options_exposure_marks (OptionsChart.__init__ 1400 750) 1000.
Proof.
  apply exposure_scale_matches_the_bars. lra.
Defined.

(** ** What [_draw_price_history] draws *)

Lemma triple_for_fold_fun {Self A B : Type} (I : Self -> Prop) (f : B -> A -> B)
      (l : list A) (body : B -> A -> M Self B) :
  (forall acc x, In x l ->
                 triple I (body acc x) (fun acc' s => acc' = f acc x /\ I s)) ->
  forall acc,
    triple I (for_fold l acc body) (fun acc' s => acc' = fold_left f l acc /\ I s).
Proof.
  induction l as [| x xs IH]; intros Hb acc; cbn [for_fold fold_left].
  - apply triple_ret. auto.
  - eapply triple_bind.
    + apply Hb. left. reflexivity.
    + intros acc' s [-> Hi].
      exact (IH (fun a y Hy => Hb a y (or_intror Hy)) (f acc x) s Hi).
Qed.

Lemma fold_left_two_lists {A C : Type} (g h : A -> list C) (l : list A)
      (a b : list C) :
  fold_left (fun acc x => (fst acc ++ g x, snd acc ++ h x)) l (a, b)
  = (a ++ flat_map g l, b ++ flat_map h l).
Proof.
  revert a b. induction l as [| x xs IH]; intros a b; cbn [fold_left flat_map].
  - rewrite !app_nil_r. reflexivity.
  - rewrite IH. cbn [fst snd]. rewrite <- !app_assoc. reflexivity.
Qed.

Lemma length_flat_map_pairs {A C : Type} (g : A -> list C) (l : list A) :
  (forall x, length (g x) = 2%nat) ->
  length (flat_map g l) = (2 * length l)%nat.
Proof.
  intros Hg. induction l as [| x xs IH]; [reflexivity |].
  cbn [flat_map]. rewrite length_app, Hg, IH. cbn [length]. lia.
Qed.

Lemma In_enumerate {A : Type} (l : list A) (i : nat) (x : A) :
  In (i, x) (enumerate l) -> In x l.
Proof. unfold enumerate. intros H. apply (in_combine_r _ _ _ _ H). Qed.

Section UnifiedHistory.
Import UnifiedChart.

Variables (s0 : t) (lo hi : R).
Hypothesis scale : price_scale s0 = Some (lo, hi).
Hypothesis defined : (hi - lo) * vertical_zoom s0 <> 0.
Hypothesis priced : Forall quote_or_trade (price_history s0).

Let defined' : transform_defined s0.
Proof. unfold transform_defined. rewrite scale. exact defined. Qed.

Lemma unified_y_ok (price : R) : _price_to_y s0 price = Ok (unified_y s0 price).
Proof.
  unfold unified_y.
  destruct (unified_price_to_y_defined s0 price defined') as (y & ->). reflexivity.
Qed.

Lemma unified_read_y {B : Type} (P : t -> Prop) (price : R) (k : R -> M t B)
      (Q : B -> t -> Prop) :
  (forall s, P s -> unified_data s = unified_data s0) ->
  triple P (k (unified_y s0 price)) Q ->
  triple P (bind (read (fun self => _price_to_y self price)) k) Q.
Proof.
  intros HP Hk. apply (triple_read_bind _ _ (unified_y s0 price)); [| exact Hk].
  intros s Hs. rewrite (unified_price_to_y_data s s0 price (HP s Hs)).
  apply unified_y_ok.
Qed.

Lemma unified_draw_price_history_items (visible : list Bar) :
  _get_visible_bars s0 = Ok visible ->
  (forall bar, In bar visible -> In bar (price_history s0)) ->
  triple (fun s => unified_data s = unified_data s0 /\ created s = created s0)
         _draw_price_history
         (fun _ s =>
            unified_data s = unified_data s0
            /\ created s
               = created s0
                 ++ unified_scale_items s0 (unified_axis_bounds s0 lo hi)
                 ++ unified_history_lines s0 visible
                 ++ unified_quote_labels s0
                 ++ unified_time_labels s0 visible).
Proof.
  intros Ev Hin. unfold _draw_price_history.
  apply (triple_gets_bind _ _ (IZR (Canvas.width (tk s0)))).
  { intros s [Hs _]. apply (unified_data_size _ _ Hs). }
  unfold winfo_height at 1. apply triple_gets_seq. intros h. cbv zeta.
  eapply triple_bind;
    [apply (unified_draw_price_scale_spec s0 lo hi scale defined) | intros u1].
  set (c1 := created s0 ++ unified_scale_items s0 (unified_axis_bounds s0 lo hi)).
  apply (triple_read_bind _ _ visible).
  { intros s [Hs _]. rewrite (unified_get_visible_bars_data s0 s Hs). exact Ev. }
  set (point := fun (side : Bar -> R) (p : nat * Bar) =>
                  [unified_bar_x s0 (length visible) (fst p);
                   unified_y s0 (side (snd p))]).
  eapply triple_bind.
  { apply (triple_for_fold_fun
             (fun s => unified_data s = unified_data s0 /\ created s = c1)
             (fun acc p => (fst acc ++ point bid_side p, snd acc ++ point ask_side p))).
    intros [bid_points ask_points] [i bar] Hi.
    assert (Hbar : quote_or_trade bar).
    { apply (proj1 (Forall_forall _ _) priced), Hin.
      exact (In_enumerate _ _ _ Hi). }
    assert (Hn : INR (length visible) <> 0).
    { apply INR_length_nonzero. intros E. rewrite E in Hi. exact Hi. }
    eapply triple_lift_bind; [apply py_div_ok, Hn |].
    unfold point, unified_bar_x, bid_side, ask_side. cbn [fst snd].
    destruct Hbar as [(b & a & Eb & Ea) | (Eb & c & Ec)].
    - rewrite Eb, Ea.
      apply unified_read_y; [intros s Hs; apply Hs |].
      apply unified_read_y; [intros s Hs; apply Hs |].
      apply triple_ret. intros s Hs. split; [reflexivity | exact Hs].
    - rewrite Eb. unfold getattr_close. rewrite Ec.
      eapply triple_lift_bind; [reflexivity |].
      apply unified_read_y; [intros s Hs; apply Hs |].
      apply triple_ret. intros s Hs. split; [reflexivity | exact Hs]. }
  intros points. cbv beta.
  apply triple_pure. intros ->.
  rewrite fold_left_two_lists. cbn [app].
  assert (Elen : forall side,
             (4 <=? length (flat_map (point side) (enumerate visible)))%nat
             = (2 <=? length visible)%nat).
  { intros side. rewrite length_flat_map_pairs by reflexivity.
    unfold enumerate. rewrite length_combine, length_seq, Nat.min_id.
    destruct (Nat.leb_spec 2 (length visible)) as [H | H].
    - apply Nat.leb_le. lia.
    - apply Nat.leb_gt. lia. }
  rewrite !Elen.
  assert (Epts : forall side,
             flat_map (point side) (enumerate visible)
             = unified_history_points s0 side visible).
  { intros side. unfold unified_history_points, point. apply flat_map_ext.
    intros [i bar]. reflexivity. }
  rewrite !Epts.
  set (bid_line := if (2 <=? length visible)%nat
                  then [line (unified_history_points s0 bid_side visible)
                             "red" None true]
                  else []).
  set (ask_line := if (2 <=? length visible)%nat
                  then [line (unified_history_points s0 ask_side visible)
                             "green" None true]
                  else []).
  assert (Elines : unified_history_lines s0 visible = bid_line ++ ask_line).
  { unfold unified_history_lines, bid_line, ask_line.
    destruct (2 <=? length visible)%nat; reflexivity. }
  apply (triple_bind _ _ (fun _ s =>
           unified_data s = unified_data s0 /\ created s = c1 ++ bid_line)).
  { unfold bid_line. destruct (2 <=? length visible)%nat; cbn [when].
    - eapply triple_bind; [apply unified_triple_create | intros l].
      apply triple_ret. intros s Hs. exact Hs.
    - apply triple_ret. intros s [Hs Hc]. split;
        [exact Hs | rewrite app_nil_r; exact Hc]. }
  intros u2.
  apply (triple_bind _ _ (fun _ s =>
           unified_data s = unified_data s0
           /\ created s = c1 ++ unified_history_lines s0 visible)).
  { rewrite Elines, app_assoc.
    unfold ask_line. destruct (2 <=? length visible)%nat; cbn [when].
    - eapply triple_bind; [apply unified_triple_create | intros l].
      apply triple_ret. intros s Hs. exact Hs.
    - apply triple_ret. intros s [Hs Hc]. split;
        [exact Hs | rewrite app_nil_r; exact Hc]. }
  intros u3.
  set (c2 := c1 ++ unified_history_lines s0 visible).
  apply (triple_gets_bind _ _ (current_bid s0)).
  { intros s [Hs _]. apply (unified_data_inv _ _ Hs). }
  apply (triple_gets_bind _ _ (current_ask s0)).
  { intros s [Hs _]. apply (unified_data_inv _ _ Hs). }
  apply (triple_bind _ _ (fun _ s =>
           unified_data s = unified_data s0
           /\ created s = c2 ++ unified_quote_labels s0)).
  { unfold unified_quote_labels.
    destruct (current_bid s0) as [b |], (current_ask s0) as [a |];
      try (apply triple_ret; intros s [Hs Hc]; split;
           [exact Hs | rewrite app_nil_r; exact Hc]).
    destruct (truthy b && truthy a); cbn [when].
    - apply unified_read_y; [intros s Hs; apply Hs |].
      eapply triple_bind; [apply unified_triple_create | intros l1].
      apply unified_read_y; [intros s Hs; apply Hs |].
      eapply triple_bind; [apply unified_triple_create | intros l2].
      apply triple_ret. intros s [Hs Hc]. split; [exact Hs |].
      rewrite Hc, <- app_assoc. reflexivity.
    - apply triple_ret. intros s [Hs Hc]. split;
        [exact Hs | rewrite app_nil_r; exact Hc]. }
  intros u4.
  set (c3 := c2 ++ unified_quote_labels s0).
  eapply triple_weaken with
    (P' := fun s => unified_data s = unified_data s0 /\ created s = c3)
    (Q' := fun _ s => unified_data s = unified_data s0
                      /\ created s = c3 ++ unified_time_labels s0 visible).
  - destruct visible as [| b rest] eqn:Evis.
    + cbn [_draw_time_axis]. apply triple_ret. intros s [Hs Hc].
      split; [exact Hs |]. rewrite Hc. unfold unified_time_labels.
      cbn. rewrite app_nil_r. reflexivity.
    + apply unified_draw_time_axis_spec. discriminate.
  - intros s Hs. exact Hs.
  - intros u5 s [Hs Hc]. split; [exact Hs |].
    rewrite Hc. unfold c3, c2, c1. rewrite <- !app_assoc. reflexivity.
Qed.

End UnifiedHistory.

(** X22.  The history lines of a [UnifiedChart] and its time labels line
    up.  On a chart with a price scale whose transform has a non-zero
    divisor, a non-zero horizontal zoom and bars that each have a quote
    or, lacking [bid], a close, [_draw_price_history] returns and draws,
    after what was drawn before and in this order: the price levels; the
    bid line and the ask line, only when two bars or more are visible,
    with one point per visible bar, oldest first, at the y of its bid
    (ask), or of its close on both lines when it has no quote; the Bid
    and Ask labels when both cached quotes are non-zero; the time labels.
    The point of visible bar i and the time label of bar i have the same
    x, 50 + (width - 210) * i / n for n visible bars, which on a canvas
    wider than 210 lies from the left margin up to, but not on, the
    strike axis at width - 160: the newest bar is drawn one slot short
    of it. *)
Theorem history_lines_and_time_labels_line_up (u : UnifiedChart.t) (lo hi : R) :
  UnifiedChart.price_scale u = Some (lo, hi) ->
  (hi - lo) * UnifiedChart.vertical_zoom u <> 0 ->
  UnifiedChart.horizontal_zoom u <> 0 ->
  Forall quote_or_trade (UnifiedChart.price_history u) ->
  exists visible,
    UnifiedChart._get_visible_bars u = Ok visible
    /\ fst (UnifiedChart._draw_price_history u) = Ok tt
    /\ created (snd (UnifiedChart._draw_price_history u))
       = created u
         ++ unified_scale_items u (unified_axis_bounds u lo hi)
         ++ unified_history_lines u visible
         ++ unified_quote_labels u
         ++ unified_time_labels u visible
    /\ (forall i bar,
          unified_time_label u (length visible) i bar
          = text (unified_bar_x u (length visible) i)
                 (IZR (Canvas.height (UnifiedChart.tk u)) - 40 + 20)
                 (Literal (strftime_HMS (date bar))) "n" "black")
    /\ (forall i,
          (i < length visible)%nat ->
          210 < IZR (Canvas.width (UnifiedChart.tk u)) ->
          50 <= unified_bar_x u (length visible) i
          < IZR (Canvas.width (UnifiedChart.tk u)) - 160).
Proof.
  intros Hs Hd Hz Hall.
  destruct (unified_get_visible_bars_ok u Hz) as (visible & Ev & Hin).
  exists visible. split; [exact Ev |].
  destruct (unified_draw_price_history_items u lo hi Hs Hd Hall visible Ev Hin
              u (conj eq_refl eq_refl)) as ([] & Er & _ & Ec).
  split; [exact Er |]. split; [exact Ec |]. split.
  - intros i bar. reflexivity.
  - intros i Hi Hw. unfold unified_bar_x, UnifiedChart.margin_left,
      UnifiedChart.margin_right, UnifiedChart.strike_margin.
    assert (Hn : 0 < INR (length visible)) by (apply lt_0_INR; lia).
    assert (Hi' : INR i < INR (length visible)) by (apply lt_INR; exact Hi).
    pose proof (pos_INR i) as Hi0.
    remember (IZR (Canvas.width (UnifiedChart.tk u)) - 50 - 100 - 60) as w eqn:Ew.
    assert (Hw' : 0 < w) by lra.
    assert (H0 : 0 <= w * INR i / INR (length visible)).
    { apply Rmult_le_pos.
      - apply Rmult_le_pos; lra.
      - left. apply Rinv_0_lt_compat, Hn. }
    assert (H1 : w * INR i / INR (length visible) < w).
    { apply (Rmult_lt_reg_r (INR (length visible))); [exact Hn |].
      unfold Rdiv. rewrite Rmult_assoc, Rinv_l by lra.
      rewrite Rmult_1_r. apply Rmult_lt_compat_l; assumption. }
    lra.
Qed.

Lemma history_lines_and_time_labels_line_up_witness :
  exists visible,
    UnifiedChart._get_visible_bars live_chart = Ok visible
    /\ fst (UnifiedChart._draw_price_history live_chart) = Ok tt
    /\ created (snd (UnifiedChart._draw_price_history live_chart))
       = created live_chart
         ++ unified_scale_items live_chart (unified_axis_bounds live_chart 4990 5010)
         ++ unified_history_lines live_chart visible
         ++ unified_quote_labels live_chart
         ++ unified_time_labels live_chart visible
    /\ (forall i bar,
          unified_time_label live_chart (length visible) i bar
          = text (unified_bar_x live_chart (length visible) i)
                 (IZR (Canvas.height (UnifiedChart.tk live_chart)) - 40 + 20)
                 (Literal (strftime_HMS (date bar))) "n" "black")
    /\ (forall i,
          (i < length visible)%nat ->
          210 < IZR (Canvas.width (UnifiedChart.tk live_chart)) ->
          50 <= unified_bar_x live_chart (length visible) i
          < IZR (Canvas.width (UnifiedChart.tk live_chart)) - 160).
Proof.
  apply (history_lines_and_time_labels_line_up live_chart 4990 5010).
  - reflexivity.
  - cbn. lra.
  - cbn. lra.
  - exact live_history_quote_or_trade.
Defined.

(** ** The control panel of the window *)

Section WindowControls.
Import ESOptionsWindow.

Lemma controls_on_chart {A : Type} (m : M UnifiedChart.t A) (w : t) :
  controls (snd (on_chart m w)) = controls w.
Proof. unfold on_chart. destruct (m (chart w)) as [r c]. reflexivity. Qed.

Lemma controls_chart_call (c : window_call) (w : t) :
  chart_call c = true -> controls (snd (window_method c w)) = controls w.
Proof.
  destruct c; try discriminate; intros _; cbn [window_method];
    unfold _on_exposure_changed, update_chart, update_prices, update_history,
      bind, get; cbn [fst snd]; apply controls_on_chart.
Qed.

Lemma controls_consistent_controls (w w' : t) :
  controls w' = controls w -> controls_consistent w -> controls_consistent w'.
Proof.
  unfold controls, controls_consistent. intros E. injection E as _ -> -> -> ->.
  exact (fun H => H).
Qed.

Lemma controls_consistent_call (c : window_call) (w : t) :
  controls_consistent w -> controls_consistent (snd (window_method c w)).
Proof.
  intros Hw. destruct (chart_call c) eqn:Ec.
  - exact (controls_consistent_controls _ _ (controls_chart_call c w Ec) Hw).
  - destruct Hw as [Hr Hc]. destruct c; try discriminate; cbn [window_method].
    + unfold update_connection_status. destruct connected.
      * split; [exact Hr |]. left. split; reflexivity.
      * destruct error_msg as [msg |];
          [destruct (msg =? EmptyString)%string |];
          (split; [exact Hr |]); right; cbn;
          (split; [reflexivity |]); (split; [discriminate | reflexivity]).
    + unfold set_refresh_state.
      destruct is_refreshing; (split; [| exact Hc]); [right | left];
        split; reflexivity.
Qed.

End WindowControls.

(** X23.  The control panel of the window stays consistent.  After
    [__init__] and after any run of calls of the window's methods
    ([_on_exposure_changed], [update_connection_status],
    [set_refresh_state], [update_chart], [update_prices],
    [update_history]), each of which may return or raise: exactly one of
    the Refresh and Cancel buttons is enabled, and the connect button reads
    Disconnect exactly when the status label reads Connected in green,
    every other status being red.  The calls that go to the chart change
    no widget of the panel, even when the chart raises. *)
Theorem window_controls_stay_consistent (calls : list window_call)
        (width height : Z) :
  controls_consistent (window_after calls (ESOptionsWindow.__init__ width height))
  /\ (forall w,
        forallb chart_call calls = true ->
        controls (window_after calls w) = controls w).
Proof.
  split.
  - assert (H0 : controls_consistent (ESOptionsWindow.__init__ width height)).
    { split; [left; split; reflexivity |]. right. cbn.
      split; [reflexivity |]. split; [discriminate | reflexivity]. }
    revert H0. generalize (ESOptionsWindow.__init__ width height).
    unfold window_after. induction calls as [| c rest IH]; intros w Hw; [exact Hw |].
    cbn [fold_left]. apply IH, controls_consistent_call, Hw.
  - unfold window_after. induction calls as [| c rest IH]; intros w Hc; [reflexivity |].
    cbn [forallb] in Hc. apply andb_prop in Hc. destruct Hc as [Hc Hrest].
    cbn [fold_left]. rewrite (IH _ Hrest). apply controls_chart_call, Hc.
Qed.

(** ** From the option chain to the rows of the chart *)

Section Pipeline.

Context {Contract : Type}.
Variable qualifyContracts : ESOptionsManager.FuturesOption.t -> option (list Contract).
Variable reqMktData : Contract -> string -> option Ticker.

Lemma create_option_contracts_strikes (strikes : list R)
      (expiry trading_class : string) :
  map row_strike
      (ESOptionsManager.create_option_contracts
         qualifyContracts strikes expiry trading_class)
  = filter (qualifies qualifyContracts expiry trading_class) strikes.
Proof.
  unfold ESOptionsManager.create_option_contracts.
  match goal with
  | |- map row_strike (fold_left ?F _ _) = _ => set (step := F)
  end.
  assert (G : forall acc,
             map row_strike (fold_left step strikes acc)
             = map row_strike acc
               ++ filter (qualifies qualifyContracts expiry trading_class) strikes).
  { induction strikes as [| strike rest IH]; intros acc; cbn [fold_left filter].
    - rewrite app_nil_r. reflexivity.
    - rewrite IH. unfold step at 1, qualifies at 2. cbv beta.
      destruct (qualifyContracts
                  (ESOptionsManager.FuturesOption.mk
                     "ES" expiry strike "C" "CME" "USD" "50" trading_class))
        as [[| call0 calls] |];
        destruct (qualifyContracts
                    (ESOptionsManager.FuturesOption.mk
                       "ES" expiry strike "P" "CME" "USD" "50" trading_class))
        as [[| put0 puts] |]; try reflexivity.
      rewrite map_app, <- app_assoc. reflexivity. }
  exact (G []).
Qed.

Lemma request_market_data_loop (contracts : list (R * Contract * Contract))
      (acc : list OptionRow) (p : OptionsDataProcessor.t) :
  let ticks := "100,101,104,106,236,258"%string in
  let body := fun (tickers : list OptionRow) '(strike, call, put) =>
                modify (fun s => OptionsDataProcessor.set_market_data_subscriptions
                                   (OptionsDataProcessor.market_data_subscriptions s
                                    ++ [reqMktData call ticks; reqMktData put ticks])
                                   s) ;;
                ret (tickers ++ [(strike, reqMktData call ticks,
                                  reqMktData put ticks)]) in
  let rows := map (fun '(strike, call, put) =>
                     (strike, reqMktData call ticks, reqMktData put ticks))
                  contracts in
  fst (for_fold contracts acc body p) = Ok (acc ++ rows)
  /\ OptionsDataProcessor.market_data_subscriptions
       (snd (for_fold contracts acc body p))
     = OptionsDataProcessor.market_data_subscriptions p ++ flat_map row_tickers rows
  /\ OptionsDataProcessor.spot_price (snd (for_fold contracts acc body p))
     = OptionsDataProcessor.spot_price p.
Proof.
  intros ticks body. cbv zeta. revert acc p.
  induction contracts as [| [[strike call] put] rest IH]; intros acc p;
    cbn [map flat_map].
  - cbn [for_fold]. rewrite !app_nil_r. split; [reflexivity |]. split; reflexivity.
  - change (for_fold ((strike, call, put) :: rest) acc body p)
      with (for_fold rest
              (acc ++ [(strike, reqMktData call ticks, reqMktData put ticks)])
              body
              (OptionsDataProcessor.set_market_data_subscriptions
                 (OptionsDataProcessor.market_data_subscriptions p
                  ++ [reqMktData call ticks; reqMktData put ticks]) p)).
    destruct (IH (acc ++ [(strike, reqMktData call ticks, reqMktData put ticks)])
                 (OptionsDataProcessor.set_market_data_subscriptions
                    (OptionsDataProcessor.market_data_subscriptions p
                     ++ [reqMktData call ticks; reqMktData put ticks]) p))
      as (Er & Es & Ep).
    split; [| split].
    + rewrite Er, <- app_assoc. reflexivity.
    + rewrite Es. cbn [OptionsDataProcessor.set_market_data_subscriptions
                         OptionsDataProcessor.market_data_subscriptions
                         row_tickers fst snd].
      rewrite <- app_assoc. reflexivity.
    + rewrite Ep. reflexivity.
Qed.

End Pipeline.

Lemma ascending_filter (keep : R -> bool) (l : list R) :
  ascending l -> ascending (filter keep l).
Proof.
  induction l as [| x rest IH]; [intros H; exact H |].
  cbn [ascending filter]. intros [Hx Hrest]. destruct (keep x).
  - cbn [ascending]. split; [| apply IH, Hrest].
    intros y Hy. apply Hx. apply filter_In in Hy. apply Hy.
  - apply IH, Hrest.
Qed.

Lemma get_available_strikes_chain (strptime_Ymd : string -> option Z) (ib : IB)
      (now : instant) (trading_class : string) (center_price : R)
      (result : list R) :
  ESOptionsManager.get_available_strikes
    strptime_Ymd ib now trading_class center_price = Some result ->
  exists listed,
    result = ESOptionsManager.py_sorted
               (filter (fun s => Rleb (Rabs (s - center_price)) 150) listed).
Proof.
  unfold ESOptionsManager.get_available_strikes. intros E.
  destruct (ESContract.get_active_contract strptime_Ymd ib now) as [active |];
    [| discriminate].
  destruct (reqSecDefOptParams ib (conId active)) as [[| c0 chains] |];
    try discriminate.
  destruct (find _ (c0 :: chains)) as [chain |]; [| discriminate].
  injection E as <-. exists (strikes chain). reflexivity.
Qed.

Lemma sample_available_strikes :
  ESOptionsManager.get_available_strikes sample_strptime sample_ib sample_now
                                         "E1B" 5050
  = Some [5000; 5100; 5150].
Proof.
  unfold ESOptionsManager.get_available_strikes.
  change (ESContract.get_active_contract sample_strptime sample_ib sample_now)
    with (Some {| conId := 1; lastTradeDateOrContractMonth := "20241220" |}).
  cbn [reqSecDefOptParams sample_ib conId find tradingClass String.eqb Ascii.eqb
       Bool.eqb strikes filter].
  repeat match goal with
         | |- context [Rleb ?a ?b] =>
           let E := fresh "E" in
           first [ assert (E : Rleb a b = true)
                     by (apply Rleb_true_iff; unfold Rabs;
                         destruct (Rcase_abs _); lra)
                 | assert (E : Rleb a b = false)
                     by (apply Rleb_false_iff; unfold Rabs;
                         destruct (Rcase_abs _); lra) ];
           rewrite E; clear E
         end.
  cbn [filter]. unfold ESOptionsManager.py_sorted.
  cbn [fold_right ESOptionsManager.insort].
  repeat match goal with
         | |- context [Rle_dec ?a ?b] =>
           destruct (Rle_dec a b); try lra; cbn [ESOptionsManager.insort]
         end.
  reflexivity.
Qed.

(** X24.  From the option chain to the rows of the chart.  When
    [get_available_strikes] returns strikes, feeding them through
    [create_option_contracts], [request_market_data] and
    [process_market_data] gives rows whose strikes are exactly the
    returned strikes for which the gateway qualifies both the call and the
    put (a strike with a side that does not qualify, or whose request
    raises, is dropped without a trace), still in ascending order and
    within 150 points of the centre price; each row holds the tickers the
    gateway handed out for its call and its put; the processor has
    appended exactly these tickers to its subscriptions, call before put,
    row by row, and remembers the spot price of the request; the maximum
    handed to the chart is at least 1. *)
Theorem refresh_rows_are_the_qualified_strikes {Contract : Type}
        (strptime_Ymd : string -> option Z) (ib : IB) (now : instant)
        (qualifyContracts : ESOptionsManager.FuturesOption.t -> option (list Contract))
        (reqMktData : Contract -> string -> option Ticker)
        (trading_class expiry exposure_type : string)
        (center_price : R) (spot_price : option R)
        (p : OptionsDataProcessor.t) (strikes : list R) :
  ESOptionsManager.get_available_strikes
    strptime_Ymd ib now trading_class center_price = Some strikes ->
  let contracts :=
    ESOptionsManager.create_option_contracts
      qualifyContracts strikes expiry trading_class in
  let requested :=
    OptionsDataProcessor.request_market_data reqMktData contracts spot_price p in
  exists tickers,
    fst requested = Ok tickers
    /\ tickers
       = map (fun '(strike, call, put) =>
                (strike, reqMktData call "100,101,104,106,236,258"%string,
                 reqMktData put "100,101,104,106,236,258"%string))
             contracts
    /\ map row_strike tickers
       = filter (qualifies qualifyContracts expiry trading_class) strikes
    /\ ascending (map row_strike tickers)
    /\ Forall (fun strike => Rabs (strike - center_price) <= 150)
              (map row_strike tickers)
    /\ OptionsDataProcessor.market_data_subscriptions (snd requested)
       = OptionsDataProcessor.market_data_subscriptions p
         ++ flat_map row_tickers tickers
    /\ OptionsDataProcessor.spot_price (snd requested) = spot_price
    /\ fst (OptionsDataProcessor.process_market_data
              (snd requested) tickers exposure_type) = tickers
    /\ 1 <= snd (OptionsDataProcessor.process_market_data
                   (snd requested) tickers exposure_type).
Proof.
  intros Hs contracts requested.
  destruct (get_available_strikes_chain _ _ _ _ _ _ Hs) as (listed & Estrikes).
  destruct (py_sorted_spec
              (filter (fun s => Rleb (Rabs (s - center_price)) 150) listed))
    as (Ha & Hin & _).
  rewrite <- Estrikes in Ha, Hin.
  destruct (request_market_data_loop
              reqMktData contracts []
              (OptionsDataProcessor.set_spot_price spot_price p))
    as (Er & Esub & Espot).
  cbn [app] in Er.
  eexists. split; [exact Er |]. split; [reflexivity |].
  assert (Ek : map row_strike
                   (map (fun '(strike, call, put) =>
                           (strike, reqMktData call "100,101,104,106,236,258"%string,
                            reqMktData put "100,101,104,106,236,258"%string))
                        contracts)
               = filter (qualifies qualifyContracts expiry trading_class) strikes).
  { rewrite <- (create_option_contracts_strikes qualifyContracts strikes expiry
                                                  trading_class).
    rewrite map_map. apply map_ext. intros [[strike call] put]. reflexivity. }
  split; [exact Ek |]. rewrite Ek.
  split; [apply ascending_filter, Ha |]. split.
  - apply Forall_forall. intros strike Hk. apply filter_In in Hk.
    destruct Hk as [Hk _]. apply Hin, filter_In in Hk.
    apply Rleb_true_iff, Hk.
  - split; [exact Esub |]. split; [exact Espot |].
    rewrite process_market_data_eq. cbn [fst snd]. split; [reflexivity |].
    apply Rle_trans with (r2 := 1.0); [lra | apply Rmax_r].
Qed.

Lemma refresh_rows_are_the_qualified_strikes_witness :
  let contracts :=
    ESOptionsManager.create_option_contracts
      sample_qualify [5000; 5100; 5150] "20241105" "E1B" in
  let requested :=
    OptionsDataProcessor.request_market_data
      sample_reqMktData contracts (Some 5050) OptionsDataProcessor.__init__ in
  exists tickers,
    fst requested = Ok tickers
    /\ tickers
       = map (fun '(strike, call, put) =>
                (strike, sample_reqMktData call "100,101,104,106,236,258"%string,
                 sample_reqMktData put "100,101,104,106,236,258"%string))
             contracts
    /\ map row_strike tickers
       = filter (qualifies sample_qualify "20241105" "E1B") [5000; 5100; 5150]
    /\ ascending (map row_strike tickers)
    /\ Forall (fun strike => Rabs (strike - 5050) <= 150) (map row_strike tickers)
    /\ OptionsDataProcessor.market_data_subscriptions (snd requested)
       = OptionsDataProcessor.market_data_subscriptions OptionsDataProcessor.__init__
         ++ flat_map row_tickers tickers
    /\ OptionsDataProcessor.spot_price (snd requested) = Some 5050
    /\ fst (OptionsDataProcessor.process_market_data
              (snd requested) tickers "GFL") = tickers
    /\ 1 <= snd (OptionsDataProcessor.process_market_data
                   (snd requested) tickers "GFL").
Proof.
  apply (refresh_rows_are_the_qualified_strikes
           sample_strptime sample_ib sample_now sample_qualify sample_reqMktData
           "E1B" "20241105" "GFL" 5050 (Some 5050) OptionsDataProcessor.__init__
           [5000; 5100; 5150]).
  exact sample_available_strikes.
Defined.

(** ** The level lines of a [PriceChart] *)

Section Hoare.
Context {Self : Type}.

Lemma hoare_ret {A : Type} (P : Self -> Prop) (a : A) (Q : A -> Self -> Prop)
      (E : Self -> Prop) :
  (forall s, P s -> Q a s) -> hoare P (ret a) Q E.
Proof. intros H s Hs. apply H, Hs. Qed.

Lemma hoare_bind {A B : Type} (P : Self -> Prop) (m : M Self A)
      (Q : A -> Self -> Prop) (k : A -> M Self B) (R : B -> Self -> Prop)
      (E : Self -> Prop) :
  hoare P m Q E -> (forall a, hoare (Q a) (k a) R E) -> hoare P (bind m k) R E.
Proof.
  intros Hm Hk s Hs. specialize (Hm s Hs). unfold bind.
  destruct (m s) as [[a | e] s']; cbn [fst snd] in *.
  - apply Hk, Hm.
  - exact Hm.
Qed.

Lemma hoare_gets {A B : Type} (P : Self -> Prop) (g : Self -> A)
      (k : A -> M Self B) (R : B -> Self -> Prop) (E : Self -> Prop) :
  (forall a, hoare (fun s => P s /\ g s = a) (k a) R E) ->
  hoare P (bind (gets g) k) R E.
Proof. intros Hk s Hs. exact (Hk (g s) s (conj Hs eq_refl)). Qed.

Lemma hoare_read {A B : Type} (P : Self -> Prop) (g : Self -> result A)
      (k : A -> M Self B) (R : B -> Self -> Prop) (E : Self -> Prop) :
  (forall s, P s -> E s) ->
  (forall a, hoare P (k a) R E) ->
  hoare P (bind (read g) k) R E.
Proof.
  intros HE Hk s Hs. unfold bind, read.
  destruct (g s) as [a | e]; [exact (Hk a s Hs) | exact (HE s Hs)].
Qed.

Lemma hoare_modify (P : Self -> Prop) (f : Self -> Self)
      (Q : unit -> Self -> Prop) (E : Self -> Prop) :
  (forall s, P s -> Q tt (f s)) -> hoare P (modify f) Q E.
Proof. intros H s Hs. apply H, Hs. Qed.

Lemma hoare_when (P : Self -> Prop) (c : bool) (m : M Self unit)
      (Q : unit -> Self -> Prop) (E : Self -> Prop) :
  (c = true -> hoare P m Q E) ->
  (c = false -> forall s, P s -> Q tt s) ->
  hoare P (when c m) Q E.
Proof.
  destruct c; cbn [when]; intros Hm Hs.
  - apply Hm. reflexivity.
  - apply hoare_ret, Hs. reflexivity.
Qed.

Lemma hoare_weaken {A : Type} (P P' : Self -> Prop) (m : M Self A)
      (Q Q' : A -> Self -> Prop) (E : Self -> Prop) :
  hoare P' m Q' E ->
  (forall s, P s -> P' s) ->
  (forall a s, Q' a s -> Q a s) ->
  hoare P m Q E.
Proof.
  intros Hm HP HQ s Hs. specialize (Hm s (HP s Hs)).
  destruct (fst (m s)); [apply HQ, Hm | exact Hm].
Qed.

Lemma hoare_for_each {A : Type} (I : Self -> Prop) (l : list A)
      (body : A -> M Self unit) (E : Self -> Prop) :
  (forall x, In x l -> hoare I (body x) (fun _ => I) E) ->
  hoare I (for_each l body) (fun _ => I) E.
Proof.
  induction l as [| x xs IH]; intros Hb; cbn [for_each].
  - apply hoare_ret. auto.
  - eapply hoare_bind.
    + apply Hb. left. reflexivity.
    + intros ?. apply IH. intros y Hy. apply Hb. right. exact Hy.
Qed.

Lemma hoare_for_each_count {A : Type} (I : nat -> Self -> Prop) (l : list A)
      (body : A -> M Self unit) (E : Self -> Prop) :
  (forall k x, hoare (I k) (body x) (fun _ => I (S k)) E) ->
  forall k, hoare (I k) (for_each l body) (fun _ => I (k + length l)%nat) E.
Proof.
  intros Hb. induction l as [| x xs IH]; intros k; cbn [for_each length].
  - apply hoare_ret. intros s Hs. rewrite Nat.add_0_r. exact Hs.
  - eapply hoare_bind; [apply Hb |]. intros ?.
    replace (k + S (length xs))%nat with (S k + length xs)%nat by lia.
    apply IH.
Qed.

Lemma hoare_for_fold {A B : Type} (I : Self -> Prop) (l : list A)
      (body : B -> A -> M Self B) (E : Self -> Prop) :
  (forall acc x, In x l -> hoare I (body acc x) (fun _ => I) E) ->
  forall acc, hoare I (for_fold l acc body) (fun _ => I) E.
Proof.
  induction l as [| x xs IH]; intros Hb acc; cbn [for_fold].
  - apply hoare_ret. auto.
  - eapply hoare_bind.
    + apply Hb. left. reflexivity.
    + intros acc'. apply IH. intros a y Hy. apply Hb. right. exact Hy.
Qed.

End Hoare.

Lemma items_create (it : item) (c : Canvas.t) :
  Canvas.items (snd (Canvas.create it c))
  = Canvas.items c ++ [(Canvas.next_id c, it)].
Proof.
  unfold Canvas.items, Canvas.create. cbn [snd Canvas.log].
  rewrite fold_left_app. reflexivity.
Qed.

Lemma items_delete (id : nat) (c : Canvas.t) :
  Canvas.items (Canvas.delete id c)
  = filter (fun p => negb (fst p =? id)%nat) (Canvas.items c).
Proof.
  unfold Canvas.items, Canvas.delete. cbn [Canvas.log].
  rewrite fold_left_app. reflexivity.
Qed.

Lemma level_lines_of_delete (id : nat) (shown : list (nat * item)) :
  ~ In id (map fst (level_lines_of shown)) ->
  level_lines_of (filter (fun p => negb (fst p =? id)%nat) shown)
  = level_lines_of shown.
Proof.
  unfold level_lines_of. induction shown as [| [i it] rest IH]; [reflexivity |].
  cbn [filter fst snd]. intros Hid.
  destruct (is_level_line it) eqn:El.
  - cbn [map fst In] in Hid.
    destruct (Nat.eqb_spec i id) as [Ei | Hne].
    + exfalso. apply Hid. left. exact Ei.
    + cbn [negb filter snd]. rewrite El, IH; [reflexivity |].
      intros H. apply Hid. right. exact H.
  - destruct (negb (i =? id)%nat); cbn [filter snd]; rewrite ?El; apply IH, Hid.
Qed.

Section PriceChartLevels.
Import PriceChart.

Lemma keeps_levels_delete (c : nat) (s : t) (id : nat) :
  keeps_levels c s ->
  In id (price_chart_tracked s) ->
  keeps_levels c (set_tk (Canvas.delete id (tk s)) s).
Proof.
  intros (Hf & Ht & Hc) Hid.
  assert (El : level_lines_of (Canvas.items (Canvas.delete id (tk s)))
               = level_lines_of (Canvas.items (tk s))).
  { rewrite items_delete. apply level_lines_of_delete, (Ht id Hid). }
  split; [| split].
  - change (canvas_fresh (Canvas.delete id (tk s))).
    intros i it Hi. rewrite items_delete in Hi.
    apply filter_In in Hi. exact (Hf i it (proj1 Hi)).
  - intros i Hi. change (tk (set_tk (Canvas.delete id (tk s)) s))
                   with (Canvas.delete id (tk s)).
    rewrite El. exact (Ht i Hi).
  - unfold level_lines. change (canvas (set_tk (Canvas.delete id (tk s)) s))
                          with (Canvas.delete id (tk s)).
    rewrite El. exact Hc.
Qed.

Lemma keeps_levels_tracked (c : nat) (s s' : t) :
  tk s' = tk s ->
  (forall id, In id (price_chart_tracked s') ->
              In id (price_chart_tracked s)
              \/ ((id < Canvas.next_id (tk s))%nat
                  /\ ~ In id (map fst (level_lines_of (Canvas.items (tk s)))))) ->
  keeps_levels c s -> keeps_levels c s'.
Proof.
  intros Etk Hsub (Hf & Ht & Hc). split; [| split].
  - rewrite Etk. exact Hf.
  - intros id Hid. rewrite Etk.
    destruct (Hsub id Hid) as [H | H]; [exact (Ht id H) | exact H].
  - unfold level_lines in *. change (canvas s') with (tk s'). rewrite Etk. exact Hc.
Qed.

Lemma keeps_levels_create (c : nat) (s : t) (it : item) :
  is_level_line it = false ->
  keeps_levels c s ->
  let s' := set_tk (snd (Canvas.create it (tk s))) s in
  keeps_levels c s'
  /\ (Canvas.next_id (tk s) < Canvas.next_id (tk s'))%nat
  /\ ~ In (Canvas.next_id (tk s))
          (map fst (level_lines_of (Canvas.items (tk s')))).
Proof.
  intros Hit (Hf & Ht & Hc). cbv zeta.
  change (tk (set_tk (snd (Canvas.create it (tk s))) s))
    with (snd (Canvas.create it (tk s))).
  assert (El : level_lines_of (Canvas.items (snd (Canvas.create it (tk s))))
               = level_lines_of (Canvas.items (tk s))).
  { rewrite items_create. unfold level_lines_of. rewrite filter_app.
    cbn [filter snd]. rewrite Hit, app_nil_r. reflexivity. }
  assert (Hnew : ~ In (Canvas.next_id (tk s))
                      (map fst (level_lines_of (Canvas.items (tk s))))).
  { intros H. apply in_map_iff in H. destruct H as ([i it'] & Ei & Hi).
    cbn [fst] in Ei. subst i. apply filter_In in Hi.
    pose proof (Hf _ _ (proj1 Hi)). lia. }
  split; [split; [| split] | split].
  - change (canvas_fresh (snd (Canvas.create it (tk s)))).
    intros i it' Hi. rewrite items_create in Hi.
    cbn [Canvas.create snd Canvas.next_id]. apply in_app_iff in Hi.
    destruct Hi as [Hi | [Hi | []]].
    + pose proof (Hf i it' Hi). lia.
    + injection Hi as <- _. lia.
  - intros i Hi.
    change (tk (set_tk (snd (Canvas.create it (tk s))) s))
      with (snd (Canvas.create it (tk s))).
    rewrite El. cbn [Canvas.create snd Canvas.next_id].
    destruct (Ht i Hi) as [Hlt Hnot]. split; [lia | exact Hnot].
  - unfold level_lines.
    change (canvas (set_tk (snd (Canvas.create it (tk s))) s))
      with (snd (Canvas.create it (tk s))).
    rewrite El. exact Hc.
  - cbn [Canvas.create snd Canvas.next_id]. lia.
  - rewrite El. exact Hnew.
Qed.

Lemma keeps_levels_create_level (c : nat) (s : t) (it : item) :
  is_level_line it = true ->
  keeps_levels c s ->
  keeps_levels (S c) (set_tk (snd (Canvas.create it (tk s))) s).
Proof.
  intros Hit (Hf & Ht & Hc).
  assert (El : level_lines_of (Canvas.items (snd (Canvas.create it (tk s))))
               = level_lines_of (Canvas.items (tk s))
                 ++ [(Canvas.next_id (tk s), it)]).
  { rewrite items_create. unfold level_lines_of. rewrite filter_app.
    cbn [filter snd]. rewrite Hit. reflexivity. }
  split; [| split].
  - change (canvas_fresh (snd (Canvas.create it (tk s)))).
    intros i it' Hi. rewrite items_create in Hi.
    cbn [Canvas.create snd Canvas.next_id]. apply in_app_iff in Hi.
    destruct Hi as [Hi | [Hi | []]].
    + pose proof (Hf i it' Hi). lia.
    + injection Hi as <- _. lia.
  - intros i Hi.
    change (tk (set_tk (snd (Canvas.create it (tk s))) s))
      with (snd (Canvas.create it (tk s))).
    rewrite El, map_app, in_app_iff. cbn [Canvas.create snd Canvas.next_id map fst In].
    destruct (Ht i Hi) as [Hlt Hnot]. split; [lia |].
    intros [H | [H | []]]; [exact (Hnot H) | lia].
  - unfold level_lines in *.
    change (canvas (set_tk (snd (Canvas.create it (tk s))) s))
      with (snd (Canvas.create it (tk s))).
    change (canvas s) with (tk s) in Hc.
    rewrite El, length_app, Hc. cbn [length]. lia.
Qed.

(** A loop that deletes the items of a list of tracked ids. *)
Lemma hoare_delete_tracked (c : nat) (ids : t -> list nat) (old : list nat)
      (E : t -> Prop) :
  (forall s id, In id (ids s) -> In id (price_chart_tracked s)) ->
  (forall s id, ids (set_tk (Canvas.delete id (tk s)) s) = ids s) ->
  hoare (fun s => keeps_levels c s /\ ids s = old)
        (for_each old (fun l => delete l))
        (fun _ s => keeps_levels c s /\ ids s = old) E.
Proof.
  intros Hin Hids. apply hoare_for_each. intros id Hid.
  apply hoare_modify. intros s [Hs Eo]. split.
  - apply keeps_levels_delete; [exact Hs |]. apply Hin. rewrite Eo. exact Hid.
  - change (ids (set_tk (Canvas.delete id (tk s)) s) = old). rewrite Hids. exact Eo.
Qed.

Lemma hoare_create_other (c : nat) (it : item) (E : t -> Prop) :
  is_level_line it = false ->
  hoare (keeps_levels c) (create it)
        (fun l s => keeps_levels c s
                    /\ (l < Canvas.next_id (tk s))%nat
                    /\ ~ In l (map fst (level_lines_of (Canvas.items (tk s)))))
        E.
Proof.
  intros Hit s Hs. exact (keeps_levels_create c s it Hit Hs).
Qed.

Lemma tracked_In (s : t) (id : nat) :
  In id (price_chart_tracked s)
  <-> In id (price_labels s) \/ In id (time_labels s) \/ In id (price_lines s)
      \/ current_price_line s = Some id.
Proof.
  unfold price_chart_tracked. rewrite !in_app_iff.
  destruct (current_price_line s) as [l |]; cbn [In]; split; intros H.
  - destruct H as [H | [H | [H | [-> | []]]]]; auto.
  - destruct H as [H | [H | [H | H]]]; auto.
    injection H as ->. auto.
  - destruct H as [H | [H | [H | []]]]; auto.
  - destruct H as [H | [H | [H | H]]]; auto. discriminate.
Qed.

Lemma price_chart_draw_price_scale_levels (c : nat) (min_price max_price : R)
      (E : t -> Prop) :
  hoare (keeps_levels c) (_draw_price_scale min_price max_price)
        (fun _ => keeps_levels (c + 5)) E.
Proof.
  unfold _draw_price_scale, winfo_width, winfo_height.
  apply hoare_gets; intros w. apply hoare_gets; intros h.
  apply hoare_gets; intros old.
  apply (hoare_bind _ _ (fun _ s => keeps_levels c s /\ price_labels s = old)).
  { eapply hoare_weaken.
    - apply (hoare_delete_tracked c price_labels old).
      + intros s id Hid. apply tracked_In. left. exact Hid.
      + reflexivity.
    - intros s [[[Hs _] _] Eo]. split; [exact Hs | exact Eo].
    - intros u s Hs. exact Hs. }
  intros ?.
  apply (hoare_bind _ _ (fun _ => keeps_levels c)).
  { apply hoare_modify. intros s [Hs _].
    apply (keeps_levels_tracked c s); [reflexivity | | exact Hs].
    intros id Hid. left. apply tracked_In. apply tracked_In in Hid.
    cbn in Hid. destruct Hid as [[] | Hid]. right. exact Hid. }
  intros ?.
  apply hoare_gets; intros vz. apply hoare_gets; intros po. cbv zeta.
  eapply hoare_weaken.
  - apply (hoare_for_each_count keeps_levels (seq 0 5)). intros k i.
    eapply hoare_bind.
    { unfold create_line. apply hoare_weaken
        with (P' := keeps_levels k) (Q' := fun _ => keeps_levels (S k)).
      - intros s Hs. apply keeps_levels_create_level; [reflexivity | exact Hs].
      - intros s Hs. exact Hs.
      - intros ? ? Hs. exact Hs. }
    intros ?. eapply hoare_bind.
    { unfold create_text. apply hoare_create_other. reflexivity. }
    intros l. apply hoare_modify. intros s (Hs & Hl & Hnot).
    apply (keeps_levels_tracked (S k) s); [reflexivity | | exact Hs].
    intros id Hid. apply tracked_In in Hid. cbn in Hid.
    rewrite in_app_iff in Hid. cbn [In] in Hid.
    destruct Hid as [[Hid | [Enew | []]] | Hid].
    + left. apply tracked_In. left. exact Hid.
    + subst id. right. split; assumption.
    + left. apply tracked_In. right. exact Hid.
  - intros s [[Hs _] _]. exact Hs.
  - intros u s Hs. exact Hs.
Qed.

Lemma price_chart_draw_time_axis_levels (c : nat) :
  hoare (keeps_levels c) _draw_time_axis (fun _ => keeps_levels c) (keeps_levels c).
Proof.
  unfold _draw_time_axis. apply hoare_gets; intros bars.
  destruct bars as [| b rest].
  { apply hoare_ret. intros s [Hs _]. exact Hs. }
  apply hoare_gets; intros old.
  apply (hoare_bind _ _ (fun _ s => keeps_levels c s /\ time_labels s = old)).
  { eapply hoare_weaken.
    - apply (hoare_delete_tracked c time_labels old).
      + intros s id Hid. apply tracked_In. right. left. exact Hid.
      + reflexivity.
    - intros s [[Hs _] Eo]. split; [exact Hs | exact Eo].
    - intros u s Hs. exact Hs. }
  intros ?.
  apply (hoare_bind _ _ (fun _ => keeps_levels c)).
  { apply hoare_modify. intros s [Hs _].
    apply (keeps_levels_tracked c s); [reflexivity | | exact Hs].
    intros id Hid. left. apply tracked_In. apply tracked_In in Hid.
    cbn in Hid. destruct Hid as [Hid | [[] | Hid]]; auto. }
  intros ?. unfold winfo_width, winfo_height.
  apply hoare_gets; intros w. apply hoare_gets; intros h. cbv zeta.
  eapply hoare_weaken.
  - apply (hoare_for_each (keeps_levels c)). intros i _.
    destruct (length (b :: rest) <=? i)%nat; [apply hoare_ret; auto |].
    destruct (nth_error (b :: rest) i) as [bar |].
    + unfold lift. apply hoare_read; [auto |]. intros q.
      eapply hoare_bind.
      { unfold create_text. apply hoare_create_other. reflexivity. }
      intros l. apply hoare_modify. intros s (Hs & Hl & Hnot).
      apply (keeps_levels_tracked c s); [reflexivity | | exact Hs].
      intros id Hid. apply tracked_In in Hid. cbn in Hid.
      rewrite in_app_iff in Hid. cbn [In] in Hid.
      destruct Hid as [Hid | [[Hid | [Enew | []]] | Hid]].
      * left. apply tracked_In. auto.
      * left. apply tracked_In. auto.
      * subst id. right. split; assumption.
      * left. apply tracked_In. auto.
    + intros s Hs. exact Hs.
  - intros s [[Hs _] _]. exact Hs.
  - intros u s Hs. exact Hs.
Qed.

Lemma price_chart_redraw_levels (c : nat) :
  hoare (fun s => keeps_levels c s /\ price_history s <> [] /\ price_scale s <> None)
        redraw
        (fun _ => keeps_levels (c + 5)) (keeps_levels (c + 5)).
Proof.
  unfold redraw. apply hoare_gets; intros bars.
  destruct bars as [| b rest].
  { intros s [[_ [Hb _]] Eb]. congruence. }
  apply hoare_gets; intros old.
  apply (hoare_bind _ _ (fun _ s => (keeps_levels c s /\ price_scale s <> None)
                                    /\ price_lines s = old)).
  { intros s [[[Hs [_ Hsc]] _] Eo].
    pose proof (hoare_delete_tracked c price_lines old (keeps_levels (c + 5))
                  (fun s id Hid => proj2 (tracked_In s id)
                                         (or_intror (or_intror (or_introl Hid))))
                  (fun s id => eq_refl) s (conj Hs Eo)) as H.
    assert (Hk : price_scale (snd (for_each old (fun l => delete l) s))
                 = price_scale s).
    { clear. revert s. induction old as [| x xs IH]; intros s; [reflexivity |].
      cbn [for_each]. unfold bind, delete, modify. cbn [fst snd].
      rewrite IH. reflexivity. }
    destruct (fst (for_each old (fun l => delete l) s)).
    - destruct H as [H1 H2]. rewrite Hk. auto.
    - exact H. }
  intros ?.
  apply (hoare_bind _ _ (fun _ s => keeps_levels c s /\ price_scale s <> None)).
  { apply hoare_modify. intros s [[Hs Hsc] _]. split; [| exact Hsc].
    apply (keeps_levels_tracked c s); [reflexivity | | exact Hs].
    intros id Hid. left. apply tracked_In. apply tracked_In in Hid.
    cbn in Hid. destruct Hid as [Hid | [Hid | [[] | Hid]]]; auto. }
  intros ?. apply hoare_gets; intros current.
  apply (hoare_bind _ _ (fun _ s => keeps_levels c s /\ price_scale s <> None)).
  { destruct current as [l |].
    - apply hoare_when.
      + intros ?. apply hoare_modify. intros s [[Hs Hsc] El].
        split; [| exact Hsc]. apply keeps_levels_delete; [exact Hs |].
        apply tracked_In. auto.
      + intros _ s [Hs _]. exact Hs.
    - apply hoare_ret. intros s [Hs _]. exact Hs. }
  intros ?. unfold winfo_width, winfo_height.
  apply hoare_gets; intros w. apply hoare_gets; intros h. cbv zeta.
  apply hoare_gets; intros scale.
  apply (hoare_bind _ _ (fun _ => keeps_levels (c + 5))).
  { destruct scale as [[lo hi] |].
    - eapply hoare_weaken.
      + apply price_chart_draw_price_scale_levels.
      + intros s [[[[Hs _] _] _] _]. exact Hs.
      + intros u s Hs. exact Hs.
    - intros s [[[[_ Hsc] _] _] Es]. congruence. }
  intros ?.
  assert (Hy : forall B price (k : R -> M t B) (Q : B -> t -> Prop),
             (forall y, hoare (keeps_levels (c + 5)) (k y) Q (keeps_levels (c + 5))) ->
             hoare (keeps_levels (c + 5))
                   (bind (read (fun self => _price_to_y self price)) k)
                   Q (keeps_levels (c + 5))).
  { intros B price k Q Hk. apply hoare_read; [auto | exact Hk]. }
  eapply hoare_bind.
  { apply (hoare_for_fold (keeps_levels (c + 5))).
    intros [bid_points ask_points] [i bar] _.
    unfold lift. apply hoare_read; [auto |]. intros q. cbv zeta.
    destruct (bid bar) as [bb |], (ask bar) as [ba |];
      try (unfold getattr_close; apply hoare_read; [auto |]; intros cl;
           apply Hy; intros y; apply hoare_ret; auto). }
  intros [bid_points ask_points].
  assert (Hline : forall pts fill,
             hoare (keeps_levels (c + 5))
                   (bind (create_line pts fill None true)
                         (fun l => modify (fun s => set_price_lines
                                                      (price_lines s ++ [l]) s)))
                   (fun _ => keeps_levels (c + 5)) (keeps_levels (c + 5))).
  { intros pts fill. eapply hoare_bind.
    { unfold create_line. apply hoare_create_other. reflexivity. }
    intros l. apply hoare_modify. intros s (Hs & Hl & Hnot).
    apply (keeps_levels_tracked (c + 5) s); [reflexivity | | exact Hs].
    intros id Hid. apply tracked_In in Hid. cbn in Hid.
    rewrite in_app_iff in Hid. cbn [In] in Hid.
    destruct Hid as [Hid | [Hid | [[Hid | [Enew | []]] | Hid]]].
    - left. apply tracked_In. auto.
    - left. apply tracked_In. auto.
    - left. apply tracked_In. auto.
    - subst id. right. split; assumption.
    - left. apply tracked_In. auto. }
  eapply hoare_bind.
  { apply hoare_when; [intros _; apply Hline | auto]. }
  intros ?. eapply hoare_bind.
  { apply hoare_when; [intros _; apply Hline | auto]. }
  intros ?. apply hoare_gets; intros cb. apply hoare_gets; intros ca.
  apply (hoare_bind _ _ (fun _ => keeps_levels (c + 5))).
  { destruct cb as [bb |], ca as [ba |];
      try (apply hoare_ret; intros s [[Hs _] _]; exact Hs).
    apply hoare_when; [intros _ | intros _ s [[Hs _] _]; exact Hs].
    cbv zeta. eapply hoare_weaken with (P' := keeps_levels (c + 5))
                                      (Q' := fun _ => keeps_levels (c + 5)).
    - apply Hy. intros y. eapply hoare_bind.
      { unfold create_line. apply hoare_create_other. reflexivity. }
      intros l. apply hoare_modify. intros s (Hs & Hl & Hnot).
      apply (keeps_levels_tracked (c + 5) s); [reflexivity | | exact Hs].
      intros id Hid. apply tracked_In in Hid. cbn in Hid.
      destruct Hid as [Hid | [Hid | [Hid | Hid]]].
      + left. apply tracked_In. auto.
      + left. apply tracked_In. auto.
      + left. apply tracked_In. auto.
      + injection Hid as <-. right. split; assumption.
    - intros s [[Hs _] _]. exact Hs.
    - intros u s Hs. exact Hs. }
  intros ?. apply price_chart_draw_time_axis_levels.
Qed.

End PriceChartLevels.

(** X25.  The level lines of a [PriceChart] pile up.  [redraw] deletes the
    items whose ids the chart keeps (price labels, time labels, price
    lines, the current-price line) but never the five dashed level lines
    [_draw_price_scale] creates, whose ids it drops.  On a chart with
    history and a price scale, whose kept ids were handed out by its
    canvas and are not ids of level lines on display (as on a new chart),
    every [redraw], whether it returns or raises, leaves five more level
    lines on the canvas: after n redraws it shows 5 n more than before. *)
Theorem price_chart_level_lines_pile_up (s : PriceChart.t) (n : nat) :
  canvas_fresh (PriceChart.tk s) ->
  price_chart_tracks_no_level s ->
  PriceChart.price_history s <> [] ->
  PriceChart.price_scale s <> None ->
  level_lines (redraws n s) = (level_lines s + 5 * n)%nat.
Proof.
  intros Hf Ht Hb Hsc.
  assert (H : keeps_levels (level_lines s + 5 * n) (redraws n s)
              /\ PriceChart.price_history (redraws n s) <> []
              /\ PriceChart.price_scale (redraws n s) <> None).
  { induction n as [| n (Hk & Hb' & Hsc')].
    - rewrite Nat.mul_0_r, Nat.add_0_r. cbn [redraws Nat.iter].
      split; [split; [exact Hf | split; [exact Ht | reflexivity]] |].
      split; assumption.
    - change (redraws (S n) s) with (snd (PriceChart.redraw (redraws n s))).
      pose proof (price_chart_frames_redraw (redraws n s)) as Hfr.
      apply price_chart_data_inv in Hfr. destruct Hfr as (Es & Eh & _).
      rewrite Es, Eh. split; [| split; assumption].
      pose proof (price_chart_redraw_levels _ _ (conj Hk (conj Hb' Hsc'))) as Hr.
      replace (level_lines s + 5 * S n)%nat
        with (level_lines s + 5 * n + 5)%nat by lia.
      destruct (fst (PriceChart.redraw (redraws n s))); exact Hr. }
  destruct H as [(_ & _ & Hc) _]. exact Hc.
Qed.

Lemma price_chart_level_lines_pile_up_witness :
  level_lines (redraws 3 sample_price_chart)
  = (level_lines sample_price_chart + 5 * 3)%nat.
Proof.
  apply price_chart_level_lines_pile_up.
  - intros id it [].
  - intros id [].
  - discriminate.
  - discriminate.
Defined.

(** ** Prices read from a ticker *)

Lemma is_valid_price_spec (value : option pyfloat) :
  utils.is_valid_price value = true <-> exists x, value = Some (Float x) /\ x <> 0.
Proof.
  unfold utils.is_valid_price. destruct value as [[x |] |].
  - destruct (Req_dec_T x 0) as [E | E]; cbn [negb]; split.
    + discriminate.
    + intros (y & Ey & Hy). injection Ey as <-. contradiction.
    + intros _. exists x. split; [reflexivity | exact E].
    + reflexivity.
  - cbn [negb]. split; [discriminate | intros (y & Ey & _); discriminate].
  - split; [discriminate | intros (y & Ey & _); discriminate].
Qed.

Lemma is_valid_price_truthy (value : option pyfloat) :
  utils.is_valid_price value = true -> py_truthy value = true.
Proof.
  intros H. apply is_valid_price_spec in H. destruct H as (x & -> & Hx).
  cbn [py_truthy float_truthy]. unfold truthy.
  destruct (Req_dec_T x 0); [contradiction | reflexivity].
Qed.

Lemma format_price_number (x : R) :
  utils.format_price (Some (Float x))
  = Ok (if truthy x then Fixed EmptyString x 2 false else Literal "N/A").
Proof.
  unfold utils.format_price, utils.is_valid_price, truthy.
  destruct (Req_dec_T x 0); reflexivity.
Qed.

(** X26.  [utils.get_price] always answers with a number.  For a ticker
    whose price fields hold [None] or a float, it does not raise and
    returns neither [None] nor [nan]: the last trade when that is a
    non-zero number, else the mid of bid and ask when both are non-zero
    numbers, else the close when that is one, else 0.0.  The result is 0.0
    exactly when the last trade is invalid and either both sides of the
    quote are valid and sum to zero (a valid close is then not looked at)
    or the quote is incomplete and the close is invalid; [format_price]
    prints the result with two decimals, and as N/A exactly when it is
    0.0. *)
Theorem get_price_is_a_number (ticker : utils.Ticker) :
  exists x,
    utils.get_price ticker = Ok (Some (Float x))
    /\ (x = 0
        <-> utils.is_valid_price (utils.last ticker) = false
            /\ (if utils.is_valid_price (utils.bid ticker)
                   && utils.is_valid_price (utils.ask ticker)
                then py_mid (utils.bid ticker) (utils.ask ticker) = Ok (Float 0)
                else utils.is_valid_price (utils.close ticker) = false))
    /\ utils.format_price (Some (Float x))
       = Ok (if truthy x then Fixed EmptyString x 2 false else Literal "N/A").
Proof.
  unfold utils.get_price.
  destruct (utils.is_valid_price (utils.last ticker)) eqn:El.
  { destruct (proj1 (is_valid_price_spec _) El) as (x & Ex & Hx).
    exists x. rewrite Ex. split; [reflexivity |].
    split; [| apply format_price_number].
    split; [contradiction | intros [H _]; discriminate]. }
  destruct (utils.is_valid_price (utils.bid ticker)
            && utils.is_valid_price (utils.ask ticker)) eqn:Eq.
  - apply andb_prop in Eq. destruct Eq as [Eb Ea].
    destruct (proj1 (is_valid_price_spec _) Eb) as (b & Eb' & Hb).
    destruct (proj1 (is_valid_price_spec _) Ea) as (a & Ea' & Ha).
    rewrite Eb', Ea'. cbn [py_mid float_mid rbind].
    exists ((b + a) / 2). split; [reflexivity |].
    split; [| apply format_price_number]. split.
    + intros E. rewrite E. split; reflexivity.
    + intros [_ H]. injection H as H. exact H.
  - destruct (utils.is_valid_price (utils.close ticker)) eqn:Ec.
    + destruct (proj1 (is_valid_price_spec _) Ec) as (c & Ec' & Hc).
      exists c. rewrite Ec'. split; [reflexivity |].
      split; [| apply format_price_number].
      split; [contradiction | intros [_ H]; discriminate].
    + exists 0.0. split; [reflexivity |].
      split; [| apply format_price_number].
      split; [intros _; split; reflexivity | intros _; lra].
Qed.

(** X27.  [get_current_es_price] trusts [nan].  When the gateway lists an
    active contract, hands out a ticker for it and cancels without
    raising: a ticker whose last trade is [nan] (a truthy float) makes the
    function return [nan], whatever its bid and ask; the function returns
    [None] exactly when last is [None] or 0.0 and bid or ask is [None] or
    0.0; and whenever its result is a valid price, [utils.get_price]
    returns the same price for that ticker. *)
Theorem current_es_price_trusts_nan
        (strptime_Ymd : string -> option Z) (ib : IB) (now : instant)
        (reqMktData : Future -> option utils.Ticker)
        (cancelMktData : Future -> option unit)
        (contract : Future) (ticker : utils.Ticker) :
  ESContract.get_active_contract strptime_Ymd ib now = Some contract ->
  reqMktData contract = Some ticker ->
  cancelMktData contract = Some tt ->
  let price :=
    ESOptionsManager.get_current_es_price
      strptime_Ymd ib now reqMktData cancelMktData in
  (utils.last ticker = Some NaN -> price = Some NaN)
  /\ (price = None
      <-> py_truthy (utils.last ticker) = false
          /\ (py_truthy (utils.bid ticker) = false
              \/ py_truthy (utils.ask ticker) = false))
  /\ (utils.is_valid_price price = true -> utils.get_price ticker = Ok price).
Proof.
  intros Hc Ht Hx. cbv zeta.
  unfold ESOptionsManager.get_current_es_price. rewrite Hc, Ht.
  destruct (py_truthy (utils.last ticker)) eqn:El.
  - rewrite Hx. split; [intros E; exact E |].
    split.
    + split; [| intros [H _]; discriminate].
      intros E. rewrite E in El. discriminate.
    + intros Hv. unfold utils.get_price. rewrite Hv. reflexivity.
  - assert (Hl : utils.is_valid_price (utils.last ticker) = false).
    { destruct (utils.is_valid_price (utils.last ticker)) eqn:Ev; [| reflexivity].
      apply is_valid_price_truthy in Ev. congruence. }
    split; [intros E; rewrite E in El; discriminate |].
    destruct (utils.bid ticker) as [b |] eqn:Eb, (utils.ask ticker) as [a |] eqn:Ea;
      cbn [py_truthy andb py_mid rbind].
    + destruct (float_truthy b) eqn:Tb, (float_truthy a) eqn:Ta;
        cbn [andb rbind]; rewrite ?Hx.
      * split.
        { split; [discriminate | intros [_ [H | H]]; discriminate]. }
        intros Hv. apply is_valid_price_spec in Hv. destruct Hv as (x & Ex & Hx0).
        destruct b as [b |], a as [a |]; try discriminate.
        unfold utils.get_price. rewrite Hl, Eb, Ea.
        assert (Vb : utils.is_valid_price (Some (Float b)) = true).
        { apply is_valid_price_spec. exists b. split; [reflexivity |].
          unfold float_truthy, truthy in Tb.
          destruct (Req_dec_T b 0); [discriminate | assumption]. }
        assert (Va : utils.is_valid_price (Some (Float a)) = true).
        { apply is_valid_price_spec. exists a. split; [reflexivity |].
          unfold float_truthy, truthy in Ta.
          destruct (Req_dec_T a 0); [discriminate | assumption]. }
        rewrite Vb, Va. reflexivity.
      * split; [split; [auto | reflexivity] | discriminate].
      * split; [split; [auto | reflexivity] | discriminate].
      * split; [split; [auto | reflexivity] | discriminate].
    + destruct (float_truthy b); cbn [andb]; rewrite Hx;
        (split; [split; [auto | reflexivity] | discriminate]).
    + rewrite Hx. split; [split; [auto | reflexivity] | discriminate].
    + rewrite Hx. split; [split; [auto | reflexivity] | discriminate].
Qed.

Lemma current_es_price_trusts_nan_witness :
  let price :=
    ESOptionsManager.get_current_es_price
      sample_strptime sample_ib sample_now sample_reqFuture sample_cancel in
  (utils.last quoted_ticker = Some NaN -> price = Some NaN)
  /\ (price = None
      <-> py_truthy (utils.last quoted_ticker) = false
          /\ (py_truthy (utils.bid quoted_ticker) = false
              \/ py_truthy (utils.ask quoted_ticker) = false))
  /\ (utils.is_valid_price price = true -> utils.get_price quoted_ticker = Ok price).
Proof.
  apply (current_es_price_trusts_nan
           sample_strptime sample_ib sample_now sample_reqFuture sample_cancel
           {| conId := 1; lastTradeDateOrContractMonth := "20241220" |}
           quoted_ticker).
  - reflexivity.
  - reflexivity.
  - reflexivity.
Defined.
